(** * PinchBench API: submission intake, ranking and benchmark versions

    A shallow embedding of the request handlers of the PinchBench API
    (src/routes/results.ts, register.ts, submissions.ts, admin.ts and
    utils/security.ts) over an explicit model of the D1 store, together
    with the properties of the intake core.

    Conventions of the model.
    - A JavaScript [number] is the rational it holds ([Q]). The
      arithmetic of the percentiles and [parseInt] round to IEEE-754
      binary64 ([Js.double]), the infinities appearing where [parseInt]
      overflows; a count is an integer below 2^53, which binary64 holds
      exactly; the score percentage of a new row is kept as the exact
      quotient of the totals.
    - A JavaScript [string] is the Rocq [string] of its UTF-8 encoding.
      (The one length that the handlers take of a string, that of a
      part of a token before [atob], is taken of text that [atob]
      refuses unless it is ASCII.)
    - The request body is a JSON value ([Body.Json]), on which the
      validation of the handler is modelled as it runs, exceptions
      included. A [SubmissionPayload] is a body under the type that
      src/types.ts declares ([Body.typed]): a member that the handler
      tests at run time ([typeof], [Array.isArray]) is a dynamic value,
      the others have their declared type, optional where the handler
      allows for [undefined].
    - SQL [datetime] values are seconds since the epoch ([Z]); one request
      reads the clock once.
    - A table is the list of its rows in insertion order; primary-key and
      UNIQUE constraints are enforced by the insert operations, which fail
      where SQLite raises a constraint error. *)

From Stdlib Require Import List String Ascii ZArith QArith Qround Qabs Qpower Lia Lqa Bool Arith.
From Stdlib Require Import SetoidList.
From Stdlib Require Import DecimalString.
Import ListNotations.

Open Scope string_scope.
Open Scope Z_scope.

(* ================================================================== *)
(** * JavaScript values and string primitives *)
(* ================================================================== *)

Module Js.

(** A JSON-decoded value as far as the handlers inspect it: they only ask
    [typeof v === "number"], so every non-number is kept by its kind. *)
Inductive Value : Type :=
| Undefined
| Null
| Boolean (b : bool)
| Number (q : Q)
| Str (s : string)
| Other.

Definition typeof_number (v : Value) : bool :=
  match v with Number _ => true | _ => false end.

(** The number held by a value whose [typeof] is "number". *)
Definition to_number (v : Value) : Q :=
  match v with Number q => q | _ => 0%Q end.

(** [a > b] on numbers. *)
Definition gtb (a b : Q) : bool := negb (Qle_bool a b).

(** [a < b] on numbers. *)
Definition ltb (a b : Q) : bool := negb (Qle_bool b a).

(** [a >= b] on numbers. *)
Definition geb (a b : Q) : bool := Qle_bool b a.

(** WhiteSpace and LineTerminator code points below 128. *)
Definition is_whitespace (c : ascii) : bool :=
  let n := nat_of_ascii c in
  ((n =? 9) || (n =? 10) || (n =? 11) || (n =? 12) || (n =? 13) || (n =? 32))%nat.

(** U+00A0, the WhiteSpace code point that UTF-8 writes in two bytes. *)
Definition two_byte_space (a b : ascii) : bool :=
  ((nat_of_ascii a =? 194) && (nat_of_ascii b =? 160))%nat.

(** The WhiteSpace and LineTerminator code points that UTF-8 writes in
    three bytes: U+1680, U+2000 to U+200A, U+2028, U+2029, U+202F,
    U+205F, U+3000 and U+FEFF. *)
Definition three_byte_space (a b c : ascii) : bool :=
  let x := nat_of_ascii a in
  let y := nat_of_ascii b in
  let z := nat_of_ascii c in
  ((x =? 225) && (y =? 154) && (z =? 128)
   || (x =? 226) && (y =? 128)
      && ((128 <=? z) && (z <=? 138) || (z =? 168) || (z =? 169) || (z =? 175))
   || (x =? 226) && (y =? 129) && (z =? 159)
   || (x =? 227) && (y =? 128) && (z =? 128)
   || (x =? 239) && (y =? 187) && (z =? 191))%nat.

(** The characters from the first one on that is not whitespace. *)
Fixpoint drop_whitespace (l : list ascii) : list ascii :=
  match l with
  | [] => []
  | a :: l1 =>
    if is_whitespace a then drop_whitespace l1
    else
      match l1 with
      | [] => l
      | b :: l2 =>
        if two_byte_space a b then drop_whitespace l2
        else
          match l2 with
          | [] => l
          | c :: l3 =>
            if three_byte_space a b c then drop_whitespace l3 else l
          end
      end
  end.

(** An ASCII character that is not whitespace: no whitespace starts
    with it. *)
Definition is_plain (c : ascii) : bool :=
  (nat_of_ascii c <? 128)%nat && negb (is_whitespace c).

(** A string of nothing but whitespace. *)
Definition is_blank (s : string) : bool :=
  match drop_whitespace (list_ascii_of_string s) with
  | [] => true
  | _ => false
  end.

(** The characters up to the last one that is not whitespace: the list
    is cut where nothing but whitespace follows. *)
Fixpoint drop_trailing (l : list ascii) : list ascii :=
  match l with
  | [] => []
  | a :: l' =>
    match drop_whitespace l with
    | [] => []
    | _ => a :: drop_trailing l'
    end
  end.

(** [String.prototype.trim]. *)
Definition trim (s : string) : string :=
  string_of_list_ascii
    (drop_trailing (drop_whitespace (list_ascii_of_string s))).

Definition lower_ascii (c : ascii) : ascii :=
  let n := nat_of_ascii c in
  if ((65 <=? n) && (n <=? 90))%nat then ascii_of_nat (n + 32) else c.

(** [String.prototype.toLowerCase] on the ASCII letters. The handlers
    apply it to header names and values, whose other characters it
    leaves outside ASCII, and compare the result with ASCII text. *)
Fixpoint toLowerCase (s : string) : string :=
  match s with
  | EmptyString => EmptyString
  | String c s' => String (lower_ascii c) (toLowerCase s')
  end.

(** [hay.includes(needle)]. *)
Fixpoint includes (hay needle : string) : bool :=
  if prefix needle hay then true
  else match hay with
       | EmptyString => false
       | String _ hay' => includes hay' needle
       end.

(** Truthiness of a string: [!!s]. *)
Definition truthy (s : string) : bool :=
  match s with EmptyString => false | _ => true end.

(** Truthiness of [string | undefined]. *)
Definition truthy_opt (o : option string) : bool :=
  match o with Some s => truthy s | None => false end.

(** [o ?? d]. *)
Definition nullish {A : Type} (o : option A) (d : A) : A :=
  match o with Some a => a | None => d end.

(** [a || b] on [string | undefined]. *)
Definition or_else (a b : option string) : option string :=
  if truthy_opt a then a else b.

(** Template interpolation of an array index. *)
Definition string_of_index (n : nat) : string :=
  NilEmpty.string_of_uint (Nat.to_uint n).

(** [join(", ")] of an array of strings. *)
Fixpoint join (sep : string) (l : list string) : string :=
  match l with
  | [] => ""
  | [x] => x
  | x :: l' => x ++ sep ++ join sep l'
  end.

(** The integer nearest to a non-negative number, a tie going up. *)
Definition round_half_up (x : Q) : Z := Qfloor (x + (1 # 2)).

(** [Number(x.toFixed(2))] as the response shows it: the multiple of
    1/100 nearest to the value that the number [x] holds, a tie going
    away from zero (in lowest terms). *)
Definition toFixed2 (x : Q) : Q :=
  if Qle_bool 0 x
  then Qred (inject_Z (round_half_up (x * 100)) / 100)
  else Qred (- (inject_Z (round_half_up (- x * 100)) / 100)).

(** ** Arithmetic on numbers

    ECMAScript computes on IEEE-754 binary64: the result of an operation
    is the exact result rounded to the nearest number with a significand
    of 53 bits, a tie going to the even significand. *)

(** The integer nearest to [x], a tie going to the even one. *)
Definition round_half_even (x : Q) : Z :=
  let n := Qfloor x in
  match (x - inject_Z n ?= 1 # 2)%Q with
  | Lt => n
  | Gt => n + 1
  | Eq => if Z.even n then n else n + 1
  end.

(** The exponent [k] with [2^k <= x < 2^(k+1)], for a positive [x]. *)
Definition floor_log2 (x : Q) : Z :=
  let k := Z.log2 (Qnum x) - Z.log2 (Zpos (Qden x)) in
  if Qle_bool (2 ^ k) x then k else k - 1.

(** The exponent of the unit in the last place near a positive [x]: 52
    binary places under the leading one, and no lower than [-1074], the
    spacing of the subnormal numbers. *)
Definition ulp_exponent (x : Q) : Z := Z.max (floor_log2 x - 52) (-1074).

(** The binary64 number nearest to [x]. The exponent has no upper bound
    here: the result is the Number value of [x] as long as it stays
    under [2^1024], beyond which binary64 has the infinities. *)
Definition double (x : Q) : Q :=
  if Qeq_bool x 0 then 0%Q
  else let e := ulp_exponent (Qabs x) in
       Qred (inject_Z (round_half_even (x / 2 ^ e)) * 2 ^ e).

(** [a / b] and [a * b] on numbers, for a non-zero [b]. *)
Definition fdiv (a b : Q) : Q := double (a / b).
Definition fmul (a b : Q) : Q := double (a * b).

End Js.

(* ================================================================== *)
(** * The platform the handlers run on *)
(* ================================================================== *)

(** Primitives of the Workers runtime that the handlers call.
    [date_parse_finite s] is [Number.isFinite(Date.parse(s))], and
    ECMAScript makes [Date.parse] of the empty string NaN; [hashToken] is
    utils/security.ts's SHA-256 hex digest; [ensureHttps u] is
    [new URL(u).protocol === "https:"], false when the URL does not
    parse. *)
Class Runtime : Type := {
  date_parse_finite : string -> bool;
  date_parse_empty : date_parse_finite "" = false;
  hashToken : string -> string;
  ensureHttps : string -> bool
}.

(** The same platform with another digest. *)
Definition with_hash (h : string -> string) (RT : Runtime) : Runtime :=
  {| date_parse_finite := @date_parse_finite RT;
     date_parse_empty := @date_parse_empty RT;
     hashToken := h;
     ensureHttps := @ensureHttps RT |}.

(* ================================================================== *)
(** * Data model: src/types.ts and schema.sql *)
(* ================================================================== *)

Record SubmissionTask : Type := {
  task_id : string;
  task_score : Js.Value;
  task_max_score : Js.Value
}.

(** [payload.tasks] under the declared type: an array of tasks that are
    objects, or no array at all; the handler asks [Array.isArray]. *)
Inductive TasksField : Type :=
| NotAnArray
| TaskArray (tasks : list SubmissionTask).

Record SubmissionPayload : Type := {
  submission_id : option string;
  timestamp : option string;
  client_version : option string;
  model : option string;
  provider : option string;
  run_id : option string;
  openclaw_version : option string;
  benchmark_version : option string;
  total_score : Js.Value;
  max_score : Js.Value;
  total_execution_time_seconds : option Q;
  total_cost_usd : option Q;
  input_tokens : option Z;
  output_tokens : option Z;
  total_tokens : option Z;
  tasks : TasksField;
  usage_summary : option string;
  metadata : option string
}.

(** Row of [tokens]. *)
Record TokenRow : Type := {
  tok_id : string;
  tok_user_id : option string;
  tok_token_hash : string;
  tok_claim_code : option string;
  tok_claim_expires_at : option Z;
  tok_claimed_at : option Z;
  tok_created_at : Z;
  tok_last_used_at : option Z
}.

(** Row of [token_registration_limits]. *)
Record RegistrationLimitRow : Type := {
  rl_ip : string;
  rl_created_at : Z
}.

(** Row of [submissions]. *)
Record SubmissionRow : Type := {
  sub_id : string;
  sub_token_id : string;
  sub_model : string;
  sub_provider : option string;
  sub_total_score : Q;
  sub_max_score : Q;
  sub_score_percentage : Q;
  sub_total_execution_time_seconds : option Q;
  sub_total_cost_usd : option Q;
  sub_input_tokens : option Z;
  sub_output_tokens : option Z;
  sub_total_tokens : option Z;
  sub_timestamp : string;
  sub_client_version : option string;
  sub_openclaw_version : option string;
  sub_run_id : option string;
  sub_benchmark_version : option string;
  sub_tasks : list SubmissionTask;
  sub_usage_summary : option string;
  sub_metadata : option string;
  sub_created_at : Z
}.

(** Row of [benchmark_versions]. *)
Record BenchmarkVersionRow : Type := {
  bv_id : string;
  bv_created_at : Z;
  bv_current : Z;
  bv_hidden : Z
}.

(** What the [body] column of [raw_post_logs] holds: the request text, or
    the object given to [JSON.stringify], kept unserialized. *)
Inductive LogBody : Type :=
| RawText (text : option string)
| JsonOf (fields : list (string * Js.Value)).

(** Row of [raw_post_logs]; [log_headers] is the object given to
    [JSON.stringify]. *)
Record RawPostLogRow : Type := {
  log_method : string;
  log_path : string;
  log_headers : list (string * string);
  log_body : LogBody;
  log_ip : string;
  log_created_at : Z
}.

(** The D1 database [prod_pinchbench]. *)
Record DB : Type := {
  tokens : list TokenRow;
  token_registration_limits : list RegistrationLimitRow;
  submissions : list SubmissionRow;
  benchmark_versions : list BenchmarkVersionRow;
  raw_post_logs : list RawPostLogRow
}.

Definition empty_db : DB :=
  {| tokens := []; token_registration_limits := []; submissions := [];
     benchmark_versions := []; raw_post_logs := [] |}.

Definition set_tokens (db : DB) (t : list TokenRow) : DB :=
  {| tokens := t;
     token_registration_limits := token_registration_limits db;
     submissions := submissions db;
     benchmark_versions := benchmark_versions db;
     raw_post_logs := raw_post_logs db |}.

Definition set_token_registration_limits (db : DB)
  (l : list RegistrationLimitRow) : DB :=
  {| tokens := tokens db;
     token_registration_limits := l;
     submissions := submissions db;
     benchmark_versions := benchmark_versions db;
     raw_post_logs := raw_post_logs db |}.

Definition set_submissions (db : DB) (s : list SubmissionRow) : DB :=
  {| tokens := tokens db;
     token_registration_limits := token_registration_limits db;
     submissions := s;
     benchmark_versions := benchmark_versions db;
     raw_post_logs := raw_post_logs db |}.

Definition set_benchmark_versions (db : DB)
  (v : list BenchmarkVersionRow) : DB :=
  {| tokens := tokens db;
     token_registration_limits := token_registration_limits db;
     submissions := submissions db;
     benchmark_versions := v;
     raw_post_logs := raw_post_logs db |}.

Definition set_raw_post_logs (db : DB) (l : list RawPostLogRow) : DB :=
  {| tokens := tokens db;
     token_registration_limits := token_registration_limits db;
     submissions := submissions db;
     benchmark_versions := benchmark_versions db;
     raw_post_logs := l |}.

(* ================================================================== *)
(** * HTTP responses *)
(* ================================================================== *)

Inductive ResponseBody : Type :=
| ErrorMessage (error message : string)
| ErrorDetails (error : string) (details : list string)
| ErrorOnly (error : string)
| Accepted (submission : string) (rank : Z) (percentile : Q)
    (leaderboard_url : string)
| Registered (token api_key claim_url : string)
| SubmissionDetail (row : SubmissionRow) (verified : bool) (rank : Z)
    (total_submissions : Z) (percentile : Q)
| Success
| Uncaught.

Record Response : Type := {
  status : Z;
  body : ResponseBody
}.

Definition json (b : ResponseBody) (code : Z) : Response :=
  {| status := code; body := b |}.

(** An exception escaping a handler: Hono answers 500. *)
Definition uncaught : Response := json Uncaught 500.

(** The [rank] member of a response. *)
Definition reported_rank (r : Response) : option Z :=
  match body r with
  | Accepted _ rank _ _ => Some rank
  | SubmissionDetail _ _ rank _ _ => Some rank
  | _ => None
  end.

(** The [percentile] member of a response. *)
Definition reported_percentile (r : Response) : option Q :=
  match body r with
  | Accepted _ _ percentile _ => Some percentile
  | SubmissionDetail _ _ _ _ percentile => Some percentile
  | _ => None
  end.

(** The [error] member of an error body. *)
Definition error_of (r : Response) : option string :=
  match body r with
  | ErrorMessage e _ => Some e
  | ErrorDetails e _ => Some e
  | ErrorOnly e => Some e
  | _ => None
  end.

(* ================================================================== *)
(** * POST /api/results: src/routes/results.ts *)
(* ================================================================== *)

Module Results.

Import Js.

(** ** UUID_V4_REGEX

    [/^[0-9a-f]{8}-[0-9a-f]{4}-4[0-9a-f]{3}-[89ab][0-9a-f]{3}-[0-9a-f]{12}$/i],
    as the list of the 36 character classes it matches in sequence. *)

Definition in_range (lo hi : nat) (c : ascii) : bool :=
  let n := nat_of_ascii c in ((lo <=? n) && (n <=? hi))%nat.

Definition is_char (d c : ascii) : bool := Ascii.eqb d c.

(** [[0-9a-f]] under the [i] flag. *)
Definition is_hex (c : ascii) : bool :=
  in_range 48 57 c || in_range 97 102 c || in_range 65 70 c.

(** [[89ab]] under the [i] flag. *)
Definition is_variant (c : ascii) : bool :=
  is_char "8" c || is_char "9" c || is_char "a" c || is_char "b" c
  || is_char "A" c || is_char "B" c.

Definition uuid_v4_shape : list (ascii -> bool) :=
  repeat is_hex 8 ++ [is_char "-"] ++
  repeat is_hex 4 ++ [is_char "-"] ++
  [is_char "4"] ++ repeat is_hex 3 ++ [is_char "-"] ++
  [is_variant] ++ repeat is_hex 3 ++ [is_char "-"] ++
  repeat is_hex 12.

Fixpoint match_shape (shape : list (ascii -> bool)) (s : string) : bool :=
  match shape, s with
  | [], EmptyString => true
  | p :: shape', String c s' => p c && match_shape shape' s'
  | _, _ => false
  end.

(** [UUID_V4_REGEX.test(s)]. *)
Definition UUID_V4_REGEX_test (s : string) : bool :=
  match_shape uuid_v4_shape s.

Section WithRuntime.

Context {RT : Runtime}.

Definition isIsoTimestamp (value : string) : bool :=
  if negb (truthy value) then false else date_parse_finite value.

(** ** Validation (results.ts lines 101-139) of a payload of the declared
    type; [Body.validate] has it on any decoded body. *)

(** The body of the [forEach] callback over [payload.tasks]. *)
Definition task_details (index : nat) (task : SubmissionTask) : list string :=
  if negb (typeof_number (task_score task))
     || negb (typeof_number (task_max_score task))
  then ["tasks[" ++ string_of_index index ++ "].score and max_score must be numbers"]
  else if gtb (to_number (task_score task)) (to_number (task_max_score task))
  then ["tasks[" ++ string_of_index index ++ "].score must be between 0 and max_score"]
  else [].

Fixpoint forEach_task_details (index : nat) (l : list SubmissionTask)
  : list string :=
  match l with
  | [] => []
  | task :: l' => task_details index task ++ forEach_task_details (S index) l'
  end.

Definition submission_id_details (payload : SubmissionPayload) : list string :=
  if negb (UUID_V4_REGEX_test (nullish (submission_id payload) ""))
  then ["submission_id must be a valid UUID v4"] else [].

Definition timestamp_details (payload : SubmissionPayload) : list string :=
  if negb (isIsoTimestamp (nullish (timestamp payload) ""))
  then ["timestamp must be ISO 8601 format"] else [].

Definition model_details (payload : SubmissionPayload) : list string :=
  if negb (truthy_opt (model payload))
     || negb (truthy (trim (nullish (model payload) "")))
  then ["model is required and must be non-empty"] else [].

Definition tasks_details (payload : SubmissionPayload) : list string :=
  match tasks payload with
  | NotAnArray => ["tasks must have at least one entry"]
  | TaskArray [] => ["tasks must have at least one entry"]
  | TaskArray (_ :: _) => []
  end.

Definition totals_details (payload : SubmissionPayload) : list string :=
  if negb (typeof_number (total_score payload))
     || negb (typeof_number (max_score payload))
  then ["total_score and max_score must be numbers"]
  else if gtb (to_number (total_score payload)) (to_number (max_score payload))
  then ["total_score must be less than or equal to max_score"]
  else [].

Definition task_scores_details (payload : SubmissionPayload) : list string :=
  match tasks payload with
  | NotAnArray => []
  | TaskArray l => forEach_task_details 0 l
  end.

(** The [details] array after all the checks, in push order. *)
Definition validate (payload : SubmissionPayload) : list string :=
  submission_id_details payload ++
  timestamp_details payload ++
  model_details payload ++
  tasks_details payload ++
  totals_details payload ++
  task_scores_details payload.

(** ** The request *)

Record Request : Type := {
  req_url : string;
  req_content_type : option string;
  (** the X-PinchBench-Token header *)
  req_token : option string;
  (** [Number(header("Content-Length") ?? 0)], [None] when it is NaN *)
  req_content_length : option Z;
  (** [await c.req.json()] under the declared type, [None] when it
      throws *)
  req_json : option SubmissionPayload
}.

Definition getAuthToken (header : option string) : option string :=
  option_map trim header.

(** ** Queries *)

(** [SELECT id FROM tokens WHERE token_hash = ? LIMIT 1]. *)
Definition select_token_by_hash (h : string) (db : DB) : option TokenRow :=
  find (fun t => String.eqb (tok_token_hash t) h) (tokens db).

(** [SELECT id, score_percentage FROM submissions WHERE id = ? LIMIT 1]. *)
Definition select_submission (id : string) (db : DB) : option SubmissionRow :=
  find (fun s => String.eqb (sub_id s) id) (submissions db).

Definition seconds_per_day : Z := 86400.

(** [SELECT COUNT( * ) FROM submissions WHERE token_id = ? AND
    created_at >= datetime('now', '-1 day')]. *)
Definition daily_count (token_id : string) (now : Z) (db : DB) : Z :=
  Z.of_nat (List.length (filter
    (fun s => String.eqb (sub_token_id s) token_id
              && (now - seconds_per_day <=? sub_created_at s))
    (submissions db))).

Definition count_total (db : DB) : Z :=
  Z.of_nat (List.length (submissions db)).

(** [SELECT COUNT( * ) FROM submissions WHERE score_percentage > ?]. *)
Definition count_higher (target : Q) (db : DB) : Z :=
  Z.of_nat (List.length (filter (fun s => gtb (sub_score_percentage s) target)
                           (submissions db))).

(** [SELECT COUNT( * ) FROM submissions WHERE score_percentage < ?]. *)
Definition count_lower (target : Q) (db : DB) : Z :=
  Z.of_nat (List.length (filter (fun s => ltb (sub_score_percentage s) target)
                           (submissions db))).

(** ** Statements *)

Definition computedScorePercentage (payload : SubmissionPayload) : Q :=
  if Qeq_bool (to_number (max_score payload)) 0 then 0%Q
  else (to_number (total_score payload) / to_number (max_score payload))%Q.

(** The row bound by the INSERT. *)
Definition new_submission_row (token_id : string) (now : Z)
  (payload : SubmissionPayload) : SubmissionRow :=
  {| sub_id := nullish (submission_id payload) "";
     sub_token_id := token_id;
     sub_model := nullish (model payload) "";
     sub_provider := provider payload;
     sub_total_score := to_number (total_score payload);
     sub_max_score := to_number (max_score payload);
     sub_score_percentage := computedScorePercentage payload;
     sub_total_execution_time_seconds := total_execution_time_seconds payload;
     sub_total_cost_usd := total_cost_usd payload;
     sub_input_tokens := input_tokens payload;
     sub_output_tokens := output_tokens payload;
     sub_total_tokens := total_tokens payload;
     sub_timestamp := nullish (timestamp payload) "";
     sub_client_version := client_version payload;
     sub_openclaw_version := openclaw_version payload;
     sub_run_id := run_id payload;
     sub_benchmark_version := benchmark_version payload;
     sub_tasks := match tasks payload with
                  | TaskArray l => l
                  | NotAnArray => []
                  end;
     sub_usage_summary := usage_summary payload;
     sub_metadata := metadata payload;
     sub_created_at := now |}.

(** [INSERT INTO submissions]: the primary key rejects a second row with
    the same id. *)
Definition insert_submission (row : SubmissionRow) (db : DB) : option DB :=
  match select_submission (sub_id row) db with
  | Some _ => None
  | None => Some (set_submissions db (submissions db ++ [row]))
  end.

Definition has_version (id : string) (db : DB) : bool :=
  existsb (fun v => String.eqb (bv_id v) id) (benchmark_versions db).

(** [INSERT OR IGNORE INTO benchmark_versions (id, current) VALUES (?, 0)];
    the other columns take their defaults. *)
Definition insert_or_ignore_version (id : string) (now : Z) (db : DB) : DB :=
  if has_version id db then db
  else set_benchmark_versions db
         (benchmark_versions db ++
          [{| bv_id := id; bv_created_at := now; bv_current := 0;
              bv_hidden := 0 |}]).

Definition touch_row (id : string) (now : Z) (t : TokenRow) : TokenRow :=
  if String.eqb (tok_id t) id
  then {| tok_id := tok_id t;
          tok_user_id := tok_user_id t;
          tok_token_hash := tok_token_hash t;
          tok_claim_code := tok_claim_code t;
          tok_claim_expires_at := tok_claim_expires_at t;
          tok_claimed_at := tok_claimed_at t;
          tok_created_at := tok_created_at t;
          tok_last_used_at := Some now |}
  else t.

(** [UPDATE tokens SET last_used_at = datetime('now') WHERE id = ?]. *)
Definition touch_token (id : string) (now : Z) (db : DB) : DB :=
  set_tokens db (map (touch_row id now) (tokens db)).

(** ** The handler *)

Definition https_required : Response :=
  json (ErrorMessage "invalid_request" "HTTPS is required") 400.

Definition unauthorized : Response :=
  json (ErrorMessage "unauthorized" "Invalid or missing authentication token") 401.

Definition rate_limited : Response :=
  json (ErrorMessage "rate_limited" "Too many submissions for this token") 429.

Definition validation_failed (details : list string) (code : Z) : Response :=
  json (ErrorDetails "validation_failed" details) code.

(** Lines 20-99: transport checks, authentication and body decoding.
    Either the early response, or the token row and the payload. *)
Definition prelude (req : Request) (db : DB)
  : Response + (TokenRow * SubmissionPayload) :=
  if negb (ensureHttps (req_url req)) && negb (includes (req_url req) "localhost")
  then inl https_required
  else
    if match req_content_type req with
       | None => true
       | Some ct => negb (includes (toLowerCase ct) "application/json")
       end
    then inl (validation_failed ["Content-Type must be application/json"] 422)
    else
      match getAuthToken (req_token req) with
      | None => inl unauthorized
      | Some token =>
        if negb (truthy token) then inl unauthorized
        else
          match select_token_by_hash (hashToken token) db with
          | None => inl unauthorized
          | Some tokenRow =>
            if negb (truthy (tok_id tokenRow)) then inl unauthorized
            else
              if match req_content_length req with
                 | Some n => 1024 * 1024 <? n
                 | None => false
                 end
              then inl (validation_failed ["Payload exceeds 1MB limit"] 413)
              else
                match req_json req with
                | None => inl (validation_failed ["Body must be valid JSON"] 422)
                | Some payload => inr (tokenRow, payload)
                end
          end
      end.

(** [existing?.score_percentage ?? computedScorePercentage]. *)
Definition scorePercentage (existing : option SubmissionRow)
  (payload : SubmissionPayload) : Q :=
  match existing with
  | Some row => sub_score_percentage row
  | None => computedScorePercentage payload
  end.

(** Lines 235-242: [if (payload.benchmark_version) { INSERT OR IGNORE }]. *)
Definition register_benchmark_version (payload : SubmissionPayload) (now : Z)
  (db : DB) : DB :=
  match benchmark_version payload with
  | Some v => if truthy v then insert_or_ignore_version v now db else db
  | None => db
  end.

(** Lines 164-243, the [if (!existing)] block: the quota check, the insert
    and the registration of the benchmark version. *)
Definition store_new (tokenRow : TokenRow) (now : Z)
  (payload : SubmissionPayload) (db : DB) : Response + DB :=
  if 100 <=? daily_count (tok_id tokenRow) now db
  then inl rate_limited
  else
    match insert_submission (new_submission_row (tok_id tokenRow) now payload) db with
    | None => inl uncaught
    | Some db1 => inr (register_benchmark_version payload now db1)
    end.

(** [totalSubmissions === 0 ? 0 : (lower / totalSubmissions) * 100]. *)
Definition percentile_of (lower totalSubmissions : Z) : Q :=
  if totalSubmissions =? 0 then 0%Q
  else fmul (fdiv (inject_Z lower) (inject_Z totalSubmissions)) 100.

Definition leaderboard_url_of (id : string) : string :=
  "https://pinchbench.com/submission/" ++ id.

(** [payload.submission_id] as the statements and the response use it. *)
Definition payload_id (payload : SubmissionPayload) : string :=
  nullish (submission_id payload) "".

(** Lines 152-284. *)
Definition ingest (tokenRow : TokenRow) (now : Z)
  (payload : SubmissionPayload) (db : DB) : Response * DB :=
  let id := payload_id payload in
  let existing := select_submission id db in
  let score := scorePercentage existing payload in
  match (match existing with
         | Some _ => inr db
         | None => store_new tokenRow now payload db
         end) with
  | inl resp => (resp, db)
  | inr db1 =>
    let db2 := touch_token (tok_id tokenRow) now db1 in
    let totalSubmissions := count_total db2 in
    let higher := count_higher score db2 in
    let lower := count_lower score db2 in
    let rank := higher + 1 in
    let percentile := percentile_of lower totalSubmissions in
    (json (Accepted id rank (toFixed2 percentile) (leaderboard_url_of id))
          (match existing with Some _ => 200 | None => 201 end),
     db2)
  end.

(** [app.post("/api/results", ...)]. *)
Definition postResults (now : Z) (req : Request) (db : DB) : Response * DB :=
  match prelude req db with
  | inl resp => (resp, db)
  | inr (tokenRow, payload) =>
    match validate payload with
    | [] => ingest tokenRow now payload db
    | details => (validation_failed details 422, db)
    end
  end.

(** The same row under another client-declared timestamp. *)
Definition with_timestamp (f : string -> string) (s : SubmissionRow)
  : SubmissionRow :=
  {| sub_id := sub_id s;
     sub_token_id := sub_token_id s;
     sub_model := sub_model s;
     sub_provider := sub_provider s;
     sub_total_score := sub_total_score s;
     sub_max_score := sub_max_score s;
     sub_score_percentage := sub_score_percentage s;
     sub_total_execution_time_seconds := sub_total_execution_time_seconds s;
     sub_total_cost_usd := sub_total_cost_usd s;
     sub_input_tokens := sub_input_tokens s;
     sub_output_tokens := sub_output_tokens s;
     sub_total_tokens := sub_total_tokens s;
     sub_timestamp := f (sub_timestamp s);
     sub_client_version := sub_client_version s;
     sub_openclaw_version := sub_openclaw_version s;
     sub_run_id := sub_run_id s;
     sub_benchmark_version := sub_benchmark_version s;
     sub_tasks := sub_tasks s;
     sub_usage_summary := sub_usage_summary s;
     sub_metadata := sub_metadata s;
     sub_created_at := sub_created_at s |}.

(** The store with every client-declared timestamp rewritten. *)
Definition redeclare_timestamps (f : string -> string) (db : DB) : DB :=
  set_submissions db (map (with_timestamp f) (submissions db)).

(** The store once a new submission went in: the row, its benchmark
    version, the token's last use. *)
Definition stored (tokenRow : TokenRow) (now : Z)
  (payload : SubmissionPayload) (db : DB) : DB :=
  touch_token (tok_id tokenRow) now
    (register_benchmark_version payload now
       (set_submissions db
          (submissions db ++ [new_submission_row (tok_id tokenRow) now payload]))).

(** The same request presenting another token header. *)
Definition presenting (header : option string) (req : Request) : Request :=
  {| req_url := req_url req;
     req_content_type := req_content_type req;
     req_token := header;
     req_content_length := req_content_length req;
     req_json := req_json req |}.

(** The handler, by the way it ends. *)
Inductive Ending (now : Z) (req : Request) (db : DB) : Response * DB -> Prop :=
| EndedEarly resp :
    prelude req db = inl resp ->
    Ending now req db (resp, db)
| EndedInvalid tokenRow payload :
    prelude req db = inr (tokenRow, payload) ->
    validate payload <> [] ->
    Ending now req db (validation_failed (validate payload) 422, db)
| EndedRetry tokenRow payload row :
    prelude req db = inr (tokenRow, payload) ->
    validate payload = [] ->
    select_submission (payload_id payload) db = Some row ->
    Ending now req db (ingest tokenRow now payload db)
| EndedLimited tokenRow payload :
    prelude req db = inr (tokenRow, payload) ->
    validate payload = [] ->
    select_submission (payload_id payload) db = None ->
    100 <= daily_count (tok_id tokenRow) now db ->
    Ending now req db (rate_limited, db)
| EndedNew tokenRow payload :
    prelude req db = inr (tokenRow, payload) ->
    validate payload = [] ->
    select_submission (payload_id payload) db = None ->
    daily_count (tok_id tokenRow) now db < 100 ->
    Ending now req db (ingest tokenRow now payload db).

End WithRuntime.

End Results.

(* ================================================================== *)
(** * utils/security.ts *)
(* ================================================================== *)

Module Security.

Definition HEX_CHARS : string := "0123456789abcdef".

(** [HEX_CHARS[i]]. *)
Definition hex_char (i : Z) : string :=
  match String.get (Z.to_nat i) HEX_CHARS with
  | Some c => String c EmptyString
  | None => "undefined"
  end.

(** A [Uint8Array] is a list of integers below 256. *)
Fixpoint bytesToHex (bytes : list Z) : string :=
  match bytes with
  | [] => ""
  | byte :: rest =>
    hex_char (Z.land (Z.shiftr byte 4) 15) ++ hex_char (Z.land byte 15)
    ++ bytesToHex rest
  end.

(** [randomHex(length)], given the bytes [crypto.getRandomValues] yields:
    the first [ceil(length / 2)] of them fill the array. *)
Definition randomHex (length : nat) (random : list Z) : string :=
  let bytesNeeded := Nat.div (length + 1) 2 in
  substring 0 length (bytesToHex (firstn bytesNeeded random)).

End Security.

(* ================================================================== *)
(** * POST /api/register: src/routes/register.ts *)
(* ================================================================== *)

Module Register.

Import Js.

Definition MAX_REGISTRATIONS_PER_HOUR : Z := 10.
Definition CLAIM_TTL_HOURS : Z := 24.
Definition seconds_per_hour : Z := 3600.

Record Request : Type := {
  req_url : string;
  req_content_type : option string;
  req_cf_connecting_ip : option string;
  req_x_forwarded_for : option string
}.

(** What the random sources return during one registration. *)
Record Entropy : Type := {
  token_random : list Z;
  claim_random : list Z;
  randomUUID : string
}.

(** [s.split(",")[0]]. *)
Fixpoint before_comma (s : string) : string :=
  match s with
  | EmptyString => EmptyString
  | String c s' => if Ascii.eqb c "," then EmptyString
                   else String c (before_comma s')
  end.

Definition getClientIp (req : Request) : string :=
  nullish
    (or_else
       (or_else (req_cf_connecting_ip req)
                (option_map (fun v => trim (before_comma v))
                            (req_x_forwarded_for req)))
       (Some "unknown"))
    "unknown".

(** [SELECT COUNT( * ) FROM token_registration_limits WHERE ip = ? AND
    created_at >= datetime('now', '-1 hour')]. *)
Definition hourly_count (ip : string) (now : Z) (db : DB) : Z :=
  Z.of_nat (List.length (filter
    (fun r => String.eqb (rl_ip r) ip
              && (now - seconds_per_hour <=? rl_created_at r))
    (token_registration_limits db))).

(** [INSERT INTO tokens]: [id] is the primary key and [token_hash] is
    UNIQUE. *)
Definition insert_token (row : TokenRow) (db : DB) : option DB :=
  if existsb (fun t => String.eqb (tok_id t) (tok_id row)
                       || String.eqb (tok_token_hash t) (tok_token_hash row))
             (tokens db)
  then None
  else Some (set_tokens db (tokens db ++ [row])).

(** [INSERT INTO token_registration_limits (ip) VALUES (?)]. *)
Definition insert_registration (ip : string) (now : Z) (db : DB) : DB :=
  set_token_registration_limits db
    (token_registration_limits db ++ [{| rl_ip := ip; rl_created_at := now |}]).

Definition new_token_row (tokenId tokenHash claimCode : string) (now : Z)
  : TokenRow :=
  {| tok_id := tokenId;
     tok_user_id := None;
     tok_token_hash := tokenHash;
     tok_claim_code := Some claimCode;
     tok_claim_expires_at := Some (now + CLAIM_TTL_HOURS * seconds_per_hour);
     tok_claimed_at := None;
     tok_created_at := now;
     tok_last_used_at := None |}.

Definition rate_limited : Response :=
  json (ErrorMessage "rate_limited" "Too many registrations from this IP") 429.

(** The secret of a registration: [`pb_live_${randomHex(32)}`]. *)
Definition token_of (entropy : Entropy) : string :=
  "pb_live_" ++ Security.randomHex 32 (token_random entropy).

Section WithRuntime.

Context {RT : Runtime}.

(** Lines 17-41 of register.ts: the transport checks; [None] lets the
    request through. *)
Definition prelude (req : Request) : option Response :=
  if negb (ensureHttps (req_url req)) && negb (includes (req_url req) "localhost")
  then Some (json (ErrorMessage "invalid_request" "HTTPS is required") 400)
  else
    if match req_content_type req with
       | None => true
       | Some ct => negb (includes (toLowerCase ct) "application/json")
       end
    then Some (json (ErrorDetails "validation_failed"
                       ["Content-Type must be application/json"]) 422)
    else None.

(** [app.post("/api/register", ...)]. *)
Definition postRegister (now : Z) (entropy : Entropy) (req : Request)
  (db : DB) : Response * DB :=
  match prelude req with
  | Some resp => (resp, db)
  | None =>
    let ip := getClientIp req in
    if MAX_REGISTRATIONS_PER_HOUR <=? hourly_count ip now db
    then (rate_limited, db)
    else
      let token := token_of entropy in
      let tokenHash := hashToken token in
      let claimCode := Security.randomHex 12 (claim_random entropy) in
      let claimUrl := "https://pinchbench.com/claim?token=" ++ claimCode in
      if negb (ensureHttps claimUrl)
      then (json (ErrorMessage "server_error" "Unable to generate claim URL") 500, db)
      else
        let tokenId := randomUUID entropy in
        match insert_token (new_token_row tokenId tokenHash claimCode now) db with
        | None => (uncaught, db)
        | Some db1 =>
          (json (Registered token token claimUrl) 201,
           insert_registration ip now db1)
        end
  end.

End WithRuntime.

End Register.

(* ================================================================== *)
(** * Benchmark version scope: utils/benchmarkVersions (and its copies in
      submissions.ts, leaderboard.ts and providers.ts) *)
(* ================================================================== *)

Module Scope.

Import Js.

(** The query string as far as the resolver reads it. *)
Record Query : Type := {
  q_version : option string;
  q_benchmark_version : option string
}.

(** The identifiers of the rows flagged current. *)
Definition current_ids (l : list BenchmarkVersionRow) : list string :=
  map bv_id (filter (fun v => bv_current v =? 1) l).

(** [SELECT id FROM benchmark_versions WHERE current = 1]. *)
Definition select_current (db : DB) : list string :=
  current_ids (benchmark_versions db).

(** [c.req.query("version")?.trim() || c.req.query("benchmark_version")?.trim()]. *)
Definition requested (q : Query) : option string :=
  or_else (option_map trim (q_version q))
          (option_map trim (q_benchmark_version q)).

Definition resolveBenchmarkVersions (q : Query) (db : DB) : list string :=
  match requested q with
  | Some r => if truthy r then [r] else select_current db
  | None => select_current db
  end.

Definition appendBenchmarkVersionFilter (clausePrefix field : string)
  (versions : list string) : string :=
  if (List.length versions =? 0)%nat then ""
  else
    let placeholders := join ", " (map (fun _ => "?") versions) in
    " " ++ clausePrefix ++ " " ++ field ++ " IN (" ++ placeholders ++ ")".

(** The version identifier a caller supplies, as the specification has
    it: the [version] parameter unless it is missing or blank, else the
    [benchmark_version] parameter unless it is missing or blank; the
    whitespace around it is not part of the identifier. *)
Definition supplied (q : Query) : option string :=
  match q_version q with
  | Some v =>
    if is_blank v
    then match q_benchmark_version q with
         | Some b => if is_blank b then None else Some (trim b)
         | None => None
         end
    else Some (trim v)
  | None =>
    match q_benchmark_version q with
    | Some b => if is_blank b then None else Some (trim b)
    | None => None
    end
  end.

(** The number of versions flagged current. *)
Definition current_count (db : DB) : nat := List.length (select_current db).

(** [benchmark_versions.id] is a primary key. *)
Definition version_ids_unique (db : DB) : Prop :=
  NoDup (map bv_id (benchmark_versions db)).

Definition at_most_one_current (db : DB) : Prop := (current_count db <= 1)%nat.

(** A statement under construction: its text and its bound parameters. *)
Definition Statement : Type := (string * list string)%type.

(** The callers' step (submissions.ts lines 95-102 and 146-153):
    [if (benchmarkVersions.length > 0) { query += append...;
    bindings.push(...benchmarkVersions) }]. *)
Definition add_version_filter (field : string) (versions : list string)
  (st : Statement) : Statement :=
  if (0 <? List.length versions)%nat
  then (fst st ++ appendBenchmarkVersionFilter "AND" field versions,
        (snd st ++ versions)%list)
  else st.

(** What [field IN (?, ..., ?)] bound to [versions] selects. *)
Definition in_versions (versions : list string) (v : option string) : bool :=
  match v with
  | Some x => existsb (String.eqb x) versions
  | None => false
  end.

(** The submissions a scoped query ranges over. *)
Definition scoped_submissions (versions : list string) (db : DB)
  : list SubmissionRow :=
  if (0 <? List.length versions)%nat
  then filter (fun s => in_versions versions (sub_benchmark_version s))
              (submissions db)
  else submissions db.

End Scope.

(* ================================================================== *)
(** * GET /api/submissions/:id: src/routes/submissions.ts *)
(* ================================================================== *)

Module Submissions.

Import Js.

(** [submissions s JOIN tokens t ON s.token_id = t.id]. *)
Definition join_tokens (db : DB) : list (SubmissionRow * TokenRow) :=
  flat_map
    (fun s => map (fun t => (s, t))
                  (filter (fun t => String.eqb (sub_token_id s) (tok_id t))
                          (tokens db)))
    (submissions db).

(** [SELECT ... WHERE s.id = ? LIMIT 1] over the join. *)
Definition select_detail (id : string) (db : DB)
  : option (SubmissionRow * TokenRow) :=
  find (fun st => String.eqb (sub_id (fst st)) id) (join_tokens db).

(** The distinct values of a column, numbers compared by value. *)
Fixpoint distinct (l : list Q) : list Q :=
  match l with
  | [] => []
  | x :: l' => if existsb (Qeq_bool x) l' then distinct l' else x :: distinct l'
  end.

(** [SELECT COUNT(DISTINCT score_percentage) + 1 as rank FROM submissions
    WHERE score_percentage > ?]. *)
Definition select_rank (target : Q) (db : DB) : Z :=
  Z.of_nat (List.length (distinct
    (map sub_score_percentage
         (filter (fun s => gtb (sub_score_percentage s) target)
                 (submissions db))))) + 1.

(** [SELECT COUNT( * ) as total FROM submissions]. *)
Definition select_total (db : DB) : Z :=
  Z.of_nat (List.length (submissions db)).

(** The [percentile] member of the response. *)
Definition percentile_of (rank total : Z) : Q :=
  if negb (total =? 0) && (0 <? total)
  then toFixed2 (fmul (fdiv (inject_Z (total - rank)) (inject_Z total)) 100)
  else 0%Q.

(** [app.get("/api/submissions/:id", ...)]. *)
Definition getSubmission (submissionId : string) (db : DB) : Response :=
  if negb (truthy submissionId)
  then json (ErrorMessage "bad_request" "Submission ID required") 400
  else
    match select_detail submissionId db with
    | None => json (ErrorMessage "not_found" "Submission not found") 404
    | Some (row, t) =>
      let rank := select_rank (sub_score_percentage row) db in
      let total := select_total db in
      json (SubmissionDetail row
              (match tok_claimed_at t with Some _ => true | None => false end)
              rank total (percentile_of rank total))
           200
    end.

(** [row] is the one best submission of the store: every other row scores
    strictly less. *)
Definition unique_maximum (row : SubmissionRow) (db : DB) : Prop :=
  In row (submissions db) /\
  NoDup (map sub_id (submissions db)) /\
  forall s, In s (submissions db) ->
            s = row \/ ltb (sub_score_percentage s) (sub_score_percentage row) = true.

End Submissions.

(* ================================================================== *)
(** * Request logging: src/index.ts *)
(* ================================================================== *)

Module Logging.

Import Js.

Record HttpRequest : Type := {
  http_method : string;
  http_path : string;
  http_headers : list (string * string);
  http_body : option string
}.

(** [c.req.header(name)]: header names compare case-insensitively. *)
Definition header (name : string) (req : HttpRequest) : option string :=
  option_map snd
    (find (fun kv => String.eqb (toLowerCase (fst kv)) (toLowerCase name))
          (http_headers req)).

Definition is_token_header (kv : string * string) : bool :=
  String.eqb (toLowerCase (fst kv)) "x-pinchbench-token".

(** The callback of [c.req.raw.headers.forEach]. *)
Definition redact (kv : string * string) : string * string :=
  if is_token_header kv then (fst kv, "[REDACTED]") else kv.

Definition client_ip (req : HttpRequest) : string :=
  nullish
    (or_else
       (or_else (header "CF-Connecting-IP" req)
                (option_map (fun v => trim (Register.before_comma v))
                            (header "X-Forwarded-For" req)))
       (Some "unknown"))
    "unknown".

(** The middleware on [/api/*]: every POST is recorded in
    [raw_post_logs]. *)
Definition log_post (now : Z) (req : HttpRequest) (db : DB) : DB :=
  if negb (String.eqb (http_method req) "POST") then db
  else
    set_raw_post_logs db
      (raw_post_logs db ++
       [{| log_method := http_method req;
           log_path := http_path req;
           log_headers := map redact (http_headers req);
           log_body := RawText (http_body req);
           log_ip := client_ip req;
           log_created_at := now |}]).

(** The same request presenting [secret] in its token header. *)
Definition presenting (secret : string) (req : HttpRequest) : HttpRequest :=
  {| http_method := http_method req;
     http_path := http_path req;
     http_headers :=
       map (fun kv => if is_token_header kv then (fst kv, secret) else kv)
           (http_headers req);
     http_body := http_body req |}.

End Logging.

(* ================================================================== *)
(** * Administration: src/routes/admin.ts *)
(* ================================================================== *)

Module Admin.

Import Js.

(** [logAdminAction]; a failure of the insert is swallowed. *)
Definition logAdminAction (now : Z) (email action : string)
  (details : list (string * Js.Value)) (db : DB) : DB :=
  set_raw_post_logs db
    (raw_post_logs db ++
     [{| log_method := "ADMIN";
         log_path := action;
         log_headers := [("admin_email", email)];
         log_body := JsonOf details;
         log_ip := "admin";
         log_created_at := now |}]).

(** The body of [PUT /admin/api/versions/:id]. *)
Record VersionUpdate : Type := {
  upd_current : option bool;
  upd_hidden : option bool
}.

Definition with_current (c : Z) (v : BenchmarkVersionRow) : BenchmarkVersionRow :=
  {| bv_id := bv_id v; bv_created_at := bv_created_at v;
     bv_current := c; bv_hidden := bv_hidden v |}.

Definition with_hidden (h : Z) (v : BenchmarkVersionRow) : BenchmarkVersionRow :=
  {| bv_id := bv_id v; bv_created_at := bv_created_at v;
     bv_current := bv_current v; bv_hidden := h |}.

(** [UPDATE benchmark_versions SET current = 0]. *)
Definition clear_current (db : DB) : DB :=
  set_benchmark_versions db (map (with_current 0) (benchmark_versions db)).

Definition current_where (id : string) (v : BenchmarkVersionRow)
  : BenchmarkVersionRow :=
  if String.eqb (bv_id v) id then with_current 1 v else v.

Definition hidden_where (h : Z) (id : string) (v : BenchmarkVersionRow)
  : BenchmarkVersionRow :=
  if String.eqb (bv_id v) id then with_hidden h v else v.

(** [UPDATE benchmark_versions SET current = 1 WHERE id = ?]. *)
Definition set_current (id : string) (db : DB) : DB :=
  set_benchmark_versions db (map (current_where id) (benchmark_versions db)).

(** [UPDATE benchmark_versions SET hidden = ? WHERE id = ?]. *)
Definition set_hidden (h : Z) (id : string) (db : DB) : DB :=
  set_benchmark_versions db (map (hidden_where h id) (benchmark_versions db)).

(** [admin.put("/api/versions/:id", ...)]. *)
Definition putVersion (now : Z) (email id : string) (upd : VersionUpdate)
  (db : DB) : Response * DB :=
  match find (fun v => String.eqb (bv_id v) id) (benchmark_versions db) with
  | None => (json (ErrorOnly "Version not found") 404, db)
  | Some _ =>
    let db1 :=
      match upd_current upd with
      | Some true =>
        logAdminAction now email "set_current_version"
          [("version_id", Str id)]
          (set_current id (clear_current db))
      | _ => db
      end in
    let db2 :=
      match upd_hidden upd with
      | Some h =>
        logAdminAction now email "toggle_version_hidden"
          [("version_id", Str id); ("hidden", Boolean h)]
          (set_hidden (if h then 1 else 0) id db1)
      | None => db1
      end in
    (json Success 200, db2)
  end.

Definition provider_value (p : option string) : Js.Value :=
  match p with Some s => Str s | None => Null end.

(** [admin.delete("/api/submissions/:id", ...)]. *)
Definition deleteSubmission (now : Z) (email id : string) (db : DB)
  : Response * DB :=
  match find (fun s => String.eqb (sub_id s) id) (submissions db) with
  | None => (json (ErrorOnly "Submission not found") 404, db)
  | Some existing =>
    let db1 := set_submissions db
                 (filter (fun s => negb (String.eqb (sub_id s) id))
                         (submissions db)) in
    (json Success 200,
     logAdminAction now email "delete_submission"
       [("submission_id", Str id); ("model", Str (sub_model existing));
        ("provider", provider_value (sub_provider existing))]
       db1)
  end.

Definition claim_row (id : string) (now : Z) (t : TokenRow) : TokenRow :=
  if String.eqb (tok_id t) id
  then {| tok_id := tok_id t;
          tok_user_id := tok_user_id t;
          tok_token_hash := tok_token_hash t;
          tok_claim_code := None;
          tok_claim_expires_at := None;
          tok_claimed_at := Some now;
          tok_created_at := tok_created_at t;
          tok_last_used_at := tok_last_used_at t |}
  else t.

Definition unclaim_row (id : string) (t : TokenRow) : TokenRow :=
  if String.eqb (tok_id t) id
  then {| tok_id := tok_id t;
          tok_user_id := tok_user_id t;
          tok_token_hash := tok_token_hash t;
          tok_claim_code := tok_claim_code t;
          tok_claim_expires_at := tok_claim_expires_at t;
          tok_claimed_at := None;
          tok_created_at := tok_created_at t;
          tok_last_used_at := tok_last_used_at t |}
  else t.

(** [admin.post("/api/tokens/:id/confirm", ...)]. *)
Definition confirmToken (now : Z) (email id : string) (db : DB)
  : Response * DB :=
  match find (fun t => String.eqb (tok_id t) id) (tokens db) with
  | None => (json (ErrorOnly "Token not found") 404, db)
  | Some existing =>
    match tok_claimed_at existing with
    | Some _ => (json (ErrorOnly "Token already claimed") 400, db)
    | None =>
      (json Success 200,
       logAdminAction now email "confirm_token" [("token_id", Str id)]
         (set_tokens db (map (claim_row id now) (tokens db))))
    end
  end.

(** [admin.post("/api/tokens/:id/unconfirm", ...)]. *)
Definition unconfirmToken (now : Z) (email id : string) (db : DB)
  : Response * DB :=
  match find (fun t => String.eqb (tok_id t) id) (tokens db) with
  | None => (json (ErrorOnly "Token not found") 404, db)
  | Some existing =>
    match tok_claimed_at existing with
    | None => (json (ErrorOnly "Token is not claimed") 400, db)
    | Some _ =>
      (json Success 200,
       logAdminAction now email "unconfirm_token" [("token_id", Str id)]
         (set_tokens db (map (unclaim_row id) (tokens db))))
    end
  end.

(** How the version table after a request stands to the one before: as
    it was; with one new row, not current; with the flag moved to one
    existing row; or with columns other than [id] and [current]
    rewritten. *)
Inductive Evolves (l : list BenchmarkVersionRow)
  : list BenchmarkVersionRow -> Prop :=
| Unchanged : Evolves l l
| VersionRegistered id now :
    ~ In id (map bv_id l) ->
    Evolves l (l ++ [{| bv_id := id; bv_created_at := now; bv_current := 0;
                        bv_hidden := 0 |}])
| MadeCurrent id (f : BenchmarkVersionRow -> BenchmarkVersionRow) :
    In id (map bv_id l) ->
    (forall v, bv_id (f v) = bv_id v) ->
    (forall v, bv_current (f v) = bv_current v) ->
    Evolves l (map f (map (current_where id) (map (with_current 0) l)))
| Relabelled (f : BenchmarkVersionRow -> BenchmarkVersionRow) :
    (forall v, bv_id (f v) = bv_id v) ->
    (forall v, bv_current (f v) = bv_current v) ->
    Evolves l (map f l).

End Admin.

(* ================================================================== *)
(** * The service as a transition system *)
(* ================================================================== *)

(** One request to a handler that can write to the store. *)
Inductive Operation : Type :=
| PostResults (req : Results.Request)
| PostRegister (entropy : Register.Entropy) (req : Register.Request)
| GetSubmission (id : string)
| LogPost (req : Logging.HttpRequest)
| PutVersion (email id : string) (upd : Admin.VersionUpdate)
| DeleteSubmission (email id : string)
| ConfirmToken (email id : string)
| UnconfirmToken (email id : string).

Section Service.

Context {RT : Runtime}.

Definition step (now : Z) (op : Operation) (db : DB) : Response * DB :=
  match op with
  | PostResults req => Results.postResults now req db
  | PostRegister entropy req => Register.postRegister now entropy req db
  | GetSubmission id => (Submissions.getSubmission id db, db)
  | LogPost req => (json Success 200, Logging.log_post now req db)
  | PutVersion email id upd => Admin.putVersion now email id upd db
  | DeleteSubmission email id => Admin.deleteSubmission now email id db
  | ConfirmToken email id => Admin.confirmToken now email id db
  | UnconfirmToken email id => Admin.unconfirmToken now email id db
  end.

(** A run: each operation with the clock reading of its request. *)
Fixpoint run (ops : list (Z * Operation)) (db : DB) : DB :=
  match ops with
  | [] => db
  | (now, op) :: ops' => run ops' (snd (step now op db))
  end.

(** The responses along a run. *)
Fixpoint trace (ops : list (Z * Operation)) (db : DB) : list Response :=
  match ops with
  | [] => []
  | (now, op) :: ops' =>
    fst (step now op db) :: trace ops' (snd (step now op db))
  end.

(** The registrations of a run that come from [ip] no earlier than
    [since]. *)
Definition registration_from (ip : string) (since : Z)
  (step : Z * Operation) : Prop :=
  exists entropy req,
    snd step = PostRegister entropy req /\
    Register.getClientIp req = ip /\ since <= fst step.

(** The submissions of a run that present the token header [header] no
    earlier than [since]. *)
Definition submission_with (header : option string) (since : Z)
  (step : Z * Operation) : Prop :=
  exists req,
    snd step = PostResults req /\
    Results.req_token req = header /\ since <= fst step.

End Service.

(* ================================================================== *)
(** * The validation rules, as the specification words them *)
(* ================================================================== *)

Module Rules.

Import Js.

Inductive Rule : Type :=
| SubmissionIdIsUuid
| TimestampParses
| ModelNonBlank
| TasksNonEmpty
| TotalsWithinMax
| TaskScoresWithinMax.


(** The characters of [s] from position [i] on, [n] of them, satisfy [p]. *)
Definition all_at (p : ascii -> bool) (i n : nat) (s : string) : bool :=
  forallb p (list_ascii_of_string (substring i n s)).

(** The lexical form of a version-4 UUID, by position: 36 characters,
    hyphens at 8, 13, 18 and 23, the digit 4 at 14, one of 8, 9, a, b at
    19, hexadecimal digits elsewhere; letters in either case. *)
Definition uuid_v4_form (s : string) : bool :=
  (String.length s =? 36)%nat
  && all_at Results.is_hex 0 8 s && all_at (Results.is_char "-") 8 1 s
  && all_at Results.is_hex 9 4 s && all_at (Results.is_char "-") 13 1 s
  && all_at (Results.is_char "4") 14 1 s && all_at Results.is_hex 15 3 s
  && all_at (Results.is_char "-") 18 1 s
  && all_at Results.is_variant 19 1 s && all_at Results.is_hex 20 3 s
  && all_at (Results.is_char "-") 23 1 s
  && all_at Results.is_hex 24 12 s.

(** Both members are numeric and the first does not exceed the second. *)
Definition within (score bound : Js.Value) : bool :=
  match score, bound with
  | Number a, Number b => Qle_bool a b
  | _, _ => false
  end.

Section WithRuntime.

Context {RT : Runtime}.

(** [holds r payload]: the payload satisfies rule [r]. *)
Definition holds (r : Rule) (payload : SubmissionPayload) : bool :=
  match r with
  | SubmissionIdIsUuid =>
    match submission_id payload with
    | Some s => uuid_v4_form s
    | None => false
    end
  | TimestampParses =>
    match timestamp payload with
    | Some s => date_parse_finite s
    | None => false
    end
  | ModelNonBlank =>
    match model payload with
    | Some s => negb (is_blank s)
    | None => false
    end
  | TasksNonEmpty =>
    match tasks payload with
    | TaskArray (_ :: _) => true
    | _ => false
    end
  | TotalsWithinMax => within (total_score payload) (max_score payload)
  | TaskScoresWithinMax =>
    match tasks payload with
    | TaskArray l =>
      forallb (fun t => within (task_score t) (task_max_score t)) l
    | NotAnArray => true
    end
  end.

(** The group of checks of the handler that enforces each rule. *)
Definition part_of (r : Rule) : SubmissionPayload -> list string :=
  match r with
  | SubmissionIdIsUuid => Results.submission_id_details
  | TimestampParses => Results.timestamp_details
  | ModelNonBlank => Results.model_details
  | TasksNonEmpty => Results.tasks_details
  | TotalsWithinMax => Results.totals_details
  | TaskScoresWithinMax => Results.task_scores_details
  end.

End WithRuntime.



End Rules.

(* ================================================================== *)
(** * The decoded request body *)
(* ================================================================== *)

Module Body.

Import Js.

(** A number that JSON text denotes: the value of a binary64 number or,
    for a numeral beyond the range, an infinity. *)
Inductive Num : Type :=
| Fin (q : Q)
| Inf (negative : bool).

(** What [await c.req.json()] yields: any JSON value, which the handler
    casts to the declared type of the payload without a check. An object
    is the list of the members of its text, in order. *)
#[warnings="-register-all"]
Inductive Json : Type :=
| JNull
| JBool (b : bool)
| JNumber (x : Num)
| JString (s : string)
| JArray (items : list Json)
| JObject (members : list (string * Json)).

(** The outcome of an evaluation that a [TypeError] can end. *)
Inductive Outcome (A : Type) : Type :=
| Returns (a : A)
| Throws.

Arguments Returns {A} a.
Arguments Throws {A}.

Definition bind {A B : Type} (o : Outcome A) (f : A -> Outcome B) : Outcome B :=
  match o with
  | Returns a => f a
  | Throws => Throws
  end.

(** [v.key] on a value other than [null], for a key that no prototype
    defines: the member of an object, the last one of that name as
    [JSON.parse] has it, and [undefined] ([None]) otherwise. *)
Definition member (key : string) (v : Json) : option Json :=
  match v with
  | JObject members =>
    option_map snd (find (fun kv => String.eqb (fst kv) key) (rev members))
  | _ => None
  end.

(** [!!v]. *)
Definition truthy (v : Json) : bool :=
  match v with
  | JNull => false
  | JBool b => b
  | JNumber (Fin q) => negb (Qeq_bool q 0)
  | JNumber (Inf _) => true
  | JString s => Js.truthy s
  | JArray _ => true
  | JObject _ => true
  end.

(** [typeof m === "number"] and the number then held. *)
Definition is_number (m : option Json) : bool :=
  match m with Some (JNumber _) => true | _ => false end.

Definition number_of (m : option Json) : Num :=
  match m with Some (JNumber x) => x | _ => Fin 0 end.

(** [a > b] on numbers. *)
Definition num_gtb (a b : Num) : bool :=
  match a, b with
  | Fin x, Fin y => gtb x y
  | Fin _, Inf negative => negative
  | Inf negative, Fin _ => negb negative
  | Inf negative, Inf negative' => negb negative && negative'
  end.

(** Whether [ToString] has a method to call all through a value: no
    object in it has a member named [toString]. *)
Fixpoint printable (v : Json) : bool :=
  match v with
  | JArray items => forallb printable items
  | JObject members =>
    negb (existsb (fun kv => String.eqb (fst kv) "toString") members)
  | _ => true
  end.

(** [m ?? ""]. *)
Definition or_empty (m : option Json) : Json :=
  match m with
  | None => JString ""
  | Some JNull => JString ""
  | Some v => v
  end.

Section WithRuntime.

Context {RT : Runtime}.

(** [Number::toString], which the platform provides. *)
Variable number_to_string : Num -> string.

(** The text of a value that has one: an array is its elements joined by
    commas, [null] among them counting as empty. *)
Fixpoint render (v : Json) : string :=
  match v with
  | JNull => "null"
  | JBool true => "true"
  | JBool false => "false"
  | JNumber x => number_to_string x
  | JString s => s
  | JArray items =>
    join "," (map (fun item => match item with
                               | JNull => ""
                               | _ => render item
                               end) items)
  | JObject _ => "[object Object]"
  end.

(** [ToString(v)], which [RegExp.prototype.test] and [Date.parse] apply
    to their argument. An object is converted by the [toString] it
    inherits, unless a member of that name hides it: a JSON value is no
    function, the conversion is left without a method and throws. *)
Definition to_string (v : Json) : Outcome string :=
  if printable v then Returns (render v) else Throws.

(** [isIsoTimestamp(value)]. *)
Definition isIsoTimestamp (value : Json) : Outcome bool :=
  if negb (truthy value) then Returns false
  else bind (to_string value) (fun text => Returns (date_parse_finite text)).

(** ** Validation (results.ts lines 101-139) on the body as decoded *)

Definition submission_id_details (payload : Json) : Outcome (list string) :=
  bind (to_string (or_empty (member "submission_id" payload))) (fun text =>
  Returns (if negb (Results.UUID_V4_REGEX_test text)
           then ["submission_id must be a valid UUID v4"] else [])).

Definition timestamp_details (payload : Json) : Outcome (list string) :=
  bind (isIsoTimestamp (or_empty (member "timestamp" payload))) (fun valid =>
  Returns (if negb valid then ["timestamp must be ISO 8601 format"] else [])).

(** [!payload.model || !payload.model.trim()]: a truthy value other
    than a string has no [trim] to call. *)
Definition model_details (payload : Json) : Outcome (list string) :=
  match member "model" payload with
  | None => Returns ["model is required and must be non-empty"]
  | Some m =>
    if negb (truthy m)
    then Returns ["model is required and must be non-empty"]
    else
      match m with
      | JString s =>
        Returns (if negb (Js.truthy (trim s))
                 then ["model is required and must be non-empty"] else [])
      | _ => Throws
      end
  end.

Definition tasks_details (payload : Json) : list string :=
  match member "tasks" payload with
  | Some (JArray (_ :: _)) => []
  | _ => ["tasks must have at least one entry"]
  end.

Definition totals_details (payload : Json) : list string :=
  let total := member "total_score" payload in
  let bound := member "max_score" payload in
  if negb (is_number total) || negb (is_number bound)
  then ["total_score and max_score must be numbers"]
  else if num_gtb (number_of total) (number_of bound)
  then ["total_score must be less than or equal to max_score"]
  else [].

(** The body of the [forEach] callback: [task.score] throws on [null]. *)
Definition task_details (index : nat) (task : Json) : Outcome (list string) :=
  match task with
  | JNull => Throws
  | _ =>
    let score := member "score" task in
    let bound := member "max_score" task in
    Returns
      (if negb (is_number score) || negb (is_number bound)
       then ["tasks[" ++ string_of_index index ++ "].score and max_score must be numbers"]
       else if num_gtb (number_of score) (number_of bound)
       then ["tasks[" ++ string_of_index index ++ "].score must be between 0 and max_score"]
       else [])
  end.

Fixpoint forEach_task_details (index : nat) (items : list Json)
  : Outcome (list string) :=
  match items with
  | [] => Returns []
  | task :: rest =>
    bind (task_details index task) (fun entries =>
    bind (forEach_task_details (S index) rest) (fun more =>
    Returns (entries ++ more)%list))
  end.

Definition task_scores_details (payload : Json) : Outcome (list string) :=
  match member "tasks" payload with
  | Some (JArray items) => forEach_task_details 0 items
  | _ => Returns []
  end.

(** The [details] array after all the checks, in push order, unless a
    [TypeError] ends the handler first: at the first access to a member
    of [null], in a conversion to a string, at [trim], or inside the
    loop over the tasks. *)
Definition validate (payload : Json) : Outcome (list string) :=
  match payload with
  | JNull => Throws
  | _ =>
    bind (submission_id_details payload) (fun id_entries =>
    bind (timestamp_details payload) (fun timestamp_entries =>
    bind (model_details payload) (fun model_entries =>
    bind (task_scores_details payload) (fun score_entries =>
    Returns (id_entries ++
             timestamp_entries ++
             model_entries ++
             tasks_details payload ++
             totals_details payload ++
             score_entries)%list))))
  end.

(** The group of checks that enforces each rule. *)
Definition part_of (r : Rules.Rule) (payload : Json) : Outcome (list string) :=
  match r with
  | Rules.SubmissionIdIsUuid => submission_id_details payload
  | Rules.TimestampParses => timestamp_details payload
  | Rules.ModelNonBlank => model_details payload
  | Rules.TasksNonEmpty => Returns (tasks_details payload)
  | Rules.TotalsWithinMax => Returns (totals_details payload)
  | Rules.TaskScoresWithinMax => task_scores_details payload
  end.


End WithRuntime.

(** ** The body under its declared type

    [payload = (await c.req.json()) as SubmissionPayload]: the typed
    payload shows the members that validation reads as the declaration
    has them. *)

(** A member declared [string], possibly absent. *)
Definition as_text (m : option Json) (o : option string) : Prop :=
  match m, o with
  | None, None => True
  | Some JNull, None => True
  | Some (JString s), Some s' => s = s'
  | _, _ => False
  end.

(** A member that the handler tests with [typeof]; the typed payload
    has the finite numbers. *)
Definition as_value (m : option Json) : option Js.Value :=
  match m with
  | None => Some Undefined
  | Some JNull => Some Null
  | Some (JBool b) => Some (Boolean b)
  | Some (JNumber (Fin q)) => Some (Number q)
  | Some (JNumber (Inf _)) => None
  | Some (JString s) => Some (Str s)
  | Some _ => Some Other
  end.

Definition as_task (item : Json) (task : SubmissionTask) : Prop :=
  item <> JNull /\
  as_value (member "score" item) = Some (task_score task) /\
  as_value (member "max_score" item) = Some (task_max_score task).

Definition as_tasks (m : option Json) (t : TasksField) : Prop :=
  match m, t with
  | Some (JArray items), TaskArray tasks => Forall2 as_task items tasks
  | Some (JArray _), NotAnArray => False
  | _, NotAnArray => True
  | _, TaskArray _ => False
  end.

Record typed (payload : Json) (p : SubmissionPayload) : Prop := {
  typed_body : payload <> JNull;
  typed_submission_id : as_text (member "submission_id" payload) (submission_id p);
  typed_timestamp : as_text (member "timestamp" payload) (timestamp p);
  typed_model : as_text (member "model" payload) (model p);
  typed_total_score :
    as_value (member "total_score" payload) = Some (total_score p);
  typed_max_score :
    as_value (member "max_score" payload) = Some (max_score p);
  typed_tasks : as_tasks (member "tasks" payload) (tasks p)
}.

(** ** The rules on a body, as the specification words them *)

(** A member that is a string with the property [p]. *)
Definition text_with (p : string -> bool) (m : option Json) : bool :=
  match m with
  | Some (JString s) => p s
  | _ => false
  end.

(** [a <= b] on numbers. *)
Definition num_leb (a b : Num) : bool :=
  match a, b with
  | Fin x, Fin y => Qle_bool x y
  | Fin _, Inf negative => negb negative
  | Inf negative, Fin _ => negative
  | Inf negative, Inf negative' => negative || negb negative'
  end.

(** Both members are numbers and the first does not exceed the second. *)
Definition within (score bound : option Json) : bool :=
  match score, bound with
  | Some (JNumber a), Some (JNumber b) => num_leb a b
  | _, _ => false
  end.

(** [holds r payload]: the body satisfies rule [r]. *)
Definition holds {RT : Runtime} (r : Rules.Rule) (payload : Json) : bool :=
  match r with
  | Rules.SubmissionIdIsUuid =>
    text_with Rules.uuid_v4_form (member "submission_id" payload)
  | Rules.TimestampParses =>
    text_with date_parse_finite (member "timestamp" payload)
  | Rules.ModelNonBlank =>
    text_with (fun s => negb (is_blank s)) (member "model" payload)
  | Rules.TasksNonEmpty =>
    match member "tasks" payload with
    | Some (JArray (_ :: _)) => true
    | _ => false
    end
  | Rules.TotalsWithinMax =>
    within (member "total_score" payload) (member "max_score" payload)
  | Rules.TaskScoresWithinMax =>
    match member "tasks" payload with
    | Some (JArray items) =>
      forallb (fun task => within (member "score" task) (member "max_score" task))
              items
    | _ => true
    end
  end.




End Body.

(* ================================================================== *)
(** * Sample data *)
(* ================================================================== *)

Module Sample.

(** A platform to evaluate the handlers on: dates are the strings that
    start with a digit, the digest tags its input, and a URL is secure
    when it starts with the scheme. *)
#[export] Instance runtime : Runtime :=
  {| date_parse_finite := fun s =>
       match s with
       | String c _ => Results.in_range 48 57 c
       | EmptyString => false
       end;
     date_parse_empty := eq_refl;
     hashToken := fun s => "sha256:" ++ s;
     ensureHttps := fun s => prefix "https:" s |}.

Definition task (score bound : Q) : SubmissionTask :=
  {| task_id := "task"; task_score := Js.Number score;
     task_max_score := Js.Number bound |}.

(** A well-formed payload with the given identifier and totals. *)
Definition payload (id : string) (total bound : Js.Value) : SubmissionPayload :=
  {| submission_id := Some id;
     timestamp := Some "2026-02-13T10:00:00Z";
     client_version := None;
     model := Some "gpt-x";
     provider := None;
     run_id := None;
     openclaw_version := None;
     benchmark_version := Some "v7";
     total_score := total;
     max_score := bound;
     total_execution_time_seconds := None;
     total_cost_usd := None;
     input_tokens := None;
     output_tokens := None;
     total_tokens := None;
     tasks := TaskArray [task 80 100];
     usage_summary := None;
     metadata := None |}.

Definition id_a : string := "b1f7c0de-1234-4abc-8def-0123456789ab".
Definition id_b : string := "b1f7c0de-1234-4abc-8def-0123456789ac".
Definition id_c : string := "b1f7c0de-1234-4abc-8def-0123456789ad".

Definition token_row : TokenRow :=
  {| tok_id := "tok-1";
     tok_user_id := None;
     tok_token_hash := "sha256:pb_live_0102";
     tok_claim_code := Some "0708090a0b0c";
     tok_claim_expires_at := Some 87400;
     tok_claimed_at := None;
     tok_created_at := 1000;
     tok_last_used_at := None |}.

(** A stored submission with the given identifier and score. *)
Definition row (id : string) (score : Q) (created : Z) : SubmissionRow :=
  Results.new_submission_row "tok-1" created
    (payload id (Js.Number score) (Js.Number 1)).

Definition db_with (rows : list SubmissionRow) : DB :=
  {| tokens := [token_row];
     token_registration_limits := [];
     submissions := rows;
     benchmark_versions := [];
     raw_post_logs := [] |}.

(** A POST /api/results carrying [p] under the sample token. *)
Definition request (p : SubmissionPayload) : Results.Request :=
  {| Results.req_url := "https://api.pinchbench.com/api/results";
     Results.req_content_type := Some "application/json";
     Results.req_token := Some "pb_live_0102";
     Results.req_content_length := Some 512;
     Results.req_json := Some p |}.

(** A store holding one submission, scored 4/5. *)
Definition db_one : DB := db_with [row id_a (4 # 5) 1500].

(** A retry of that submission whose payload would score 1/2. *)
Definition retry_request : Results.Request :=
  request (payload id_a (Js.Number 1) (Js.Number 2)).

(** A first submission of another identifier, scoring 80 of 100. *)
Definition new_request : Results.Request :=
  request (payload id_b (Js.Number 80) (Js.Number 100)).

(** A payload whose total exceeds its maximum. *)
Definition invalid_request : Results.Request :=
  request (payload id_b (Js.Number 101) (Js.Number 100)).

(** A payload that breaks three rules: the identifier is a version-1
    UUID, the total exceeds the maximum, and so does the score of the
    second task. *)
Definition broken_payload : SubmissionPayload :=
  {| submission_id := Some "b1f7c0de-1234-1abc-8def-0123456789ab";
     timestamp := Some "2026-02-13T10:00:00Z";
     client_version := None;
     model := Some "gpt-x";
     provider := None;
     run_id := None;
     openclaw_version := None;
     benchmark_version := None;
     total_score := Js.Number 120;
     max_score := Js.Number 100;
     total_execution_time_seconds := None;
     total_cost_usd := None;
     input_tokens := None;
     output_tokens := None;
     total_tokens := None;
     tasks := TaskArray [task 80 100; task 40 20];
     usage_summary := None;
     metadata := None |}.


(** Two submissions tied at 9/10 above one at 1/2. *)
Definition tied_db : DB :=
  db_with [row id_a (9 # 10) 1500; row id_b (9 # 10) 1600; row id_c (1 # 2) 1700].

(** Three submissions with one best, at 9/10. *)
Definition ranked_db : DB :=
  db_with [row id_a (9 # 10) 1500; row id_b (1 # 2) 1600; row id_c (1 # 4) 1700].

(** Two submissions tied at 1/2. *)
Definition pair_db : DB :=
  db_with [row id_a (1 # 2) 1500; row id_b (1 # 2) 1600].

Definition register_request : Register.Request :=
  {| Register.req_url := "https://api.pinchbench.com/api/register";
     Register.req_content_type := Some "application/json";
     Register.req_cf_connecting_ip := Some "203.0.113.7";
     Register.req_x_forwarded_for := None |}.

Definition entropy (n : Z) : Register.Entropy :=
  {| Register.token_random := [n; 2; 3; 4];
     Register.claim_random := [7; 8; 9; 10; 11; 12];
     Register.randomUUID := "tok-" ++ Js.string_of_index (Z.to_nat n) |}.

Definition version (id : string) (current : Z) : BenchmarkVersionRow :=
  {| bv_id := id; bv_created_at := 500; bv_current := current; bv_hidden := 0 |}.

(** A store whose current version is v9. *)
Definition db_v9 : DB :=
  set_benchmark_versions db_one [version "v3" 0; version "v9" 1].

Definition query (v : option string) : Scope.Query :=
  {| Scope.q_version := v; Scope.q_benchmark_version := None |}.

(** An administrator makes v3 current, then a submission arrives that
    names the unseen version v7. *)
Definition version_run : list (Z * Operation) :=
  [(1900, PutVersion "ops@pinchbench.com" "v3"
            {| Admin.upd_current := Some true; Admin.upd_hidden := None |});
   (2000, PostResults new_request)].

(** A registration whose secret is drawn from [secret_bytes]. *)
Definition entropy_of (secret_bytes : list Z) : Register.Entropy :=
  {| Register.token_random := secret_bytes;
     Register.claim_random := [7; 8; 9; 10; 11; 12];
     Register.randomUUID := "tok-2" |}.

(** A digest that tells no two secrets apart. *)
Definition blind_digest (s : string) : string := "digest".

(** Ten registrations from the sample address, one a second. *)
Definition ten_registrations : list (Z * Operation) :=
  map (fun n => (1000 + n, PostRegister (entropy n) register_request))
      [1; 2; 3; 4; 5; 6; 7; 8; 9; 10].

End Sample.

(* ================================================================== *)
(** * Sample bodies *)
(* ================================================================== *)

Module BodyFixtures.

Import Body.

(** A rendering of numbers to evaluate with: the decimal numeral of the
    integral part, which is all that the samples hold. *)
Definition render (x : Num) : string :=
  match x with
  | Fin q => Js.string_of_index (Z.to_nat (Qfloor q))
  | Inf negative => if negative then "-Infinity" else "Infinity"
  end.

(** A finite number. *)
Definition number (q : Q) : Json := JNumber (Fin q).

Definition task (score bound : Json) : Json :=
  JObject [("task_id", JString "task"); ("score", score); ("max_score", bound)].

(** The body of a submission with the given model, totals and tasks. *)
Definition body (id model total bound : Json) (tasks : list Json) : Json :=
  JObject [("submission_id", id);
           ("timestamp", JString "2026-02-13T10:00:00Z");
           ("model", model);
           ("benchmark_version", JString "v7");
           ("total_score", total);
           ("max_score", bound);
           ("tasks", JArray tasks)].

(** A well-formed body: the sample payload as JSON. *)
Definition well_formed : Json :=
  body (JString Sample.id_b) (JString "gpt-x") (number 80) (number 100)
       [task (number 80) (number 100)].




(** A body whose identifier is an array holding a version-4 UUID, and
    whose timestamp is a number. *)
Definition coerced : Json :=
  JObject [("submission_id", JArray [JString Sample.id_b]);
           ("timestamp", number 2026);
           ("model", JString "gpt-x");
           ("total_score", number 80);
           ("max_score", number 100);
           ("tasks", JArray [task (number 80) (number 100)])].

(** A model name of nothing but a no-break space (U+00A0) and a line
    separator (U+2028). *)
Definition blank_model : string :=
  String (ascii_of_nat 194) (String (ascii_of_nat 160)
    (String (ascii_of_nat 226) (String (ascii_of_nat 128)
      (String (ascii_of_nat 168) "")))).

End BodyFixtures.

(** A store of 160 submissions: the sample one and 136 more at 1/2, and
    23 at 1/4. *)
Module PercentileFixtures.

Definition filler (score : Q) (n : nat) : SubmissionRow :=
  Sample.row ("row-" ++ Js.string_of_index n) score 1500.

Definition crowd : DB :=
  Sample.db_with
    (Sample.row Sample.id_a (1 # 2) 1500
     :: map (filler (1 # 2)) (seq 1 136) ++ map (filler (1 # 4)) (seq 137 23)).

End PercentileFixtures.

(* ================================================================== *)
(** * Reading hexadecimal back *)
(* ================================================================== *)

Module Hex.

(** The value of a lower-case hexadecimal digit. *)
Definition digit_value (c : ascii) : option Z :=
  let n := nat_of_ascii c in
  if ((48 <=? n) && (n <=? 57))%nat then Some (Z.of_nat n - 48)
  else if ((97 <=? n) && (n <=? 102))%nat then Some (Z.of_nat n - 87)
  else None.

(** The bytes a string of hexadecimal digit pairs stands for; the inverse
    of [Security.bytesToHex], which the service itself never needs. *)
Fixpoint hexToBytes (s : string) : option (list Z) :=
  match s with
  | EmptyString => Some []
  | String hi (String lo rest) =>
    match digit_value hi, digit_value lo, hexToBytes rest with
    | Some h, Some l, Some bytes => Some (16 * h + l :: bytes)
    | _, _, _ => None
    end
  | String _ EmptyString => None
  end.

(** An element of a [Uint8Array]. *)
Definition is_byte (b : Z) : Prop := 0 <= b < 256.

(** A character the service writes in hexadecimal. *)
Definition is_lower_hex (c : ascii) : bool :=
  Results.in_range 48 57 c || Results.in_range 97 102 c.

End Hex.

(* ================================================================== *)
(** * Well-formed stores and requests *)
(* ================================================================== *)

Module Store.

(** The key constraints of schema.sql: [tokens.id], [tokens.token_hash],
    [submissions.id] and [benchmark_versions.id] hold no value twice. *)
Record well_formed (db : DB) : Prop := {
  wf_token_ids : NoDup (map tok_id (tokens db));
  wf_token_hashes : NoDup (map tok_token_hash (tokens db));
  wf_submission_ids : NoDup (map sub_id (submissions db));
  wf_version_ids : NoDup (map bv_id (benchmark_versions db))
}.

(** A POST /api/results that gets past the checks on the transport: HTTPS
    or localhost, a JSON content type, a body of at most 1 MB that
    decodes to [payload]. *)
Definition transports {RT : Runtime} (req : Results.Request)
  (payload : SubmissionPayload) : Prop :=
  negb (ensureHttps (Results.req_url req))
    && negb (Js.includes (Results.req_url req) "localhost") = false /\
  (exists ct, Results.req_content_type req = Some ct /\
              Js.includes (Js.toLowerCase ct) "application/json" = true) /\
  match Results.req_content_length req with
  | Some n => n <= 1024 * 1024
  | None => True
  end /\
  Results.req_json req = Some payload.

End Store.
(* ================================================================== *)
(** * More sample data *)
(* ================================================================== *)

Module Fixtures.

(** Sixteen bytes for a secret, ending in [n]. *)
Definition secret_bytes (n : Z) : list Z :=
  [222; 173; 190; 239; 0; 1; 2; 3; 4; 5; 6; 7; 8; 9; 10; n].

(** The random values of the [n]-th registration. *)
Definition entropy (n : Z) : Register.Entropy :=
  {| Register.token_random := secret_bytes n;
     Register.claim_random := [7; 8; 9; 10; 11; n];
     Register.randomUUID := "token-" ++ Js.string_of_index (Z.to_nat n) |}.

(** A registration that carries no address header. *)
Definition anonymous_registration : Register.Request :=
  {| Register.req_url := "https://api.pinchbench.com/api/register";
     Register.req_content_type := Some "application/json";
     Register.req_cf_connecting_ip := None;
     Register.req_x_forwarded_for := Some " , 198.51.100.4" |}.

(** Ten registrations without an address, one a minute. *)
Definition ten_anonymous : list (Z * Operation) :=
  map (fun n => (1000 + 60 * n, PostRegister (entropy n) anonymous_registration))
      [1; 2; 3; 4; 5; 6; 7; 8; 9; 10].

(** A POST /api/results that presents [header] as its token. *)
Definition submit_with (header : string) : Results.Request :=
  {| Results.req_url := "https://api.pinchbench.com/api/results";
     Results.req_content_type := Some "application/json; charset=utf-8";
     Results.req_token := Some header;
     Results.req_content_length := None;
     Results.req_json :=
       Some (Sample.payload Sample.id_b (Js.Number 80) (Js.Number 100)) |}.

End Fixtures.

(* ================================================================== *)
(** * Further libraries: sorting, permutations, decimal numerals *)
(* ================================================================== *)

From Stdlib Require Import Permutation Sorted DecimalNat.

(* ================================================================== *)
(** * Scheduled maintenance: src/index.ts *)
(* ================================================================== *)

Module Maintenance.

Definition RETENTION_DAYS : Z := 30.

(** The [scheduled] handler:
    [DELETE FROM raw_post_logs WHERE created_at < datetime('now', '-30 days')]. *)
Definition scheduled (now : Z) (db : DB) : DB :=
  set_raw_post_logs db
    (filter (fun r => negb (log_created_at r
                              <? now - RETENTION_DAYS * Results.seconds_per_day))
            (raw_post_logs db)).

(** Two stores that differ at most in [raw_post_logs]. *)
Definition same_tables (db db' : DB) : Prop :=
  tokens db = tokens db' /\
  token_registration_limits db = token_registration_limits db' /\
  submissions db = submissions db' /\
  benchmark_versions db = benchmark_versions db'.

End Maintenance.

(** The administrator on whose behalf an operation runs. *)
Definition admin_email (op : Operation) : option string :=
  match op with
  | PutVersion email _ _ => Some email
  | DeleteSubmission email _ => Some email
  | ConfirmToken email _ => Some email
  | UnconfirmToken email _ => Some email
  | _ => None
  end.
(* ================================================================== *)
(** * Public benchmark versions: src/routes/benchmarkVersions.ts *)
(* ================================================================== *)

Module Versions.

(** An element of [versions] in the response, or its [version]. *)
Record VersionEntry : Type := {
  ve_id : string;
  ve_created_at : Z;
  ve_is_current : bool;
  ve_submission_count : Z
}.

(** [SELECT COUNT( * ) as count FROM submissions WHERE benchmark_version = ?]. *)
Definition submission_count (id : string) (db : DB) : Z :=
  Z.of_nat (List.length
    (filter (fun s => match sub_benchmark_version s with
                      | Some v => String.eqb v id
                      | None => false
                      end)
            (submissions db))).

(** [ORDER BY created_at DESC]: rows of equal [created_at] stay in the
    order of the table (SQL leaves their order open). *)
Fixpoint insert_desc (v : BenchmarkVersionRow) (l : list BenchmarkVersionRow)
  : list BenchmarkVersionRow :=
  match l with
  | [] => [v]
  | w :: l' =>
    if bv_created_at w <=? bv_created_at v then v :: w :: l'
    else w :: insert_desc v l'
  end.

Definition order_by_created_at_desc (l : list BenchmarkVersionRow)
  : list BenchmarkVersionRow :=
  fold_right insert_desc [] l.

(** The callback of [versions.results.map] (lines 28-41). *)
Definition entry (db : DB) (version : BenchmarkVersionRow) : VersionEntry :=
  {| ve_id := bv_id version;
     ve_created_at := bv_created_at version;
     ve_is_current := bv_current version =? 1;
     ve_submission_count := submission_count (bv_id version) db |}.

(** [app.get("/api/benchmark_versions", ...)]: the [versions] member. *)
Definition listVersions (db : DB) : list VersionEntry :=
  map (entry db)
      (order_by_created_at_desc
         (filter (fun v => bv_hidden v =? 0) (benchmark_versions db))).

(** The body of the answer of [/api/benchmark_versions/latest]. *)
Inductive LatestBody : Type :=
| NoVersion (error message : string)
| Version (version : VersionEntry).

(** [app.get("/api/benchmark_versions/latest", ...)]: status and body. *)
Definition latest (db : DB) : Z * LatestBody :=
  match order_by_created_at_desc
          (filter (fun v => (bv_current v =? 1) && (bv_hidden v =? 0))
                  (benchmark_versions db)) with
  | [] => (404, NoVersion "not_found" "No current benchmark version found")
  | currentVersion :: _ =>
    (200, Version {| ve_id := bv_id currentVersion;
                     ve_created_at := bv_created_at currentVersion;
                     ve_is_current := true;
                     ve_submission_count :=
                       submission_count (bv_id currentVersion) db |})
  end.

(** A request that names no version. *)
Definition no_version : Scope.Query :=
  {| Scope.q_version := None; Scope.q_benchmark_version := None |}.

End Versions.
(* ================================================================== *)
(** * Administrator authentication: utils/adminAuth.ts *)
(* ================================================================== *)

Module AdminAuth.

Import Js.

(** The members of the token's payload that the code reads; a member the
    JSON text lacks is [None]. *)
Record JWTPayload : Type := {
  jwt_aud : option (list string);
  jwt_email : option string;
  jwt_exp : option Q;
  jwt_iat : option Q;
  jwt_iss : option string;
  jwt_sub : option string
}.

Record JWTHeader : Type := {
  jwt_alg : option string;
  jwt_kid : option string
}.

(** A key of the key set: its [kid], if it has one, and the key
    material. *)
Record JWK : Type := {
  jwk_kid : option string;
  jwk_material : string
}.

Definition JWKS : Type := list JWK.

(** What the runtime provides: [atob], [JSON.parse] of the two JSON
    parts, [crypto.subtle.importKey] and [crypto.subtle.verify]; [None]
    where the call throws. *)
Class Platform : Type := {
  atob : string -> option string;
  parse_header : string -> option JWTHeader;
  parse_payload : string -> option JWTPayload;
  CryptoKey : Type;
  importKey : JWK -> option CryptoKey;
  verify : CryptoKey -> string -> string -> option bool
}.

(** The answer of [fetch] to the request for the certificates: the call
    rejects, or there is a response with [ok], [status] and the outcome
    of [response.json()]. *)
Inductive FetchResult : Type :=
| Rejected
| Responded (ok : bool) (status : Z) (json : option JWKS).

(** The errors thrown: the message of the source, or an exception of the
    runtime. *)
Inductive Error : Type :=
| InvalidJWTFormat
| TokenExpired
| TokenIssuedInTheFuture
| InvalidAudience
| InvalidIssuer
| KeyNotFoundInJWKS
| InvalidSignature
| FailedToFetchJWKS (status : Z)
| Raised.

Inductive Outcome (A : Type) : Type :=
| Throws (e : Error)
| Returns (a : A).

Arguments Throws {A} e.
Arguments Returns {A} a.

(** The module-level variables [jwksCache] and [jwksCacheTime]. *)
Record Cache : Type := {
  jwksCache : option JWKS;
  jwksCacheTime : Z
}.

Definition initial_cache : Cache := {| jwksCache := None; jwksCacheTime := 0 |}.

Definition JWKS_CACHE_DURATION : Z := 600000.

Definition certs_url (teamDomain : string) : string :=
  "https://" ++ teamDomain ++ "/cdn-cgi/access/certs".

(** [getJWKS]; [now] is its reading of [Date.now()]. *)
Definition getJWKS (now : Z) (fetch : string -> FetchResult)
  (teamDomain : string) (cache : Cache) : Outcome JWKS * Cache :=
  let refetch :=
    match fetch (certs_url teamDomain) with
    | Rejected => (Throws Raised, cache)
    | Responded ok status body =>
      if negb ok then (Throws (FailedToFetchJWKS status), cache)
      else
        match body with
        | None => (Throws Raised, cache)
        | Some jwks =>
          (Returns jwks, {| jwksCache := Some jwks; jwksCacheTime := now |})
        end
    end in
  match jwksCache cache with
  | Some jwks =>
    if now - jwksCacheTime cache <? JWKS_CACHE_DURATION
    then (Returns jwks, cache)
    else refetch
  | None => refetch
  end.

(** [str.replace(/x/g, y)] for single characters. *)
Fixpoint replace_char (x y : ascii) (str : string) : string :=
  match str with
  | EmptyString => EmptyString
  | String c str' =>
    String (if Ascii.eqb c x then y else c) (replace_char x y str')
  end.

(** [while (str.length % 4) { str += "=" }], for at most [rounds]
    rounds. *)
Fixpoint pad (rounds : nat) (str : string) : option string :=
  if (String.length str mod 4 =? 0)%nat then Some str
  else match rounds with
       | O => None
       | S rounds' => pad rounds' (str ++ "=")
       end.

Section WithPlatform.

Context {PF : Platform}.

(** [base64UrlDecode]; three rounds of padding always suffice. *)
Definition base64UrlDecode (str : string) : option string :=
  match pad 3 (replace_char "_" "/" (replace_char "-" "+" str)) with
  | Some padded => atob padded
  | None => None
  end.

(** [token.split(".")]. *)
Fixpoint split_dots (token : string) : list string :=
  match token with
  | EmptyString => [EmptyString]
  | String c token' =>
    if Ascii.eqb c "." then EmptyString :: split_dots token'
    else match split_dots token' with
         | part :: parts => String c part :: parts
         | [] => [String c EmptyString]
         end
  end.

(** A part of the token: a string without a dot. *)
Definition dot_free (part : string) : bool :=
  forallb (fun c => negb (Ascii.eqb c ".")) (list_ascii_of_string part).

(** Truthiness of [number | undefined]. *)
Definition truthy_number (o : option Q) : bool :=
  match o with
  | Some q => negb (Qeq_bool q 0)
  | None => false
  end.

(** [k.kid === header.kid], either side possibly [undefined]. *)
Definition same_kid (a b : option string) : bool :=
  match a, b with
  | Some x, Some y => String.eqb x y
  | None, None => true
  | _, _ => false
  end.

(** Lines 91-111: the checks on the claims. *)
Definition check_claims (now : Z) (payload : JWTPayload)
  (teamDomain expectedAud : string) : option Error :=
  if truthy_number (jwt_exp payload)
     && ltb (nullish (jwt_exp payload) 0%Q) (inject_Z now)
  then Some TokenExpired
  else if truthy_number (jwt_iat payload)
          && gtb (nullish (jwt_iat payload) 0%Q) (inject_Z (now + 60))
  then Some TokenIssuedInTheFuture
  else if match jwt_aud payload with
          | Some aud => negb (existsb (String.eqb expectedAud) aud)
          | None => true
          end
  then Some InvalidAudience
  else if match jwt_iss payload with
          | Some iss => negb (String.eqb iss ("https://" ++ teamDomain))
          | None => true
          end
  then Some InvalidIssuer
  else None.

(** Lines 113-145: the check of the signature against the key set. *)
Definition check_signature (jwks : JWKS) (header : JWTHeader)
  (headerB64 payloadB64 signatureB64 : string) : option Error :=
  match find (fun k => same_kid (jwk_kid k) (jwt_kid header)) jwks with
  | None => Some KeyNotFoundInJWKS
  | Some key =>
    match importKey key with
    | None => Some Raised
    | Some cryptoKey =>
      match base64UrlDecode signatureB64 with
      | None => Some Raised
      | Some signature =>
        match verify cryptoKey signature (headerB64 ++ "." ++ payloadB64) with
        | None => Some Raised
        | Some valid => if negb valid then Some InvalidSignature else None
        end
      end
    end
  end.

(** [verifyAccessJWT]; [now_ms] and [jwks_now_ms] are the readings of
    [Date.now()] in the function and in [getJWKS]. *)
Definition verifyAccessJWT (now_ms jwks_now_ms : Z)
  (fetch : string -> FetchResult) (token teamDomain expectedAud : string)
  (cache : Cache) : Outcome JWTPayload * Cache :=
  match split_dots token with
  | [headerB64; payloadB64; signatureB64] =>
    match base64UrlDecode headerB64 with
    | None => (Throws Raised, cache)
    | Some headerText =>
      match parse_header headerText with
      | None => (Throws Raised, cache)
      | Some header =>
        match base64UrlDecode payloadB64 with
        | None => (Throws Raised, cache)
        | Some payloadText =>
          match parse_payload payloadText with
          | None => (Throws Raised, cache)
          | Some payload =>
            match check_claims (now_ms / 1000) payload teamDomain expectedAud with
            | Some e => (Throws e, cache)
            | None =>
              match getJWKS jwks_now_ms fetch teamDomain cache with
              | (Throws e, cache') => (Throws e, cache')
              | (Returns jwks, cache') =>
                match check_signature jwks header headerB64 payloadB64
                        signatureB64 with
                | Some e => (Throws e, cache')
                | None => (Returns payload, cache')
                end
              end
            end
          end
        end
      end
    end
  | _ => (Throws InvalidJWTFormat, cache)
  end.

(** The variables of the environment the middleware reads. *)
Record Env : Type := {
  CF_ACCESS_BYPASS : option string;
  CF_ACCESS_TEAM_DOMAIN : option string;
  CF_ACCESS_AUD : option string
}.

(** The value set under [adminUser]. *)
Record AdminUser : Type := {
  user_email : option string;
  user_sub : option string
}.

(** What the middleware does: it calls [next()] with [adminUser] set, or
    answers itself. *)
Inductive Admission : Type :=
| Next (adminUser : AdminUser)
| Answer (resp : Response).

(** [adminAuthMiddleware]; [assertion] is the header
    [CF-Access-JWT-Assertion]. *)
Definition adminAuthMiddleware (env : Env) (assertion : option string)
  (now_ms jwks_now_ms : Z) (fetch : string -> FetchResult) (cache : Cache)
  : Admission * Cache :=
  if match CF_ACCESS_BYPASS env with
     | Some flag => String.eqb flag "true"
     | None => false
     end
  then (Next {| user_email := Some "dev@localhost"; user_sub := Some "dev" |},
        cache)
  else
    if negb (truthy_opt (CF_ACCESS_TEAM_DOMAIN env))
       || negb (truthy_opt (CF_ACCESS_AUD env))
    then (Answer (json (ErrorOnly "Admin authentication not configured") 500),
          cache)
    else
      if negb (truthy_opt assertion)
      then (Answer (json (ErrorOnly "Unauthorized - No access token provided") 401),
            cache)
      else
        match verifyAccessJWT now_ms jwks_now_ms fetch
                (nullish assertion "")
                (nullish (CF_ACCESS_TEAM_DOMAIN env) "")
                (nullish (CF_ACCESS_AUD env) "") cache with
        | (Returns payload, cache') =>
          (Next {| user_email := jwt_email payload; user_sub := jwt_sub payload |},
           cache')
        | (Throws _, cache') =>
          (Answer (json (ErrorOnly "Unauthorized - Invalid access token") 401),
           cache')
        end.

(** [user?.email ?? "unknown"] in the handlers of admin.ts. *)
Definition acting_email (user : AdminUser) : string :=
  nullish (user_email user) "unknown".

(** [admin.use("*", adminAuthMiddleware)]: a handler behind the
    middleware. *)
Definition guarded (admission : Admission)
  (handler : string -> DB -> Response * DB) (db : DB) : Response * DB :=
  match admission with
  | Next adminUser => handler (acting_email adminUser) db
  | Answer resp => (resp, db)
  end.

End WithPlatform.

End AdminAuth.
(* ================================================================== *)
(** * The statements of the listing routes: src/routes/submissions.ts,
      leaderboard.ts and providers.ts *)
(* ================================================================== *)

Module Listing.

Import Js.

(** A Number with an integral value, or an infinity. *)
Inductive Integral : Type :=
| Finite (n : Z)
| PlusInfinity
| MinusInfinity.

(** An integer stands for the Number of that value, also under [Some]. *)
Coercion Finite : Z >-> Integral.
Arguments Some {A} & a.

(** A JavaScript number that [parseInt] can yield: integral or infinite,
    or [NaN] ([None]). *)
Definition JsInt : Type := option Integral.

(** A value bound to a placeholder. *)
Inductive Binding : Type :=
| Text (s : string)
| Num (n : JsInt).

(** A statement and the values bound to it. *)
Definition Bound : Type := (string * list Binding)%type.

(** The number of [?] in a statement. *)
Fixpoint placeholders (sql : string) : nat :=
  match sql with
  | EmptyString => O
  | String c sql' =>
    if Ascii.eqb c "?" then S (placeholders sql') else placeholders sql'
  end.

Definition decimal_digit (c : ascii) : option Z :=
  let n := nat_of_ascii c in
  if ((48 <=? n) && (n <=? 57))%nat then Some (Z.of_nat n - 48) else None.

(** The value of the longest prefix of decimal digits, read after [acc];
    [None] when there is no digit at all. *)
Fixpoint digits (acc : option Z) (s : string) : option Z :=
  match s with
  | EmptyString => acc
  | String c s' =>
    match decimal_digit c with
    | Some d => digits (Some (10 * nullish acc 0 + d)) s'
    | None => acc
    end
  end.

(** The Number value of a mathematical integer: the nearest binary64
    number, which is an integer, and an infinity from [2^1024] on. *)
Definition number_of_Z (z : Z) : Integral :=
  let d := double (inject_Z z) in
  if Qle_bool (2 ^ 1024) (Qabs d)
  then if z <? 0 then MinusInfinity else PlusInfinity
  else Finite (Qfloor d).

(** [parseInt(s, 10)]: leading whitespace, a sign, then as many digits
    as there are, and the Number value of the signed integer they
    spell; [NaN] without a digit. (ECMAScript lets an implementation
    read the digits after the twentieth as zeros; V8 rounds the exact
    value, as here.) *)
Definition parseInt (s : string) : JsInt :=
  match drop_whitespace (list_ascii_of_string s) with
  | "-"%char :: rest =>
    option_map (fun v => number_of_Z (- v)) (digits None (string_of_list_ascii rest))
  | "+"%char :: rest =>
    option_map number_of_Z (digits None (string_of_list_ascii rest))
  | rest => option_map number_of_Z (digits None (string_of_list_ascii rest))
  end.

(** [Math.max(a, x)] and [Math.min(x, b)]: [NaN] stays [NaN]. *)
Definition math_max (a : Z) (x : JsInt) : JsInt :=
  match x with
  | None => None
  | Some (Finite n) => Some (Finite (Z.max a n))
  | Some PlusInfinity => Some PlusInfinity
  | Some MinusInfinity => Some (Finite a)
  end.

Definition math_min (x : JsInt) (b : Z) : JsInt :=
  match x with
  | None => None
  | Some (Finite n) => Some (Finite (Z.min n b))
  | Some PlusInfinity => Some (Finite b)
  | Some MinusInfinity => Some MinusInfinity
  end.

(** [Math.min(Math.max(1, parseInt(param ?? default, 10)), most)]. *)
Definition page_limit (default : string) (most : Z) (param : option string)
  : JsInt :=
  math_min (math_max 1 (parseInt (nullish param default))) most.

(** [Math.max(0, parseInt(param ?? "0", 10))]. *)
Definition page_offset (param : option string) : JsInt :=
  math_max 0 (parseInt (nullish param "0")).

(** [query += sql; bindings.push(...values)]. *)
Definition push (sql : string) (values : list Binding) (st : Bound) : Bound :=
  (fst st ++ sql, (snd st ++ values)%list).

(** [versions.map(() => "?").join(", ")]. *)
Definition marks (versions : list string) : string :=
  join ", " (map (fun _ => "?") versions).

(** [if (benchmarkVersions.length > 0) { query +=
    appendBenchmarkVersionFilter(...); bindings.push(...benchmarkVersions) }]. *)
Definition push_versions (clausePrefix field : string)
  (benchmarkVersions : list string) (st : Bound) : Bound :=
  if (0 <? List.length benchmarkVersions)%nat
  then push (Scope.appendBenchmarkVersionFilter clausePrefix field benchmarkVersions)
            (map Text benchmarkVersions) st
  else st.

(** [${benchmarkVersions.length > 0 ? appendBenchmarkVersionFilter(...) : ""}]. *)
Definition version_clause (clausePrefix field : string)
  (benchmarkVersions : list string) : string :=
  if (0 <? List.length benchmarkVersions)%nat
  then Scope.appendBenchmarkVersionFilter clausePrefix field benchmarkVersions
  else "".

(** [text.indexOf(pattern)]. *)
Fixpoint index_of (pattern text : string) : option nat :=
  if prefix pattern text then Some O
  else match text with
       | EmptyString => None
       | String _ text' => option_map S (index_of pattern text')
       end.

(** [text.replace(pattern, replacement)] for a string pattern and a
    replacement without [$]: the first occurrence only. *)
Definition replace_first (pattern replacement text : string) : string :=
  match index_of pattern text with
  | None => text
  | Some i =>
    substring 0 i text ++ replacement
    ++ substring (i + String.length pattern)
                 (String.length text - (i + String.length pattern)) text
  end.

(** ** GET /api/submissions (submissions.ts, lines 48-170) *)

Record ListParams : Type := {
  p_model : option string;
  p_provider : option string;
  p_verified : option string;
  p_limit : option string;
  p_offset : option string;
  p_sort : option string;
  p_scope : Scope.Query
}.

Definition submissions_select : string :=
  "
      SELECT 
        s.id,
        s.model,
        s.provider,
        s.score_percentage,
        s.total_score,
        s.max_score,
        s.total_execution_time_seconds,
        s.total_cost_usd,
        s.timestamp,
        s.created_at,
        s.client_version,
        s.openclaw_version,
        s.benchmark_version,
        CASE WHEN t.claimed_at IS NOT NULL THEN 1 ELSE 0 END as claimed
      FROM submissions s
      JOIN tokens t ON s.token_id = t.id
      WHERE 1=1
    ".

Definition submissions_count_select : string :=
  "
      SELECT COUNT(*) as total
      FROM submissions s
      JOIN tokens t ON s.token_id = t.id
      WHERE 1=1
    ".

(** [c.req.query(name)?.trim()] when it is truthy. *)
Definition filter_value (param : option string) : option string :=
  match option_map trim param with
  | Some v => if truthy v then Some v else None
  | None => None
  end.

(** [c.req.query("verified") === "true"]. *)
Definition is_true (param : option string) : bool :=
  match param with
  | Some v => String.eqb v "true"
  | None => false
  end.

(** [if (value) { query += sql; bindings.push(value) }]. *)
Definition push_filter (sql : string) (value : option string) (st : Bound)
  : Bound :=
  match value with
  | Some v => push sql [Text v] st
  | None => st
  end.

(** The [switch (sort)]. *)
Definition order_clause (sort : string) : string :=
  if String.eqb sort "recent" then " ORDER BY s.timestamp DESC"
  else if String.eqb sort "oldest" then " ORDER BY s.timestamp ASC"
  else " ORDER BY s.score_percentage DESC, s.timestamp DESC".

(** Lines 49-118: the statement that selects the page. *)
Definition submissions_statement (params : ListParams)
  (benchmarkVersions : list string) : Bound :=
  let model := filter_value (p_model params) in
  let provider := filter_value (p_provider params) in
  let verified := is_true (p_verified params) in
  let limit := page_limit "20" 100 (p_limit params) in
  let offset := page_offset (p_offset params) in
  let sort := nullish (p_sort params) "score" in
  let st := (submissions_select, []) in
  let st := push_filter " AND s.model = ?" model st in
  let st := push_filter " AND s.provider = ?" provider st in
  let st := if verified then push " AND t.claimed_at IS NOT NULL" [] st else st in
  let st := push_versions "AND" "s.benchmark_version" benchmarkVersions st in
  let st := push (order_clause sort) [] st in
  push " LIMIT ? OFFSET ?" [Num limit; Num offset] st.

(** Lines 126-153: the statement that counts the rows. *)
Definition submissions_count_statement (params : ListParams)
  (benchmarkVersions : list string) : Bound :=
  let model := filter_value (p_model params) in
  let provider := filter_value (p_provider params) in
  let verified := is_true (p_verified params) in
  let st := (submissions_count_select, []) in
  let st := push_filter " AND s.model = ?" model st in
  let st := push_filter " AND s.provider = ?" provider st in
  let st := if verified then push " AND t.claimed_at IS NOT NULL" [] st else st in
  push_versions "AND" "s.benchmark_version" benchmarkVersions st.

(** ** GET /api/me/submissions (submissions.ts, lines 346-396) *)

Definition me_select_head : string :=
  "SELECT 
          id,
          model,
          provider,
          score_percentage,
          total_score,
          max_score,
          timestamp,
          created_at,
          client_version,
          openclaw_version,
          benchmark_version
        FROM submissions
        WHERE token_id = ?
          ".

Definition me_select_tail : string :=
  "
        ORDER BY timestamp DESC
        LIMIT ? OFFSET ?".

Definition me_count_head : string :=
  "SELECT COUNT(*) as total FROM submissions WHERE token_id = ?
        ".

Definition me_statement (tokenId : string) (limit offset : JsInt)
  (benchmarkVersions : list string) : Bound :=
  (me_select_head ++ version_clause "AND" "benchmark_version" benchmarkVersions
   ++ me_select_tail,
   ([Text tokenId] ++ map Text benchmarkVersions ++ [Num limit; Num offset])%list).

Definition me_count_statement (tokenId : string)
  (benchmarkVersions : list string) : Bound :=
  (me_count_head ++ version_clause "AND" "benchmark_version" benchmarkVersions,
   ([Text tokenId] ++ map Text benchmarkVersions)%list).

(** ** GET /api/leaderboard (leaderboard.ts, lines 40-133) *)

Definition leaderboard_select : string :=
  "
      SELECT 
        s.model,
        s.provider,
        MAX(s.score_percentage) as best_score_percentage,
        AVG(s.score_percentage) as average_score_percentage,
        AVG(s.total_execution_time_seconds) as average_execution_time_seconds,
        MIN(s.total_execution_time_seconds) as best_execution_time_seconds,
        AVG(s.total_cost_usd) as average_cost_usd,
        MIN(s.total_cost_usd) as best_cost_usd,
        COUNT(*) as submission_count,
        MAX(s.timestamp) as latest_submission,
        (
          SELECT s2.id 
          FROM submissions s2 
          JOIN tokens t2 ON s2.token_id = t2.id
          WHERE s2.model = s.model 
            AND (? = 0 OR t2.claimed_at IS NOT NULL)
          ORDER BY s2.score_percentage DESC, s2.timestamp DESC, s2.id ASC
          LIMIT 1
        ) as best_submission_id
      FROM submissions s
      JOIN tokens t ON s.token_id = t.id
      WHERE (? = 0 OR t.claimed_at IS NOT NULL)
    ".

Definition leaderboard_group : string :=
  "
      GROUP BY s.model
      ORDER BY best_score_percentage DESC, submission_count DESC
      LIMIT ?
    ".

Definition leaderboard_statement (verified : bool)
  (providerFilter : option string) (benchmarkVersions : list string)
  (limit : JsInt) : Bound :=
  let verifiedFlag := Num (Some (if verified then 1 else 0)) in
  let st := (leaderboard_select, [verifiedFlag]) in
  let st :=
    if (0 <? List.length benchmarkVersions)%nat
    then
      (replace_first "ORDER BY s2.score_percentage DESC"
         ("AND s2.benchmark_version IN (" ++ marks benchmarkVersions
          ++ ") ORDER BY s2.score_percentage DESC")
         (fst st)
       ++ Scope.appendBenchmarkVersionFilter "AND" "s.benchmark_version"
            benchmarkVersions,
       (snd st ++ map Text benchmarkVersions)%list)
    else st in
  let st := match providerFilter with
            | Some _ => push " AND s.provider = ?" [] st
            | None => st
            end in
  push leaderboard_group
       ([verifiedFlag] ++ map Text benchmarkVersions
        ++ match providerFilter with Some p => [Text p] | None => [] end
        ++ [Num limit])%list
       st.

(** Lines 112-129: the statement that counts the models. *)
Definition total_models_statement (verified : bool)
  (benchmarkVersions : list string) : Bound :=
  let st :=
    (if verified
     then "SELECT COUNT(DISTINCT s.model) as count FROM submissions s JOIN tokens t ON s.token_id = t.id WHERE t.claimed_at IS NOT NULL"
     else "SELECT COUNT(DISTINCT model) as count FROM submissions", []) in
  if verified
  then push_versions "AND" "s.benchmark_version" benchmarkVersions st
  else push_versions "WHERE" "benchmark_version" benchmarkVersions st.

(** ** GET /api/models (leaderboard.ts, lines 152-201) *)

Definition models_select : string :=
  "
      SELECT 
        s.model,
        s.provider,
        COUNT(*) as submission_count,
        MAX(s.score_percentage) as best_score,
        MAX(s.timestamp) as latest_submission
      FROM submissions s
      JOIN tokens t ON s.token_id = t.id
    ".

Definition models_group : string :=
  "
      GROUP BY s.model, s.provider
      ORDER BY submission_count DESC
    ".

Definition models_statement (verified : bool)
  (benchmarkVersions : list string) : Bound :=
  let query := models_select in
  let query := if verified then query ++ " WHERE t.claimed_at IS NOT NULL"
               else query in
  let query :=
    if (0 <? List.length benchmarkVersions)%nat
    then query ++ (if verified
                   then Scope.appendBenchmarkVersionFilter "AND"
                          "s.benchmark_version" benchmarkVersions
                   else Scope.appendBenchmarkVersionFilter "WHERE"
                          "s.benchmark_version" benchmarkVersions)
    else query in
  (query ++ models_group, map Text benchmarkVersions).

(** ** GET /api/stats (leaderboard.ts, lines 208-306) *)

Definition stats_total_head : string :=
  "SELECT COUNT(*) as count FROM submissions
            ".

Definition stats_models_head : string :=
  "SELECT COUNT(DISTINCT model) as count FROM submissions
            ".

Definition stats_verified_head : string :=
  "SELECT COUNT(*) as count FROM submissions s JOIN tokens t ON s.token_id = t.id WHERE t.claimed_at IS NOT NULL
            ".

Definition stats_recent_head : string :=
  "SELECT COUNT(*) as count FROM submissions WHERE created_at >= datetime('now', '-24 hours')
            ".

Definition stats_top_head : string :=
  "SELECT model, MAX(score_percentage) as best_score
         FROM submissions
         ".

Definition stats_top_tail : string :=
  "
         GROUP BY model
         ORDER BY best_score DESC
         LIMIT 1".

(** The five statements of the route, in the order of the source. *)
Definition stats_statements (benchmarkVersions : list string) : list Bound :=
  [(stats_total_head ++ version_clause "WHERE" "benchmark_version" benchmarkVersions,
    map Text benchmarkVersions);
   (stats_models_head ++ version_clause "WHERE" "benchmark_version" benchmarkVersions,
    map Text benchmarkVersions);
   (stats_verified_head
    ++ version_clause "AND" "s.benchmark_version" benchmarkVersions,
    map Text benchmarkVersions);
   (stats_recent_head ++ version_clause "AND" "benchmark_version" benchmarkVersions,
    map Text benchmarkVersions);
   (stats_top_head ++ version_clause "WHERE" "benchmark_version" benchmarkVersions
    ++ stats_top_tail,
    map Text benchmarkVersions)].

(** ** GET /api/providers/:provider/models (providers.ts, lines 71-134) *)

Definition provider_models_select : string :=
  "
      SELECT 
        s.model,
        s.provider,
        COUNT(*) as submission_count,
        MAX(s.score_percentage) as best_score,
        AVG(s.score_percentage) as average_score,
        AVG(s.total_cost_usd) as average_cost_usd,
        AVG(s.total_execution_time_seconds) as average_execution_time_seconds,
        MAX(s.timestamp) as latest_submission
      FROM submissions s
      JOIN tokens t ON s.token_id = t.id
      WHERE s.provider = ?
    ".

Definition provider_models_group : string :=
  "
      GROUP BY s.model, s.provider
      ORDER BY submission_count DESC
    ".

Definition provider_models_statement (provider : string) (verified : bool)
  (benchmarkVersions : list string) : Bound :=
  let st := (provider_models_select, [Text provider]) in
  let st := if verified then push " AND t.claimed_at IS NOT NULL" [] st else st in
  let st := push_versions "AND" "s.benchmark_version" benchmarkVersions st in
  push provider_models_group [] st.

(** A statement that can be bound: as many values as placeholders. *)
Definition well_bound (st : Bound) : Prop :=
  placeholders (fst st) = List.length (snd st).

End Listing.
(* ================================================================== *)
(** * Sample data for the administration *)
(* ================================================================== *)

Module AuthFixtures.

Import AdminAuth.

(** A platform to evaluate the verification on: base64 text stands for
    itself, the header text is the key identifier, the payload text is
    the subject of a fixed set of claims, and a signature is good when it
    repeats the key material. *)
#[export] Instance platform : Platform :=
  {| atob := fun s => Some s;
     parse_header := fun s => Some {| jwt_alg := Some "RS256"; jwt_kid := Some s |};
     parse_payload := fun s =>
       Some {| jwt_aud := Some ["pinchbench-admin"];
               jwt_email := Some (s ++ "@pinchbench.com");
               jwt_exp := Some 2000%Q;
               jwt_iat := Some 1000%Q;
               jwt_iss := Some "https://team.cloudflareaccess.com";
               jwt_sub := Some s |};
     CryptoKey := string;
     importKey := fun k => Some (jwk_material k);
     verify := fun key signature _ => Some (String.eqb signature key) |}.

Definition keys : JWKS := [{| jwk_kid := Some "key1"; jwk_material := "secr" |}].

(** A network that serves the sample keys. *)
Definition fetch_keys (url : string) : FetchResult :=
  Responded true 200 (Some keys).

(** The claims of the sample token. *)
Definition root_payload : JWTPayload :=
  {| jwt_aud := Some ["pinchbench-admin"];
     jwt_email := Some "root@pinchbench.com";
     jwt_exp := Some 2000%Q;
     jwt_iat := Some 1000%Q;
     jwt_iss := Some "https://team.cloudflareaccess.com";
     jwt_sub := Some "root" |}.

(** A store with a hidden current version v3 and a visible v2. *)
Definition db_hidden_current : DB :=
  set_benchmark_versions Sample.db_one
    [{| bv_id := "v2"; bv_created_at := 400; bv_current := 0; bv_hidden := 0 |};
     {| bv_id := "v3"; bv_created_at := 500; bv_current := 1; bv_hidden := 1 |}].

End AuthFixtures.
(* ================================================================== *)
(** * Repeated proof steps *)
(* ================================================================== *)

(** A log row written by [Admin.logAdminAction] for [email], at the time
    of a request answered 200. *)
Ltac admin_row email :=
  split; [reflexivity|]; right; split; [reflexivity|]; split; [reflexivity|];
  split; [reflexivity|]; exists email; split; reflexivity.

(** One step of [Listing.digits] on the digit [k]. *)
Ltac read_digit k :=
  match goal with
  | |- Listing.digits (Some ?a) (String ?c ?s) = _ =>
    change (Listing.digits (Some a) (String c s))
      with (Listing.digits (Some (10 * a + k)) s)
  end.

(** The first step of [Listing.digits], on the digit [k]. *)
Ltac read_first k :=
  match goal with
  | |- Listing.digits None (String ?c ?s) = _ =>
    change (Listing.digits None (String c s)) with (Listing.digits (Some k) s)
  end.

(* ================================================================== *)
(** * The leaderboard: src/routes/leaderboard.ts *)
(* ================================================================== *)

Module Leaderboard.

Import Js.

(** A row of the result; the bare column [s.provider], which SQLite takes
    from a row of the group of its choosing, is left out. *)
Record LeaderboardEntry : Type := {
  le_model : string;
  le_best_score_percentage : Q;
  le_average_score_percentage : Q;
  le_average_execution_time_seconds : option Q;
  le_best_execution_time_seconds : option Q;
  le_average_cost_usd : option Q;
  le_best_cost_usd : option Q;
  le_submission_count : Z;
  le_latest_submission : string;
  le_best_submission_id : option string
}.

(** [(? = 0 OR t.claimed_at IS NOT NULL)]. *)
Definition passes_verified (verifiedFlag : Z) (t : TokenRow) : bool :=
  (verifiedFlag =? 0)
  || match tok_claimed_at t with Some _ => true | None => false end.

(** The version filter, present when versions are in scope. *)
Definition passes_versions (benchmarkVersions : list string)
  (s : SubmissionRow) : bool :=
  if (0 <? List.length benchmarkVersions)%nat
  then Scope.in_versions benchmarkVersions (sub_benchmark_version s)
  else true.

(** [AND s.provider = ?], present when a provider is given. *)
Definition passes_provider (providerFilter : option string)
  (s : SubmissionRow) : bool :=
  match providerFilter with
  | Some p =>
    match sub_provider s with
    | Some q => String.eqb q p
    | None => false
    end
  | None => true
  end.

(** The rows the outer query groups: [FROM submissions s JOIN tokens t
    ... WHERE ...]. *)
Definition outer_rows (verifiedFlag : Z) (providerFilter : option string)
  (benchmarkVersions : list string) (db : DB) : list SubmissionRow :=
  map fst
    (filter (fun st => passes_verified verifiedFlag (snd st)
                       && passes_versions benchmarkVersions (fst st)
                       && passes_provider providerFilter (fst st))
            (Submissions.join_tokens db)).

(** The rows the subquery ranges over for [model]. *)
Definition inner_rows (verifiedFlag : Z) (benchmarkVersions : list string)
  (model : string) (db : DB) : list SubmissionRow :=
  map fst
    (filter (fun st => String.eqb (sub_model (fst st)) model
                       && passes_verified verifiedFlag (snd st)
                       && passes_versions benchmarkVersions (fst st))
            (Submissions.join_tokens db)).

(** [ORDER BY s2.score_percentage DESC, s2.timestamp DESC, s2.id ASC]:
    [a] comes before [b]. *)
Definition ranks_before (a b : SubmissionRow) : bool :=
  gtb (sub_score_percentage a) (sub_score_percentage b)
  || (Qeq_bool (sub_score_percentage a) (sub_score_percentage b)
      && (String.ltb (sub_timestamp b) (sub_timestamp a)
          || (String.eqb (sub_timestamp a) (sub_timestamp b)
              && String.ltb (sub_id a) (sub_id b)))).

(** The first row in that order ([LIMIT 1]). *)
Fixpoint first_in_order (rows : list SubmissionRow) : option SubmissionRow :=
  match rows with
  | [] => None
  | s :: rows' =>
    match first_in_order rows' with
    | Some best => if ranks_before best s then Some best else Some s
    | None => Some s
    end
  end.

(** [MAX] and [MIN] of a column of numbers; [NULL] without a value. *)
Fixpoint maximum (l : list Q) : option Q :=
  match l with
  | [] => None
  | x :: l' =>
    match maximum l' with
    | Some m => if gtb x m then Some x else Some m
    | None => Some x
    end
  end.

Fixpoint minimum (l : list Q) : option Q :=
  match l with
  | [] => None
  | x :: l' =>
    match minimum l' with
    | Some m => if ltb x m then Some x else Some m
    | None => Some x
    end
  end.

(** [AVG] of a column of numbers. *)
Definition average (l : list Q) : option Q :=
  match l with
  | [] => None
  | _ => Some (fold_right Qplus 0%Q l / inject_Z (Z.of_nat (List.length l)))%Q
  end.

(** [MAX] of a column of text. *)
Fixpoint latest (l : list string) : string :=
  match l with
  | [] => ""
  | x :: l' => if String.ltb (latest l') x then x else latest l'
  end.

(** The values of a nullable column that are not [NULL]. *)
Definition present (column : SubmissionRow -> option Q)
  (rows : list SubmissionRow) : list Q :=
  flat_map (fun s => match column s with Some q => [q] | None => [] end) rows.

(** The models of the groups. *)
Definition models_of (rows : list SubmissionRow) : list string :=
  nodup string_dec (map sub_model rows).

(** The row of the result for the group of [model]. *)
Definition entry_of (verifiedFlag : Z) (benchmarkVersions : list string)
  (db : DB) (rows : list SubmissionRow) (model : string) : LeaderboardEntry :=
  let group := filter (fun s => String.eqb (sub_model s) model) rows in
  {| le_model := model;
     le_best_score_percentage :=
       nullish (maximum (map sub_score_percentage group)) 0%Q;
     le_average_score_percentage :=
       nullish (average (map sub_score_percentage group)) 0%Q;
     le_average_execution_time_seconds :=
       average (present sub_total_execution_time_seconds group);
     le_best_execution_time_seconds :=
       minimum (present sub_total_execution_time_seconds group);
     le_average_cost_usd := average (present sub_total_cost_usd group);
     le_best_cost_usd := minimum (present sub_total_cost_usd group);
     le_submission_count := Z.of_nat (List.length group);
     le_latest_submission := latest (map sub_timestamp group);
     le_best_submission_id :=
       option_map sub_id
         (first_in_order (inner_rows verifiedFlag benchmarkVersions model db)) |}.

(** [ORDER BY best_score_percentage DESC, submission_count DESC]: [a]
    comes before [b]. *)
Definition placed_before (a b : LeaderboardEntry) : bool :=
  gtb (le_best_score_percentage a) (le_best_score_percentage b)
  || (Qeq_bool (le_best_score_percentage a) (le_best_score_percentage b)
      && (le_submission_count b <? le_submission_count a)).

(** Entries that the order does not tell apart stay as they come (SQL
    leaves their order open). *)
Fixpoint place (e : LeaderboardEntry) (l : list LeaderboardEntry)
  : list LeaderboardEntry :=
  match l with
  | [] => [e]
  | w :: l' => if placed_before w e then w :: place e l' else e :: w :: l'
  end.

(** [LIMIT ?]: a negative limit takes all rows. *)
Definition limit_rows {A : Type} (limit : Z) (l : list A) : list A :=
  if limit <? 0 then l else firstn (Z.to_nat limit) l.

(** The [leaderboard] member of the response, for a numeric limit. *)
Definition leaderboard (verified : bool) (providerFilter : option string)
  (benchmarkVersions : list string) (limit : Z) (db : DB)
  : list LeaderboardEntry :=
  let verifiedFlag := if verified then 1 else 0 in
  let rows := outer_rows verifiedFlag providerFilter benchmarkVersions db in
  limit_rows limit
    (fold_right place []
       (map (entry_of verifiedFlag benchmarkVersions db rows) (models_of rows))).

(** The [total_models] member: [COUNT(DISTINCT model)] over the
    submissions, joined to the tokens only when [verified]. *)
Definition total_models (verified : bool) (benchmarkVersions : list string)
  (db : DB) : Z :=
  let rows :=
    if verified
    then map fst
           (filter (fun st => match tok_claimed_at (snd st) with
                              | Some _ => true
                              | None => false
                              end)
                   (Submissions.join_tokens db))
    else submissions db in
  Z.of_nat (List.length (models_of (filter (passes_versions benchmarkVersions) rows))).

(** The order of the result. *)
Definition in_order (a b : LeaderboardEntry) : Prop :=
  (le_best_score_percentage b <= le_best_score_percentage a)%Q /\
  ((le_best_score_percentage a == le_best_score_percentage b)%Q ->
   le_submission_count b <= le_submission_count a).

End Leaderboard.
(* ================================================================== *)
(** * Sample data for the leaderboard *)
(* ================================================================== *)

Module LeaderboardFixtures.

(** A stored submission of model gpt-x by [provider], scoring [score]. *)
Definition row (id provider : string) (score : Q) : SubmissionRow :=
  {| sub_id := id;
     sub_token_id := "tok-1";
     sub_model := "gpt-x";
     sub_provider := Some provider;
     sub_total_score := score;
     sub_max_score := 1;
     sub_score_percentage := score;
     sub_total_execution_time_seconds := None;
     sub_total_cost_usd := None;
     sub_input_tokens := None;
     sub_output_tokens := None;
     sub_total_tokens := None;
     sub_timestamp := "2026-02-13T10:00:00Z";
     sub_client_version := None;
     sub_openclaw_version := None;
     sub_run_id := None;
     sub_benchmark_version := Some "v7";
     sub_tasks := [];
     sub_usage_summary := None;
     sub_metadata := None;
     sub_created_at := 1500 |}.

(** One model served by two providers, the better score at the second. *)
Definition two_providers : DB :=
  Sample.db_with [row Sample.id_a "azure" (1 # 2); row Sample.id_b "openai" (9 # 10)].

End LeaderboardFixtures.

(* ================================================================== *)
(** * Integrity of the stored submissions *)
(* ================================================================== *)

Module Integrity.

Import Js.


Section WithRuntime.

Context {RT : Runtime}.



End WithRuntime.

End Integrity.

(* ================================================================== *)
(** * Properties of the string primitives *)
(* ================================================================== *)

Module JsFacts.

Import Js.

Lemma drop_whitespace_plain (c : ascii) (l : list ascii) :
  is_plain c = true -> drop_whitespace (c :: l) = c :: l.
Proof.
  unfold is_plain. intros H. apply andb_true_iff in H. destruct H as [Hlt Hws].
  apply Nat.ltb_lt in Hlt. apply negb_true_iff in Hws.
  cbn [drop_whitespace]. rewrite Hws.
  destruct l as [|b l]; [reflexivity|].
  assert (H2 : two_byte_space c b = false).
  { unfold two_byte_space. rewrite (proj2 (Nat.eqb_neq _ _)) by lia. reflexivity. }
  rewrite H2. destruct l as [|d l]; [reflexivity|].
  assert (H3 : three_byte_space c b d = false).
  { unfold three_byte_space. cbv zeta.
    repeat (rewrite (proj2 (Nat.eqb_neq (nat_of_ascii c) _)) by lia).
    reflexivity. }
  rewrite H3. reflexivity.
Qed.

(** What is left after the leading whitespace does not start with
    whitespace. *)
Lemma drop_whitespace_idem (l : list ascii) :
  drop_whitespace (drop_whitespace l) = drop_whitespace l.
Proof.
  assert (H : forall n l, (List.length l <= n)%nat ->
            drop_whitespace (drop_whitespace l) = drop_whitespace l).
  { clear l. induction n as [|n IH]; intros l Hn.
    - destruct l; [reflexivity|simpl in Hn; lia].
    - destruct l as [|a l1]; [reflexivity|].
      simpl in Hn. cbn [drop_whitespace].
      destruct (is_whitespace a) eqn:Ea; [apply IH; lia|].
      destruct l1 as [|b l2].
      + cbn [drop_whitespace]. rewrite Ea. reflexivity.
      + destruct (two_byte_space a b) eqn:Eb; [apply IH; simpl in Hn; lia|].
        destruct l2 as [|c l3].
        * cbn [drop_whitespace]. rewrite Ea, Eb. reflexivity.
        * destruct (three_byte_space a b c) eqn:Ec;
            [apply IH; simpl in Hn; lia|].
          cbn [drop_whitespace]. rewrite Ea, Eb, Ec. reflexivity. }
  apply (H (List.length l)). apply Nat.le_refl.
Qed.

Lemma truthy_of_list (l : list ascii) :
  truthy (string_of_list_ascii l) = negb (forallb (fun _ => false) l).
Proof. destruct l; reflexivity. Qed.

(** A trimmed string is empty exactly when the string is blank. *)
Lemma truthy_trim (s : string) : truthy (trim s) = negb (is_blank s).
Proof.
  unfold trim, is_blank.
  pose proof (drop_whitespace_idem (list_ascii_of_string s)) as Hidem.
  destruct (drop_whitespace (list_ascii_of_string s)) as [|a l]; [reflexivity|].
  cbn [drop_trailing]. rewrite Hidem. reflexivity.
Qed.

(** Trimming leaves a string of plain characters as it is. *)
Lemma trim_plain (s : string) :
  forallb is_plain (list_ascii_of_string s) = true -> trim s = s.
Proof.
  intros H. unfold trim.
  assert (Htrail : forall l, forallb is_plain l = true -> drop_trailing l = l).
  { induction l as [|c l IH]; [reflexivity|].
    cbn [forallb]. intros Hl. apply andb_true_iff in Hl. destruct Hl as [Hc Hl].
    cbn [drop_trailing]. rewrite (drop_whitespace_plain c l Hc), (IH Hl).
    reflexivity. }
  destruct (list_ascii_of_string s) as [|c l] eqn:E.
  - destruct s; [reflexivity|discriminate E].
  - cbn [forallb] in H. pose proof H as H'.
    apply andb_true_iff in H'. destruct H' as [Hc _].
    rewrite (drop_whitespace_plain c l Hc), (Htrail (c :: l) H), <- E.
    apply string_of_list_ascii_of_string.
Qed.


End JsFacts.

(* ================================================================== *)
(** * Properties of the arithmetic on numbers *)
(* ================================================================== *)

Module DoubleFacts.

Import Js.

Local Open Scope Q_scope.

Lemma pow2_pos (e : Z) : 0 < 2 ^ e.
Proof. apply Qpower_0_lt. reflexivity. Qed.

Lemma pow2_plus (a b : Z) : 2 ^ (a + b) == 2 ^ a * 2 ^ b.
Proof. apply Qpower_plus. discriminate. Qed.

Lemma pow2_le (a b : Z) : (a <= b)%Z -> 2 ^ a <= 2 ^ b.
Proof. intros H. apply Qpower_le_compat_l; [exact H|]. discriminate. Qed.

Lemma pow2_lt_inv (a b : Z) : 2 ^ a < 2 ^ b -> (a < b)%Z.
Proof. intros H. apply (Qpower_lt_compat_l_inv 2); [exact H|reflexivity]. Qed.

Lemma pow2_inject (n : Z) : (0 <= n)%Z -> inject_Z (2 ^ n) == 2 ^ n.
Proof. intros H. apply (Zpower_Qpower 2 n H). Qed.

(** ** Rounding to the nearest integer *)

Lemma round_half_even_cases (x : Q) :
  let n := Qfloor x in
  (x - inject_Z n < 1 # 2 /\ round_half_even x = n) \/
  (1 # 2 < x - inject_Z n /\ round_half_even x = (n + 1)%Z) \/
  (x - inject_Z n == 1 # 2 /\
   round_half_even x = if Z.even n then n else (n + 1)%Z).
Proof.
  cbv zeta. unfold round_half_even.
  destruct (x - inject_Z (Qfloor x) ?= 1 # 2) eqn:E.
  - right. right. split; [apply Qeq_alt; exact E|reflexivity].
  - left. split; [apply Qlt_alt; exact E|reflexivity].
  - right. left. split; [apply Qgt_alt; exact E|reflexivity].
Qed.

Lemma floor_bounds (x : Q) :
  inject_Z (Qfloor x) <= x /\ x < inject_Z (Qfloor x) + 1.
Proof.
  split; [apply Qfloor_le|].
  pose proof (Qlt_floor x) as H. rewrite inject_Z_plus in H. exact H.
Qed.

(** The rounded value is within one half of the number. *)
Lemma round_half_even_near (x : Q) :
  x - (1 # 2) <= inject_Z (round_half_even x) /\
  inject_Z (round_half_even x) <= x + (1 # 2).
Proof.
  destruct (floor_bounds x) as [Hlo Hhi].
  destruct (round_half_even_cases x) as [[H ->]|[[H ->]|[H ->]]].
  - split; lra.
  - rewrite inject_Z_plus. change (inject_Z 1) with 1. split; lra.
  - destruct (Z.even (Qfloor x)).
    + split; lra.
    + rewrite inject_Z_plus. change (inject_Z 1) with 1. split; lra.
Qed.

(** An integer rounds to itself. *)
Lemma round_half_even_Z (n : Z) : round_half_even (inject_Z n) = n.
Proof.
  destruct (round_half_even_cases (inject_Z n)) as [[H E]|[[H E]|[H E]]];
    rewrite Qfloor_Z in *.
  - exact E.
  - exfalso. lra.
  - exfalso. lra.
Qed.

(** Rounding keeps the order. *)
Lemma round_half_even_monotone (x y : Q) :
  x <= y -> (round_half_even x <= round_half_even y)%Z.
Proof.
  intros Hxy.
  pose proof (Qfloor_resp_le x y Hxy) as Hf.
  destruct (floor_bounds x) as [Hxlo Hxhi].
  destruct (floor_bounds y) as [Hylo Hyhi].
  assert (Hupper : (round_half_even x <= Qfloor x + 1)%Z).
  { destruct (round_half_even_cases x) as [[_ ->]|[[_ ->]|[_ ->]]];
      [lia|lia|destruct (Z.even (Qfloor x)); lia]. }
  assert (Hlower : (Qfloor y <= round_half_even y)%Z).
  { destruct (round_half_even_cases y) as [[_ ->]|[[_ ->]|[_ ->]]];
      [lia|lia|destruct (Z.even (Qfloor y)); lia]. }
  destruct (Z.eq_dec (Qfloor x) (Qfloor y)) as [Heq|Hne]; [|lia].
  destruct (round_half_even_cases x) as [[Hx ->]|[[Hx ->]|[Hx ->]]];
    destruct (round_half_even_cases y) as [[Hy ->]|[[Hy ->]|[Hy ->]]];
    rewrite <- ?Heq in *; try lia; try (exfalso; lra);
    destruct (Z.even (Qfloor x)); try lia; exfalso; lra.
Qed.

Lemma round_half_even_comp (x y : Q) :
  x == y -> round_half_even x = round_half_even y.
Proof.
  intros H. apply Z.le_antisymm; apply round_half_even_monotone;
    rewrite H; apply Qle_refl.
Qed.

(** ** The binary exponent *)

Lemma floor_log2_spec (x : Q) :
  0 < x -> 2 ^ floor_log2 x <= x /\ x < 2 ^ (floor_log2 x + 1).
Proof.
  intros Hx. unfold floor_log2.
  destruct x as [n d]. cbn [Qnum Qden].
  assert (Hn : (0 < n)%Z).
  { unfold Qlt in Hx. simpl in Hx. lia. }
  set (a := Z.log2 n). set (b := Z.log2 (Zpos d)).
  destruct (Z.log2_spec n Hn) as [Ha1 Ha2]. fold a in Ha1, Ha2.
  destruct (Z.log2_spec (Zpos d) (eq_refl : (0 < Zpos d)%Z)) as [Hb1 Hb2].
  fold b in Hb1, Hb2.
  assert (Ha0 : (0 <= a)%Z) by apply Z.log2_nonneg.
  assert (Hb0 : (0 <= b)%Z) by apply Z.log2_nonneg.
  assert (Hnd : n # d == inject_Z n / inject_Z (Zpos d)) by apply Qmake_Qdiv.
  assert (Hdpos : 0 < inject_Z (Zpos d)) by reflexivity.
  (* the two outer bounds *)
  assert (Hlow : 2 ^ (a - b - 1) < n # d).
  { rewrite Hnd. apply Qlt_shift_div_l; [exact Hdpos|].
    apply Qlt_le_trans with (y := 2 ^ (a - b - 1) * 2 ^ (b + 1)).
    - apply Qmult_lt_l; [apply pow2_pos|].
      rewrite <- pow2_inject by lia. rewrite <- Zlt_Qlt.
      rewrite Z.succ_lt_mono in Hb2. replace (b + 1)%Z with (Z.succ b) by lia.
      lia.
    - rewrite <- pow2_plus. replace (a - b - 1 + (b + 1))%Z with a by lia.
      rewrite <- pow2_inject by lia. rewrite <- Zle_Qle. exact Ha1. }
  assert (Hhigh : n # d < 2 ^ (a - b + 1)).
  { rewrite Hnd. apply Qlt_shift_div_r; [exact Hdpos|].
    apply Qlt_le_trans with (y := 2 ^ (a - b + 1) * 2 ^ b).
    - rewrite <- pow2_plus. replace (a - b + 1 + b)%Z with (Z.succ a) by lia.
      rewrite <- pow2_inject by lia. rewrite <- Zlt_Qlt. exact Ha2.
    - apply Qmult_le_l; [apply pow2_pos|].
      rewrite <- pow2_inject by lia. rewrite <- Zle_Qle. exact Hb1. }
  destruct (Qle_bool (2 ^ (a - b)) (n # d)) eqn:E.
  - apply Qle_bool_iff in E. split; assumption.
  - assert (Hlt : n # d < 2 ^ (a - b)).
    { apply Qnot_le_lt. intros H. apply Qle_bool_iff in H. congruence. }
    replace (a - b - 1 + 1)%Z with (a - b)%Z by lia.
    split; [apply Qlt_le_weak; exact Hlow|exact Hlt].
Qed.

Lemma floor_log2_monotone (x y : Q) :
  0 < x -> x <= y -> (floor_log2 x <= floor_log2 y)%Z.
Proof.
  intros Hx Hxy.
  destruct (floor_log2_spec x Hx) as [Hx1 _].
  destruct (floor_log2_spec y (Qlt_le_trans _ _ _ Hx Hxy)) as [_ Hy2].
  assert (H : 2 ^ floor_log2 x < 2 ^ (floor_log2 y + 1)).
  { apply Qle_lt_trans with (y := x); [exact Hx1|].
    apply Qle_lt_trans with (y := y); assumption. }
  apply pow2_lt_inv in H. lia.
Qed.

Lemma ulp_exponent_monotone (x y : Q) :
  0 < x -> x <= y -> (ulp_exponent x <= ulp_exponent y)%Z.
Proof.
  intros Hx Hxy. unfold ulp_exponent.
  pose proof (floor_log2_monotone x y Hx Hxy). lia.
Qed.

(** The significand of a positive number is below 2^53, and no less than
    2^52 unless the number is subnormal. *)
Lemma significand_bounds (x : Q) :
  0 < x ->
  x / 2 ^ ulp_exponent x < 2 ^ 53 /\
  ((-1074 < ulp_exponent x)%Z -> 2 ^ 52 <= x / 2 ^ ulp_exponent x).
Proof.
  intros Hx. destruct (floor_log2_spec x Hx) as [Hlo Hhi].
  pose proof (pow2_pos (ulp_exponent x)) as Hp.
  split.
  - apply Qlt_shift_div_r; [exact Hp|].
    rewrite <- pow2_plus.
    apply Qlt_le_trans with (y := 2 ^ (floor_log2 x + 1)); [exact Hhi|].
    apply pow2_le. unfold ulp_exponent. lia.
  - intros Hn. apply Qle_shift_div_l; [exact Hp|].
    rewrite <- pow2_plus.
    apply Qle_trans with (y := 2 ^ floor_log2 x); [|exact Hlo].
    apply pow2_le. unfold ulp_exponent in *. lia.
Qed.

(** ** Rounding to binary64 *)

Lemma double_pos (x : Q) :
  0 < x ->
  double x == inject_Z (round_half_even (x / 2 ^ ulp_exponent x))
              * 2 ^ ulp_exponent x.
Proof.
  intros Hx. unfold double.
  assert (E : Qeq_bool x 0 = false).
  { destruct (Qeq_bool x 0) eqn:E; [|reflexivity].
    apply Qeq_bool_iff in E. rewrite E in Hx. discriminate Hx. }
  rewrite E. cbv zeta. rewrite Qred_correct.
  destruct x as [[|n|n] d]; try discriminate Hx. reflexivity.
Qed.

Lemma double_zero (x : Q) : x == 0 -> double x = 0.
Proof.
  intros H. unfold double.
  assert (E : Qeq_bool x 0 = true) by (apply Qeq_bool_iff; exact H).
  rewrite E. reflexivity.
Qed.

Lemma double_nonneg (x : Q) : 0 <= x -> 0 <= double x.
Proof.
  intros Hx. destruct (Qeq_dec x 0) as [E|E].
  - rewrite (double_zero x E). apply Qle_refl.
  - assert (Hpos : 0 < x).
    { apply Qnot_le_lt. intros H. apply E. apply Qle_antisym; assumption. }
    rewrite (double_pos x Hpos).
    apply Qmult_le_0_compat; [|apply Qlt_le_weak, pow2_pos].
    change 0 with (inject_Z 0). rewrite <- Zle_Qle.
    rewrite <- (round_half_even_Z 0). apply round_half_even_monotone.
    apply Qle_shift_div_l; [apply pow2_pos|].
    rewrite Qmult_0_l. exact Hx.
Qed.

(** Rounding to binary64 keeps the order of non-negative numbers. *)
Lemma double_monotone (x y : Q) : 0 <= x -> x <= y -> double x <= double y.
Proof.
  intros Hx Hxy. destruct (Qeq_dec x 0) as [E|E].
  - rewrite (double_zero x E). apply double_nonneg.
    apply Qle_trans with (y := x); assumption.
  - assert (Hxpos : 0 < x).
    { apply Qnot_le_lt. intros H. apply E. apply Qle_antisym; assumption. }
    assert (Hypos : 0 < y) by (apply Qlt_le_trans with (y := x); assumption).
    rewrite (double_pos x Hxpos), (double_pos y Hypos).
    pose proof (ulp_exponent_monotone x y Hxpos Hxy) as He.
    set (ex := ulp_exponent x) in *. set (ey := ulp_exponent y) in *.
    destruct (Z.eq_dec ex ey) as [Heq|Hne].
    + rewrite <- Heq.
      apply Qmult_le_compat_r; [|apply Qlt_le_weak, pow2_pos].
      rewrite <- Zle_Qle. apply round_half_even_monotone.
      apply Qmult_le_compat_r; [exact Hxy|].
      apply Qlt_le_weak. apply Qinv_lt_0_compat. apply pow2_pos.
    + destruct (significand_bounds x Hxpos) as [Hxs _].
      destruct (significand_bounds y Hypos) as [_ Hys].
      fold ex in Hxs. fold ey in Hys.
      assert (Hey : (-1074 < ey)%Z).
      { assert (-1074 <= ex)%Z by (unfold ex, ulp_exponent; lia). lia. }
      specialize (Hys Hey).
      assert (Hmx : (round_half_even (x / 2 ^ ex) <= 2 ^ 53)%Z).
      { rewrite <- (round_half_even_Z (2 ^ 53)).
        apply round_half_even_monotone.
        rewrite pow2_inject by lia. apply Qlt_le_weak. exact Hxs. }
      assert (Hmy : (2 ^ 52 <= round_half_even (y / 2 ^ ey))%Z).
      { rewrite <- (round_half_even_Z (2 ^ 52)).
        apply round_half_even_monotone.
        rewrite pow2_inject by lia. exact Hys. }
      apply Qle_trans with (y := 2 ^ 53 * 2 ^ ex).
      * apply Qmult_le_compat_r; [|apply Qlt_le_weak, pow2_pos].
        rewrite <- (pow2_inject 53) by lia. rewrite <- Zle_Qle. exact Hmx.
      * apply Qle_trans with (y := 2 ^ 52 * 2 ^ ey).
        -- rewrite <- !pow2_plus. apply pow2_le. lia.
        -- apply Qmult_le_compat_r; [|apply Qlt_le_weak, pow2_pos].
           rewrite <- (pow2_inject 52) by lia. rewrite <- Zle_Qle. exact Hmy.
Qed.

(** The rounding error is at most half a unit in the last place. *)
Lemma double_near (x : Q) :
  0 < x ->
  x - 2 ^ (ulp_exponent x - 1) <= double x /\
  double x <= x + 2 ^ (ulp_exponent x - 1).
Proof.
  intros Hx. rewrite (double_pos x Hx).
  set (e := ulp_exponent x).
  pose proof (pow2_pos e) as Hp.
  destruct (round_half_even_near (x / 2 ^ e)) as [Hlo Hhi].
  set (m := inject_Z (round_half_even (x / 2 ^ e))) in *.
  assert (Hhalf : 2 ^ (e - 1) == (1 # 2) * 2 ^ e).
  { unfold Z.sub. rewrite pow2_plus. rewrite Qmult_comm. reflexivity. }
  assert (Hx' : x == x / 2 ^ e * 2 ^ e).
  { field. intros H. rewrite H in Hp. discriminate Hp. }
  rewrite Hhalf. split.
  - setoid_replace (x - (1 # 2) * 2 ^ e) with ((x / 2 ^ e - (1 # 2)) * 2 ^ e)
      by (rewrite Hx' at 1; ring).
    apply Qmult_le_compat_r; [exact Hlo|apply Qlt_le_weak; exact Hp].
  - setoid_replace (x + (1 # 2) * 2 ^ e) with ((x / 2 ^ e + (1 # 2)) * 2 ^ e)
      by (rewrite Hx' at 1; ring).
    apply Qmult_le_compat_r; [exact Hhi|apply Qlt_le_weak; exact Hp].
Qed.

(** Below [2^k] the unit in the last place is at most [2^(k - 53)]. *)
Lemma ulp_exponent_below (x : Q) (k : Z) :
  0 < x -> x < 2 ^ k -> (-1021 <= k)%Z -> (ulp_exponent x <= k - 53)%Z.
Proof.
  intros Hx Hk Hmin. destruct (floor_log2_spec x Hx) as [Hlo _].
  assert (H : 2 ^ floor_log2 x < 2 ^ k)
    by (apply Qle_lt_trans with (y := x); assumption).
  apply pow2_lt_inv in H. unfold ulp_exponent. lia.
Qed.

Lemma double_error (x : Q) (k : Z) :
  0 <= x -> x < 2 ^ k -> (-1021 <= k)%Z ->
  x - 2 ^ (k - 54) <= double x /\ double x <= x + 2 ^ (k - 54).
Proof.
  intros Hx Hk Hmin. destruct (Qeq_dec x 0) as [E|E].
  - rewrite (double_zero x E). rewrite E.
    pose proof (pow2_pos (k - 54)). split; lra.
  - assert (Hpos : 0 < x).
    { apply Qnot_le_lt. intros H. apply E. apply Qle_antisym; assumption. }
    destruct (double_near x Hpos) as [Hlo Hhi].
    pose proof (ulp_exponent_below x k Hpos Hk Hmin) as He.
    assert (Hp : 2 ^ (ulp_exponent x - 1) <= 2 ^ (k - 54))
      by (apply pow2_le; lia).
    split; lra.
Qed.

(** ** A fraction of a whole, as a percentage *)

Lemma unit_fraction (n d : Z) :
  (0 <= n)%Z -> (n <= d)%Z -> (0 < d)%Z ->
  0 <= inject_Z n / inject_Z d /\ inject_Z n / inject_Z d <= 1.
Proof.
  intros Hn Hnd Hd.
  assert (Hdq : 0 < inject_Z d)
    by (change 0 with (inject_Z 0); rewrite <- Zlt_Qlt; exact Hd).
  split.
  - apply Qle_shift_div_l; [exact Hdq|]. rewrite Qmult_0_l.
    change 0 with (inject_Z 0). rewrite <- Zle_Qle. exact Hn.
  - apply Qle_shift_div_r; [exact Hdq|]. rewrite Qmult_1_l.
    rewrite <- Zle_Qle. exact Hnd.
Qed.

Lemma double_unit (x : Q) : 0 <= x -> x <= 1 -> 0 <= double x /\ double x <= 1.
Proof.
  intros H0 H1. split; [apply double_nonneg; exact H0|].
  change 1 with (double 1). apply double_monotone; assumption.
Qed.

(** The computed percentage stays between 0 and 100. *)
Lemma percentage_bounds (n d : Z) :
  (0 <= n)%Z -> (n <= d)%Z -> (0 < d)%Z ->
  0 <= fmul (fdiv (inject_Z n) (inject_Z d)) 100 /\
  fmul (fdiv (inject_Z n) (inject_Z d)) 100 <= 100.
Proof.
  intros Hn Hnd Hd. destruct (unit_fraction n d Hn Hnd Hd) as [H0 H1].
  destruct (double_unit _ H0 H1) as [Hr0 Hr1]. unfold fmul, fdiv.
  split.
  - apply double_nonneg. lra.
  - change 100 with (double 100) at 2. apply double_monotone; lra.
Qed.

(** The computed percentage grows with the numerator. *)
Lemma percentage_monotone (n n' d : Z) :
  (0 <= n)%Z -> (n <= n')%Z -> (0 < d)%Z ->
  fmul (fdiv (inject_Z n) (inject_Z d)) 100 <=
  fmul (fdiv (inject_Z n') (inject_Z d)) 100.
Proof.
  intros Hn Hnn Hd. unfold fmul, fdiv.
  assert (Hdq : 0 < inject_Z d)
    by (change 0 with (inject_Z 0); rewrite <- Zlt_Qlt; exact Hd).
  assert (H0 : 0 <= inject_Z n / inject_Z d).
  { apply Qle_shift_div_l; [exact Hdq|]. rewrite Qmult_0_l.
    change 0 with (inject_Z 0). rewrite <- Zle_Qle. exact Hn. }
  assert (Hle : inject_Z n / inject_Z d <= inject_Z n' / inject_Z d).
  { apply Qmult_le_compat_r.
    - rewrite <- Zle_Qle. exact Hnn.
    - apply Qlt_le_weak. apply Qinv_lt_0_compat. exact Hdq. }
  pose proof (double_nonneg _ H0) as Hr0.
  pose proof (double_monotone _ _ H0 Hle) as Hr.
  apply double_monotone; lra.
Qed.

(** The computed percentage is within [2^-45] of the exact one. *)
Lemma percentage_error (n d : Z) :
  (0 <= n)%Z -> (n <= d)%Z -> (0 < d)%Z ->
  inject_Z n / inject_Z d * 100 - 2 ^ (-45)
    <= fmul (fdiv (inject_Z n) (inject_Z d)) 100 /\
  fmul (fdiv (inject_Z n) (inject_Z d)) 100
    <= inject_Z n / inject_Z d * 100 + 2 ^ (-45).
Proof.
  intros Hn Hnd Hd. destruct (unit_fraction n d Hn Hnd Hd) as [H0 H1].
  destruct (double_unit _ H0 H1) as [Hr0 Hr1]. unfold fmul, fdiv.
  set (q := inject_Z n / inject_Z d) in *.
  assert (Hq : q < 2 ^ 1) by (change (2 ^ 1) with 2; lra).
  destruct (double_error q 1 H0 Hq ltac:(lia)) as [Hq1 Hq2].
  set (r := double q) in *.
  assert (Hr : r * 100 < 2 ^ 7) by (change (2 ^ 7) with 128; lra).
  assert (Hr100 : 0 <= r * 100) by lra.
  destruct (double_error (r * 100) 7 Hr100 Hr ltac:(lia)) as [Hp1 Hp2].
  change (2 ^ (1 - 54)) with (1 # 9007199254740992) in Hq1, Hq2.
  change (2 ^ (7 - 54)) with (1 # 140737488355328) in Hp1, Hp2.
  change (2 ^ (-45)) with (1 # 35184372088832).
  split; lra.
Qed.

(** ** Integers *)

(** A positive number whose significand is an integer is a binary64
    number. *)
Lemma double_integral_significand (x : Q) (m : Z) :
  0 < x -> x / 2 ^ ulp_exponent x == inject_Z m -> double x == x.
Proof.
  intros Hx Hm. rewrite (double_pos x Hx).
  rewrite (round_half_even_comp _ _ Hm), round_half_even_Z, <- Hm.
  field. intros H. pose proof (pow2_pos (ulp_exponent x)) as Hp.
  rewrite H in Hp. discriminate Hp.
Qed.

(** Dividing by a power of two with a negative exponent multiplies. *)
Lemma div_pow2_nonpos (z e : Z) :
  (e <= 0)%Z -> inject_Z z / 2 ^ e == inject_Z (z * 2 ^ (- e)).
Proof.
  intros He. rewrite inject_Z_mult, pow2_inject by lia.
  rewrite Qpower_opp. unfold Qdiv. reflexivity.
Qed.

(** The integers up to [2^53] are binary64 numbers. *)
Lemma double_small_integer (z : Z) :
  (0 <= z <= 2 ^ 53)%Z -> double (inject_Z z) == inject_Z z.
Proof.
  intros [H0 H53].
  destruct (Z.eq_dec z 0) as [->|Hz]; [reflexivity|].
  destruct (Z.eq_dec z (2 ^ 53)) as [->|Hne]; [vm_compute; reflexivity|].
  assert (Hpos : 0 < inject_Z z)
    by (change 0 with (inject_Z 0); rewrite <- Zlt_Qlt; lia).
  assert (Hlt : inject_Z z < 2 ^ 53).
  { rewrite <- (pow2_inject 53) by lia. rewrite <- Zlt_Qlt. lia. }
  pose proof (ulp_exponent_below _ 53 Hpos Hlt ltac:(lia)) as He.
  apply (double_integral_significand _ (z * 2 ^ (- ulp_exponent (inject_Z z))) Hpos).
  apply div_pow2_nonpos. lia.
Qed.

Lemma inject_Z_sub (a b : Z) : inject_Z (a - b) == inject_Z a - inject_Z b.
Proof. unfold Z.sub. rewrite inject_Z_plus, inject_Z_opp. reflexivity. Qed.

(** A tie goes to an even integer, and that decides the rounding. *)
Lemma round_half_even_tie (x : Q) :
  inject_Z (round_half_even x) - x == 1 # 2 \/
  x - inject_Z (round_half_even x) == 1 # 2 ->
  Z.even (round_half_even x) = true.
Proof.
  destruct (floor_bounds x) as [Hlo Hhi].
  destruct (round_half_even_cases x) as [[H ->]|[[H ->]|[H ->]]].
  - intros [E|E]; exfalso; lra.
  - rewrite inject_Z_plus. change (inject_Z 1) with 1.
    intros [E|E]; exfalso; lra.
  - intros _. destruct (Z.even (Qfloor x)) eqn:E; [exact E|].
    rewrite Z.even_add. rewrite E. reflexivity.
Qed.

Lemma round_half_even_unique (x : Q) (n : Z) :
  x - (1 # 2) <= inject_Z n -> inject_Z n <= x + (1 # 2) ->
  (inject_Z n - x == 1 # 2 \/ x - inject_Z n == 1 # 2 -> Z.even n = true) ->
  round_half_even x = n.
Proof.
  intros Hlo Hhi Heven.
  destruct (round_half_even_near x) as [Rlo Rhi].
  pose proof (round_half_even_tie x) as Reven.
  set (m := round_half_even x) in *.
  assert (Hd : (m - 1 <= n <= m + 1)%Z).
  { split.
    - apply Z.lt_succ_r. rewrite Zlt_Qlt.
      replace (Z.succ n) with (n + 1)%Z by lia.
      rewrite inject_Z_sub, inject_Z_plus. change (inject_Z 1) with 1. lra.
    - apply Z.lt_succ_r. rewrite Zlt_Qlt.
      replace (Z.succ (m + 1)) with (m + 2)%Z by lia.
      rewrite inject_Z_plus. change (inject_Z 2) with 2. lra. }
  destruct (Z.eq_dec m n) as [E|E]; [exact E|exfalso].
  assert (Hcase : (n = m + 1 \/ n = m - 1)%Z) by lia.
  destruct Hcase as [->| ->].
  - rewrite inject_Z_plus in *. change (inject_Z 1) with 1 in *.
    assert (Em : Z.even m = true) by (apply Reven; right; lra).
    assert (En : Z.even (m + 1) = true) by (apply Heven; left; lra).
    rewrite Z.even_add, Em in En. discriminate En.
  - rewrite inject_Z_sub in *. change (inject_Z 1) with 1 in *.
    assert (Em : Z.even m = true) by (apply Reven; left; lra).
    assert (En : Z.even (m - 1) = true) by (apply Heven; right; lra).
    rewrite Z.even_sub, Em in En. discriminate En.
Qed.

Lemma round_half_even_opp (x : Q) :
  round_half_even (- x) = (- round_half_even x)%Z.
Proof.
  destruct (round_half_even_near x) as [Rlo Rhi].
  pose proof (round_half_even_tie x) as Reven.
  apply round_half_even_unique; rewrite inject_Z_opp.
  - lra.
  - lra.
  - intros [E|E]; rewrite Z.even_opp; apply Reven; [right|left]; lra.
Qed.

Lemma double_opp (x : Q) : double (- x) == - double x.
Proof.
  unfold double.
  assert (E : Qeq_bool (- x) 0 = Qeq_bool x 0).
  { destruct (Qeq_bool x 0) eqn:E1, (Qeq_bool (- x) 0) eqn:E2; try reflexivity.
    - apply Qeq_bool_iff in E1. apply Qeq_bool_neq in E2.
      exfalso. apply E2. rewrite E1. reflexivity.
    - apply Qeq_bool_iff in E2. apply Qeq_bool_neq in E1.
      exfalso. apply E1. lra. }
  rewrite E. destruct (Qeq_bool x 0); [reflexivity|]. cbv zeta.
  assert (Habs : Qabs (- x) = Qabs x).
  { destruct x as [n d]. unfold Qabs, Qopp. cbn [Qnum Qden].
    rewrite Z.abs_opp. reflexivity. }
  rewrite Habs, !Qred_correct.
  assert (Hdiv : - x / 2 ^ ulp_exponent (Qabs x) == - (x / 2 ^ ulp_exponent (Qabs x))).
  { unfold Qdiv. ring. }
  rewrite (round_half_even_comp _ _ Hdiv), round_half_even_opp, inject_Z_opp.
  ring.
Qed.

(** The binary64 number nearest to an integer is an integer. *)
Lemma double_integer (z : Z) :
  inject_Z (Qfloor (double (inject_Z z))) == double (inject_Z z).
Proof.
  assert (Hnonneg : forall n, (0 <= n)%Z ->
            exists k, double (inject_Z n) == inject_Z k).
  { intros n Hn.
    destruct (Z_le_gt_dec n (2 ^ 53)) as [Hs|Hb].
    - exists n. apply double_small_integer. lia.
    - assert (Hpos : 0 < inject_Z n)
        by (change 0 with (inject_Z 0); rewrite <- Zlt_Qlt; lia).
      destruct (floor_log2_spec _ Hpos) as [_ Hhi].
      assert (H53 : 2 ^ 53 < 2 ^ (floor_log2 (inject_Z n) + 1)).
      { apply Qlt_trans with (y := inject_Z n); [|exact Hhi].
        rewrite <- (pow2_inject 53) by lia. rewrite <- Zlt_Qlt. lia. }
      apply pow2_lt_inv in H53.
      assert (He : (0 <= ulp_exponent (inject_Z n))%Z)
        by (unfold ulp_exponent; lia).
      exists (round_half_even (inject_Z n / 2 ^ ulp_exponent (inject_Z n))
              * 2 ^ ulp_exponent (inject_Z n))%Z.
      rewrite (double_pos _ Hpos), inject_Z_mult, pow2_inject by exact He.
      reflexivity. }
  assert (Hall : exists k, double (inject_Z z) == inject_Z k).
  { destruct (Z_le_gt_dec 0 z) as [H|H]; [apply Hnonneg; exact H|].
    destruct (Hnonneg (- z)%Z ltac:(lia)) as [k Hk].
    exists (- k)%Z. rewrite inject_Z_opp, <- Hk, <- double_opp, <- inject_Z_opp.
    rewrite Z.opp_involutive. reflexivity. }
  destruct Hall as [k Hk]. rewrite (Qfloor_comp _ _ Hk), Qfloor_Z.
  symmetry. exact Hk.
Qed.

End DoubleFacts.

Module ValidationFacts.

Import Js Results Rules.

Section WithRuntime.

Context {RT : Runtime}.

















End WithRuntime.

End ValidationFacts.

(* ================================================================== *)
(** * Properties of the validation of a decoded body *)
(* ================================================================== *)

Module BodyFacts.

Import Js Rules Body.

Section WithRuntime.

Context {RT : Runtime}.

Variable number_to_string : Num -> string.


(** ** Where validation throws *)












(** ** What each group of checks reports *)










(** ** The body under its declared type *)





End WithRuntime.

End BodyFacts.

(* ================================================================== *)
(** * Validation *)
(* ================================================================== *)

Section Validation.

Import Js Rules Body BodyFacts.

Context {RT : Runtime}.

Variable number_to_string : Num -> string.


End Validation.



(** The identifier and the timestamp are tested on their string form: an
    array holding a version-4 UUID and a number that reads as a year
    pass, and the list is empty although neither member is a string;
    an identifier that is an object with a member named toString has no
    string form, and validation throws. Totals beyond the range of
    binary64 are numbers, and infinity does not exceed infinity. *)
Example validation_tests_string_forms :
  Body.validate (RT := Sample.runtime) BodyFixtures.render BodyFixtures.coerced
    = Body.Returns [] /\
  Body.holds (RT := Sample.runtime) Rules.SubmissionIdIsUuid BodyFixtures.coerced
    = false /\
  Body.holds (RT := Sample.runtime) Rules.TimestampParses BodyFixtures.coerced
    = false /\
  Body.validate (RT := Sample.runtime) BodyFixtures.render
    (BodyFixtures.body (Body.JObject [("toString", Body.JString "x")])
       (Body.JString "gpt-x") (BodyFixtures.number 80) (BodyFixtures.number 100)
       [BodyFixtures.task (BodyFixtures.number 80) (BodyFixtures.number 100)])
    = Body.Throws /\
  Body.validate (RT := Sample.runtime) BodyFixtures.render
    (BodyFixtures.body (Body.JString Sample.id_b) (Body.JString "gpt-x")
       (Body.JNumber (Body.Inf false)) (Body.JNumber (Body.Inf false))
       [BodyFixtures.task (BodyFixtures.number 80) (BodyFixtures.number 100)])
    = Body.Returns [] /\
  Body.validate (RT := Sample.runtime) BodyFixtures.render
    (BodyFixtures.body (Body.JString Sample.id_b) (Body.JString "gpt-x")
       (Body.JNumber (Body.Inf false)) (BodyFixtures.number 100)
       [BodyFixtures.task (BodyFixtures.number 80) (BodyFixtures.number 100)])
    = Body.Returns ["total_score must be less than or equal to max_score"].
Proof. repeat split. Qed.

(** The well-formed sample body is the sample payload, and a model name
    of a no-break space and a line separator is blank. *)
Example body_of_sample_payload :
  Body.typed BodyFixtures.well_formed
    (Sample.payload Sample.id_b (Js.Number 80) (Js.Number 100)) /\
  Body.validate (RT := Sample.runtime) BodyFixtures.render BodyFixtures.well_formed
    = Body.Returns [] /\
  Js.is_blank BodyFixtures.blank_model = true /\
  Js.trim (BodyFixtures.blank_model ++ "gpt-x" ++ BodyFixtures.blank_model) = "gpt-x" /\
  Body.validate (RT := Sample.runtime) BodyFixtures.render
    (BodyFixtures.body (Body.JString Sample.id_b)
       (Body.JString BodyFixtures.blank_model)
       (BodyFixtures.number 80) (BodyFixtures.number 100)
       [BodyFixtures.task (BodyFixtures.number 80) (BodyFixtures.number 100)])
    = Body.Returns ["model is required and must be non-empty"].
Proof.
  split; [|repeat split].
  constructor; try reflexivity; try discriminate.
  simpl. constructor; [|constructor].
  split; [discriminate|]. split; reflexivity.
Qed.

(* ================================================================== *)
(** * Properties of the ingest handler *)
(* ================================================================== *)

Module ResultsFacts.

Import Js Results.

Section WithRuntime.

Context {RT : Runtime}.

Lemma submissions_insert_or_ignore_version v now db :
  submissions (insert_or_ignore_version v now db) = submissions db.
Proof. unfold insert_or_ignore_version. destruct (has_version v db); reflexivity. Qed.

Lemma submissions_register_benchmark_version payload now db :
  submissions (register_benchmark_version payload now db) = submissions db.
Proof.
  unfold register_benchmark_version.
  destruct (benchmark_version payload) as [v|]; [|reflexivity].
  destruct (truthy v); [apply submissions_insert_or_ignore_version|reflexivity].
Qed.

Lemma tokens_register_benchmark_version payload now db :
  tokens (register_benchmark_version payload now db) = tokens db.
Proof.
  unfold register_benchmark_version, insert_or_ignore_version.
  destruct (benchmark_version payload) as [v|]; [|reflexivity].
  destruct (truthy v); [|reflexivity].
  destruct (has_version v db); reflexivity.
Qed.

Lemma submissions_stored tokenRow now payload db :
  submissions (stored tokenRow now payload db) =
  (submissions db ++ [new_submission_row (tok_id tokenRow) now payload])%list.
Proof.
  unfold stored. simpl. rewrite submissions_register_benchmark_version.
  reflexivity.
Qed.

Lemma tokens_stored tokenRow now payload db :
  tokens (stored tokenRow now payload db) =
  map (touch_row (tok_id tokenRow) now) (tokens db).
Proof.
  unfold stored. simpl. rewrite tokens_register_benchmark_version.
  reflexivity.
Qed.

(** The three ways through [ingest]. *)
Lemma ingest_existing tokenRow now payload db row :
  select_submission (payload_id payload) db = Some row ->
  ingest tokenRow now payload db =
  (json (Accepted (payload_id payload)
           (count_higher (sub_score_percentage row) db + 1)
           (toFixed2 (percentile_of (count_lower (sub_score_percentage row) db)
                                    (count_total db)))
           (leaderboard_url_of (payload_id payload)))
        200,
   touch_token (tok_id tokenRow) now db).
Proof. intros H. unfold ingest. rewrite H. reflexivity. Qed.

Lemma ingest_limited tokenRow now payload db :
  select_submission (payload_id payload) db = None ->
  100 <= daily_count (tok_id tokenRow) now db ->
  ingest tokenRow now payload db = (rate_limited, db).
Proof.
  intros H Hc. unfold ingest, store_new. rewrite H.
  apply Z.leb_le in Hc. rewrite Hc. reflexivity.
Qed.

Lemma ingest_new tokenRow now payload db :
  select_submission (payload_id payload) db = None ->
  daily_count (tok_id tokenRow) now db < 100 ->
  ingest tokenRow now payload db =
  (json (Accepted (payload_id payload)
           (count_higher (computedScorePercentage payload)
                         (stored tokenRow now payload db) + 1)
           (toFixed2 (percentile_of
                        (count_lower (computedScorePercentage payload)
                                     (stored tokenRow now payload db))
                        (count_total (stored tokenRow now payload db))))
           (leaderboard_url_of (payload_id payload)))
        201,
   stored tokenRow now payload db).
Proof.
  intros H Hc. unfold ingest, store_new, insert_submission.
  change (sub_id (new_submission_row (tok_id tokenRow) now payload))
    with (payload_id payload).
  rewrite H. apply Z.leb_gt in Hc. rewrite Hc. reflexivity.
Qed.

(** Every early response of the prelude is an error other than a rate
    limit. *)
Lemma prelude_error req db resp :
  prelude req db = inl resp ->
  (status resp = 400 \/ status resp = 401 \/ status resp = 413 \/ status resp = 422)
  /\ error_of resp <> Some "rate_limited"
  /\ error_of resp <> None.
Proof.
  unfold prelude.
  repeat match goal with
         | |- context [if ?c then _ else _] => destruct c
         | |- context [match ?c with _ => _ end] => destruct c
         end;
    intros H; inversion H; subst; clear H; simpl;
    (split; [tauto|split; intros E; discriminate]).
Qed.

Lemma postResults_ending now req db :
  Ending now req db (postResults now req db).
Proof.
  unfold postResults.
  destruct (prelude req db) as [resp|[tokenRow payload]] eqn:Hpre.
  - apply EndedEarly. exact Hpre.
  - destruct (validate payload) as [|msg rest] eqn:Hv.
    + destruct (select_submission (payload_id payload) db) as [row|] eqn:Hsel.
      * eapply EndedRetry; eassumption.
      * destruct (Z_lt_le_dec (daily_count (tok_id tokenRow) now db) 100) as [Hlt|Hge].
        -- eapply EndedNew; eassumption.
        -- rewrite (ingest_limited tokenRow now payload db Hsel Hge).
           eapply EndedLimited; eassumption.
    + rewrite <- Hv. eapply EndedInvalid; [eassumption|]. rewrite Hv. discriminate.
Qed.

(** A primary key selects one row. *)
Lemma unique_row (id : string) (l : list SubmissionRow) (row : SubmissionRow) :
  NoDup (map sub_id l) ->
  find (fun s => String.eqb (sub_id s) id) l = Some row ->
  List.length (filter (fun s => String.eqb (sub_id s) id) l) = 1%nat.
Proof.
  induction l as [|s l IH]; simpl; intros Hnd Hfind; [discriminate|].
  inversion Hnd as [|? ? Hnotin Hnd']; subst.
  destruct (String.eqb (sub_id s) id) eqn:E.
  - simpl. f_equal. apply String.eqb_eq in E.
    destruct (filter (fun s0 => String.eqb (sub_id s0) id) l) as [|s' l'] eqn:F;
      [reflexivity|].
    exfalso. apply Hnotin.
    assert (Hin : In s' (filter (fun s0 => String.eqb (sub_id s0) id) l))
      by (rewrite F; left; reflexivity).
    apply filter_In in Hin. destruct Hin as [Hin Hid].
    apply String.eqb_eq in Hid. rewrite E, <- Hid. apply in_map. exact Hin.
  - apply IH; assumption.
Qed.

Lemma select_submission_id id db row :
  select_submission id db = Some row -> sub_id row = id /\ In row (submissions db).
Proof.
  unfold select_submission. intros H. apply find_some in H.
  destruct H as [Hin Hid]. apply String.eqb_eq in Hid. tauto.
Qed.

Lemma select_submission_stored tokenRow now payload db :
  select_submission (payload_id payload) db = None ->
  select_submission (payload_id payload) (stored tokenRow now payload db) =
  Some (new_submission_row (tok_id tokenRow) now payload).
Proof.
  unfold select_submission. rewrite submissions_stored. intros H.
  induction (submissions db) as [|s l IH]; simpl in *.
  - change (sub_id (new_submission_row (tok_id tokenRow) now payload))
      with (payload_id payload).
    rewrite String.eqb_refl. reflexivity.
  - destruct (String.eqb (sub_id s) (payload_id payload)); [discriminate|].
    apply IH. exact H.
Qed.

End WithRuntime.

End ResultsFacts.

(* ================================================================== *)
(** * Idempotent ingest *)
(* ================================================================== *)

Section Idempotence.

Import Js Results ResultsFacts.

Context {RT : Runtime}.

(** C1. A POST whose [submission_id] is already stored inserts nothing:
    the submissions and the benchmark versions are as before, the store
    holds exactly one row for the identifier, the score percentage the
    handler works with is the stored one, not the one the payload would
    give, the rank and percentile of the response are those of the stored
    score, and the status is 200. *)
Theorem ingest_idempotent (now : Z) (req : Request) (db : DB)
  (tokenRow : TokenRow) (payload : SubmissionPayload) (row : SubmissionRow) :
  prelude req db = inr (tokenRow, payload) ->
  validate payload = [] ->
  select_submission (payload_id payload) db = Some row ->
  NoDup (map sub_id (submissions db)) ->
  submissions (snd (postResults now req db)) = submissions db /\
  benchmark_versions (snd (postResults now req db)) = benchmark_versions db /\
  List.length (filter (fun s => String.eqb (sub_id s) (payload_id payload))
                      (submissions (snd (postResults now req db)))) = 1%nat /\
  scorePercentage (select_submission (payload_id payload) db) payload =
    sub_score_percentage row /\
  fst (postResults now req db) =
    json (Accepted (payload_id payload)
            (count_higher (sub_score_percentage row) db + 1)
            (toFixed2 (percentile_of (count_lower (sub_score_percentage row) db)
                                     (count_total db)))
            (leaderboard_url_of (payload_id payload)))
         200.
Proof.
  intros Hpre Hvalid Hsel Hkey.
  unfold postResults. rewrite Hpre, Hvalid.
  rewrite (ingest_existing tokenRow now payload db row Hsel). simpl.
  rewrite Hsel. simpl.
  repeat split; try reflexivity.
  apply unique_row with (row := row); assumption.
Qed.

End Idempotence.

(** The retry carries other totals (1 of 2) than the stored row (4/5). *)
Lemma ingest_idempotent_witness :
  submissions (snd (Results.postResults (RT := Sample.runtime) 2000
                      Sample.retry_request Sample.db_one)) =
    submissions Sample.db_one /\
  fst (Results.postResults (RT := Sample.runtime) 2000
         Sample.retry_request Sample.db_one) =
    json (Accepted Sample.id_a 1 0 (Results.leaderboard_url_of Sample.id_a)) 200.
Proof.
  pose proof (@ingest_idempotent Sample.runtime 2000
           Sample.retry_request Sample.db_one Sample.token_row
           (Sample.payload Sample.id_a (Js.Number 1) (Js.Number 2))
           (Sample.row Sample.id_a (4 # 5) 1500)
           eq_refl eq_refl eq_refl
           (NoDup_cons _ (fun H : In _ [] => H) (NoDup_nil _))) as H.
  destruct H as (Hsubs & _ & _ & _ & Hresp).
  split; [exact Hsubs|]. rewrite Hresp. reflexivity.
Defined.

(* ================================================================== *)
(** * Rejected submissions leave the store alone *)
(* ================================================================== *)

Section Atomicity.

Import Js Results ResultsFacts.

Context {RT : Runtime}.

(** C10. When POST /api/results answers validation_failed or rate_limited
    the store after the handler is the store before it: no submission, no
    benchmark version, no change of a token's last use. Any error
    response leaves the store as it was, and a response that does change
    the tokens is an accepted one, whose store has the last use of the
    caller's token set to the clock of the request. *)
Theorem ingest_atomic_on_error (now : Z) (req : Request) (db : DB) :
  (error_of (fst (postResults now req db)) = Some "validation_failed" \/
   error_of (fst (postResults now req db)) = Some "rate_limited" ->
   snd (postResults now req db) = db) /\
  (error_of (fst (postResults now req db)) <> None ->
   snd (postResults now req db) = db) /\
  (forall id rank pct url,
     body (fst (postResults now req db)) = Accepted id rank pct url ->
     exists tokenRow payload,
       prelude req db = inr (tokenRow, payload) /\
       tokens (snd (postResults now req db)) =
       map (touch_row (tok_id tokenRow) now) (tokens db)).
Proof.
  assert (Herr : error_of (fst (postResults now req db)) <> None ->
                 snd (postResults now req db) = db).
  { destruct (postResults_ending now req db)
      as [resp Hpre|tokenRow payload Hpre Hbad|tokenRow payload row Hpre Hv Hsel
          |tokenRow payload Hpre Hv Hsel Hc|tokenRow payload Hpre Hv Hsel Hc];
      try reflexivity.
    - rewrite (ingest_existing tokenRow now payload db row Hsel).
      simpl. intros H. contradiction H. reflexivity.
    - rewrite (ingest_new tokenRow now payload db Hsel Hc).
      simpl. intros H. contradiction H. reflexivity. }
  split; [|split; [exact Herr|]].
  - intros [H|H]; apply Herr; rewrite H; discriminate.
  - intros id rank pct url.
    destruct (postResults_ending now req db)
      as [resp Hpre|tokenRow payload Hpre Hbad|tokenRow payload row Hpre Hv Hsel
          |tokenRow payload Hpre Hv Hsel Hc|tokenRow payload Hpre Hv Hsel Hc].
    + simpl. intros Hb. destruct (prelude_error req db resp Hpre) as (_ & _ & Hne).
      contradiction Hne. unfold error_of. rewrite Hb. reflexivity.
    + simpl. discriminate.
    + rewrite (ingest_existing tokenRow now payload db row Hsel). simpl.
      intros _. exists tokenRow, payload. split; [exact Hpre|reflexivity].
    + simpl. discriminate.
    + rewrite (ingest_new tokenRow now payload db Hsel Hc).
      cbn [fst snd]. intros _. exists tokenRow, payload.
      split; [exact Hpre|]. apply tokens_stored.
Qed.

End Atomicity.

(** A payload whose total exceeds its maximum is refused and nothing is
    written. *)
Lemma ingest_atomic_on_error_witness :
  error_of (fst (Results.postResults (RT := Sample.runtime) 2000
                   Sample.invalid_request Sample.db_one)) =
    Some "validation_failed" /\
  snd (Results.postResults (RT := Sample.runtime) 2000
         Sample.invalid_request Sample.db_one) = Sample.db_one.
Proof.
  split; [reflexivity|].
  apply (proj1 (@ingest_atomic_on_error Sample.runtime 2000
                  Sample.invalid_request Sample.db_one)).
  left. reflexivity.
Defined.

(* ================================================================== *)
(** * The stored score percentage *)
(* ================================================================== *)

Section ScorePercentage.

Import Js Results ResultsFacts.

Context {RT : Runtime}.




End ScorePercentage.



(* ================================================================== *)
(** * Properties of rank and percentile *)
(* ================================================================== *)

Module RankingFacts.

Import Js Results ResultsFacts.

Lemma existsb_Qeq (x : Q) (l : list Q) :
  existsb (Qeq_bool x) l = true <-> InA Qeq x l.
Proof.
  rewrite existsb_exists, InA_alt. split.
  - intros (y & Hin & Heq). exists y. split; [|exact Hin].
    apply Qeq_bool_iff. exact Heq.
  - intros (y & Heq & Hin). exists y. split; [exact Hin|].
    apply Qeq_bool_iff. exact Heq.
Qed.

(** [distinct] keeps one representative of every value. *)
Lemma distinct_InA (l : list Q) (q : Q) :
  InA Qeq q (Submissions.distinct l) <-> InA Qeq q l.
Proof.
  induction l as [|x l IH]; simpl; [tauto|].
  destruct (existsb (Qeq_bool x) l) eqn:E.
  - rewrite IH. split; [intros H; right; exact H|].
    intros H. inversion H as [? ? Heq|? ? Hin]; subst; [|exact Hin].
    apply existsb_Qeq in E. rewrite Heq. exact E.
  - split; intros H; inversion H as [? ? Heq|? ? Hin]; subst.
    + left. exact Heq.
    + right. apply IH. exact Hin.
    + left. exact Heq.
    + right. apply IH. exact Hin.
Qed.

Lemma distinct_NoDupA (l : list Q) : NoDupA Qeq (Submissions.distinct l).
Proof.
  induction l as [|x l IH]; simpl; [constructor|].
  destruct (existsb (Qeq_bool x) l) eqn:E; [exact IH|].
  constructor; [|exact IH].
  intros Hin. apply (proj1 (distinct_InA l x)) in Hin.
  apply (proj2 (existsb_Qeq x l)) in Hin. congruence.
Qed.

Lemma distinct_length (l : list Q) :
  (List.length (Submissions.distinct l) <= List.length l)%nat.
Proof.
  induction l as [|x l IH]; simpl; [lia|].
  destruct (existsb (Qeq_bool x) l); simpl; lia.
Qed.

(** With no tie among them, the values are their own distinct values. *)
Lemma distinct_NoDupA_id (l : list Q) :
  NoDupA Qeq l -> Submissions.distinct l = l.
Proof.
  induction 1 as [|x l Hx Hl IH]; simpl; [reflexivity|].
  destruct (existsb (Qeq_bool x) l) eqn:E.
  - apply existsb_Qeq in E. contradiction.
  - rewrite IH. reflexivity.
Qed.

(** The detail view never ranks below the ingest response. *)
Lemma select_rank_le (target : Q) (db : DB) :
  1 <= Submissions.select_rank target db <= 1 + count_higher target db.
Proof.
  unfold Submissions.select_rank, count_higher.
  pose proof (distinct_length
    (map sub_score_percentage
       (filter (fun s => gtb (sub_score_percentage s) target) (submissions db)))) as H.
  rewrite length_map in H. lia.
Qed.

Lemma join_find (id : string) (db : DB) (row : SubmissionRow) (t : TokenRow) :
  Submissions.select_detail id db = Some (row, t) ->
  sub_id row = id /\ In row (submissions db).
Proof.
  unfold Submissions.select_detail. intros H. apply find_some in H.
  destruct H as [Hin Hid]. simpl in Hid. apply String.eqb_eq in Hid.
  split; [exact Hid|].
  unfold Submissions.join_tokens in Hin. apply in_flat_map in Hin.
  destruct Hin as (s & Hs & Hst). apply in_map_iff in Hst.
  destruct Hst as (t' & Heq & _). injection Heq as <- _. exact Hs.
Qed.

(** What the detail view answers with. *)
Lemma getSubmission_detail id db row verified rank total pct code :
  Submissions.getSubmission id db =
    json (SubmissionDetail row verified rank total pct) code ->
  sub_id row = id /\ In row (submissions db) /\
  rank = Submissions.select_rank (sub_score_percentage row) db /\
  total = Submissions.select_total db /\
  pct = Submissions.percentile_of rank total.
Proof.
  unfold Submissions.getSubmission.
  destruct (negb (truthy id)); [discriminate|].
  destruct (Submissions.select_detail id db) as [[row' t]|] eqn:Hsel;
    [|discriminate].
  intros H. inversion H; subst; clear H.
  destruct (join_find id db row t Hsel) as [Hid Hin].
  repeat split; solve [assumption | reflexivity].
Qed.

(** What the ingest response answers with. *)
Lemma postResults_accepted {RT : Runtime} now req db id rank pct url :
  body (fst (postResults now req db)) = Accepted id rank pct url ->
  exists row,
    select_submission id (snd (postResults now req db)) = Some row /\
    rank = count_higher (sub_score_percentage row) (snd (postResults now req db)) + 1 /\
    pct = toFixed2 (percentile_of
            (count_lower (sub_score_percentage row) (snd (postResults now req db)))
            (count_total (snd (postResults now req db)))).
Proof.
  destruct (postResults_ending now req db)
    as [resp Hpre|tokenRow payload Hpre Hbad|tokenRow payload row Hpre Hv Hsel
        |tokenRow payload Hpre Hv Hsel Hc|tokenRow payload Hpre Hv Hsel Hc].
  - simpl. intros Hb. destruct (prelude_error req db resp Hpre) as (_ & _ & Hne).
    contradiction Hne. unfold error_of. rewrite Hb. reflexivity.
  - simpl. discriminate.
  - rewrite (ingest_existing tokenRow now payload db row Hsel). simpl.
    intros H. injection H as <- <- <- _. exists row.
    split; [exact Hsel|]. split; reflexivity.
  - simpl. discriminate.
  - rewrite (ingest_new tokenRow now payload db Hsel Hc). cbn [fst snd body json].
    intros H. injection H as <- <- <- _.
    exists (new_submission_row (tok_id tokenRow) now payload).
    split; [apply select_submission_stored; exact Hsel|].
    split; reflexivity.
Qed.

(** Counting under a unique maximum. *)
Lemma all_lower_length (t : Q) (l : list SubmissionRow) :
  (forall s, In s l -> ltb (sub_score_percentage s) t = true) ->
  List.length (filter (fun s => ltb (sub_score_percentage s) t) l) = List.length l.
Proof.
  induction l as [|s l IH]; simpl; intros H; [reflexivity|].
  rewrite (H s (or_introl eq_refl)). simpl. f_equal.
  apply IH. intros s' Hs'. apply H. right. exact Hs'.
Qed.

Lemma ltb_irrefl (q : Q) : ltb q q = false.
Proof.
  unfold ltb. assert (H : Qle_bool q q = true) by (apply Qle_bool_iff, Qle_refl).
  rewrite H. reflexivity.
Qed.

Lemma ltb_not_gtb (a b : Q) : ltb a b = true -> gtb a b = false.
Proof.
  unfold ltb, gtb. intros H. apply negb_true_iff in H.
  assert (Hle : Qle_bool a b = true).
  { apply Qle_bool_iff. apply Qlt_le_weak. apply Qnot_le_lt.
    intros Hba. apply Qle_bool_iff in Hba. congruence. }
  rewrite Hle. reflexivity.
Qed.

Lemma lower_under_unique_maximum (row : SubmissionRow) (l : list SubmissionRow) :
  In row l ->
  NoDup (map sub_id l) ->
  (forall s, In s l ->
     s = row \/ ltb (sub_score_percentage s) (sub_score_percentage row) = true) ->
  (List.length (filter (fun s => ltb (sub_score_percentage s)
                                     (sub_score_percentage row)) l) + 1
   = List.length l)%nat.
Proof.
  induction l as [|s l IH]; simpl; intros Hin Hnd Hall; [contradiction|].
  inversion Hnd as [|? ? Hnotin Hnd']; subst.
  destruct (Hall s (or_introl eq_refl)) as [Heq|Hlow].
  - subst s. rewrite ltb_irrefl. rewrite all_lower_length; [lia|].
    intros s' Hs'. destruct (Hall s' (or_intror Hs')) as [Heq|Hlow];
      [|exact Hlow].
    subst s'. exfalso. apply Hnotin. apply in_map. exact Hs'.
  - rewrite Hlow. simpl. f_equal. apply IH.
    + destruct Hin as [Heq|Hin]; [|exact Hin].
      subst s. rewrite ltb_irrefl in Hlow. discriminate.
    + exact Hnd'.
    + intros s' Hs'. apply Hall. right. exact Hs'.
Qed.

Lemma none_higher_under_unique_maximum (row : SubmissionRow) (db : DB) :
  Submissions.unique_maximum row db ->
  filter (fun s => gtb (sub_score_percentage s) (sub_score_percentage row))
         (submissions db) = [].
Proof.
  intros (_ & _ & Hall).
  induction (submissions db) as [|s l IH]; simpl; [reflexivity|].
  assert (Hs : gtb (sub_score_percentage s) (sub_score_percentage row) = false).
  { destruct (Hall s (or_introl eq_refl)) as [Heq|Hlow].
    - subst s. unfold gtb.
      assert (H : Qle_bool (sub_score_percentage row) (sub_score_percentage row) = true)
        by (apply Qle_bool_iff, Qle_refl).
      rewrite H. reflexivity.
    - apply ltb_not_gtb. exact Hlow. }
  rewrite Hs. apply IH. intros s' Hs'. apply Hall. right. exact Hs'.
Qed.

Lemma count_lower_unique_maximum (row : SubmissionRow) (db : DB) :
  Submissions.unique_maximum row db ->
  count_lower (sub_score_percentage row) db = count_total db - 1 /\
  0 < count_total db.
Proof.
  intros (Hin & Hnd & Hall). unfold count_lower, count_total.
  pose proof (lower_under_unique_maximum row (submissions db) Hin Hnd Hall) as H.
  lia.
Qed.

Lemma select_rank_unique_maximum (row : SubmissionRow) (db : DB) :
  Submissions.unique_maximum row db ->
  Submissions.select_rank (sub_score_percentage row) db = 1.
Proof.
  intros H. unfold Submissions.select_rank.
  rewrite (none_higher_under_unique_maximum row db H). reflexivity.
Qed.

(** Rounding to two decimals. *)
Lemma toFixed2_nonneg (x : Q) :
  (0 <= x)%Q ->
  (toFixed2 x == inject_Z (round_half_up (x * 100)) / 100)%Q /\
  (x - (1 # 200) < toFixed2 x)%Q /\ (toFixed2 x <= x + (1 # 200))%Q.
Proof.
  intros Hx. unfold toFixed2.
  assert (E : Qle_bool 0 x = true) by (apply Qle_bool_iff; exact Hx).
  rewrite E. rewrite Qred_correct. unfold round_half_up.
  pose proof (Qfloor_le (x * 100 + (1 # 2))) as Hlo.
  pose proof (Qlt_floor (x * 100 + (1 # 2))) as Hhi.
  rewrite inject_Z_plus in Hhi.
  set (n := inject_Z (Qfloor (x * 100 + (1 # 2)))) in *.
  change (inject_Z 1) with 1%Q in Hhi.
  split; [reflexivity|]. split.
  - apply Qlt_shift_div_l; [reflexivity|]. lra.
  - apply Qle_shift_div_r; [reflexivity|]. lra.
Qed.

End RankingFacts.

(* ================================================================== *)
(** * Rank *)
(* ================================================================== *)

Section Rank.

Import Js Results ResultsFacts RankingFacts.

Context {RT : Runtime}.

Lemma gtb_lt (a b : Q) : gtb a b = true <-> (b < a)%Q.
Proof.
  unfold gtb. rewrite negb_true_iff. split.
  - intros H. apply Qnot_le_lt. intros Hle.
    apply Qle_bool_iff in Hle. congruence.
  - intros H. destruct (Qle_bool a b) eqn:E; [|reflexivity].
    apply Qle_bool_iff in E. exfalso. apply (Qlt_not_le _ _ H). exact E.
Qed.

Lemma InA_higher_scores (target q : Q) (l : list SubmissionRow) :
  InA Qeq q (map sub_score_percentage
               (filter (fun s => gtb (sub_score_percentage s) target) l)) <->
  exists s, In s l /\ (target < sub_score_percentage s)%Q /\
            (sub_score_percentage s == q)%Q.
Proof.
  rewrite InA_alt. split.
  - intros (y & Heq & Hin). apply in_map_iff in Hin.
    destruct Hin as (s & <- & Hs). apply filter_In in Hs.
    destruct Hs as [Hs Hgt]. exists s. split; [exact Hs|].
    split; [apply gtb_lt; exact Hgt|]. symmetry. exact Heq.
  - intros (s & Hs & Hgt & Heq). exists (sub_score_percentage s).
    split; [symmetry; exact Heq|]. apply in_map. apply filter_In.
    split; [exact Hs|]. apply gtb_lt. exact Hgt.
Qed.

(** C2, amended. The rank of the ingest response is 1 plus the number of
    stored submissions whose score percentage is strictly greater than
    that of the submission; the rank of the detail view is 1 plus the
    number of distinct score percentages strictly greater than that of
    the submission, so tied better submissions count once and the detail
    rank lies between 1 and the ingest rank. *)
Theorem reported_rank_spec :
  (forall now req db id rank pct url,
     body (fst (postResults now req db)) = Accepted id rank pct url ->
     exists row,
       select_submission id (snd (postResults now req db)) = Some row /\
       rank = 1 + count_higher (sub_score_percentage row)
                               (snd (postResults now req db))) /\
  (forall id db row verified rank total pct,
     Submissions.getSubmission id db =
       json (SubmissionDetail row verified rank total pct) 200 ->
     sub_id row = id /\ In row (submissions db) /\
     (exists values : list Q,
        NoDupA Qeq values /\
        (forall q, InA Qeq q values <->
           exists s, In s (submissions db) /\
                     (sub_score_percentage row < sub_score_percentage s)%Q /\
                     (sub_score_percentage s == q)%Q) /\
        rank = 1 + Z.of_nat (List.length values)) /\
     1 <= rank <= 1 + count_higher (sub_score_percentage row) db).
Proof.
  split.
  - intros now req db id rank pct url Hb.
    destruct (postResults_accepted now req db id rank pct url Hb)
      as (row & Hsel & Hrank & _).
    exists row. split; [exact Hsel|]. lia.
  - intros id db row verified rank total pct H.
    destruct (getSubmission_detail id db row verified rank total pct 200 H)
      as (Hid & Hin & Hrank & _ & _).
    split; [exact Hid|]. split; [exact Hin|]. split.
    + exists (Submissions.distinct
                (map sub_score_percentage
                   (filter (fun s => gtb (sub_score_percentage s)
                                         (sub_score_percentage row))
                           (submissions db)))).
      split; [apply distinct_NoDupA|]. split.
      * intros q. rewrite distinct_InA. apply InA_higher_scores.
      * rewrite Hrank. unfold Submissions.select_rank. lia.
    + rewrite Hrank. apply select_rank_le.
Qed.

End Rank.

(** Below the tie at 9/10 the detail view ranks the third submission
    second, within the bounds. *)
Lemma reported_rank_spec_witness :
  reported_rank (Submissions.getSubmission Sample.id_c Sample.tied_db) = Some 2 /\
  1 <= 2 <= 1 + Results.count_higher
                  (sub_score_percentage (Sample.row Sample.id_c (1 # 2) 1700))
                  Sample.tied_db.
Proof.
  split; [reflexivity|].
  destruct (proj2 (@reported_rank_spec Sample.runtime) Sample.id_c Sample.tied_db
              (Sample.row Sample.id_c (1 # 2) 1700) false 2 3 (3333 # 100)%Q
              eq_refl) as (_ & _ & _ & Hbounds).
  exact Hbounds.
Defined.

(** C2 as stated fails for the detail view: below two submissions tied at
    9/10 the submission at 1/2 is shown with rank 2, while two stored
    submissions score strictly more. *)
Lemma detail_rank_skips_ties :
  exists row,
    Results.select_submission Sample.id_c Sample.tied_db = Some row /\
    reported_rank (Submissions.getSubmission Sample.id_c Sample.tied_db) = Some 2 /\
    1 + Results.count_higher (sub_score_percentage row) Sample.tied_db = 3.
Proof.
  exists (Sample.row Sample.id_c (1 # 2) 1700).
  split; [reflexivity|]. split; reflexivity.
Qed.

(* ================================================================== *)
(** * Percentile *)
(* ================================================================== *)

Section Percentile.

Import Js Results ResultsFacts RankingFacts.

Context {RT : Runtime}.

Lemma count_total_positive (row : SubmissionRow) (db : DB) :
  In row (submissions db) -> 0 < count_total db.
Proof.
  unfold count_total. destruct (submissions db); simpl; [contradiction|lia].
Qed.

(** C3, amended. The percentile of the ingest response is
    count(score_percentage < target) / total times 100, the quotient and
    the product each rounded to binary64, then rounded to two decimals,
    and 0 for an empty population; the percentile of the detail view is
    (total - rank) / total times 100, computed and rounded the same way
    with the rank of that view, and 0 for an empty population; in both
    views the one best of N submissions gets (N - 1) / N times 100 so
    computed. The computed product is within 2^-45 of the exact
    100 * n / d, and the value reported is a multiple of 1/100 within
    1/200 of the computed product. *)
Theorem reported_percentile_spec :
  (forall now req db id rank pct url,
     body (fst (postResults now req db)) = Accepted id rank pct url ->
     exists row,
       select_submission id (snd (postResults now req db)) = Some row /\
       let lower := count_lower (sub_score_percentage row)
                                (snd (postResults now req db)) in
       let total := count_total (snd (postResults now req db)) in
       0 < total /\
       pct = toFixed2 (fmul (fdiv (inject_Z lower) (inject_Z total)) 100) /\
       (Submissions.unique_maximum row (snd (postResults now req db)) ->
        pct = toFixed2 (fmul (fdiv (inject_Z (total - 1)) (inject_Z total)) 100))) /\
  (forall id db row verified rank total pct,
     Submissions.getSubmission id db =
       json (SubmissionDetail row verified rank total pct) 200 ->
     total = count_total db /\ 0 < total /\
     rank = Submissions.select_rank (sub_score_percentage row) db /\
     pct = toFixed2 (fmul (fdiv (inject_Z (total - rank)) (inject_Z total)) 100) /\
     (Submissions.unique_maximum row db ->
      pct = toFixed2 (fmul (fdiv (inject_Z (total - 1)) (inject_Z total)) 100))) /\
  (forall lower, toFixed2 (percentile_of lower 0) = 0%Q) /\
  (forall rank, Submissions.percentile_of rank 0 = 0%Q) /\
  (forall n d, 0 <= n <= d -> 0 < d ->
     let exact := (inject_Z n / inject_Z d * 100)%Q in
     let computed := fmul (fdiv (inject_Z n) (inject_Z d)) 100 in
     (exact - 2 ^ (-45) <= computed)%Q /\ (computed <= exact + 2 ^ (-45))%Q /\
     (exists k : Z, toFixed2 computed == inject_Z k / 100)%Q /\
     (computed - (1 # 200) < toFixed2 computed)%Q /\
     (toFixed2 computed <= computed + (1 # 200))%Q).
Proof.
  split; [|split; [|split; [|split]]].
  - intros now req db id rank pct url Hb.
    destruct (postResults_accepted now req db id rank pct url Hb)
      as (row & Hsel & _ & Hpct).
    exists row. split; [exact Hsel|]. cbv zeta.
    destruct (select_submission_id id _ row Hsel) as [_ Hin].
    pose proof (count_total_positive row _ Hin) as Hpos.
    assert (Hnz : (count_total (snd (postResults now req db)) =? 0) = false)
      by (apply Z.eqb_neq; lia).
    unfold percentile_of in Hpct. rewrite Hnz in Hpct.
    split; [exact Hpos|]. split; [exact Hpct|].
    intros Hmax. destruct (count_lower_unique_maximum row _ Hmax) as [Hlow _].
    rewrite Hpct, Hlow. reflexivity.
  - intros id db row verified rank total pct H.
    destruct (getSubmission_detail id db row verified rank total pct 200 H)
      as (_ & Hin & Hrank & Htotal & Hpct).
    change (Submissions.select_total db) with (count_total db) in Htotal.
    pose proof (count_total_positive row db Hin) as Hpos.
    rewrite <- Htotal in Hpos.
    assert (Hgo : negb (total =? 0) && (0 <? total) = true).
    { apply andb_true_iff. split.
      - apply negb_true_iff. apply Z.eqb_neq. lia.
      - apply Z.ltb_lt. exact Hpos. }
    unfold Submissions.percentile_of in Hpct. rewrite Hgo in Hpct.
    split; [exact Htotal|]. split; [exact Hpos|]. split; [exact Hrank|].
    split; [exact Hpct|].
    intros Hmax. rewrite Hpct, Hrank.
    rewrite (select_rank_unique_maximum row db Hmax). reflexivity.
  - intros lower. reflexivity.
  - intros rank. reflexivity.
  - intros n d [Hn Hnd] Hd. cbv zeta.
    destruct (DoubleFacts.percentage_error n d Hn Hnd Hd) as [Hlo Hhi].
    destruct (DoubleFacts.percentage_bounds n d Hn Hnd Hd) as [H0 _].
    destruct (toFixed2_nonneg _ H0) as (Heq & Hlo' & Hhi').
    split; [exact Hlo|]. split; [exact Hhi|].
    split; [|split; assumption].
    exists (round_half_up (fmul (fdiv (inject_Z n) (inject_Z d)) 100 * 100)).
    exact Heq.
Qed.

End Percentile.

(** The best of three submissions is shown at 2 / 3 times 100, computed
    in binary64 and rounded. *)
Lemma reported_percentile_spec_witness :
  reported_percentile (Submissions.getSubmission Sample.id_a Sample.ranked_db)
    = Some (Js.toFixed2 (Js.fmul (Js.fdiv (inject_Z (3 - 1)) (inject_Z 3)) 100)) /\
  Js.toFixed2 (Js.fmul (Js.fdiv (inject_Z (3 - 1)) (inject_Z 3)) 100)
    = (6667 # 100)%Q.
Proof.
  split; [|vm_compute; reflexivity].
  destruct (proj1 (proj2 (@reported_percentile_spec Sample.runtime))
              Sample.id_a Sample.ranked_db
              (Sample.row Sample.id_a (9 # 10) 1500) false 1 3 (6667 # 100)%Q
              eq_refl) as (_ & _ & _ & _ & Hmax).
  rewrite <- Hmax; [reflexivity|].
  split; [left; reflexivity|]. split.
  - simpl. repeat constructor; simpl; intuition discriminate.
  - intros s [<-|[<-|[<-|[]]]]; [left; reflexivity|right; reflexivity|right; reflexivity].
Defined.

(** With 23 of 160 submissions below, the quotient times 100 is the
    binary64 number just under 14.375; the detail view of the same
    submission computes 159 / 160 times 100. *)
Example percentile_rounds_the_computed_product :
  Js.fmul (Js.fdiv 23 160) 100 = (8092405580431359 # 562949953421312)%Q /\
  (Js.fmul (Js.fdiv 23 160) 100 < 14375 # 1000)%Q /\
  reported_percentile
    (Submissions.getSubmission Sample.id_a PercentileFixtures.crowd)
    = Some (Js.toFixed2 (Js.fmul (Js.fdiv 159 160) 100)).
Proof. repeat split; vm_compute; reflexivity. Qed.

(** C3 as stated fails for the detail view: of two submissions tied at
    1/2 each is shown at percentile 50, while no stored submission scores
    less, so that 100 * count(<) / total is 0. It fails for the ingest
    response too, where the two decimals are those of the computed
    product: with 23 of 160 submissions below, the response shows 14.37,
    while 100 * 23 / 160 rounded to two decimals is 14.38. *)
Lemma detail_percentile_counts_ties :
  (exists row,
     Results.select_submission Sample.id_a Sample.pair_db = Some row /\
     reported_percentile (Submissions.getSubmission Sample.id_a Sample.pair_db)
       = Some 50%Q /\
     Js.toFixed2
       (100 * (inject_Z (Results.count_lower (sub_score_percentage row) Sample.pair_db)
               / inject_Z (Results.count_total Sample.pair_db))) = 0%Q) /\
  (exists row,
     Results.select_submission Sample.id_a PercentileFixtures.crowd = Some row /\
     Results.count_lower (sub_score_percentage row) PercentileFixtures.crowd = 23 /\
     Results.count_total PercentileFixtures.crowd = 160 /\
     reported_percentile
       (fst (Results.postResults (RT := Sample.runtime) 2000
               Sample.retry_request PercentileFixtures.crowd))
       = Some (1437 # 100)%Q /\
     (Js.toFixed2 (100 * (inject_Z 23 / inject_Z 160)) == 1438 # 100)%Q).
Proof.
  split.
  - exists (Sample.row Sample.id_a (1 # 2) 1500).
    split; [reflexivity|]. split; reflexivity.
  - exists (Sample.row Sample.id_a (1 # 2) 1500).
    repeat split; vm_compute; reflexivity.
Qed.

(* ================================================================== *)
(** * Properties of the rate limits *)
(* ================================================================== *)

Module RateLimitFacts.

Import Js ResultsFacts.

Section WithRuntime.

Context {RT : Runtime}.

(** ** Registration *)

Lemma postRegister_limited now entropy req db :
  Register.prelude req = None ->
  10 <= Register.hourly_count (Register.getClientIp req) now db ->
  Register.postRegister now entropy req db = (Register.rate_limited, db).
Proof.
  intros Hpre Hc. unfold Register.postRegister. rewrite Hpre.
  cbv zeta. unfold Register.MAX_REGISTRATIONS_PER_HOUR.
  apply Z.leb_le in Hc. rewrite Hc. reflexivity.
Qed.

Lemma postRegister_not_limited now entropy req db :
  Register.prelude req = None ->
  Register.hourly_count (Register.getClientIp req) now db < 10 ->
  error_of (fst (Register.postRegister now entropy req db)) <> Some "rate_limited".
Proof.
  intros Hpre Hc. unfold Register.postRegister. rewrite Hpre.
  cbv zeta. unfold Register.MAX_REGISTRATIONS_PER_HOUR.
  apply Z.leb_gt in Hc. rewrite Hc.
  destruct (negb (ensureHttps _)); [simpl; discriminate|].
  destruct (Register.insert_token _ db); simpl; discriminate.
Qed.

(** A registration that answers 201 went through the limit and left its
    mark. *)
Lemma postRegister_created now entropy req db :
  status (fst (Register.postRegister now entropy req db)) = 201 ->
  Register.prelude req = None /\
  Register.hourly_count (Register.getClientIp req) now db < 10 /\
  token_registration_limits (snd (Register.postRegister now entropy req db)) =
  (token_registration_limits db ++
   [{| rl_ip := Register.getClientIp req; rl_created_at := now |}])%list.
Proof.
  unfold Register.postRegister.
  destruct (Register.prelude req) as [resp|] eqn:Hpre.
  - unfold Register.prelude in Hpre.
    destruct (negb (ensureHttps (Register.req_url req))
              && negb (includes (Register.req_url req) "localhost"));
      [injection Hpre as <-; simpl; discriminate|].
    destruct (match Register.req_content_type req with
              | Some ct => negb (includes (toLowerCase ct) "application/json")
              | None => true
              end); [injection Hpre as <-; simpl; discriminate|discriminate].
  - cbv zeta. unfold Register.MAX_REGISTRATIONS_PER_HOUR.
    destruct (10 <=? Register.hourly_count (Register.getClientIp req) now db) eqn:Hc;
      [simpl; discriminate|].
    apply Z.leb_gt in Hc.
    destruct (negb (ensureHttps _)); [simpl; discriminate|].
    unfold Register.insert_token.
    destruct (existsb _ (tokens db)); [simpl; discriminate|].
    simpl. intros _. repeat split. exact Hc.
Qed.

Lemma hourly_count_app ip now db rows :
  Register.hourly_count ip now
    (set_token_registration_limits db (token_registration_limits db ++ rows)) =
  Register.hourly_count ip now db +
  Z.of_nat (List.length (filter
    (fun r => String.eqb (rl_ip r) ip
              && (now - Register.seconds_per_hour <=? rl_created_at r)) rows)).
Proof.
  unfold Register.hourly_count. simpl.
  rewrite filter_app, length_app. lia.
Qed.

Lemma hourly_count_limits ip now db db' :
  token_registration_limits db' = token_registration_limits db ->
  Register.hourly_count ip now db' = Register.hourly_count ip now db.
Proof. unfold Register.hourly_count. intros ->. reflexivity. Qed.

(** Each registration of a run that succeeds inside the window counts. *)
Lemma hourly_count_run ip now (ops : list (Z * Operation)) :
  forall db,
  Forall (registration_from ip (now - Register.seconds_per_hour)) ops ->
  Forall (fun resp => status resp = 201) (trace ops db) ->
  Register.hourly_count ip now db + Z.of_nat (List.length ops)
  <= Register.hourly_count ip now (run ops db).
Proof.
  induction ops as [|[t op] ops IH]; intros db Hops Hresp; simpl.
  - lia.
  - inversion Hops as [|? ? Hop Hops']; subst.
    simpl in Hresp. inversion Hresp as [|? ? Hhead Hresp']; subst.
    destruct Hop as (entropy & req & Hop & Hip & Ht). simpl in Hop, Ht.
    subst op. simpl in *.
    destruct (postRegister_created t entropy req db Hhead) as (_ & _ & Hrows).
    specialize (IH _ Hops' Hresp').
    assert (Hstep : Register.hourly_count ip now
                      (snd (Register.postRegister t entropy req db))
                    = Register.hourly_count ip now db + 1).
    { unfold Register.hourly_count. rewrite Hrows.
      rewrite filter_app, length_app. simpl. rewrite Hip, String.eqb_refl.
      apply Z.leb_le in Ht. rewrite Ht. simpl. lia. }
    lia.
Qed.

(** ** Submissions *)

Lemma daily_count_redeclare f token_id now db :
  Results.daily_count token_id now (Results.redeclare_timestamps f db) =
  Results.daily_count token_id now db.
Proof.
  unfold Results.daily_count, Results.redeclare_timestamps. simpl.
  induction (submissions db) as [|s l IH]; simpl; [reflexivity|].
  destruct (String.eqb (sub_token_id s) token_id
            && (now - Results.seconds_per_day <=? sub_created_at s));
    simpl; lia.
Qed.

Lemma postResults_created now req db :
  status (fst (Results.postResults now req db)) = 201 ->
  exists tokenRow payload,
    Results.prelude req db = inr (tokenRow, payload) /\
    Results.validate payload = [] /\
    Results.select_submission (Results.payload_id payload) db = None /\
    Results.daily_count (tok_id tokenRow) now db < 100 /\
    snd (Results.postResults now req db) = Results.stored tokenRow now payload db.
Proof.
  destruct (postResults_ending now req db)
    as [resp Hpre|tokenRow payload Hpre Hbad|tokenRow payload row Hpre Hv Hsel
        |tokenRow payload Hpre Hv Hsel Hc|tokenRow payload Hpre Hv Hsel Hc].
  - simpl. intros H.
    destruct (prelude_error req db resp Hpre) as (Hst & _). lia.
  - simpl. discriminate.
  - rewrite (ingest_existing tokenRow now payload db row Hsel). simpl.
    discriminate.
  - simpl. discriminate.
  - rewrite (ingest_new tokenRow now payload db Hsel Hc). cbn [fst snd].
    intros _. exists tokenRow, payload. repeat split; assumption.
Qed.

(** The prelude resolves the caller by the digest of the trimmed header. *)
Lemma prelude_token req db tokenRow payload :
  Results.prelude req db = inr (tokenRow, payload) ->
  exists token,
    Results.getAuthToken (Results.req_token req) = Some token /\
    truthy token = true /\
    Results.select_token_by_hash (hashToken token) db = Some tokenRow /\
    Results.req_json req = Some payload.
Proof.
  unfold Results.prelude.
  repeat match goal with
         | |- context [if ?c then _ else _] => destruct c eqn:?
         | |- context [match ?c with _ => _ end] => destruct c eqn:?
         end;
    intros H; inversion H; subst; clear H.
  match goal with
  | Ha : Results.getAuthToken _ = Some ?tok |- _ => exists tok
  end.
  repeat split; try assumption.
  match goal with
  | Hn : negb (truthy _) = false |- truthy _ = true =>
    apply negb_false_iff in Hn; exact Hn
  end.
Qed.

Lemma find_touch_row h id now (l : list TokenRow) :
  find (fun t => String.eqb (tok_token_hash t) h) (map (Results.touch_row id now) l) =
  option_map (Results.touch_row id now)
    (find (fun t => String.eqb (tok_token_hash t) h) l).
Proof.
  induction l as [|t l IH]; simpl; [reflexivity|].
  assert (Hh : tok_token_hash (Results.touch_row id now t) = tok_token_hash t).
  { unfold Results.touch_row. destruct (String.eqb (tok_id t) id); reflexivity. }
  rewrite Hh. destruct (String.eqb (tok_token_hash t) h); [reflexivity|exact IH].
Qed.

Lemma tok_id_touch_row id now t :
  tok_id (Results.touch_row id now t) = tok_id t.
Proof.
  unfold Results.touch_row. destruct (String.eqb (tok_id t) id); reflexivity.
Qed.

(** Ingest changes the tokens by a touch at most. *)
Lemma tokens_postResults now req db :
  tokens (snd (Results.postResults now req db)) = tokens db \/
  exists id, tokens (snd (Results.postResults now req db)) =
             map (Results.touch_row id now) (tokens db).
Proof.
  destruct (postResults_ending now req db)
    as [resp Hpre|tokenRow payload Hpre Hbad|tokenRow payload row Hpre Hv Hsel
        |tokenRow payload Hpre Hv Hsel Hc|tokenRow payload Hpre Hv Hsel Hc];
    try (left; reflexivity).
  - rewrite (ingest_existing tokenRow now payload db row Hsel).
    right. exists (tok_id tokenRow). reflexivity.
  - rewrite (ingest_new tokenRow now payload db Hsel Hc).
    right. exists (tok_id tokenRow). apply tokens_stored.
Qed.

Lemma resolve_postResults h now req db :
  option_map tok_id
    (Results.select_token_by_hash h (snd (Results.postResults now req db))) =
  option_map tok_id (Results.select_token_by_hash h db).
Proof.
  unfold Results.select_token_by_hash.
  destruct (tokens_postResults now req db) as [->|(id & ->)]; [reflexivity|].
  rewrite find_touch_row.
  destruct (find (fun t => String.eqb (tok_token_hash t) h) (tokens db));
    simpl; [|reflexivity].
  rewrite tok_id_touch_row. reflexivity.
Qed.

Lemma resolve_run h header since (ops : list (Z * Operation)) :
  forall db,
  Forall (submission_with header since) ops ->
  option_map tok_id (Results.select_token_by_hash h (run ops db)) =
  option_map tok_id (Results.select_token_by_hash h db).
Proof.
  induction ops as [|[t op] ops IH]; intros db Hops; simpl; [reflexivity|].
  inversion Hops as [|? ? Hop Hops']; subst.
  destruct Hop as (req & Hop & _). simpl in Hop. subst op. simpl.
  rewrite (IH _ Hops'). apply resolve_postResults.
Qed.

Lemma daily_count_stored token_id now tokenRow t payload db :
  Results.daily_count token_id now (Results.stored tokenRow t payload db) =
  Results.daily_count token_id now db +
  (if String.eqb (tok_id tokenRow) token_id
      && (now - Results.seconds_per_day <=? t) then 1 else 0).
Proof.
  unfold Results.daily_count. rewrite submissions_stored.
  rewrite filter_app, length_app. simpl.
  destruct (String.eqb (tok_id tokenRow) token_id
            && (now - Results.seconds_per_day <=? t)); simpl; lia.
Qed.

(** Each new submission of a run under one token header counts for the
    token it resolves to. *)
Lemma daily_count_run header now token (ops : list (Z * Operation)) :
  Results.getAuthToken header = Some token ->
  forall db tokenRow,
  Forall (submission_with header (now - Results.seconds_per_day)) ops ->
  Forall (fun resp => status resp = 201) (trace ops db) ->
  Results.select_token_by_hash (hashToken token) (run ops db) = Some tokenRow ->
  Results.daily_count (tok_id tokenRow) now db + Z.of_nat (List.length ops)
  <= Results.daily_count (tok_id tokenRow) now (run ops db).
Proof.
  intros Hheader.
  induction ops as [|[t op] ops IH]; intros db tokenRow Hops Hresp Hsel; simpl.
  - lia.
  - inversion Hops as [|? ? Hop Hops']; subst.
    simpl in Hresp. inversion Hresp as [|? ? Hhead Hresp']; subst.
    destruct Hop as (req & Hop & Htok & Ht). simpl in Hop, Ht. subst op.
    simpl in *.
    destruct (postResults_created t req db Hhead)
      as (tr0 & p0 & Hpre & _ & _ & _ & Hdb).
    destruct (prelude_token req db tr0 p0 Hpre) as (tok0 & Hauth & _ & Hsel0 & _).
    rewrite Htok, Hheader in Hauth. injection Hauth as <-.
    specialize (IH _ tokenRow Hops' Hresp' Hsel).
    assert (Hid : tok_id tr0 = tok_id tokenRow).
    { pose proof (resolve_run (hashToken token) header
                    (now - Results.seconds_per_day) ops
                    (snd (Results.postResults t req db)) Hops') as Hrun.
      rewrite Hsel in Hrun. rewrite resolve_postResults, Hsel0 in Hrun.
      simpl in Hrun. congruence. }
    rewrite Hdb in IH at 1. rewrite daily_count_stored in IH.
    rewrite Hid, String.eqb_refl in IH.
    apply Z.leb_le in Ht. rewrite Ht in IH. simpl in IH. lia.
Qed.

End WithRuntime.

End RateLimitFacts.

(* ================================================================== *)
(** * Rate limits *)
(* ================================================================== *)

Section RateLimits.

Import Js ResultsFacts RateLimitFacts.

Context {RT : Runtime}.

(** C6. A registration that passes the transport checks is answered
    rate_limited exactly when the caller's address has 10 or more rows of
    the trailing hour in token_registration_limits, so after ten
    registrations that succeeded within the hour the next one fails. An
    authenticated, valid submission of an identifier not yet stored is
    answered rate_limited exactly when the token has 100 or more
    submissions created in the trailing 24 hours, so after a hundred new
    submissions within the day the next one fails. The count reads the
    creation time the server assigned, which for a new row is the clock
    of its request: rewriting the client-declared timestamps of the store
    changes no count. *)
Theorem rate_limits_at_threshold :
  (forall now entropy req db,
     Register.prelude req = None ->
     (10 <= Register.hourly_count (Register.getClientIp req) now db ->
      Register.postRegister now entropy req db = (Register.rate_limited, db)) /\
     (Register.hourly_count (Register.getClientIp req) now db < 10 ->
      error_of (fst (Register.postRegister now entropy req db))
        <> Some "rate_limited")) /\
  (forall now entropy req db ops,
     Register.prelude req = None ->
     Forall (registration_from (Register.getClientIp req)
                               (now - Register.seconds_per_hour)) ops ->
     Forall (fun resp => status resp = 201) (trace ops db) ->
     (10 <= List.length ops)%nat ->
     Register.postRegister now entropy req (run ops db) =
       (Register.rate_limited, run ops db)) /\
  (forall now req db tokenRow payload,
     Results.prelude req db = inr (tokenRow, payload) ->
     Results.validate payload = [] ->
     Results.select_submission (Results.payload_id payload) db = None ->
     (100 <= Results.daily_count (tok_id tokenRow) now db ->
      Results.postResults now req db = (Results.rate_limited, db)) /\
     (Results.daily_count (tok_id tokenRow) now db < 100 ->
      status (fst (Results.postResults now req db)) = 201 /\
      exists row,
        Results.select_submission (Results.payload_id payload)
          (snd (Results.postResults now req db)) = Some row /\
        sub_token_id row = tok_id tokenRow /\
        sub_created_at row = now)) /\
  (forall now req db ops tokenRow payload,
     Results.prelude req (run ops db) = inr (tokenRow, payload) ->
     Results.validate payload = [] ->
     Results.select_submission (Results.payload_id payload) (run ops db) = None ->
     Forall (submission_with (Results.req_token req)
                             (now - Results.seconds_per_day)) ops ->
     Forall (fun resp => status resp = 201) (trace ops db) ->
     (100 <= List.length ops)%nat ->
     Results.postResults now req (run ops db) =
       (Results.rate_limited, run ops db)) /\
  (forall f token_id now db,
     Results.daily_count token_id now (Results.redeclare_timestamps f db) =
     Results.daily_count token_id now db).
Proof.
  split; [|split; [|split; [|split]]].
  - intros now entropy req db Hpre. split.
    + apply postRegister_limited. exact Hpre.
    + apply postRegister_not_limited. exact Hpre.
  - intros now entropy req db ops Hpre Hops Hresp Hlen.
    apply postRegister_limited; [exact Hpre|].
    pose proof (hourly_count_run (Register.getClientIp req) now ops db Hops Hresp) as H.
    assert (H0 : 0 <= Register.hourly_count (Register.getClientIp req) now db)
      by (unfold Register.hourly_count; lia).
    lia.
  - intros now req db tokenRow payload Hpre Hv Hsel. split.
    + intros Hc. unfold Results.postResults. rewrite Hpre, Hv.
      apply ingest_limited; assumption.
    + intros Hc. unfold Results.postResults. rewrite Hpre, Hv.
      rewrite (ingest_new tokenRow now payload db Hsel Hc). cbn [fst snd].
      split; [reflexivity|].
      exists (Results.new_submission_row (tok_id tokenRow) now payload).
      split; [apply select_submission_stored; exact Hsel|].
      split; reflexivity.
  - intros now req db ops tokenRow payload Hpre Hv Hsel Hops Hresp Hlen.
    unfold Results.postResults. rewrite Hpre, Hv.
    apply ingest_limited; [exact Hsel|].
    destruct (prelude_token req (run ops db) tokenRow payload Hpre)
      as (token & Hauth & _ & Hrow & _).
    pose proof (daily_count_run (Results.req_token req) now token ops Hauth
                  db tokenRow Hops Hresp Hrow) as H.
    assert (H0 : 0 <= Results.daily_count (tok_id tokenRow) now db)
      by (unfold Results.daily_count; lia).
    lia.
  - intros f token_id now db. apply daily_count_redeclare.
Qed.

End RateLimits.

(** Ten registrations within a quarter of an hour, then an eleventh. *)
Lemma rate_limits_at_threshold_witness :
  Register.postRegister (RT := Sample.runtime) 2000 (Sample.entropy 11)
    Sample.register_request
    (run (RT := Sample.runtime) Sample.ten_registrations empty_db) =
  (Register.rate_limited,
   run (RT := Sample.runtime) Sample.ten_registrations empty_db).
Proof.
  apply (proj1 (proj2 (@rate_limits_at_threshold Sample.runtime))).
  - reflexivity.
  - unfold Sample.ten_registrations. simpl map.
    repeat (constructor;
            [eexists; eexists; split; [reflexivity|split; [reflexivity|]];
             vm_compute; discriminate|]).
    constructor.
  - vm_compute. repeat (constructor; [reflexivity|]). constructor.
  - simpl. lia.
Defined.

(* ================================================================== *)
(** * Scope resolution *)
(* ================================================================== *)

Section ScopeResolution.

Import Js Scope.

Lemma requested_supplied (q : Query) :
  match requested q with
  | Some r => if truthy r then Some r else None
  | None => None
  end = supplied q.
Proof.
  unfold requested, supplied, or_else.
  destruct (q_version q) as [v|], (q_benchmark_version q) as [b|]; simpl;
    rewrite ?JsFacts.truthy_trim;
    repeat match goal with
           | |- context [is_blank ?s] => destruct (is_blank s) eqn:?; simpl
           end;
    rewrite ?JsFacts.truthy_trim;
    repeat match goal with
           | H : is_blank ?s = _ |- _ => rewrite H; clear H; simpl
           end;
    reflexivity.
Qed.

Lemma in_select_current (id : string) (db : DB) :
  In id (select_current db) <->
  exists v, In v (benchmark_versions db) /\ bv_id v = id /\ bv_current v = 1.
Proof.
  unfold select_current, current_ids. rewrite in_map_iff. split.
  - intros (v & Hid & Hin). apply filter_In in Hin. destruct Hin as [Hin Hc].
    apply Z.eqb_eq in Hc. eauto.
  - intros (v & Hin & Hid & Hc). exists v. split; [exact Hid|].
    apply filter_In. split; [exact Hin|]. apply Z.eqb_eq. exact Hc.
Qed.

(** C7. The resolved scope is the one-element list of the version
    identifier the caller supplies, whatever the store holds - whether the
    identifier exists, and whichever version is current; without one it
    is the list of the identifiers of the versions flagged current, which
    may be empty. An empty scope adds no clause and no parameter to the
    statement, and the query ranges over all submissions. *)
Theorem scope_resolution (q : Query) (db : DB) :
  resolveBenchmarkVersions q db =
    match supplied q with
    | Some v => [v]
    | None => map bv_id (filter (fun v => bv_current v =? 1) (benchmark_versions db))
    end /\
  (forall v db', supplied q = Some v -> resolveBenchmarkVersions q db' = [v]) /\
  (forall id, supplied q = None ->
     (In id (resolveBenchmarkVersions q db) <->
      exists v, In v (benchmark_versions db) /\ bv_id v = id /\ bv_current v = 1)) /\
  (forall clausePrefix field, appendBenchmarkVersionFilter clausePrefix field [] = "") /\
  (forall field st, add_version_filter field [] st = st) /\
  scoped_submissions [] db = submissions db /\
  (forall field st v versions,
     add_version_filter field (v :: versions) st =
     (fst st ++ appendBenchmarkVersionFilter "AND" field (v :: versions),
      (snd st ++ v :: versions)%list)) /\
  (forall v versions s,
     In s (scoped_submissions (v :: versions) db) <->
     In s (submissions db) /\
     exists x, sub_benchmark_version s = Some x /\ In x (v :: versions)).
Proof.
  assert (Hresolve : forall db',
            resolveBenchmarkVersions q db' =
            match supplied q with
            | Some v => [v]
            | None => select_current db'
            end).
  { intros db'. unfold resolveBenchmarkVersions.
    rewrite <- requested_supplied.
    destruct (requested q) as [r|]; [|reflexivity].
    destruct (truthy r); reflexivity. }
  split; [apply Hresolve|].
  split; [intros v db' Hv; rewrite Hresolve, Hv; reflexivity|].
  split; [intros id Hnone; rewrite Hresolve, Hnone; apply in_select_current|].
  split; [reflexivity|]. split; [reflexivity|]. split; [reflexivity|].
  split; [reflexivity|].
  intros v versions s. unfold scoped_submissions.
  change (0 <? List.length (v :: versions))%nat with true. cbv iota.
  rewrite filter_In. unfold in_versions. split.
  - intros [Hin Hv]. split; [exact Hin|].
    destruct (sub_benchmark_version s) as [x|]; [|discriminate].
    exists x. split; [reflexivity|].
    apply existsb_exists in Hv. destruct Hv as (y & Hy & Heq).
    apply String.eqb_eq in Heq. subst y. exact Hy.
  - intros [Hin (x & Hx & Hmem)]. split; [exact Hin|]. rewrite Hx.
    apply existsb_exists. exists x. split; [exact Hmem|].
    apply String.eqb_refl.
Qed.

End ScopeResolution.

(** With v9 current: no parameter gives v9, the parameter " v3 " gives v3,
    and an unknown v5 gives v5. *)
Lemma scope_resolution_witness :
  Scope.resolveBenchmarkVersions (Sample.query None) Sample.db_v9 = ["v9"] /\
  Scope.resolveBenchmarkVersions (Sample.query (Some " v3 ")) Sample.db_v9 = ["v3"] /\
  Scope.resolveBenchmarkVersions (Sample.query (Some "v5")) Sample.db_v9 = ["v5"].
Proof.
  split; [|split].
  - rewrite (proj1 (scope_resolution (Sample.query None) Sample.db_v9)).
    reflexivity.
  - rewrite (proj1 (scope_resolution (Sample.query (Some " v3 ")) Sample.db_v9)).
    reflexivity.
  - rewrite (proj1 (scope_resolution (Sample.query (Some "v5")) Sample.db_v9)).
    reflexivity.
Defined.

(* ================================================================== *)
(** * Properties of the benchmark version table *)
(* ================================================================== *)

Module VersionFacts.

Import Js Scope Admin ResultsFacts.

Lemma ids_map (f : BenchmarkVersionRow -> BenchmarkVersionRow)
  (l : list BenchmarkVersionRow) :
  (forall v, bv_id (f v) = bv_id v) -> map bv_id (map f l) = map bv_id l.
Proof.
  intros Hf. rewrite map_map. apply map_ext. exact Hf.
Qed.

Lemma current_ids_map (f : BenchmarkVersionRow -> BenchmarkVersionRow)
  (l : list BenchmarkVersionRow) :
  (forall v, bv_id (f v) = bv_id v) ->
  (forall v, bv_current (f v) = bv_current v) ->
  current_ids (map f l) = current_ids l.
Proof.
  intros Hid Hcur. unfold current_ids.
  induction l as [|v l IH]; simpl; [reflexivity|].
  rewrite Hcur. destruct (bv_current v =? 1); simpl; rewrite ?Hid, IH; reflexivity.
Qed.

Lemma current_ids_cleared (l : list BenchmarkVersionRow) :
  current_ids (map (Admin.with_current 0) l) = [].
Proof.
  unfold current_ids. induction l as [|v l IH]; simpl; [reflexivity|exact IH].
Qed.

Lemma bv_id_current_where id v : bv_id (Admin.current_where id v) = bv_id v.
Proof.
  unfold Admin.current_where. destruct (String.eqb (bv_id v) id); reflexivity.
Qed.

Lemma bv_current_set id v :
  bv_current (Admin.current_where id (Admin.with_current 0 v)) =
  if String.eqb (bv_id v) id then 1 else 0.
Proof.
  unfold Admin.current_where. simpl.
  destruct (String.eqb (bv_id v) id); reflexivity.
Qed.

Lemma current_ids_set_absent (id : string) (l : list BenchmarkVersionRow) :
  ~ In id (map bv_id l) ->
  current_ids (map (Admin.current_where id) (map (Admin.with_current 0) l)) = [].
Proof.
  unfold current_ids.
  induction l as [|v l IH]; simpl; intros Hnot; [reflexivity|].
  rewrite bv_current_set.
  destruct (String.eqb (bv_id v) id) eqn:E.
  - apply String.eqb_eq in E. tauto.
  - simpl. apply IH. tauto.
Qed.

(** Clearing every flag and setting the one of [id] leaves [id] alone
    current. *)
Lemma current_ids_set (id : string) (l : list BenchmarkVersionRow) :
  NoDup (map bv_id l) -> In id (map bv_id l) ->
  current_ids (map (Admin.current_where id) (map (Admin.with_current 0) l)) = [id].
Proof.
  induction l as [|v l IH]; simpl; intros Hnd Hin; [contradiction|].
  inversion Hnd as [|? ? Hnotin Hnd']; subst.
  unfold current_ids in *. simpl. rewrite bv_current_set.
  destruct (String.eqb (bv_id v) id) eqn:E.
  - apply String.eqb_eq in E. simpl. rewrite bv_id_current_where. simpl.
    rewrite E. f_equal.
    apply current_ids_set_absent. rewrite <- E. exact Hnotin.
  - simpl. apply IH; [exact Hnd'|].
    destruct Hin as [Heq|Hin]; [|exact Hin].
    rewrite Heq, String.eqb_refl in E. discriminate.
Qed.

Lemma find_version_in (id : string) (l : list BenchmarkVersionRow) v :
  find (fun v => String.eqb (bv_id v) id) l = Some v -> In id (map bv_id l).
Proof.
  intros H. apply find_some in H. destruct H as [Hin Hid].
  apply String.eqb_eq in Hid. rewrite <- Hid. apply in_map. exact Hin.
Qed.

Lemma has_version_in (id : string) (db : DB) :
  Results.has_version id db = false -> ~ In id (map bv_id (benchmark_versions db)).
Proof.
  unfold Results.has_version. intros H Hin. apply in_map_iff in Hin.
  destruct Hin as (v & Hid & Hin).
  assert (Ht : existsb (fun v => String.eqb (bv_id v) id) (benchmark_versions db) = true).
  { apply existsb_exists. exists v. split; [exact Hin|].
    apply String.eqb_eq. exact Hid. }
  congruence.
Qed.

Lemma evolves_invariant (l l' : list BenchmarkVersionRow) :
  Evolves l l' ->
  NoDup (map bv_id l) ->
  (List.length (current_ids l) <= 1)%nat ->
  NoDup (map bv_id l') /\ (List.length (current_ids l') <= 1)%nat /\
  (forall v, In v l' -> ~ In (bv_id v) (map bv_id l) -> bv_current v = 0).
Proof.
  intros Hev Hnd Hone. destruct Hev as [|id now Hnew|id f Hin Hid Hcur|f Hid Hcur].
  - repeat split; try assumption.
    intros v Hv Hnot. exfalso. apply Hnot. apply in_map. exact Hv.
  - split; [|split].
    + rewrite map_app. simpl. apply NoDup_app; [exact Hnd|repeat constructor; tauto|].
      intros x Hx [<-|[]]. contradiction.
    + unfold current_ids in *.
      rewrite filter_app, map_app, length_app. simpl. lia.
    + intros v Hv Hnot. apply in_app_or in Hv. destruct Hv as [Hv|[<-|[]]].
      * exfalso. apply Hnot. apply in_map. exact Hv.
      * reflexivity.
  - split; [|split].
    + rewrite (ids_map f _ Hid).
      rewrite (ids_map (Admin.current_where id));
        [|apply bv_id_current_where].
      rewrite (ids_map (Admin.with_current 0)); [exact Hnd|reflexivity].
    + rewrite (current_ids_map f _ Hid Hcur).
      rewrite (current_ids_set id l Hnd Hin). simpl. lia.
    + intros v Hv Hnot. exfalso. apply Hnot.
      apply (in_map bv_id) in Hv. rewrite (ids_map f _ Hid) in Hv.
      rewrite (ids_map (Admin.current_where id)) in Hv;
        [|apply bv_id_current_where].
      rewrite (ids_map (Admin.with_current 0)) in Hv; [exact Hv|reflexivity].
  - split; [|split].
    + rewrite (ids_map f _ Hid). exact Hnd.
    + rewrite (current_ids_map f _ Hid Hcur). exact Hone.
    + intros v Hv Hnot. exfalso. apply Hnot.
      apply (in_map bv_id) in Hv. rewrite (ids_map f _ Hid) in Hv. exact Hv.
Qed.

Section WithRuntime.

Context {RT : Runtime}.

Lemma versions_register_benchmark_version payload now db :
  Evolves (benchmark_versions db)
          (benchmark_versions (Results.register_benchmark_version payload now db)).
Proof.
  unfold Results.register_benchmark_version.
  destruct (benchmark_version payload) as [v|]; [|constructor].
  destruct (truthy v); [|constructor].
  unfold Results.insert_or_ignore_version.
  destruct (Results.has_version v db) eqn:E; [constructor|].
  simpl. apply VersionRegistered. apply has_version_in. exact E.
Qed.

Lemma versions_postResults now req db :
  Evolves (benchmark_versions db)
          (benchmark_versions (snd (Results.postResults now req db))).
Proof.
  destruct (postResults_ending now req db)
    as [resp Hpre|tokenRow payload Hpre Hbad|tokenRow payload row Hpre Hv Hsel
        |tokenRow payload Hpre Hv Hsel Hc|tokenRow payload Hpre Hv Hsel Hc];
    try constructor.
  - rewrite (ingest_existing tokenRow now payload db row Hsel). constructor.
  - rewrite (ingest_new tokenRow now payload db Hsel Hc). cbn [snd].
    unfold Results.stored. simpl.
    apply (versions_register_benchmark_version payload now
             (set_submissions db
                (submissions db ++
                 [Results.new_submission_row (tok_id tokenRow) now payload]))).
Qed.

Lemma versions_postRegister now entropy req db :
  benchmark_versions (snd (Register.postRegister now entropy req db)) =
  benchmark_versions db.
Proof.
  unfold Register.postRegister.
  destruct (Register.prelude req); [reflexivity|]. cbv zeta.
  destruct (_ <=? _); [reflexivity|].
  destruct (negb (ensureHttps _)); [reflexivity|].
  unfold Register.insert_token.
  destruct (existsb _ (tokens db)); reflexivity.
Qed.

Lemma versions_putVersion now email id upd db :
  Evolves (benchmark_versions db)
          (benchmark_versions (snd (Admin.putVersion now email id upd db))).
Proof.
  unfold Admin.putVersion.
  destruct (find (fun v => String.eqb (bv_id v) id) (benchmark_versions db))
    as [v|] eqn:Hfind; [|constructor].
  pose proof (find_version_in id _ v Hfind) as Hin.
  assert (Hhid : forall h w, bv_id (hidden_where h id w) = bv_id w)
    by (intros h w; unfold hidden_where;
        destruct (String.eqb (bv_id w) id); reflexivity).
  assert (Hhcur : forall h w, bv_current (hidden_where h id w) = bv_current w)
    by (intros h w; unfold hidden_where;
        destruct (String.eqb (bv_id w) id); reflexivity).
  destruct (upd_current upd) as [[|]|];
    destruct (upd_hidden upd) as [h|]; simpl.
  - apply (MadeCurrent (benchmark_versions db) id
             (hidden_where (if h then 1 else 0) id)); auto.
  - rewrite <- (map_id (map _ (map _ (benchmark_versions db)))).
    apply (MadeCurrent (benchmark_versions db) id (fun v => v));
      [exact Hin|reflexivity|reflexivity].
  - apply Relabelled; auto.
  - constructor.
  - apply Relabelled; auto.
  - constructor.
Qed.

Lemma versions_step now op db :
  Evolves (benchmark_versions db) (benchmark_versions (snd (step now op db))).
Proof.
  destruct op as [req|entropy req|id|req|email id upd|email id|email id|email id];
    simpl.
  - apply versions_postResults.
  - rewrite versions_postRegister. constructor.
  - constructor.
  - unfold Logging.log_post. destruct (negb _); constructor.
  - apply versions_putVersion.
  - unfold Admin.deleteSubmission.
    destruct (find _ (submissions db)); constructor.
  - unfold Admin.confirmToken.
    destruct (find _ (tokens db)) as [t|]; [|constructor].
    destruct (tok_claimed_at t); constructor.
  - unfold Admin.unconfirmToken.
    destruct (find _ (tokens db)) as [t|]; [|constructor].
    destruct (tok_claimed_at t); constructor.
Qed.

Lemma step_invariant now op db :
  version_ids_unique db -> at_most_one_current db ->
  version_ids_unique (snd (step now op db)) /\
  at_most_one_current (snd (step now op db)).
Proof.
  intros Hnd Hone.
  destruct (evolves_invariant _ _ (versions_step now op db) Hnd Hone)
    as (H1 & H2 & _).
  split; assumption.
Qed.

Lemma run_invariant (ops : list (Z * Operation)) :
  forall db,
  version_ids_unique db -> at_most_one_current db ->
  version_ids_unique (run ops db) /\ at_most_one_current (run ops db).
Proof.
  induction ops as [|[now op] ops IH]; intros db Hnd Hone; simpl.
  - split; assumption.
  - destruct (step_invariant now op db Hnd Hone) as [Hnd' Hone'].
    apply IH; assumption.
Qed.

Lemma find_version_some (id : string) (l : list BenchmarkVersionRow) :
  In id (map bv_id l) ->
  exists v, find (fun v => String.eqb (bv_id v) id) l = Some v.
Proof.
  intros Hin. apply in_map_iff in Hin. destruct Hin as (v & Hid & Hin).
  destruct (find (fun v => String.eqb (bv_id v) id) l) as [w|] eqn:E; [eauto|].
  exfalso. apply (find_none _ _ E) in Hin.
  rewrite Hid, String.eqb_refl in Hin. discriminate.
Qed.

Lemma select_current_putVersion now email id hidden db :
  version_ids_unique db ->
  In id (map bv_id (benchmark_versions db)) ->
  select_current
    (snd (putVersion now email id
            {| upd_current := Some true; upd_hidden := hidden |} db)) = [id].
Proof.
  intros Hnd Hin. unfold putVersion.
  destruct (find_version_some id _ Hin) as (v & ->).
  unfold select_current. destruct hidden as [h|]; simpl.
  - rewrite current_ids_map.
    + apply current_ids_set; assumption.
    + intros w. unfold hidden_where. destruct (String.eqb (bv_id w) id); reflexivity.
    + intros w. unfold hidden_where. destruct (String.eqb (bv_id w) id); reflexivity.
  - apply current_ids_set; assumption.
Qed.

End WithRuntime.

End VersionFacts.

(* ================================================================== *)
(** * At most one current version *)
(* ================================================================== *)

Section OneCurrentVersion.

Import Js Scope Admin VersionFacts.

Context {RT : Runtime}.

(** C8. From a store whose version identifiers are unique, as the primary
    key has them, and in which at most one version is current, every run
    of requests ends in such a store, and so does every single request.
    A version row that a request creates is not current - the only such
    rows are those ingest registers for an identifier it has not seen.
    The administrator's set-current first leaves no version current and
    then exactly the one it names. *)
Theorem one_current_version (ops : list (Z * Operation)) (db : DB) :
  version_ids_unique db ->
  at_most_one_current db ->
  (version_ids_unique (run ops db) /\ at_most_one_current (run ops db)) /\
  (forall now op,
     version_ids_unique (snd (step now op db)) /\
     at_most_one_current (snd (step now op db)) /\
     (forall v, In v (benchmark_versions (snd (step now op db))) ->
                ~ In (bv_id v) (map bv_id (benchmark_versions db)) ->
                bv_current v = 0)) /\
  (forall id now,
     Results.has_version id db = false ->
     benchmark_versions (Results.insert_or_ignore_version id now db) =
     (benchmark_versions db ++
      [{| bv_id := id; bv_created_at := now; bv_current := 0; bv_hidden := 0 |}])%list) /\
  select_current (clear_current db) = [] /\
  (forall now email id hidden,
     In id (map bv_id (benchmark_versions db)) ->
     select_current
       (snd (step now (PutVersion email id
                         {| upd_current := Some true; upd_hidden := hidden |}) db))
     = [id]).
Proof.
  intros Hnd Hone.
  split; [apply run_invariant; assumption|].
  split.
  { intros now op.
    destruct (evolves_invariant _ _ (versions_step now op db) Hnd Hone)
      as (H1 & H2 & H3).
    repeat split; assumption. }
  split.
  { intros id now Hnew. unfold Results.insert_or_ignore_version.
    rewrite Hnew. reflexivity. }
  split; [apply current_ids_cleared|].
  intros now email id hidden Hin. simpl.
  apply select_current_putVersion; assumption.
Qed.

End OneCurrentVersion.

(** With v9 current, v3 is made current and a submission then registers
    v7: v3 alone is current. *)
Lemma one_current_version_witness :
  Scope.select_current Sample.db_v9 = ["v9"] /\
  Scope.at_most_one_current (run (RT := Sample.runtime) Sample.version_run Sample.db_v9) /\
  Scope.select_current (run (RT := Sample.runtime) Sample.version_run Sample.db_v9)
    = ["v3"] /\
  map bv_id (benchmark_versions
               (run (RT := Sample.runtime) Sample.version_run Sample.db_v9))
    = ["v3"; "v9"; "v7"].
Proof.
  split; [reflexivity|]. split; [|split; reflexivity].
  apply (@one_current_version Sample.runtime Sample.version_run Sample.db_v9).
  - unfold Scope.version_ids_unique. simpl.
    repeat constructor; simpl; intuition discriminate.
  - unfold Scope.at_most_one_current, Scope.current_count. simpl. lia.
Defined.

(* ================================================================== *)
(** * Properties of the handling of secrets *)
(* ================================================================== *)

Module SecretFacts.

Import Js ResultsFacts RateLimitFacts.

(** ** The request log *)

Lemma is_token_header_fst (k v w : string) :
  Logging.is_token_header (k, v) = Logging.is_token_header (k, w).
Proof. reflexivity. Qed.

Lemma redact_presenting (secret : string) (kv : string * string) :
  Logging.redact (if Logging.is_token_header kv then (fst kv, secret) else kv) =
  Logging.redact kv.
Proof.
  destruct kv as [k v]. unfold Logging.redact.
  destruct (Logging.is_token_header (k, v)) eqn:E; simpl.
  - rewrite (is_token_header_fst k secret v), E. reflexivity.
  - rewrite E. reflexivity.
Qed.

Lemma header_presenting (name secret : string) (req : Logging.HttpRequest) :
  String.eqb (toLowerCase name) "x-pinchbench-token" = false ->
  Logging.header name (Logging.presenting secret req) = Logging.header name req.
Proof.
  intros Hname. unfold Logging.header, Logging.presenting. simpl.
  induction (Logging.http_headers req) as [|[k v] l IH]; simpl; [reflexivity|].
  destruct (Logging.is_token_header (k, v)) eqn:Ek; simpl.
  - unfold Logging.is_token_header in Ek. simpl in Ek.
    apply String.eqb_eq in Ek.
    destruct (String.eqb (toLowerCase k) (toLowerCase name)) eqn:En.
    + apply String.eqb_eq in En. rewrite <- En, Ek in Hname. discriminate.
    + exact IH.
  - destruct (String.eqb (toLowerCase k) (toLowerCase name)); [reflexivity|exact IH].
Qed.

Lemma client_ip_presenting (secret : string) (req : Logging.HttpRequest) :
  Logging.client_ip (Logging.presenting secret req) = Logging.client_ip req.
Proof.
  unfold Logging.client_ip.
  rewrite !header_presenting by reflexivity. reflexivity.
Qed.

Lemma log_post_presenting now secret req db :
  Logging.log_post now (Logging.presenting secret req) db =
  Logging.log_post now req db.
Proof.
  unfold Logging.log_post. rewrite client_ip_presenting. simpl.
  rewrite map_map.
  rewrite (map_ext _ Logging.redact (redact_presenting secret)).
  reflexivity.
Qed.

Section WithRuntime.

Context {RT : Runtime}.

(** ** Registration *)

Lemma postRegister_digest (h1 h2 : string -> string) now e1 e2 req db :
  Register.claim_random e1 = Register.claim_random e2 ->
  Register.randomUUID e1 = Register.randomUUID e2 ->
  h1 (Register.token_of e1) = h2 (Register.token_of e2) ->
  snd (Register.postRegister (RT := with_hash h1 RT) now e1 req db) =
  snd (Register.postRegister (RT := with_hash h2 RT) now e2 req db).
Proof.
  intros Hclaim Huuid Hhash. unfold Register.postRegister.
  change (Register.prelude (RT := with_hash h1 RT) req)
    with (Register.prelude (RT := RT) req).
  change (Register.prelude (RT := with_hash h2 RT) req)
    with (Register.prelude (RT := RT) req).
  destruct (Register.prelude req); [reflexivity|]. cbv zeta.
  destruct (_ <=? _); [reflexivity|].
  change (@ensureHttps (with_hash h1 RT)) with (@ensureHttps RT).
  change (@ensureHttps (with_hash h2 RT)) with (@ensureHttps RT).
  change (@hashToken (with_hash h1 RT)) with h1.
  change (@hashToken (with_hash h2 RT)) with h2.
  rewrite Hclaim, Huuid, Hhash.
  destruct (negb (ensureHttps _)); [reflexivity|].
  destruct (Register.insert_token _ db); reflexivity.
Qed.

Lemma postRegister_stored now entropy req db :
  status (fst (Register.postRegister now entropy req db)) = 201 ->
  fst (Register.postRegister now entropy req db) =
    json (Registered (Register.token_of entropy) (Register.token_of entropy)
            ("https://pinchbench.com/claim?token=" ++
             Security.randomHex 12 (Register.claim_random entropy))) 201 /\
  tokens (snd (Register.postRegister now entropy req db)) =
    (tokens db ++
     [Register.new_token_row (Register.randomUUID entropy)
        (hashToken (Register.token_of entropy))
        (Security.randomHex 12 (Register.claim_random entropy)) now])%list.
Proof.
  intros Hst. destruct (postRegister_created now entropy req db Hst) as (Hpre & Hc & _).
  revert Hst. unfold Register.postRegister. rewrite Hpre. cbv zeta.
  unfold Register.MAX_REGISTRATIONS_PER_HOUR.
  apply Z.leb_gt in Hc. rewrite Hc.
  destruct (negb (ensureHttps _)); [simpl; discriminate|].
  unfold Register.insert_token.
  destruct (existsb _ (tokens db)); [simpl; discriminate|].
  intros _. split; reflexivity.
Qed.

(** ** Resolution *)

Lemma postResults_digest (h1 h2 : string -> string) now req header1 header2
  token1 token2 db :
  Results.getAuthToken header1 = Some token1 ->
  Results.getAuthToken header2 = Some token2 ->
  truthy token1 = truthy token2 ->
  h1 token1 = h2 token2 ->
  Results.postResults (RT := with_hash h1 RT) now (Results.presenting header1 req) db =
  Results.postResults (RT := with_hash h2 RT) now (Results.presenting header2 req) db.
Proof.
  intros H1 H2 Htruthy Hhash.
  assert (Hpre : Results.prelude (RT := with_hash h1 RT)
                   (Results.presenting header1 req) db =
                 Results.prelude (RT := with_hash h2 RT)
                   (Results.presenting header2 req) db).
  { unfold Results.prelude. simpl.
    change (@ensureHttps (with_hash h1 RT)) with (@ensureHttps RT).
    change (@ensureHttps (with_hash h2 RT)) with (@ensureHttps RT).
    change (@hashToken (with_hash h1 RT)) with h1.
    change (@hashToken (with_hash h2 RT)) with h2.
    rewrite H1, H2, Htruthy, Hhash. reflexivity. }
  unfold Results.postResults. rewrite Hpre.
  destruct (Results.prelude _ db) as [resp|[tokenRow payload]]; reflexivity.
Qed.

Lemma prelude_resolves req db tokenRow payload :
  Results.prelude req db = inr (tokenRow, payload) ->
  exists token,
    Results.getAuthToken (Results.req_token req) = Some token /\
    tok_token_hash tokenRow = hashToken token /\
    In tokenRow (tokens db).
Proof.
  intros Hpre.
  destruct (prelude_token req db tokenRow payload Hpre) as (token & Hauth & _ & Hsel & _).
  exists token. split; [exact Hauth|].
  unfold Results.select_token_by_hash in Hsel. apply find_some in Hsel.
  destruct Hsel as [Hin Hh]. apply String.eqb_eq in Hh. tauto.
Qed.

End WithRuntime.

End SecretFacts.

(* ================================================================== *)
(** * The raw secret is never stored *)
(* ================================================================== *)

Section Secrets.

Import Js SecretFacts.

Context {RT : Runtime}.

(** C9. The store after a registration is a function of the digest of
    the secret, not of the secret: two registrations that differ in the
    secret and even in the digest function, but agree on the digest,
    leave the same store; on success the new token row holds the digest
    and the response alone carries the secret. Ingest resolves the caller
    by looking the digest of the presented secret up among the stored
    hashes - the row found holds that digest - and its whole outcome,
    response and store, is the same for two presented secrets with the
    same digest. The request log records the token header redacted, so
    the log row is the same whatever secret is presented. *)
Theorem secret_never_persisted :
  (forall (h1 h2 : string -> string) now e1 e2 req db,
     Register.claim_random e1 = Register.claim_random e2 ->
     Register.randomUUID e1 = Register.randomUUID e2 ->
     h1 (Register.token_of e1) = h2 (Register.token_of e2) ->
     snd (Register.postRegister (RT := with_hash h1 RT) now e1 req db) =
     snd (Register.postRegister (RT := with_hash h2 RT) now e2 req db)) /\
  (forall now entropy req db,
     status (fst (Register.postRegister now entropy req db)) = 201 ->
     fst (Register.postRegister now entropy req db) =
       json (Registered (Register.token_of entropy) (Register.token_of entropy)
               ("https://pinchbench.com/claim?token=" ++
                Security.randomHex 12 (Register.claim_random entropy))) 201 /\
     tokens (snd (Register.postRegister now entropy req db)) =
       (tokens db ++
        [Register.new_token_row (Register.randomUUID entropy)
           (hashToken (Register.token_of entropy))
           (Security.randomHex 12 (Register.claim_random entropy)) now])%list) /\
  (forall req db tokenRow payload,
     Results.prelude req db = inr (tokenRow, payload) ->
     exists token,
       Results.getAuthToken (Results.req_token req) = Some token /\
       tok_token_hash tokenRow = hashToken token /\
       In tokenRow (tokens db)) /\
  (forall (h1 h2 : string -> string) now req header1 header2 token1 token2 db,
     Results.getAuthToken header1 = Some token1 ->
     Results.getAuthToken header2 = Some token2 ->
     truthy token1 = truthy token2 ->
     h1 token1 = h2 token2 ->
     Results.postResults (RT := with_hash h1 RT) now
       (Results.presenting header1 req) db =
     Results.postResults (RT := with_hash h2 RT) now
       (Results.presenting header2 req) db) /\
  (forall now secret req db,
     Logging.log_post now (Logging.presenting secret req) db =
     Logging.log_post now req db).
Proof.
  split; [exact postRegister_digest|].
  split; [exact postRegister_stored|].
  split; [exact prelude_resolves|].
  split; [exact postResults_digest|].
  exact log_post_presenting.
Qed.

End Secrets.

(** Two registrations with different secrets under a digest that cannot
    tell them apart leave the same store. *)
Lemma secret_never_persisted_witness :
  Register.token_of (Sample.entropy_of [1; 2; 3; 4]) <>
  Register.token_of (Sample.entropy_of [5; 6; 7; 8]) /\
  snd (Register.postRegister (RT := with_hash Sample.blind_digest Sample.runtime)
         2000 (Sample.entropy_of [1; 2; 3; 4]) Sample.register_request
         Sample.db_one) =
  snd (Register.postRegister (RT := with_hash Sample.blind_digest Sample.runtime)
         2000 (Sample.entropy_of [5; 6; 7; 8]) Sample.register_request
         Sample.db_one).
Proof.
  split; [discriminate|].
  apply (proj1 (@secret_never_persisted Sample.runtime)); reflexivity.
Defined.

(* ================================================================== *)
(** * Scenarios *)
(* ================================================================== *)

Section Scenarios.

Import Js.

Example uuid_v4_accepted :
  Results.UUID_V4_REGEX_test "b1f7c0de-1234-4abc-8def-0123456789ab" = true.
Proof. reflexivity. Qed.

Example uuid_v4_upper_case_accepted :
  Results.UUID_V4_REGEX_test "B1F7C0DE-1234-4ABC-8DEF-0123456789AB" = true.
Proof. reflexivity. Qed.

Example uuid_v1_rejected :
  Results.UUID_V4_REGEX_test "b1f7c0de-1234-1abc-8def-0123456789ab" = false.
Proof. reflexivity. Qed.

Example uuid_wrong_variant_rejected :
  Results.UUID_V4_REGEX_test "b1f7c0de-1234-4abc-cdef-0123456789ab" = false.
Proof. reflexivity. Qed.

Example uuid_with_suffix_rejected :
  Results.UUID_V4_REGEX_test "b1f7c0de-1234-4abc-8def-0123456789ab0" = false.
Proof. reflexivity. Qed.

(** The WhiteSpace and LineTerminator code points from 128 on, in
    UTF-8, and three code points that are none: U+0085, U+180E and
    U+200B. *)
Example whitespace_code_points :
  forallb (fun bytes => is_blank (string_of_list_ascii (map ascii_of_nat bytes)))
    [[194; 160]; [225; 154; 128]; [226; 128; 128]; [226; 128; 129];
     [226; 128; 130]; [226; 128; 131]; [226; 128; 132]; [226; 128; 133];
     [226; 128; 134]; [226; 128; 135]; [226; 128; 136]; [226; 128; 137];
     [226; 128; 138]; [226; 128; 168]; [226; 128; 169]; [226; 128; 175];
     [226; 129; 159]; [227; 128; 128]; [239; 187; 191];
     [9]; [10]; [11]; [12]; [13]; [32]]%nat = true /\
  forallb (fun bytes => negb (is_blank (string_of_list_ascii (map ascii_of_nat bytes))))
    [[194; 133]; [225; 160; 142]; [226; 128; 139]; [65]; [28]]%nat = true /\
  trim (string_of_list_ascii (map ascii_of_nat [194; 160; 10; 103; 32; 120; 239; 187; 191; 9]%nat))
    = "g x".
Proof. repeat split. Qed.

Example trim_inner_space_kept : trim "  gpt x  " = "gpt x".
Proof. reflexivity. Qed.

Example toFixed2_of_a_third : toFixed2 (100 # 3) = (3333 # 100)%Q.
Proof. reflexivity. Qed.

Example toFixed2_tie_goes_up : toFixed2 (12345 # 1000) = (247 # 20)%Q.
Proof. reflexivity. Qed.

Example bytesToHex_sample : Security.bytesToHex [0; 15; 16; 255] = "000f10ff".
Proof. reflexivity. Qed.

(** Three broken rules give three entries, in the order of the checks. *)
Example validation_reports_all :
  Results.validate (RT := Sample.runtime) Sample.broken_payload =
  ["submission_id must be a valid UUID v4";
   "total_score must be less than or equal to max_score";
   "tasks[1].score must be between 0 and max_score"].
Proof. reflexivity. Qed.

(** Register, then submit 80 of 100 under the issued secret: the answer is
    201 and the stored score percentage is 80/100. *)
Example register_then_submit :
  let registered :=
    Register.postRegister (RT := Sample.runtime) 1000
      (Sample.entropy_of [1; 2]) Sample.register_request empty_db in
  let submitted :=
    Results.postResults (RT := Sample.runtime) 2000
      (Results.presenting (Some (Register.token_of (Sample.entropy_of [1; 2])))
                          Sample.new_request)
      (snd registered) in
  status (fst registered) = 201 /\
  status (fst submitted) = 201 /\
  map sub_score_percentage (submissions (snd submitted)) = [(80 / 100)%Q] /\
  benchmark_versions (snd submitted) =
    [{| bv_id := "v7"; bv_created_at := 2000; bv_current := 0; bv_hidden := 0 |}].
Proof. repeat split; reflexivity. Qed.

(** The same submission seen by both views of a store with a tie at the
    top: third by the ingest response, second by the detail view. *)
Example two_views_of_one_submission :
  reported_rank
    (fst (Results.postResults (RT := Sample.runtime) 2000
            (Sample.request (Sample.payload Sample.id_c (Number 1) (Number 2)))
            Sample.tied_db)) = Some 3 /\
  reported_rank (Submissions.getSubmission Sample.id_c Sample.tied_db) = Some 2.
Proof. split; reflexivity. Qed.

End Scenarios.

(* ================================================================== *)
(** * Hexadecimal encoding: utils/security.ts *)
(* ================================================================== *)

Module HexFacts.

Import Js Security Hex.

Lemma nibble_cases (i : Z) :
  0 <= i < 16 ->
  i = 0 \/ i = 1 \/ i = 2 \/ i = 3 \/ i = 4 \/ i = 5 \/ i = 6 \/ i = 7 \/
  i = 8 \/ i = 9 \/ i = 10 \/ i = 11 \/ i = 12 \/ i = 13 \/ i = 14 \/ i = 15.
Proof. lia. Qed.

(** A nibble is written as one lower-case digit that reads back. *)
Lemma hex_char_nibble (i : Z) :
  0 <= i < 16 ->
  exists c, hex_char i = String c EmptyString /\
            digit_value c = Some i /\ is_lower_hex c = true.
Proof.
  intros Hi.
  destruct (nibble_cases i Hi) as
    [->|[->|[->|[->|[->|[->|[->|[->|[->|[->|[->|[->|[->|[->|[->| ->]]]]]]]]]]]]]]];
    eexists; (split; [reflexivity|split; reflexivity]).
Qed.

Lemma byte_nibbles (b : Z) :
  is_byte b ->
  0 <= Z.land (Z.shiftr b 4) 15 < 16 /\ 0 <= Z.land b 15 < 16 /\
  16 * Z.land (Z.shiftr b 4) 15 + Z.land b 15 = b.
Proof.
  unfold is_byte. intros Hb.
  change 15 with (Z.ones 4). rewrite !Z.land_ones by lia.
  rewrite Z.shiftr_div_pow2 by lia. change (2 ^ 4) with 16.
  assert (Hq : 0 <= b / 16 < 16).
  { split; [apply Z.div_pos; lia|apply Z.div_lt_upper_bound; lia]. }
  rewrite (Z.mod_small (b / 16)) by lia.
  pose proof (Z.mod_pos_bound b 16 ltac:(lia)).
  pose proof (Z.div_mod b 16 ltac:(lia)). lia.
Qed.

Lemma bytesToHex_bytes (bytes : list Z) :
  Forall is_byte bytes ->
  String.length (bytesToHex bytes) = (2 * List.length bytes)%nat /\
  forallb is_lower_hex (list_ascii_of_string (bytesToHex bytes)) = true /\
  hexToBytes (bytesToHex bytes) = Some bytes.
Proof.
  induction 1 as [|b bytes Hb Hbytes IH]; simpl; [repeat split|].
  destruct IH as (Hlen & Hhex & Hback).
  destruct (byte_nibbles b Hb) as (Hhi & Hlo & Hsum).
  destruct (hex_char_nibble _ Hhi) as (ch & -> & Hvh & Hxh).
  destruct (hex_char_nibble _ Hlo) as (cl & -> & Hvl & Hxl).
  cbn [append String.length list_ascii_of_string forallb hexToBytes].
  rewrite Hlen, Hhex, Hxh, Hxl, Hvh, Hvl, Hback, Hsum.
  repeat split. lia.
Qed.

Lemma substring_length (n : nat) (s : string) :
  (n <= String.length s)%nat -> String.length (substring 0 n s) = n.
Proof.
  revert s. induction n as [|n IH]; intros s Hn.
  - destruct s; reflexivity.
  - destruct s as [|c s]; simpl in *; [lia|]. rewrite IH; [reflexivity|lia].
Qed.

Lemma substring_forallb (p : ascii -> bool) (n : nat) (s : string) :
  forallb p (list_ascii_of_string s) = true ->
  forallb p (list_ascii_of_string (substring 0 n s)) = true.
Proof.
  revert s. induction n as [|n IH]; intros s Hs.
  - destruct s; reflexivity.
  - destruct s as [|c s]; simpl in *; [reflexivity|].
    apply andb_true_iff in Hs. destruct Hs as [Hc Hs].
    rewrite Hc. simpl. apply IH. exact Hs.
Qed.

Lemma firstn_Forall {A : Type} (P : A -> Prop) (n : nat) (l : list A) :
  Forall P l -> Forall P (firstn n l).
Proof.
  intros H. revert n. induction H as [|a l Ha Hl IH]; intros [|n]; simpl;
    constructor; auto.
Qed.

Lemma randomHex_bytes (n : nat) (random : list Z) :
  Forall is_byte random ->
  (Nat.div (n + 1) 2 <= List.length random)%nat ->
  String.length (randomHex n random) = n /\
  forallb is_lower_hex (list_ascii_of_string (randomHex n random)) = true.
Proof.
  intros Hbytes Hlen. unfold randomHex.
  destruct (bytesToHex_bytes (firstn (Nat.div (n + 1) 2) random)
              (firstn_Forall _ _ _ Hbytes)) as (Hl & Hhex & _).
  rewrite length_firstn, Nat.min_l in Hl by exact Hlen.
  split.
  - apply substring_length. rewrite Hl.
    pose proof (Nat.div_mod_eq (n + 1) 2) as Hdm.
    pose proof (Nat.mod_upper_bound (n + 1) 2 ltac:(lia)). lia.
  - apply substring_forallb. exact Hhex.
Qed.

(** Lower-case hexadecimal digits are plain characters. *)
Lemma lower_hex_plain (l : list ascii) :
  forallb is_lower_hex l = true -> forallb is_plain l = true.
Proof.
  induction l as [|c l IH]; simpl; [reflexivity|].
  intros H. apply andb_true_iff in H. destruct H as [Hc Hl].
  rewrite (IH Hl), andb_true_r.
  unfold is_lower_hex, Results.in_range in Hc.
  unfold is_plain, is_whitespace.
  apply orb_true_iff in Hc.
  destruct Hc as [Hc|Hc]; apply andb_true_iff in Hc; destruct Hc as [H1 H2];
    apply Nat.leb_le in H1; apply Nat.leb_le in H2;
    rewrite (proj2 (Nat.ltb_lt _ _)) by lia;
    repeat (rewrite (proj2 (Nat.eqb_neq _ _)) by lia); reflexivity.
Qed.

Lemma list_ascii_of_string_app (a b : string) :
  list_ascii_of_string (a ++ b) =
  (list_ascii_of_string a ++ list_ascii_of_string b)%list.
Proof. induction a as [|c a IH]; simpl; [reflexivity|]. rewrite IH. reflexivity. Qed.

Lemma string_length_app (a b : string) :
  String.length (a ++ b) = (String.length a + String.length b)%nat.
Proof. induction a as [|c a IH]; simpl; [reflexivity|]. rewrite IH. reflexivity. Qed.

End HexFacts.

Section HexEncoding.

Import Js Security Hex HexFacts.

(** X1. [bytesToHex] writes two lower-case hexadecimal digits per byte,
    and the bytes can be read back from them: different arrays have
    different encodings. *)
Theorem bytesToHex_round_trip (bytes : list Z) :
  Forall is_byte bytes ->
  String.length (bytesToHex bytes) = (2 * List.length bytes)%nat /\
  forallb is_lower_hex (list_ascii_of_string (bytesToHex bytes)) = true /\
  hexToBytes (bytesToHex bytes) = Some bytes /\
  (forall other, Forall is_byte other ->
                 bytesToHex other = bytesToHex bytes -> other = bytes).
Proof.
  intros Hbytes.
  destruct (bytesToHex_bytes bytes Hbytes) as (Hlen & Hhex & Hback).
  repeat split; try assumption.
  intros other Hother Heq.
  destruct (bytesToHex_bytes other Hother) as (_ & _ & Hback').
  rewrite Heq, Hback in Hback'. congruence.
Qed.

(** X2. With the random source yielding bytes, at least 16 for the secret
    and 6 for the claim code, the secret is [pb_live_] followed by 32
    lower-case hexadecimal digits, 40 characters that trimming leaves
    alone, and the claim code is 12 such digits. *)
Theorem issued_secret_format (entropy : Register.Entropy) :
  Forall is_byte (Register.token_random entropy) ->
  Forall is_byte (Register.claim_random entropy) ->
  (16 <= List.length (Register.token_random entropy))%nat ->
  (6 <= List.length (Register.claim_random entropy))%nat ->
  Register.token_of entropy =
    "pb_live_" ++ randomHex 32 (Register.token_random entropy) /\
  String.length (randomHex 32 (Register.token_random entropy)) = 32%nat /\
  forallb is_lower_hex
    (list_ascii_of_string (randomHex 32 (Register.token_random entropy))) = true /\
  String.length (Register.token_of entropy) = 40%nat /\
  trim (Register.token_of entropy) = Register.token_of entropy /\
  String.length (randomHex 12 (Register.claim_random entropy)) = 12%nat /\
  forallb is_lower_hex
    (list_ascii_of_string (randomHex 12 (Register.claim_random entropy))) = true.
Proof.
  intros Htok Hclaim Hn Hm.
  destruct (randomHex_bytes 32 _ Htok Hn) as (Hl32 & Hx32).
  destruct (randomHex_bytes 12 _ Hclaim Hm) as (Hl12 & Hx12).
  split; [reflexivity|]. split; [exact Hl32|]. split; [exact Hx32|].
  split; [|split; [|split; assumption]].
  - unfold Register.token_of. rewrite string_length_app, Hl32. reflexivity.
  - apply JsFacts.trim_plain. unfold Register.token_of.
    rewrite list_ascii_of_string_app, forallb_app.
    rewrite (lower_hex_plain _ Hx32). reflexivity.
Qed.

End HexEncoding.
(* ================================================================== *)
(** * Registration *)
(* ================================================================== *)

Module RegisterFacts.

Import Js RateLimitFacts.

Lemma truthy_or_unknown (o : option string) :
  truthy (nullish (or_else o (Some "unknown")) "unknown") = true.
Proof.
  unfold or_else. destruct (truthy_opt o) eqn:E; [|reflexivity].
  destruct o as [s|]; [exact E|discriminate].
Qed.

Lemma getClientIp_cases (req : Register.Request) :
  Register.getClientIp req =
  match Register.req_cf_connecting_ip req with
  | Some (String c s) => String c s
  | _ =>
    match Register.req_x_forwarded_for req with
    | Some v =>
      if truthy (trim (Register.before_comma v))
      then trim (Register.before_comma v) else "unknown"
    | None => "unknown"
    end
  end.
Proof.
  unfold Register.getClientIp, or_else.
  destruct (Register.req_cf_connecting_ip req) as [[|c s]|];
    destruct (Register.req_x_forwarded_for req) as [v|]; simpl;
    try reflexivity;
    destruct (truthy (trim (Register.before_comma v))); reflexivity.
Qed.

Section WithRuntime.

Context {RT : Runtime}.

(** What a registration does to the store. *)
Lemma postRegister_effect now entropy req db :
  (status (fst (Register.postRegister now entropy req db)) <> 201 /\
   snd (Register.postRegister now entropy req db) = db) \/
  (status (fst (Register.postRegister now entropy req db)) = 201 /\
   ~ In (Register.randomUUID entropy) (map tok_id (tokens db)) /\
   ~ In (hashToken (Register.token_of entropy)) (map tok_token_hash (tokens db)) /\
   snd (Register.postRegister now entropy req db) =
   Register.insert_registration (Register.getClientIp req) now
     (set_tokens db
        (tokens db ++
         [Register.new_token_row (Register.randomUUID entropy)
            (hashToken (Register.token_of entropy))
            (Security.randomHex 12 (Register.claim_random entropy)) now]))).
Proof.
  unfold Register.postRegister.
  destruct (Register.prelude req) as [resp|] eqn:Hpre.
  { left. split; [|reflexivity]. unfold Register.prelude in Hpre.
    destruct (negb (ensureHttps (Register.req_url req))
              && negb (includes (Register.req_url req) "localhost"));
      [injection Hpre as <-; simpl; discriminate|].
    destruct (match Register.req_content_type req with
              | Some ct => negb (includes (toLowerCase ct) "application/json")
              | None => true
              end); [injection Hpre as <-; simpl; discriminate|discriminate]. }
  cbv zeta.
  destruct (_ <=? _); [left; split; [simpl; discriminate|reflexivity]|].
  destruct (negb (ensureHttps _)); [left; split; [simpl; discriminate|reflexivity]|].
  unfold Register.insert_token.
  destruct (existsb _ (tokens db)) eqn:E;
    [left; split; [simpl; discriminate|reflexivity]|].
  right. split; [reflexivity|].
  assert (Hnone : forall t, In t (tokens db) ->
            tok_id t <> Register.randomUUID entropy /\
            tok_token_hash t <> hashToken (Register.token_of entropy)).
  { intros t Ht.
    assert (Hall : String.eqb (tok_id t) (Register.randomUUID entropy)
                   || String.eqb (tok_token_hash t)
                        (hashToken (Register.token_of entropy)) = false).
    { match goal with |- ?b = false => destruct b eqn:Hb end; [|reflexivity].
      assert (Hex : existsb
                (fun t0 => String.eqb (tok_id t0) (Register.randomUUID entropy)
                           || String.eqb (tok_token_hash t0)
                                (hashToken (Register.token_of entropy)))
                (tokens db) = true)
        by (apply existsb_exists; exists t; split; assumption).
      simpl in E. congruence. }
    apply orb_false_iff in Hall. destruct Hall as [H1 H2].
    apply String.eqb_neq in H1. apply String.eqb_neq in H2. tauto. }
  split; [|split; [|reflexivity]].
  - intros Hin. apply in_map_iff in Hin. destruct Hin as (t & Hid & Ht).
    apply (proj1 (Hnone t Ht)). exact Hid.
  - intros Hin. apply in_map_iff in Hin. destruct Hin as (t & Hh & Ht).
    apply (proj2 (Hnone t Ht)). exact Hh.
Qed.

Lemma find_app_new {A : Type} (f : A -> bool) (l : list A) (a : A) :
  (forall x, In x l -> f x = false) -> f a = true ->
  find f (l ++ [a]) = Some a.
Proof.
  intros Hl Ha. induction l as [|x l IH]; simpl.
  - rewrite Ha. reflexivity.
  - rewrite (Hl x (or_introl eq_refl)). apply IH.
    intros y Hy. apply Hl. right. exact Hy.
Qed.

End WithRuntime.

Lemma find_all_false {A : Type} (f : A -> bool) (l : list A) :
  (forall x, In x l -> f x = false) -> find f l = None.
Proof.
  induction l as [|x l IH]; simpl; intros H; [reflexivity|].
  rewrite (H x (or_introl eq_refl)). apply IH.
  intros y Hy. apply H. right. exact Hy.
Qed.

End RegisterFacts.

Section Registration.

Import Js RateLimitFacts RegisterFacts.

Context {RT : Runtime}.

(** X3. The address a registration is counted under is the
    CF-Connecting-IP header unless it is missing or empty, else the
    trimmed first entry of X-Forwarded-For unless that is missing or
    empty, else the word [unknown]; it is never empty. So callers that
    send neither header share one allowance: once ten of their
    registrations succeeded within the hour, every further one without
    an address is refused. *)
Theorem registrations_without_address_share_a_limit (req : Register.Request) :
  truthy (Register.getClientIp req) = true /\
  Register.getClientIp req =
    match Register.req_cf_connecting_ip req with
    | Some (String c s) => String c s
    | _ =>
      match Register.req_x_forwarded_for req with
      | Some v =>
        if truthy (trim (Register.before_comma v))
        then trim (Register.before_comma v) else "unknown"
      | None => "unknown"
      end
    end /\
  (forall now entropy db ops,
     Register.prelude req = None ->
     Register.getClientIp req = "unknown" ->
     Forall (registration_from "unknown" (now - Register.seconds_per_hour)) ops ->
     Forall (fun resp => status resp = 201) (trace ops db) ->
     (10 <= List.length ops)%nat ->
     Register.postRegister now entropy req (run ops db) =
       (Register.rate_limited, run ops db)).
Proof.
  split; [apply truthy_or_unknown|]. split; [apply getClientIp_cases|].
  intros now entropy db ops Hpre Hip Hops Hresp Hlen.
  apply postRegister_limited; [exact Hpre|]. rewrite Hip.
  pose proof (hourly_count_run "unknown" now ops db Hops Hresp) as H.
  assert (H0 : 0 <= Register.hourly_count "unknown" now db)
    by (unfold Register.hourly_count; lia).
  lia.
Qed.

(** X5. A registration either answers 201, and then the store gains one
    token row - unclaimed, never used, holding the digest, the claim code
    and an expiry 24 hours after the clock of the request - and one row
    of the registration limits under the caller's address, every other
    table staying as it was; or it answers something else and the store
    is unchanged. *)
Theorem registration_all_or_nothing (now : Z) (entropy : Register.Entropy)
  (req : Register.Request) (db : DB) :
  (status (fst (Register.postRegister now entropy req db)) <> 201 /\
   snd (Register.postRegister now entropy req db) = db) \/
  (status (fst (Register.postRegister now entropy req db)) = 201 /\
   tokens (snd (Register.postRegister now entropy req db)) =
     (tokens db ++
      [{| tok_id := Register.randomUUID entropy;
          tok_user_id := None;
          tok_token_hash := hashToken (Register.token_of entropy);
          tok_claim_code :=
            Some (Security.randomHex 12 (Register.claim_random entropy));
          tok_claim_expires_at := Some (now + 86400);
          tok_claimed_at := None;
          tok_created_at := now;
          tok_last_used_at := None |}])%list /\
   token_registration_limits (snd (Register.postRegister now entropy req db)) =
     (token_registration_limits db ++
      [{| rl_ip := Register.getClientIp req; rl_created_at := now |}])%list /\
   submissions (snd (Register.postRegister now entropy req db)) = submissions db /\
   benchmark_versions (snd (Register.postRegister now entropy req db)) =
     benchmark_versions db /\
   raw_post_logs (snd (Register.postRegister now entropy req db)) =
     raw_post_logs db).
Proof.
  destruct (postRegister_effect now entropy req db)
    as [[Hst Hdb]|(Hst & _ & _ & Hdb)].
  - left. split; assumption.
  - right. split; [exact Hst|]. rewrite Hdb. repeat split.
Qed.

End Registration.
(* ================================================================== *)
(** * Keys of the store *)
(* ================================================================== *)

Module StoreFacts.

Import Js ResultsFacts RateLimitFacts RegisterFacts VersionFacts.

Lemma NoDup_snoc {A : Type} (l : list A) (a : A) :
  NoDup l -> ~ In a l -> NoDup (l ++ [a]).
Proof.
  intros Hl Ha. apply NoDup_app; [exact Hl|repeat constructor; tauto|].
  intros x Hx [<-|[]]. contradiction.
Qed.

Lemma NoDup_map_filter {Row Key : Type} (key : Row -> Key)
  (keep : Row -> bool) (rows : list Row)
  (Hkeys : NoDup (map key rows)) : NoDup (map key (filter keep rows)).
Proof.
  induction rows as [|r rows IH]; simpl in *; [constructor|].
  apply NoDup_cons_iff in Hkeys. destruct Hkeys as [Hfresh Hrest].
  destruct (keep r); simpl; [|exact (IH Hrest)].
  apply NoDup_cons_iff. split; [|exact (IH Hrest)].
  rewrite in_map_iff. intros (x & Hx & Hin).
  apply filter_In in Hin. apply Hfresh. rewrite <- Hx.
  apply in_map. exact (proj1 Hin).
Qed.

Lemma map_ext_id {A B : Type} (f : A -> B) (g : A -> A) (l : list A) :
  (forall a, f (g a) = f a) -> map f (map g l) = map f l.
Proof. intros H. rewrite map_map. apply map_ext. exact H. Qed.

Lemma NoDup_map_same {A B : Type} (f : A -> B) (g : A -> A) (l : list A) :
  (forall a, f (g a) = f a) -> NoDup (map f l) -> NoDup (map f (map g l)).
Proof. intros H Hl. rewrite (map_ext_id f g l H). exact Hl. Qed.

Lemma touch_row_hash id now t :
  tok_token_hash (Results.touch_row id now t) = tok_token_hash t.
Proof. unfold Results.touch_row. destruct (String.eqb (tok_id t) id); reflexivity. Qed.

Lemma claim_row_keys id now t :
  tok_id (Admin.claim_row id now t) = tok_id t /\
  tok_token_hash (Admin.claim_row id now t) = tok_token_hash t.
Proof. unfold Admin.claim_row. destruct (String.eqb (tok_id t) id); split; reflexivity. Qed.

Lemma unclaim_row_keys id t :
  tok_id (Admin.unclaim_row id t) = tok_id t /\
  tok_token_hash (Admin.unclaim_row id t) = tok_token_hash t.
Proof. unfold Admin.unclaim_row. destruct (String.eqb (tok_id t) id); split; reflexivity. Qed.

Lemma select_submission_none id db :
  Results.select_submission id db = None -> ~ In id (map sub_id (submissions db)).
Proof.
  unfold Results.select_submission. intros H Hin. apply in_map_iff in Hin.
  destruct Hin as (s & Hid & Hs). apply (find_none _ _ H) in Hs.
  simpl in Hs. rewrite Hid, String.eqb_refl in Hs. discriminate.
Qed.

Section WithRuntime.

Context {RT : Runtime}.

(** The token and submission keys after each kind of request. *)
Lemma keys_postResults now req db :
  map tok_id (tokens (snd (Results.postResults now req db))) = map tok_id (tokens db) /\
  map tok_token_hash (tokens (snd (Results.postResults now req db))) =
    map tok_token_hash (tokens db) /\
  (submissions (snd (Results.postResults now req db)) = submissions db \/
   exists row, ~ In (sub_id row) (map sub_id (submissions db)) /\
               submissions (snd (Results.postResults now req db)) =
               (submissions db ++ [row])%list).
Proof.
  destruct (postResults_ending now req db)
    as [resp Hpre|tokenRow payload Hpre Hbad|tokenRow payload row Hpre Hv Hsel
        |tokenRow payload Hpre Hv Hsel Hc|tokenRow payload Hpre Hv Hsel Hc];
    try (repeat split; left; reflexivity).
  - rewrite (ingest_existing tokenRow now payload db row Hsel). simpl.
    split; [apply map_ext_id; intros; apply tok_id_touch_row|].
    split; [apply map_ext_id; intros; apply touch_row_hash|].
    left. reflexivity.
  - rewrite (ingest_new tokenRow now payload db Hsel Hc). cbn [snd].
    rewrite tokens_stored, submissions_stored.
    split; [apply map_ext_id; intros; apply tok_id_touch_row|].
    split; [apply map_ext_id; intros; apply touch_row_hash|].
    right. exists (Results.new_submission_row (tok_id tokenRow) now payload).
    split; [|reflexivity]. apply select_submission_none. exact Hsel.
Qed.

Lemma evolves_ids (l l' : list BenchmarkVersionRow) :
  Admin.Evolves l l' -> NoDup (map bv_id l) -> NoDup (map bv_id l').
Proof.
  intros Hev Hnd. destruct Hev as [|id now Hnew|id f Hin Hid Hcur|f Hid Hcur].
  - exact Hnd.
  - rewrite map_app. simpl. apply NoDup_snoc; assumption.
  - rewrite (ids_map f _ Hid).
    rewrite (ids_map (Admin.current_where id)) by apply bv_id_current_where.
    rewrite (ids_map (Admin.with_current 0)); [exact Hnd|reflexivity].
  - rewrite (ids_map f _ Hid). exact Hnd.
Qed.

Lemma well_formed_step now op db :
  Store.well_formed db -> Store.well_formed (snd (step now op db)).
Proof.
  intros [Hti Hth Hsi Hvi].
  pose proof (evolves_ids _ _ (versions_step now op db) Hvi) as Hv.
  destruct op as [req|entropy req|id|req|email id upd|email id|email id|email id];
    simpl in *.
  - destruct (keys_postResults now req db) as (Hi & Hh & Hs).
    constructor; [rewrite Hi; exact Hti|rewrite Hh; exact Hth| |exact Hv].
    destruct Hs as [->|(row & Hnew & ->)]; [exact Hsi|].
    rewrite map_app. simpl. apply NoDup_snoc; assumption.
  - destruct (postRegister_effect now entropy req db)
      as [[_ Hdb]|(_ & Hid & Hh & Hdb)].
    + rewrite Hdb in *. constructor; assumption.
    + rewrite Hdb in *. constructor; simpl in *; try assumption.
      * rewrite map_app. simpl. apply NoDup_snoc; assumption.
      * rewrite map_app. simpl. apply NoDup_snoc; assumption.
  - constructor; assumption.
  - constructor; try assumption;
      unfold Logging.log_post; destruct (negb _); assumption.
  - constructor; try assumption; unfold Admin.putVersion;
      destruct (find _ (benchmark_versions db)); try assumption;
      destruct (Admin.upd_current upd) as [[|]|];
      destruct (Admin.upd_hidden upd); assumption.
  - unfold Admin.deleteSubmission in *.
    destruct (find _ (submissions db)); simpl in *;
      constructor; try assumption.
    apply NoDup_map_filter. exact Hsi.
  - unfold Admin.confirmToken in *.
    destruct (find _ (tokens db)) as [t|]; [|constructor; assumption].
    destruct (tok_claimed_at t); constructor; try assumption.
    + apply (NoDup_map_same tok_id (Admin.claim_row id now)); [|exact Hti].
      intros a. apply claim_row_keys.
    + apply (NoDup_map_same tok_token_hash (Admin.claim_row id now)); [|exact Hth].
      intros a. apply claim_row_keys.
  - unfold Admin.unconfirmToken in *.
    destruct (find _ (tokens db)) as [t|]; [|constructor; assumption].
    destruct (tok_claimed_at t); constructor; try assumption.
    + apply (NoDup_map_same tok_id (Admin.unclaim_row id)); [|exact Hti].
      intros a. apply unclaim_row_keys.
    + apply (NoDup_map_same tok_token_hash (Admin.unclaim_row id)); [|exact Hth].
      intros a. apply unclaim_row_keys.
Qed.

Lemma well_formed_run (ops : list (Z * Operation)) :
  forall db, Store.well_formed db -> Store.well_formed (run ops db).
Proof.
  induction ops as [|[now op] ops IH]; intros db Hwf; simpl; [exact Hwf|].
  apply IH. apply well_formed_step. exact Hwf.
Qed.

End WithRuntime.

End StoreFacts.

Section StoreKeys.

Import Js ResultsFacts RateLimitFacts RegisterFacts StoreFacts.

Context {RT : Runtime}.

(** X6. The handlers keep the keys of the store: from a store in which no
    token identifier, token hash, submission identifier or version
    identifier occurs twice - the empty store is one - every request and
    every run of requests leads to such a store: the updates of the
    handlers rewrite no key, and an insert the database refuses leaves
    the store as it was. *)
Theorem store_keys_preserved (ops : list (Z * Operation)) (db : DB) :
  Store.well_formed db ->
  Store.well_formed (run ops db) /\
  (forall now op, Store.well_formed (snd (step now op db))) /\
  Store.well_formed (run ops empty_db).
Proof.
  intros Hwf. split; [apply well_formed_run; exact Hwf|].
  split; [intros now op; apply well_formed_step; exact Hwf|].
  apply well_formed_run. constructor; constructor.
Qed.

(** X4. A secret that a registration just issued authenticates: presented
    in the token header, with or without whitespace around it, on a
    request that gets past the transport checks, it resolves to the token
    row the registration created, still unclaimed; before the
    registration the same request is answered 401. *)
Theorem issued_secret_authenticates (now : Z) (entropy : Register.Entropy)
  (req : Register.Request) (db : DB) (submit : Results.Request)
  (header : string) (payload : SubmissionPayload) :
  status (fst (Register.postRegister now entropy req db)) = 201 ->
  truthy (Register.randomUUID entropy) = true ->
  Store.transports submit payload ->
  Results.req_token submit = Some header ->
  trim header = Register.token_of entropy ->
  Results.prelude submit db = inl Results.unauthorized /\
  exists tokenRow,
    Results.prelude submit (snd (Register.postRegister now entropy req db)) =
      inr (tokenRow, payload) /\
    tok_id tokenRow = Register.randomUUID entropy /\
    tok_claimed_at tokenRow = None /\
    tok_last_used_at tokenRow = None.
Proof.
  intros Hst Hid (Hhttps & (ct & Hct & Hjson) & Hlen & Hbody) Htok Htrim.
  destruct (postRegister_effect now entropy req db)
    as [[Hne _]|(_ & _ & Hhash & Hdb)]; [contradiction|].
  assert (Hold : forall t, In t (tokens db) ->
            String.eqb (tok_token_hash t) (hashToken (Register.token_of entropy))
            = false).
  { intros t Ht. apply String.eqb_neq. intros Heq. apply Hhash.
    rewrite <- Heq. apply in_map. exact Ht. }
  assert (Hlen' : match Results.req_content_length submit with
                  | Some n => 1024 * 1024 <? n
                  | None => false
                  end = false).
  { destruct (Results.req_content_length submit); [|reflexivity].
    apply Z.ltb_ge. exact Hlen. }
  assert (Hauth : Results.getAuthToken (Results.req_token submit) =
                  Some (Register.token_of entropy)).
  { rewrite Htok. unfold Results.getAuthToken. simpl. rewrite Htrim. reflexivity. }
  assert (Htruthy : negb (truthy (Register.token_of entropy)) = false)
    by reflexivity.
  unfold Results.prelude.
  rewrite Hhttps, Hct, Hjson, Hauth, Htruthy. cbn [negb].
  split.
  - unfold Results.select_token_by_hash.
    rewrite (find_all_false _ _ Hold). reflexivity.
  - rewrite Hdb. unfold Results.select_token_by_hash.
    cbn [tokens Register.insert_registration set_token_registration_limits
         set_tokens].
    rewrite (find_app_new _ _ _ Hold) by apply String.eqb_refl.
    cbn [tok_id Register.new_token_row]. rewrite Hid, Hlen', Hbody.
    cbn [negb].
    eexists. split; [reflexivity|]. repeat split.
Qed.

End StoreKeys.
(* ================================================================== *)
(** * More on rank and percentile *)
(* ================================================================== *)

Module StandingFacts.

Import Js Results ResultsFacts RankingFacts.

Lemma gtb_iff (a b : Q) : gtb a b = true <-> (b < a)%Q.
Proof.
  unfold gtb. rewrite negb_true_iff. split.
  - intros H. apply Qnot_le_lt. intros Hle.
    apply Qle_bool_iff in Hle. congruence.
  - intros H. destruct (Qle_bool a b) eqn:E; [|reflexivity].
    apply Qle_bool_iff in E. exfalso. apply (Qlt_not_le _ _ H). exact E.
Qed.

Lemma ltb_iff (a b : Q) : ltb a b = true <-> (a < b)%Q.
Proof. unfold ltb. apply (gtb_iff b a). Qed.

Lemma gtb_compat (a x y : Q) : (x == y)%Q -> gtb x a = gtb y a.
Proof. intros H. unfold gtb. rewrite H. reflexivity. Qed.

(** Rows above [a] are rows above any lower [b]. *)
Lemma filter_higher_twice (a b : Q) (l : list SubmissionRow) :
  (b < a)%Q ->
  filter (fun s => gtb (sub_score_percentage s) a) l =
  filter (fun s => gtb (sub_score_percentage s) a)
         (filter (fun s => gtb (sub_score_percentage s) b) l).
Proof.
  intros Hba. induction l as [|s l IH]; simpl; [reflexivity|].
  destruct (gtb (sub_score_percentage s) a) eqn:Ea.
  - assert (Eb : gtb (sub_score_percentage s) b = true).
    { apply gtb_iff. apply gtb_iff in Ea. apply Qlt_trans with (y := a); assumption. }
    rewrite Eb. simpl. rewrite Ea, IH. reflexivity.
  - destruct (gtb (sub_score_percentage s) b); simpl; rewrite ?Ea; exact IH.
Qed.

Lemma filter_length_lt {A : Type} (p : A -> bool) (l : list A) (x : A) :
  In x l -> p x = false ->
  (List.length (filter p l) < List.length l)%nat.
Proof.
  induction l as [|a l IH]; simpl; intros Hin Hx; [contradiction|].
  pose proof (filter_length_le p l) as Hle.
  destruct Hin as [->|Hin].
  - rewrite Hx. lia.
  - specialize (IH Hin Hx). destruct (p a); simpl; lia.
Qed.

Lemma existsb_Qeq_filter (p : Q -> bool) (x : Q) (l : list Q) :
  (forall u v, (u == v)%Q -> p u = p v) -> p x = true ->
  existsb (Qeq_bool x) (filter p l) = existsb (Qeq_bool x) l.
Proof.
  intros Hp Hx. induction l as [|y l IH]; simpl; [reflexivity|].
  destruct (p y) eqn:Ey; simpl; [rewrite IH; reflexivity|].
  destruct (Qeq_bool x y) eqn:E; [|exact IH].
  apply Qeq_bool_iff in E. rewrite (Hp x y E) in Hx. congruence.
Qed.

(** Dropping the values that fail [p] loses at least one distinct value
    when some value fails it. *)
Lemma distinct_filter_length (p : Q -> bool) (l : list Q) :
  (forall u v, (u == v)%Q -> p u = p v) ->
  (List.length (Submissions.distinct (filter p l))
   + (if existsb (fun q => negb (p q)) l then 1 else 0)
   <= List.length (Submissions.distinct l))%nat.
Proof.
  intros Hp. induction l as [|x l IH]; simpl; [lia|].
  destruct (p x) eqn:Ex; simpl.
  - rewrite (existsb_Qeq_filter p x l Hp Ex).
    destruct (existsb (Qeq_bool x) l); simpl; lia.
  - destruct (existsb (Qeq_bool x) l) eqn:Ein; simpl.
    + assert (Hsome : existsb (fun q => negb (p q)) l = true).
      { apply existsb_exists in Ein. destruct Ein as (y & Hy & Heq).
        apply Qeq_bool_iff in Heq. apply existsb_exists. exists y.
        split; [exact Hy|]. rewrite <- (Hp x y Heq), Ex. reflexivity. }
      rewrite Hsome in IH. exact IH.
    + destruct (existsb (fun q => negb (p q)) l); lia.
Qed.

Lemma filter_map_scores (p : Q -> bool) (l : list SubmissionRow) :
  map sub_score_percentage (filter (fun s => p (sub_score_percentage s)) l) =
  filter p (map sub_score_percentage l).
Proof.
  induction l as [|s l IH]; simpl; [reflexivity|].
  destruct (p (sub_score_percentage s)); simpl; rewrite IH; reflexivity.
Qed.

(** A strictly better stored submission ranks strictly better, by either
    way of counting, and has strictly more submissions below it. *)
Lemma better_score_better_standing (a b : SubmissionRow) (db : DB) :
  In a (submissions db) -> In b (submissions db) ->
  (sub_score_percentage b < sub_score_percentage a)%Q ->
  count_higher (sub_score_percentage a) db < count_higher (sub_score_percentage b) db /\
  Submissions.select_rank (sub_score_percentage a) db
    < Submissions.select_rank (sub_score_percentage b) db /\
  count_lower (sub_score_percentage b) db < count_lower (sub_score_percentage a) db.
Proof.
  intros Ha Hb Hlt.
  assert (Ha_b : gtb (sub_score_percentage a) (sub_score_percentage b) = true)
    by (apply gtb_iff; exact Hlt).
  assert (Ha_a : gtb (sub_score_percentage a) (sub_score_percentage a) = false).
  { destruct (gtb (sub_score_percentage a) (sub_score_percentage a)) eqn:E;
      [|reflexivity].
    apply gtb_iff in E. exfalso. exact (Qlt_irrefl _ E). }
  split; [|split].
  - unfold count_higher.
    rewrite (filter_higher_twice _ _ (submissions db) Hlt).
    assert (Hin : In a (filter (fun s => gtb (sub_score_percentage s)
                                             (sub_score_percentage b))
                               (submissions db)))
      by (apply filter_In; split; assumption).
    pose proof (filter_length_lt
                  (fun s => gtb (sub_score_percentage s) (sub_score_percentage a))
                  _ a Hin Ha_a).
    lia.
  - unfold Submissions.select_rank.
    rewrite (filter_higher_twice _ _ (submissions db) Hlt).
    rewrite (filter_map_scores (fun q => gtb q (sub_score_percentage a))).
    pose proof (distinct_filter_length
                  (fun q => gtb q (sub_score_percentage a))
                  (map sub_score_percentage
                     (filter (fun s => gtb (sub_score_percentage s)
                                           (sub_score_percentage b))
                             (submissions db)))
                  (fun u v Huv => gtb_compat _ u v Huv)) as H.
    assert (Hsome : existsb (fun q => negb (gtb q (sub_score_percentage a)))
                      (map sub_score_percentage
                         (filter (fun s => gtb (sub_score_percentage s)
                                               (sub_score_percentage b))
                                 (submissions db))) = true).
    { apply existsb_exists. exists (sub_score_percentage a). split.
      - apply in_map. apply filter_In. split; assumption.
      - rewrite Ha_a. reflexivity. }
    cbv beta in H. rewrite Hsome in H. lia.
  - unfold count_lower.
    assert (Hsub : forall l,
              (List.length (filter (fun s => ltb (sub_score_percentage s)
                                                 (sub_score_percentage b)) l)
               <= List.length (filter (fun s => ltb (sub_score_percentage s)
                                                    (sub_score_percentage a)) l))%nat
              /\ (In b l ->
                  (List.length (filter (fun s => ltb (sub_score_percentage s)
                                                     (sub_score_percentage b)) l)
                   < List.length (filter (fun s => ltb (sub_score_percentage s)
                                                       (sub_score_percentage a)) l))%nat)).
    { induction l as [|s l [IHle IHlt]]; simpl; [split; [lia|contradiction]|].
      destruct (ltb (sub_score_percentage s) (sub_score_percentage b)) eqn:Esb.
      - assert (Esa : ltb (sub_score_percentage s) (sub_score_percentage a) = true).
        { apply ltb_iff. apply ltb_iff in Esb.
          apply Qlt_trans with (y := sub_score_percentage b); assumption. }
        rewrite Esa. simpl. split; [lia|].
        intros [->|Hin]; [|specialize (IHlt Hin); lia].
        apply ltb_iff in Esb. exfalso. exact (Qlt_irrefl _ Esb).
      - destruct (ltb (sub_score_percentage s) (sub_score_percentage a)) eqn:Esa;
          simpl; (split; [lia|]).
        + intros _. lia.
        + intros [->|Hin]; [|specialize (IHlt Hin); lia].
          assert (Hba : ltb (sub_score_percentage b) (sub_score_percentage a) = true)
            by (apply ltb_iff; exact Hlt).
          congruence. }
    destruct (Hsub (submissions db)) as [_ H]. specialize (H Hb). lia.
Qed.

(** The target is not above itself, so fewer than all rows are. *)
Lemma count_higher_lt_total (row : SubmissionRow) (db : DB) :
  In row (submissions db) ->
  count_higher (sub_score_percentage row) db < count_total db /\
  count_lower (sub_score_percentage row) db < count_total db.
Proof.
  intros Hin. unfold count_higher, count_lower, count_total. split.
  - assert (H : gtb (sub_score_percentage row) (sub_score_percentage row) = false).
    { destruct (gtb _ _) eqn:E; [|reflexivity]. apply gtb_iff in E.
      exfalso. exact (Qlt_irrefl _ E). }
    pose proof (filter_length_lt
                  (fun s => gtb (sub_score_percentage s) (sub_score_percentage row))
                  _ row Hin H). lia.
  - pose proof (filter_length_lt
                  (fun s => ltb (sub_score_percentage s) (sub_score_percentage row))
                  _ row Hin (ltb_irrefl (sub_score_percentage row))).
    lia.
Qed.

(** Rounding keeps a percentage within 0 and 100. *)
Lemma toFixed2_percentage (x : Q) :
  (0 <= x)%Q -> (x <= 100)%Q -> (0 <= toFixed2 x)%Q /\ (toFixed2 x <= 100)%Q.
Proof.
  intros H0 H100.
  destruct (toFixed2_nonneg x H0) as (Heq & _ & _).
  rewrite Heq. unfold round_half_up.
  assert (Hlo : (0 <= Qfloor (x * 100 + (1 # 2)))%Z).
  { change 0%Z with (Qfloor 0). apply Qfloor_resp_le. lra. }
  assert (Hhi : (Qfloor (x * 100 + (1 # 2)) <= 10000)%Z).
  { change 10000%Z with (Qfloor (10000 + (1 # 2))). apply Qfloor_resp_le. lra. }
  split.
  - apply Qle_shift_div_l; [reflexivity|]. rewrite Qmult_0_l.
    change 0%Q with (inject_Z 0). rewrite <- Zle_Qle. exact Hlo.
  - apply Qle_shift_div_r; [reflexivity|].
    change (100 * 100)%Q with (inject_Z 10000). rewrite <- Zle_Qle. exact Hhi.
Qed.

End StandingFacts.
(* ================================================================== *)
(** * Standing of stored submissions *)
(* ================================================================== *)

Module VisibilityFacts.

Import Js Results ResultsFacts RankingFacts RateLimitFacts StandingFacts.

Lemma toFixed2_monotone (x y : Q) :
  (0 <= x)%Q -> (x <= y)%Q -> (toFixed2 x <= toFixed2 y)%Q.
Proof.
  intros Hx Hxy.
  destruct (toFixed2_nonneg x Hx) as (Ex & _).
  destruct (toFixed2_nonneg y (Qle_trans _ _ _ Hx Hxy)) as (Ey & _).
  rewrite Ex, Ey. unfold round_half_up.
  apply Qle_shift_div_l; [reflexivity|].
  unfold Qdiv. rewrite <- Qmult_assoc.
  setoid_replace (/ 100 * 100)%Q with 1%Q by reflexivity.
  rewrite Qmult_1_r. rewrite <- Zle_Qle. apply Qfloor_resp_le. lra.
Qed.





Section WithRuntime.

Context {RT : Runtime}.


End WithRuntime.

End VisibilityFacts.

Section Standing.

Import Js Results ResultsFacts RankingFacts RateLimitFacts StandingFacts
       VisibilityFacts SecretFacts.

Context {RT : Runtime}.

(** X7. Retrying a submission that was just stored repeats the answer:
    whatever valid payload and whichever known token the retry carries,
    as long as it names the same [submission_id], the body of the
    response - rank, percentile and URL - is the one the first response
    had, the status is 200, and the submissions are as the first request
    left them. *)
Theorem retry_repeats_response (now now' : Z) (req req' : Request) (db : DB)
  (tokenRow' : TokenRow) (payload payload' : SubmissionPayload) :
  req_json req = Some payload ->
  status (fst (postResults now req db)) = 201 ->
  prelude req' (snd (postResults now req db)) = inr (tokenRow', payload') ->
  validate payload' = [] ->
  payload_id payload' = payload_id payload ->
  body (fst (postResults now' req' (snd (postResults now req db)))) =
    body (fst (postResults now req db)) /\
  status (fst (postResults now' req' (snd (postResults now req db)))) = 200 /\
  submissions (snd (postResults now' req' (snd (postResults now req db)))) =
    submissions (snd (postResults now req db)).
Proof.
  intros Hjson Hst Hpre' Hv' Hid.
  destruct (postResults_created now req db Hst)
    as (tokenRow & p & Hpre & Hv & Hsel & Hc & Hdb).
  destruct (prelude_token req db tokenRow p Hpre) as (_ & _ & _ & _ & Hp).
  rewrite Hjson in Hp. injection Hp as <-.
  assert (Hfirst : postResults now req db = ingest tokenRow now payload db)
    by (unfold postResults; rewrite Hpre, Hv; reflexivity).
  rewrite Hfirst in *. rewrite (ingest_new tokenRow now payload db Hsel Hc) in *.
  cbn [fst snd] in *.
  pose proof (select_submission_stored tokenRow now payload db Hsel) as Hstored.
  rewrite <- Hid in Hstored.
  unfold postResults. rewrite Hpre', Hv'.
  rewrite (ingest_existing tokenRow' now' payload' _ _ Hstored).
  cbn [fst snd body status json sub_score_percentage new_submission_row].
  rewrite Hid. repeat split.
Qed.

(** X8. A stored submission with a strictly greater score percentage
    stands strictly better: the detail view gives it a strictly smaller
    rank and a percentile at least as great, strictly fewer stored
    submissions score above it (the count behind the ingest rank), and
    strictly more score below it (the count behind the ingest
    percentile). *)
Theorem better_score_ranks_better (db : DB) (ida idb : string)
  (rowa rowb : SubmissionRow) (va vb : bool) (ra rb ta tb : Z) (pa pb : Q) :
  Submissions.getSubmission ida db = json (SubmissionDetail rowa va ra ta pa) 200 ->
  Submissions.getSubmission idb db = json (SubmissionDetail rowb vb rb tb pb) 200 ->
  (sub_score_percentage rowb < sub_score_percentage rowa)%Q ->
  ra < rb /\ (pb <= pa)%Q /\
  count_higher (sub_score_percentage rowa) db
    < count_higher (sub_score_percentage rowb) db /\
  count_lower (sub_score_percentage rowb) db
    < count_lower (sub_score_percentage rowa) db.
Proof.
  intros Ha Hb Hlt.
  destruct (getSubmission_detail ida db rowa va ra ta pa 200 Ha)
    as (_ & Hina & Hra & Hta & Hpa).
  destruct (getSubmission_detail idb db rowb vb rb tb pb 200 Hb)
    as (_ & Hinb & Hrb & Htb & Hpb).
  destruct (better_score_better_standing rowa rowb db Hina Hinb Hlt)
    as (Hhigher & Hrank & Hlower).
  rewrite <- Hra, <- Hrb in Hrank.
  split; [exact Hrank|]. split; [|split; assumption].
  change (Submissions.select_total db) with (count_total db) in Hta, Htb.
  destruct (count_higher_lt_total rowb db Hinb) as [Hhb _].
  pose proof (select_rank_le (sub_score_percentage rowa) db) as Hlea.
  pose proof (select_rank_le (sub_score_percentage rowb) db) as Hleb.
  rewrite <- Hra in Hlea. rewrite <- Hrb in Hleb.
  assert (Hpos : 0 < count_total db) by lia.
  assert (Hgo : negb (count_total db =? 0) && (0 <? count_total db) = true).
  { apply andb_true_iff. split.
    - apply negb_true_iff. apply Z.eqb_neq. lia.
    - apply Z.ltb_lt. exact Hpos. }
  rewrite Hpa, Hpb, Hta, Htb. unfold Submissions.percentile_of. rewrite Hgo.
  apply toFixed2_monotone.
  - apply (DoubleFacts.percentage_bounds (count_total db - rb) (count_total db)); lia.
  - apply DoubleFacts.percentage_monotone; lia.
Qed.

(** X9. Every rank the service reports lies between 1 and the number of
    stored submissions, and every percentile between 0 and 100, in the
    ingest response as in the detail view. *)
Theorem reported_standing_bounds :
  (forall now req db id rank pct url,
     body (fst (postResults now req db)) = Accepted id rank pct url ->
     1 <= rank <= count_total (snd (postResults now req db)) /\
     (0 <= pct)%Q /\ (pct <= 100)%Q) /\
  (forall id db row verified rank total pct,
     Submissions.getSubmission id db =
       json (SubmissionDetail row verified rank total pct) 200 ->
     total = count_total db /\ 1 <= rank <= total /\
     (0 <= pct)%Q /\ (pct <= 100)%Q).
Proof.
  split.
  - intros now req db id rank pct url Hb.
    destruct (postResults_accepted now req db id rank pct url Hb)
      as (row & Hsel & Hrank & Hpct).
    destruct (select_submission_id id _ row Hsel) as [_ Hin].
    destruct (count_higher_lt_total row _ Hin) as [Hh Hl].
    assert (H0 : 0 <= count_higher (sub_score_percentage row)
                        (snd (postResults now req db)))
      by (unfold count_higher; lia).
    assert (H1 : 0 <= count_lower (sub_score_percentage row)
                        (snd (postResults now req db)))
      by (unfold count_lower; lia).
    split; [lia|].
    rewrite Hpct. unfold percentile_of.
    destruct (count_total (snd (postResults now req db)) =? 0) eqn:E.
    + apply Z.eqb_eq in E. lia.
    + apply toFixed2_percentage; apply DoubleFacts.percentage_bounds; lia.
  - intros id db row verified rank total pct H.
    destruct (getSubmission_detail id db row verified rank total pct 200 H)
      as (_ & Hin & Hrank & Htotal & Hpct).
    change (Submissions.select_total db) with (count_total db) in Htotal.
    destruct (count_higher_lt_total row db Hin) as [Hh _].
    pose proof (select_rank_le (sub_score_percentage row) db) as Hle.
    rewrite <- Hrank in Hle.
    split; [exact Htotal|]. split; [lia|].
    rewrite Hpct. unfold Submissions.percentile_of.
    assert (Hgo : negb (total =? 0) && (0 <? total) = true).
    { apply andb_true_iff. split.
      - apply negb_true_iff. apply Z.eqb_neq. lia.
      - apply Z.ltb_lt. lia. }
    rewrite Hgo. apply toFixed2_percentage; apply DoubleFacts.percentage_bounds; lia.
Qed.


End Standing.

(* ================================================================== *)
(** * The further properties on sample data *)
(* ================================================================== *)

(** The bytes de ad be ef are written [deadbeef] and read back. *)
Lemma bytesToHex_round_trip_witness :
  Forall Hex.is_byte [222; 173; 190; 239] /\
  Security.bytesToHex [222; 173; 190; 239] = "deadbeef" /\
  Hex.hexToBytes "deadbeef" = Some [222; 173; 190; 239].
Proof.
  assert (H : Forall Hex.is_byte [222; 173; 190; 239])
    by (repeat constructor; unfold Hex.is_byte; lia).
  split; [exact H|]. split; [reflexivity|].
  exact (proj1 (proj2 (proj2 (bytesToHex_round_trip _ H)))).
Defined.

(** The secret drawn from sixteen sample bytes. *)
Lemma issued_secret_format_witness :
  Register.token_of (Fixtures.entropy 11) =
    "pb_live_deadbeef000102030405060708090a0b" /\
  String.length (Register.token_of (Fixtures.entropy 11)) = 40%nat /\
  Js.trim (Register.token_of (Fixtures.entropy 11)) =
    Register.token_of (Fixtures.entropy 11).
Proof.
  assert (Ht : Forall Hex.is_byte (Register.token_random (Fixtures.entropy 11)))
    by (repeat constructor; unfold Hex.is_byte; lia).
  assert (Hc : Forall Hex.is_byte (Register.claim_random (Fixtures.entropy 11)))
    by (repeat constructor; unfold Hex.is_byte; lia).
  assert (Hlt : (16 <= List.length (Register.token_random (Fixtures.entropy 11)))%nat)
    by (simpl; lia).
  assert (Hlc : (6 <= List.length (Register.claim_random (Fixtures.entropy 11)))%nat)
    by (simpl; lia).
  pose proof (issued_secret_format (Fixtures.entropy 11) Ht Hc Hlt Hlc)
    as (_ & _ & _ & Hlen & Htrim & _).
  split; [reflexivity|]. split; [exact Hlen|exact Htrim].
Defined.

(** A secret registered on the empty store, presented with blanks around
    it. *)
Lemma issued_secret_authenticates_witness :
  Results.prelude (RT := Sample.runtime)
    (Fixtures.submit_with "  pb_live_deadbeef000102030405060708090a0b ")
    empty_db = inl Results.unauthorized /\
  exists tokenRow,
    Results.prelude (RT := Sample.runtime)
      (Fixtures.submit_with "  pb_live_deadbeef000102030405060708090a0b ")
      (snd (Register.postRegister (RT := Sample.runtime) 1000
              (Fixtures.entropy 11) Sample.register_request empty_db)) =
      inr (tokenRow, Sample.payload Sample.id_b (Js.Number 80) (Js.Number 100)) /\
    tok_id tokenRow = "token-11" /\
    tok_claimed_at tokenRow = None /\
    tok_last_used_at tokenRow = None.
Proof.
  apply (issued_secret_authenticates (RT := Sample.runtime) 1000
           (Fixtures.entropy 11) Sample.register_request empty_db
           (Fixtures.submit_with "  pb_live_deadbeef000102030405060708090a0b ")
           "  pb_live_deadbeef000102030405060708090a0b "
           (Sample.payload Sample.id_b (Js.Number 80) (Js.Number 100))).
  - vm_compute. reflexivity.
  - reflexivity.
  - unfold Store.transports. split; [reflexivity|]. split.
    + exists "application/json; charset=utf-8". split; reflexivity.
    + split; [simpl; lia|reflexivity].
  - reflexivity.
  - reflexivity.
Defined.

(** The sample store with two versions keeps its keys through a change
    of the current version and a submission naming a new one. *)
Lemma store_keys_preserved_witness :
  Store.well_formed Sample.db_v9 /\
  Store.well_formed (run (RT := Sample.runtime) Sample.version_run Sample.db_v9).
Proof.
  assert (H : Store.well_formed Sample.db_v9).
  { constructor; simpl.
    - constructor; [intros []|constructor].
    - constructor; [intros []|constructor].
    - constructor; [intros []|constructor].
    - constructor; [intros [H|[]]; discriminate H|].
      constructor; [intros []|constructor]. }
  split; [exact H|].
  exact (proj1 (store_keys_preserved (RT := Sample.runtime)
                  Sample.version_run Sample.db_v9 H)).
Defined.

(** A second submission is stored, then sent again with other totals. *)
Lemma retry_repeats_response_witness :
  body (fst (Results.postResults (RT := Sample.runtime) 2100
               (Sample.request (Sample.payload Sample.id_b (Js.Number 1) (Js.Number 2)))
               (snd (Results.postResults (RT := Sample.runtime) 2000
                       Sample.new_request Sample.db_one)))) =
    body (fst (Results.postResults (RT := Sample.runtime) 2000
                 Sample.new_request Sample.db_one)) /\
  status (fst (Results.postResults (RT := Sample.runtime) 2100
               (Sample.request (Sample.payload Sample.id_b (Js.Number 1) (Js.Number 2)))
               (snd (Results.postResults (RT := Sample.runtime) 2000
                       Sample.new_request Sample.db_one)))) = 200.
Proof.
  pose proof (retry_repeats_response (RT := Sample.runtime) 2000 2100
                Sample.new_request
                (Sample.request (Sample.payload Sample.id_b (Js.Number 1) (Js.Number 2)))
                Sample.db_one
                (Results.touch_row "tok-1" 2000 Sample.token_row)
                (Sample.payload Sample.id_b (Js.Number 80) (Js.Number 100))
                (Sample.payload Sample.id_b (Js.Number 1) (Js.Number 2))
                eq_refl) as H.
  destruct H as (Hbody & Hstatus & _).
  - vm_compute. reflexivity.
  - vm_compute. reflexivity.
  - vm_compute. reflexivity.
  - reflexivity.
  - split; [exact Hbody|exact Hstatus].
Defined.

(** Of three stored submissions, the one at 9/10 against the one at
    1/2. *)
Lemma better_score_ranks_better_witness :
  Results.count_higher (9 # 10) Sample.ranked_db
    < Results.count_higher (1 # 2) Sample.ranked_db /\
  Results.count_lower (1 # 2) Sample.ranked_db
    < Results.count_lower (9 # 10) Sample.ranked_db.
Proof.
  pose proof (better_score_ranks_better Sample.ranked_db Sample.id_a Sample.id_b
                (Sample.row Sample.id_a (9 # 10) 1500)
                (Sample.row Sample.id_b (1 # 2) 1600)
                false false 1 2 3 3 (6667 # 100) (3333 # 100)) as H.
  destruct H as (_ & _ & Hhigher & Hlower).
  - vm_compute. reflexivity.
  - vm_compute. reflexivity.
  - vm_compute. reflexivity.
  - split; [exact Hhigher|exact Hlower].
Defined.


(* ================================================================== *)
(** * Administration of tokens and submissions *)
(* ================================================================== *)

Module AdminFacts.

Import Js.

Lemma find_map_key {A : Type} (p : A -> bool) (f : A -> A) (l : list A) :
  (forall a, p (f a) = p a) ->
  find p (map f l) = option_map f (find p l).
Proof.
  intros Hp. induction l as [|a l IH]; simpl; [reflexivity|].
  rewrite Hp. destruct (p a); [reflexivity|exact IH].
Qed.

Lemma filter_map_key {A : Type} (p : A -> bool) (f : A -> A) (l : list A) :
  (forall a, p (f a) = p a) ->
  filter p (map f l) = map f (filter p l).
Proof.
  intros Hp. induction l as [|a l IH]; simpl; [reflexivity|].
  rewrite Hp. destruct (p a); simpl; rewrite IH; reflexivity.
Qed.

Lemma tok_id_claim_row id now t : tok_id (Admin.claim_row id now t) = tok_id t.
Proof. unfold Admin.claim_row. destruct (String.eqb (tok_id t) id); reflexivity. Qed.

Lemma tok_id_unclaim_row id t : tok_id (Admin.unclaim_row id t) = tok_id t.
Proof. unfold Admin.unclaim_row. destruct (String.eqb (tok_id t) id); reflexivity. Qed.

(** Rewriting token rows without touching their identifiers rewrites the
    token side of the join. *)
Lemma join_tokens_map (f : TokenRow -> TokenRow) (db : DB) :
  (forall t, tok_id (f t) = tok_id t) ->
  Submissions.join_tokens (set_tokens db (map f (tokens db))) =
  map (fun st => (fst st, f (snd st))) (Submissions.join_tokens db).
Proof.
  intros Hid. unfold Submissions.join_tokens. cbn [tokens submissions set_tokens].
  induction (submissions db) as [|s l IH]; [reflexivity|].
  cbn [flat_map]. rewrite map_app, IH. f_equal.
  rewrite filter_map_key by (intros t; rewrite Hid; reflexivity).
  rewrite !map_map. reflexivity.
Qed.

Lemma select_detail_map (f : TokenRow -> TokenRow) (id : string) (db : DB) :
  (forall t, tok_id (f t) = tok_id t) ->
  Submissions.select_detail id (set_tokens db (map f (tokens db))) =
  option_map (fun st => (fst st, f (snd st))) (Submissions.select_detail id db).
Proof.
  intros Hid. unfold Submissions.select_detail.
  rewrite (join_tokens_map f db Hid).
  apply (find_map_key (fun st => String.eqb (sub_id (fst st)) id)
                      (fun st => (fst st, f (snd st)))).
  intros st. reflexivity.
Qed.

(** A joined pair agrees on the token identifier. *)
Lemma select_detail_token id db row t :
  Submissions.select_detail id db = Some (row, t) ->
  String.eqb (sub_token_id row) (tok_id t) = true.
Proof.
  unfold Submissions.select_detail, Submissions.join_tokens. intros H.
  apply find_some in H. destruct H as [Hin _].
  apply in_flat_map in Hin. destruct Hin as (s & _ & Hin).
  apply in_map_iff in Hin. destruct Hin as (u & Heq & Hu).
  injection Heq as -> ->. apply filter_In in Hu. exact (proj2 Hu).
Qed.

(** The detail view through a rewriting of the tokens that leaves the
    log aside. *)
Lemma getSubmission_logged now email action details db sid :
  Submissions.getSubmission sid (Admin.logAdminAction now email action details db) =
  Submissions.getSubmission sid db.
Proof. reflexivity. Qed.

Lemma getSubmission_map (f : TokenRow -> TokenRow) (sid : string) (db : DB)
  row verified rank total pct :
  (forall t, tok_id (f t) = tok_id t) ->
  Submissions.getSubmission sid db =
    json (SubmissionDetail row verified rank total pct) 200 ->
  exists t,
    Submissions.select_detail sid db = Some (row, t) /\
    Submissions.getSubmission sid (set_tokens db (map f (tokens db))) =
      json (SubmissionDetail row
              (match tok_claimed_at (f t) with Some _ => true | None => false end)
              rank total pct) 200 /\
    verified = match tok_claimed_at t with Some _ => true | None => false end.
Proof.
  intros Hid. unfold Submissions.getSubmission.
  destruct (negb (truthy sid)); [discriminate|].
  rewrite (select_detail_map f sid db Hid).
  destruct (Submissions.select_detail sid db) as [[r t]|]; [|discriminate].
  cbn [option_map fst snd]. intros H.
  injection H as Hrow Hverified Hrank Htotal Hpct.
  exists t. subst. split; [reflexivity|]. split; reflexivity.
Qed.

End AdminFacts.

Section TokenAdministration.

Import Js AdminFacts.

(** X11. The claim state of a token under the administrator's hand: a
    known unclaimed token is confirmed with 200, and is then claimed at
    the time of the request, without claim code or expiry, its digest
    untouched; a second confirmation is refused with 400 and changes
    nothing. Unconfirming it answers 200 and leaves it unclaimed, but the
    claim code and its expiry do not come back; a second unconfirmation is
    refused with 400. No other token is touched on the way. *)
Theorem token_claim_cycle (now now' : Z) (email email' id : string) (db : DB)
  (t : TokenRow) :
  find (fun u => String.eqb (tok_id u) id) (tokens db) = Some t ->
  tok_claimed_at t = None ->
  exists t1 t2,
    status (fst (Admin.confirmToken now email id db)) = 200 /\
    find (fun u => String.eqb (tok_id u) id)
         (tokens (snd (Admin.confirmToken now email id db))) = Some t1 /\
    tok_claimed_at t1 = Some now /\
    tok_claim_code t1 = None /\ tok_claim_expires_at t1 = None /\
    tok_token_hash t1 = tok_token_hash t /\
    Admin.confirmToken now' email' id (snd (Admin.confirmToken now email id db)) =
      (json (ErrorOnly "Token already claimed") 400,
       snd (Admin.confirmToken now email id db)) /\
    status (fst (Admin.unconfirmToken now' email' id
                   (snd (Admin.confirmToken now email id db)))) = 200 /\
    find (fun u => String.eqb (tok_id u) id)
         (tokens (snd (Admin.unconfirmToken now' email' id
                         (snd (Admin.confirmToken now email id db))))) = Some t2 /\
    tok_claimed_at t2 = None /\
    tok_claim_code t2 = None /\ tok_claim_expires_at t2 = None /\
    tok_token_hash t2 = tok_token_hash t /\
    Admin.unconfirmToken now' email' id
      (snd (Admin.unconfirmToken now' email' id
              (snd (Admin.confirmToken now email id db)))) =
      (json (ErrorOnly "Token is not claimed") 400,
       snd (Admin.unconfirmToken now' email' id
              (snd (Admin.confirmToken now email id db)))) /\
    (forall u, tok_id u <> id ->
       (In u (tokens (snd (Admin.unconfirmToken now' email' id
                             (snd (Admin.confirmToken now email id db)))))
        <-> In u (tokens db))).
Proof.
  intros Hfind Hnone.
  assert (Hid : String.eqb (tok_id t) id = true)
    by (apply find_some in Hfind; exact (proj2 Hfind)).
  assert (Hc : Admin.confirmToken now email id db =
               (json Success 200,
                Admin.logAdminAction now email "confirm_token" [("token_id", Str id)]
                  (set_tokens db (map (Admin.claim_row id now) (tokens db)))))
    by (unfold Admin.confirmToken; rewrite Hfind, Hnone; reflexivity).
  rewrite Hc. cbn [fst snd].
  set (db1 := Admin.logAdminAction now email "confirm_token" [("token_id", Str id)]
                (set_tokens db (map (Admin.claim_row id now) (tokens db)))).
  assert (Hf1 : find (fun u => String.eqb (tok_id u) id) (tokens db1) =
                Some (Admin.claim_row id now t)).
  { unfold db1. cbn [tokens Admin.logAdminAction set_raw_post_logs set_tokens].
    rewrite (find_map_key (fun u => String.eqb (tok_id u) id) (Admin.claim_row id now))
      by (intros a; rewrite tok_id_claim_row; reflexivity).
    rewrite Hfind. reflexivity. }
  assert (Hclaimed : tok_claimed_at (Admin.claim_row id now t) = Some now)
    by (unfold Admin.claim_row; rewrite Hid; reflexivity).
  assert (Hu : Admin.unconfirmToken now' email' id db1 =
               (json Success 200,
                Admin.logAdminAction now' email' "unconfirm_token"
                  [("token_id", Str id)]
                  (set_tokens db1 (map (Admin.unclaim_row id) (tokens db1)))))
    by (unfold Admin.unconfirmToken; rewrite Hf1, Hclaimed; reflexivity).
  rewrite Hu. cbn [fst snd].
  set (db2 := Admin.logAdminAction now' email' "unconfirm_token"
                [("token_id", Str id)]
                (set_tokens db1 (map (Admin.unclaim_row id) (tokens db1)))).
  assert (Hf2 : find (fun u => String.eqb (tok_id u) id) (tokens db2) =
                Some (Admin.unclaim_row id (Admin.claim_row id now t))).
  { unfold db2. cbn [tokens Admin.logAdminAction set_raw_post_logs set_tokens].
    rewrite (find_map_key (fun u => String.eqb (tok_id u) id) (Admin.unclaim_row id))
      by (intros a; rewrite tok_id_unclaim_row; reflexivity).
    rewrite Hf1. reflexivity. }
  assert (Hrow2 : Admin.unclaim_row id (Admin.claim_row id now t) =
                  {| tok_id := tok_id t; tok_user_id := tok_user_id t;
                     tok_token_hash := tok_token_hash t; tok_claim_code := None;
                     tok_claim_expires_at := None; tok_claimed_at := None;
                     tok_created_at := tok_created_at t;
                     tok_last_used_at := tok_last_used_at t |}).
  { unfold Admin.unclaim_row, Admin.claim_row. rewrite Hid. cbn [tok_id].
    rewrite Hid. reflexivity. }
  exists (Admin.claim_row id now t), (Admin.unclaim_row id (Admin.claim_row id now t)).
  split; [reflexivity|]. split; [exact Hf1|]. split; [exact Hclaimed|].
  split; [unfold Admin.claim_row; rewrite Hid; reflexivity|].
  split; [unfold Admin.claim_row; rewrite Hid; reflexivity|].
  split; [unfold Admin.claim_row; rewrite Hid; reflexivity|].
  split; [unfold Admin.confirmToken; rewrite Hf1, Hclaimed; reflexivity|].
  split; [reflexivity|]. split; [exact Hf2|].
  rewrite Hrow2. cbn [tok_claimed_at tok_claim_code tok_claim_expires_at tok_token_hash].
  split; [reflexivity|]. split; [reflexivity|]. split; [reflexivity|].
  split; [reflexivity|].
  split.
  { unfold Admin.unconfirmToken. rewrite Hf2, Hrow2. reflexivity. }
  intros u Hne. unfold db2, db1.
  cbn [tokens Admin.logAdminAction set_raw_post_logs set_tokens].
  rewrite map_map, in_map_iff. split.
  - intros (v & Hv & Hin).
    assert (Hvid : tok_id v = tok_id u)
      by (rewrite <- Hv, tok_id_unclaim_row, tok_id_claim_row; reflexivity).
    assert (Hneq : String.eqb (tok_id v) id = false)
      by (apply String.eqb_neq; congruence).
    unfold Admin.unclaim_row, Admin.claim_row in Hv. rewrite Hneq in Hv.
    rewrite Hneq in Hv. subst v. exact Hin.
  - intros Hin. exists u. split; [|exact Hin].
    assert (Hneq : String.eqb (tok_id u) id = false) by (apply String.eqb_neq; exact Hne).
    unfold Admin.unclaim_row, Admin.claim_row. rewrite Hneq. rewrite Hneq.
    reflexivity.
Qed.

(** X12. What a confirmation changes for readers: after a successful
    confirmation of token [id], the detail view of every submission
    answers as before, except that the submissions of that token are now
    marked verified; after a successful unconfirmation they are marked
    unverified. Rank, total and percentile do not move. *)
Theorem confirmation_marks_submissions_verified (now : Z) (email id : string)
  (db : DB) :
  (status (fst (Admin.confirmToken now email id db)) = 200 ->
   forall sid row verified rank total pct,
     Submissions.getSubmission sid db =
       json (SubmissionDetail row verified rank total pct) 200 ->
     Submissions.getSubmission sid (snd (Admin.confirmToken now email id db)) =
       json (SubmissionDetail row
               (verified || String.eqb (sub_token_id row) id) rank total pct) 200) /\
  (status (fst (Admin.unconfirmToken now email id db)) = 200 ->
   forall sid row verified rank total pct,
     Submissions.getSubmission sid db =
       json (SubmissionDetail row verified rank total pct) 200 ->
     Submissions.getSubmission sid (snd (Admin.unconfirmToken now email id db)) =
       json (SubmissionDetail row
               (verified && negb (String.eqb (sub_token_id row) id))
               rank total pct) 200).
Proof.
  split.
  - unfold Admin.confirmToken.
    destruct (find (fun t => String.eqb (tok_id t) id) (tokens db)) as [t0|];
      [|discriminate].
    destruct (tok_claimed_at t0); [discriminate|]. intros _.
    cbn [snd]. intros sid row verified rank total pct Hdetail.
    rewrite getSubmission_logged.
    destruct (getSubmission_map (Admin.claim_row id now) sid db row verified rank
                total pct (tok_id_claim_row id now) Hdetail) as (t & Hsel & Hnew & Hv).
    rewrite Hnew. f_equal. f_equal.
    pose proof (select_detail_token sid db row t Hsel) as Hjoin.
    apply String.eqb_eq in Hjoin. rewrite Hjoin, Hv.
    unfold Admin.claim_row. destruct (String.eqb (tok_id t) id); cbn [tok_claimed_at].
    + rewrite orb_true_r. reflexivity.
    + rewrite orb_false_r. reflexivity.
  - unfold Admin.unconfirmToken.
    destruct (find (fun t => String.eqb (tok_id t) id) (tokens db)) as [t0|];
      [|discriminate].
    destruct (tok_claimed_at t0); [|discriminate]. intros _.
    cbn [snd]. intros sid row verified rank total pct Hdetail.
    rewrite getSubmission_logged.
    destruct (getSubmission_map (Admin.unclaim_row id) sid db row verified rank
                total pct (tok_id_unclaim_row id) Hdetail) as (t & Hsel & Hnew & Hv).
    rewrite Hnew. f_equal. f_equal.
    pose proof (select_detail_token sid db row t Hsel) as Hjoin.
    apply String.eqb_eq in Hjoin. rewrite Hjoin, Hv.
    unfold Admin.unclaim_row. destruct (String.eqb (tok_id t) id); cbn [tok_claimed_at negb].
    + rewrite andb_false_r. reflexivity.
    + rewrite andb_true_r. reflexivity.
Qed.

End TokenAdministration.
(* ================================================================== *)
(** * The request log *)
(* ================================================================== *)

Module LogFacts.

Import Js Maintenance.

Lemma same_tables_refl db : same_tables db db.
Proof. repeat split. Qed.

Lemma same_tables_trans db1 db2 db3 :
  same_tables db1 db2 -> same_tables db2 db3 -> same_tables db1 db3.
Proof.
  unfold same_tables. intros (H1 & H2 & H3 & H4) (K1 & K2 & K3 & K4).
  rewrite H1, H2, H3, H4. repeat split; assumption.
Qed.

(** A store with the same tables is the store with another log. *)
Lemma same_tables_relog db db' :
  same_tables db db' -> db' = set_raw_post_logs db (raw_post_logs db').
Proof.
  destruct db, db'. unfold same_tables. simpl.
  intros (-> & -> & -> & ->). reflexivity.
Qed.

(** A later cleanup subsumes an earlier one. *)
Lemma retention_twice (now later : Z) (l : list RawPostLogRow) :
  now <= later ->
  filter (fun r => negb (log_created_at r
                           <? later - RETENTION_DAYS * Results.seconds_per_day))
    (filter (fun r => negb (log_created_at r
                              <? now - RETENTION_DAYS * Results.seconds_per_day)) l) =
  filter (fun r => negb (log_created_at r
                           <? later - RETENTION_DAYS * Results.seconds_per_day)) l.
Proof.
  intros Hlater. induction l as [|r l IH]; [reflexivity|].
  cbn [filter].
  destruct (log_created_at r <? now - RETENTION_DAYS * Results.seconds_per_day) eqn:E1;
    cbn [negb].
  - apply Z.ltb_lt in E1.
    assert (E2 : (log_created_at r
                    <? later - RETENTION_DAYS * Results.seconds_per_day) = true)
      by (apply Z.ltb_lt; lia).
    rewrite E2. cbn [negb]. exact IH.
  - cbn [filter]. rewrite IH. reflexivity.
Qed.

Lemma relog_same_tables db l : same_tables db (set_raw_post_logs db l).
Proof. repeat split. Qed.

Section WithRuntime.

Context {RT : Runtime}.

Lemma store_new_relog tokenRow now payload db l :
  Results.store_new tokenRow now payload (set_raw_post_logs db l) =
  match Results.store_new tokenRow now payload db with
  | inl resp => inl resp
  | inr db1 => inr (set_raw_post_logs db1 l)
  end.
Proof.
  unfold Results.store_new.
  change (Results.daily_count (tok_id tokenRow) now (set_raw_post_logs db l))
    with (Results.daily_count (tok_id tokenRow) now db).
  destruct (100 <=? Results.daily_count (tok_id tokenRow) now db); [reflexivity|].
  unfold Results.insert_submission.
  change (Results.select_submission
            (sub_id (Results.new_submission_row (tok_id tokenRow) now payload))
            (set_raw_post_logs db l))
    with (Results.select_submission
            (sub_id (Results.new_submission_row (tok_id tokenRow) now payload)) db).
  destruct (Results.select_submission _ db); [reflexivity|].
  f_equal. unfold Results.register_benchmark_version.
  destruct (benchmark_version payload) as [v|]; [|reflexivity].
  destruct (truthy v); [|reflexivity].
  unfold Results.insert_or_ignore_version.
  change (Results.has_version v
            (set_submissions (set_raw_post_logs db l)
               (submissions (set_raw_post_logs db l) ++
                [Results.new_submission_row (tok_id tokenRow) now payload])))
    with (Results.has_version v
            (set_submissions db
               (submissions db ++
                [Results.new_submission_row (tok_id tokenRow) now payload]))).
  destruct (Results.has_version v _); reflexivity.
Qed.

Lemma ingest_relog tokenRow now payload db l :
  Results.ingest tokenRow now payload (set_raw_post_logs db l) =
  (fst (Results.ingest tokenRow now payload db),
   set_raw_post_logs (snd (Results.ingest tokenRow now payload db)) l).
Proof.
  unfold Results.ingest. cbv zeta.
  change (Results.select_submission (Results.payload_id payload)
            (set_raw_post_logs db l))
    with (Results.select_submission (Results.payload_id payload) db).
  destruct (Results.select_submission (Results.payload_id payload) db) as [row|].
  - reflexivity.
  - rewrite store_new_relog.
    destruct (Results.store_new tokenRow now payload db); reflexivity.
Qed.

Lemma postResults_relog now req db l :
  Results.postResults now req (set_raw_post_logs db l) =
  (fst (Results.postResults now req db),
   set_raw_post_logs (snd (Results.postResults now req db)) l).
Proof.
  unfold Results.postResults.
  change (Results.prelude req (set_raw_post_logs db l))
    with (Results.prelude req db).
  destruct (Results.prelude req db) as [resp|[tokenRow payload]]; [reflexivity|].
  destruct (Results.validate payload); [apply ingest_relog|reflexivity].
Qed.

Lemma postRegister_relog now entropy req db l :
  Register.postRegister now entropy req (set_raw_post_logs db l) =
  (fst (Register.postRegister now entropy req db),
   set_raw_post_logs (snd (Register.postRegister now entropy req db)) l).
Proof.
  unfold Register.postRegister.
  destruct (Register.prelude req); [reflexivity|]. cbv zeta.
  change (Register.hourly_count (Register.getClientIp req) now
            (set_raw_post_logs db l))
    with (Register.hourly_count (Register.getClientIp req) now db).
  destruct (_ <=? _); [reflexivity|].
  destruct (negb (ensureHttps _)); [reflexivity|].
  unfold Register.insert_token. cbn [tokens set_raw_post_logs].
  destruct (existsb _ (tokens db)); reflexivity.
Qed.

Lemma relog_twice db :
  set_raw_post_logs (set_raw_post_logs db []) (raw_post_logs db) = db.
Proof. destruct db; reflexivity. Qed.

Lemma logs_postResults now req db :
  raw_post_logs (snd (Results.postResults now req db)) = raw_post_logs db.
Proof.
  pose proof (postResults_relog now req (set_raw_post_logs db [])
                (raw_post_logs db)) as H.
  rewrite relog_twice in H. rewrite H. reflexivity.
Qed.

Lemma logs_postRegister now entropy req db :
  raw_post_logs (snd (Register.postRegister now entropy req db)) = raw_post_logs db.
Proof.
  pose proof (postRegister_relog now entropy req (set_raw_post_logs db [])
                (raw_post_logs db)) as H.
  rewrite relog_twice in H. rewrite H. reflexivity.
Qed.

(** One request on a store and on the same store with another log. *)
Lemma step_relog now op db l :
  fst (step now op (set_raw_post_logs db l)) = fst (step now op db) /\
  same_tables (snd (step now op db)) (snd (step now op (set_raw_post_logs db l))).
Proof.
  destruct op as [req|entropy req|id|req|email id upd|email id|email id|email id];
    cbn [step].
  - rewrite postResults_relog. split; [reflexivity|apply relog_same_tables].
  - rewrite postRegister_relog. split; [reflexivity|apply relog_same_tables].
  - split; [reflexivity|apply relog_same_tables].
  - split; [reflexivity|]. unfold Logging.log_post.
    destruct (negb (String.eqb (Logging.http_method req) "POST"));
      repeat split.
  - unfold Admin.putVersion. cbn [benchmark_versions set_raw_post_logs].
    destruct (find _ (benchmark_versions db)); [|repeat split].
    destruct (Admin.upd_current upd) as [[|]|], (Admin.upd_hidden upd);
      repeat split.
  - unfold Admin.deleteSubmission. cbn [submissions set_raw_post_logs].
    destruct (find _ (submissions db)); repeat split.
  - unfold Admin.confirmToken. cbn [tokens set_raw_post_logs].
    destruct (find _ (tokens db)) as [t|]; [|repeat split].
    destruct (tok_claimed_at t); repeat split.
  - unfold Admin.unconfirmToken. cbn [tokens set_raw_post_logs].
    destruct (find _ (tokens db)) as [t|]; [|repeat split].
    destruct (tok_claimed_at t); repeat split.
Qed.

Lemma step_same_tables now op db db' :
  same_tables db db' ->
  fst (step now op db) = fst (step now op db') /\
  same_tables (snd (step now op db)) (snd (step now op db')).
Proof.
  intros H. rewrite (same_tables_relog db db' H).
  destruct (step_relog now op db (raw_post_logs db')) as [Hresp Hdb].
  split; [symmetry; exact Hresp|exact Hdb].
Qed.

Lemma run_same_tables (ops : list (Z * Operation)) :
  forall db db',
    same_tables db db' ->
    trace ops db = trace ops db' /\ same_tables (run ops db) (run ops db').
Proof.
  induction ops as [|[now op] ops IH]; intros db db' H; cbn [trace run].
  - split; [reflexivity|exact H].
  - destruct (step_same_tables now op db db' H) as [Hresp Hdb].
    destruct (IH _ _ Hdb) as [Htrace Hrun].
    rewrite Hresp, Htrace. split; [reflexivity|exact Hrun].
Qed.

(** What one request adds to the log. *)
Lemma step_logs now op db :
  exists added,
    raw_post_logs (snd (step now op db)) = (raw_post_logs db ++ added)%list /\
    Forall (fun r =>
              log_created_at r = now /\
              ((log_method r = "POST" /\ exists req, op = LogPost req) \/
               (log_method r = "ADMIN" /\ log_ip r = "admin" /\
                status (fst (step now op db)) = 200 /\
                exists email, admin_email op = Some email /\
                              log_headers r = [("admin_email", email)])))
           added.
Proof.
  destruct op as [req|entropy req|id|req|email id upd|email id|email id|email id];
    cbn [step].
  - exists []. rewrite app_nil_r. split; [|constructor].
    apply logs_postResults.
  - exists []. rewrite app_nil_r. split; [|constructor].
    apply logs_postRegister.
  - exists []. rewrite app_nil_r. split; [reflexivity|constructor].
  - unfold Logging.log_post.
    destruct (negb (String.eqb (Logging.http_method req) "POST")) eqn:E.
    + exists []. rewrite app_nil_r. split; [reflexivity|constructor].
    + eexists. split; [reflexivity|]. constructor; [|constructor].
      cbn [log_created_at log_method]. split; [reflexivity|]. left.
      apply negb_false_iff, String.eqb_eq in E. split; [exact E|].
      exists req. reflexivity.
  - unfold Admin.putVersion.
    destruct (find _ (benchmark_versions db));
      [|exists []; rewrite app_nil_r; split; [reflexivity|constructor]].
    cbv zeta. cbn [fst snd status json admin_email].
    destruct (Admin.upd_current upd) as [[|]|], (Admin.upd_hidden upd) as [h|];
      cbn [raw_post_logs Admin.logAdminAction set_raw_post_logs Admin.set_hidden
           Admin.set_current Admin.clear_current set_benchmark_versions].
    + rewrite <- app_assoc. eexists. split; [reflexivity|].
      constructor; [admin_row email|]. constructor; [admin_row email|constructor].
    + eexists. split; [reflexivity|]. constructor; [admin_row email|constructor].
    + eexists. split; [reflexivity|]. constructor; [admin_row email|constructor].
    + exists []. rewrite app_nil_r. split; [reflexivity|constructor].
    + eexists. split; [reflexivity|]. constructor; [admin_row email|constructor].
    + exists []. rewrite app_nil_r. split; [reflexivity|constructor].
  - unfold Admin.deleteSubmission.
    destruct (find _ (submissions db));
      [|exists []; rewrite app_nil_r; split; [reflexivity|constructor]].
    eexists. split; [reflexivity|]. constructor; [|constructor].
    admin_row email.
  - unfold Admin.confirmToken.
    destruct (find _ (tokens db)) as [t|];
      [|exists []; rewrite app_nil_r; split; [reflexivity|constructor]].
    destruct (tok_claimed_at t);
      [exists []; rewrite app_nil_r; split; [reflexivity|constructor]|].
    eexists. split; [reflexivity|]. constructor; [|constructor].
    admin_row email.
  - unfold Admin.unconfirmToken.
    destruct (find _ (tokens db)) as [t|];
      [|exists []; rewrite app_nil_r; split; [reflexivity|constructor]].
    destruct (tok_claimed_at t);
      [|exists []; rewrite app_nil_r; split; [reflexivity|constructor]].
    eexists. split; [reflexivity|]. constructor; [|constructor].
    admin_row email.
Qed.

End WithRuntime.

End LogFacts.

Section RequestLog.

Import Js Maintenance LogFacts.

Context {RT : Runtime}.

(** X14. The request log only grows under requests: a run of requests
    leaves the rows that were there, in place, and adds rows of two kinds
    only - a row with method POST, written at the time of a logged POST
    request of the run, or a row with method ADMIN and address [admin],
    written at the time of an administrative request of the run and
    naming its administrator. No public request can write a row that
    reads as an administrator's. *)
Theorem request_log_append_only (ops : list (Z * Operation)) (db : DB) :
  exists added,
    raw_post_logs (run ops db) = (raw_post_logs db ++ added)%list /\
    Forall (fun r =>
              (log_method r = "POST" /\
               exists req, In (log_created_at r, LogPost req) ops) \/
              (log_method r = "ADMIN" /\ log_ip r = "admin" /\
               exists op email,
                 In (log_created_at r, op) ops /\
                 admin_email op = Some email /\
                 log_headers r = [("admin_email", email)]))
           added.
Proof.
  revert db. induction ops as [|[now op] ops IH]; intros db; cbn [run].
  - exists []. rewrite app_nil_r. split; [reflexivity|constructor].
  - destruct (step_logs now op db) as (first & Hfirst & Hrows).
    destruct (IH (snd (step now op db))) as (rest & Hrest & Hrows').
    exists (first ++ rest)%list. split.
    + rewrite Hrest, Hfirst, app_assoc. reflexivity.
    + apply Forall_app. split.
      * eapply Forall_impl; [|exact Hrows]. cbv beta.
        intros r (Hnow & [(Hm & req & Hop)|(Hm & Hip & _ & email & He & Hh)]).
        -- left. split; [exact Hm|]. exists req. left. rewrite Hnow, Hop. reflexivity.
        -- right. split; [exact Hm|]. split; [exact Hip|].
           exists op, email. split; [left; rewrite Hnow; reflexivity|].
           split; assumption.
      * eapply Forall_impl; [|exact Hrows']. cbv beta.
        intros r [(Hm & req & Hin)|(Hm & Hip & op' & email & Hin & He & Hh)].
        -- left. split; [exact Hm|]. exists req. right. exact Hin.
        -- right. split; [exact Hm|]. split; [exact Hip|].
           exists op', email. split; [right; exact Hin|]. split; assumption.
Qed.

(** X15. The scheduled cleanup keeps exactly the log rows of the last 30
    days and touches no other table; and since no handler reads the log,
    no client can tell whether it ran: every run of requests draws the
    same responses and leaves the same tables with the cleanup as
    without. *)
Theorem log_cleanup_is_invisible (now : Z) (ops : list (Z * Operation))
  (db : DB) :
  (forall r, In r (raw_post_logs (scheduled now db)) <->
             In r (raw_post_logs db) /\ now - 30 * 86400 <= log_created_at r) /\
  same_tables db (scheduled now db) /\
  trace ops (scheduled now db) = trace ops db /\
  same_tables (run ops db) (run ops (scheduled now db)) /\
  (forall later, now <= later ->
     scheduled later (scheduled now db) = scheduled later db).
Proof.
  split.
  { intros r. unfold scheduled. cbn [raw_post_logs set_raw_post_logs].
    rewrite filter_In, negb_true_iff, Z.ltb_ge.
    unfold RETENTION_DAYS, Results.seconds_per_day. reflexivity. }
  split; [apply relog_same_tables|].
  destruct (run_same_tables ops db (scheduled now db) (relog_same_tables db _))
    as [Htrace Hrun].
  split; [symmetry; exact Htrace|]. split; [exact Hrun|].
  intros later Hlater. unfold scheduled, set_raw_post_logs.
  cbn [raw_post_logs tokens token_registration_limits submissions
       benchmark_versions].
  rewrite (retention_twice now later _ Hlater). reflexivity.
Qed.

End RequestLog.

Module RemovalFacts.

Import Js.

Lemma filter_length_le {A : Type} (p : A -> bool) (l : list A) :
  (List.length (filter p l) <= List.length l)%nat.
Proof.
  induction l as [|a l IH]; simpl; [lia|]. destruct (p a); simpl; lia.
Qed.

(** Dropping a row that is there shortens the table. *)
Lemma filter_drops {A : Type} (p : A -> bool) (l : list A) (a : A) :
  In a l -> p a = false ->
  (List.length (filter p l) < List.length l)%nat.
Proof.
  induction l as [|x l IH]; simpl; [contradiction|].
  intros [->|Hin] Hp.
  - rewrite Hp. pose proof (filter_length_le p l). lia.
  - specialize (IH Hin Hp). destruct (p x); simpl; lia.
Qed.

(** A condition over fewer rows counts no more. *)
Lemma filter_filter_length {A : Type} (p q : A -> bool) (l : list A) :
  (List.length (filter q (filter p l)) <= List.length (filter q l))%nat.
Proof.
  induction l as [|a l IH]; simpl; [lia|].
  destruct (p a), (q a) eqn:Hq; simpl; rewrite ?Hq; simpl; lia.
Qed.

(** The store once the submission [id] is deleted and the deletion
    logged. *)
Lemma deleteSubmission_found now email id db existing :
  find (fun s => String.eqb (sub_id s) id) (submissions db) = Some existing ->
  Admin.deleteSubmission now email id db =
  (json Success 200,
   Admin.logAdminAction now email "delete_submission"
     [("submission_id", Str id); ("model", Str (sub_model existing));
      ("provider", Admin.provider_value (sub_provider existing))]
     (set_submissions db
        (filter (fun s => negb (String.eqb (sub_id s) id)) (submissions db)))).
Proof. intros H. unfold Admin.deleteSubmission. rewrite H. reflexivity. Qed.

End RemovalFacts.

Section SubmissionRemoval.

Import Js Results ResultsFacts RegisterFacts RemovalFacts.

Context {RT : Runtime}.

(** X13. Deleting a submission answers 404 for an identifier that is not
    stored, and changes nothing; for a stored one it answers 200 and
    removes the rows of that identifier and no other, leaving tokens,
    versions and registration limits alone. Afterwards the detail view
    answers 404, no token's daily count has grown, and the identifier is
    free again: a valid submission under it, within the quota, is
    accepted as new. *)
Theorem deleted_submission_is_gone (now : Z) (email id : string) (db : DB) :
  (status (fst (Admin.deleteSubmission now email id db)) = 404 /\
   snd (Admin.deleteSubmission now email id db) = db /\
   select_submission id db = None) \/
  (status (fst (Admin.deleteSubmission now email id db)) = 200 /\
   select_submission id (snd (Admin.deleteSubmission now email id db)) = None /\
   (forall s, In s (submissions (snd (Admin.deleteSubmission now email id db)))
              <-> In s (submissions db) /\ sub_id s <> id) /\
   count_total (snd (Admin.deleteSubmission now email id db)) < count_total db /\
   tokens (snd (Admin.deleteSubmission now email id db)) = tokens db /\
   benchmark_versions (snd (Admin.deleteSubmission now email id db)) =
     benchmark_versions db /\
   token_registration_limits (snd (Admin.deleteSubmission now email id db)) =
     token_registration_limits db /\
   (forall token_id t,
      daily_count token_id t (snd (Admin.deleteSubmission now email id db))
      <= daily_count token_id t db) /\
   (truthy id = true ->
    Submissions.getSubmission id (snd (Admin.deleteSubmission now email id db)) =
      json (ErrorMessage "not_found" "Submission not found") 404) /\
   (forall t req tokenRow payload,
      prelude req (snd (Admin.deleteSubmission now email id db)) =
        inr (tokenRow, payload) ->
      validate payload = [] -> payload_id payload = id ->
      daily_count (tok_id tokenRow) t
        (snd (Admin.deleteSubmission now email id db)) < 100 ->
      status (fst (postResults t req (snd (Admin.deleteSubmission now email id db))))
        = 201)).
Proof.
  destruct (find (fun s => String.eqb (sub_id s) id) (submissions db))
    as [existing|] eqn:Hfind.
  - right. rewrite (deleteSubmission_found now email id db existing Hfind).
    cbn [fst snd status json].
    set (db' := Admin.logAdminAction now email "delete_submission" _ _).
    assert (Hsubs : submissions db' =
                    filter (fun s => negb (String.eqb (sub_id s) id)) (submissions db))
      by reflexivity.
    assert (Hgone : forall s, In s (submissions db') ->
                              String.eqb (sub_id s) id = false).
    { intros s Hs. rewrite Hsubs in Hs. apply filter_In in Hs.
      apply negb_true_iff. exact (proj2 Hs). }
    assert (Hsel : select_submission id db' = None)
      by (apply find_all_false; exact Hgone).
    split; [reflexivity|]. split; [exact Hsel|]. split.
    { intros s. rewrite Hsubs, filter_In, negb_true_iff, String.eqb_neq.
      reflexivity. }
    split.
    { unfold count_total. rewrite Hsubs. apply find_some in Hfind.
      destruct Hfind as [Hin Heq].
      pose proof (filter_drops (fun s => negb (String.eqb (sub_id s) id))
                    (submissions db) existing Hin) as Hlt.
      cbv beta in Hlt. rewrite Heq in Hlt. specialize (Hlt eq_refl). lia. }
    split; [reflexivity|]. split; [reflexivity|]. split; [reflexivity|].
    split.
    { intros token_id t. unfold daily_count. rewrite Hsubs.
      pose proof (filter_filter_length
                    (fun s => negb (String.eqb (sub_id s) id))
                    (fun s => String.eqb (sub_token_id s) token_id
                              && (t - seconds_per_day <=? sub_created_at s))
                    (submissions db)).
      lia. }
    split.
    { intros Htruthy. unfold Submissions.getSubmission. rewrite Htruthy.
      cbn [negb].
      assert (Hnone : Submissions.select_detail id db' = None).
      { apply find_all_false. intros [s u] Hin. cbn [fst].
        apply in_flat_map in Hin. destruct Hin as (s' & Hs' & Hpair).
        apply in_map_iff in Hpair. destruct Hpair as (u' & Heq & _).
        injection Heq as -> _. apply Hgone. exact Hs'. }
      rewrite Hnone. reflexivity. }
    intros t req tokenRow payload Hpre Hv Hid Hquota.
    unfold postResults. rewrite Hpre, Hv.
    rewrite <- Hid in Hsel.
    rewrite (ingest_new tokenRow t payload db' Hsel Hquota). reflexivity.
  - left. unfold Admin.deleteSubmission. rewrite Hfind.
    split; [reflexivity|]. split; [reflexivity|exact Hfind].
Qed.

End SubmissionRemoval.
(* ================================================================== *)
(** * Public benchmark versions *)
(* ================================================================== *)

Module VersionsFacts.

Import Js Versions.

Lemma insert_desc_perm v l : Permutation (insert_desc v l) (v :: l).
Proof.
  induction l as [|w l IH]; simpl; [reflexivity|].
  destruct (bv_created_at w <=? bv_created_at v); [reflexivity|].
  rewrite IH. apply perm_swap.
Qed.

Lemma order_perm l : Permutation (order_by_created_at_desc l) l.
Proof.
  induction l as [|v l IH]; simpl; [reflexivity|].
  rewrite insert_desc_perm. constructor. exact IH.
Qed.

Lemma order_In l v : In v (order_by_created_at_desc l) <-> In v l.
Proof.
  split; apply Permutation_in; [|symmetry]; apply order_perm.
Qed.

Lemma insert_desc_sorted v l :
  StronglySorted (fun a b => bv_created_at b <= bv_created_at a) l ->
  StronglySorted (fun a b => bv_created_at b <= bv_created_at a) (insert_desc v l).
Proof.
  induction l as [|w l IH]; simpl; intros Hs.
  - constructor; constructor.
  - inversion Hs as [|? ? Hl Hw]; subst.
    destruct (bv_created_at w <=? bv_created_at v) eqn:E.
    + apply Z.leb_le in E. constructor; [exact Hs|].
      constructor; [exact E|].
      eapply Forall_impl; [|exact Hw]. cbv beta. intros x Hx. lia.
    + apply Z.leb_gt in E. constructor; [apply IH; exact Hl|].
      apply Forall_forall. intros x Hx.
      apply (Permutation_in _ (insert_desc_perm v l)) in Hx.
      destruct Hx as [<-|Hx]; [lia|].
      rewrite Forall_forall in Hw. apply Hw. exact Hx.
Qed.

Lemma order_sorted l :
  StronglySorted (fun a b => bv_created_at b <= bv_created_at a)
                 (order_by_created_at_desc l).
Proof.
  induction l as [|v l IH]; simpl; [constructor|].
  apply insert_desc_sorted. exact IH.
Qed.

(** The first row of an ordered table is a newest one. *)
Lemma order_head l v rest :
  order_by_created_at_desc l = v :: rest ->
  In v l /\ forall w, In w l -> bv_created_at w <= bv_created_at v.
Proof.
  intros H. split.
  - apply order_In. rewrite H. left. reflexivity.
  - intros w Hw. apply order_In in Hw. rewrite H in Hw.
    pose proof (order_sorted l) as Hs. rewrite H in Hs.
    inversion Hs as [|? ? _ Hall]; subst.
    destruct Hw as [<-|Hw]; [lia|].
    rewrite Forall_forall in Hall. apply Hall. exact Hw.
Qed.

Lemma order_nil l : order_by_created_at_desc l = [] -> l = [].
Proof.
  intros H. pose proof (order_perm l) as Hp. rewrite H in Hp.
  apply Permutation_nil. exact Hp.
Qed.

Lemma short_list_eq {A : Type} (l : list A) (a b : A) :
  (List.length l <= 1)%nat -> In a l -> In b l -> a = b.
Proof.
  destruct l as [|x [|y l]]; simpl; intros Hlen Ha Hb; try lia; try contradiction.
  destruct Ha as [<-|[]], Hb as [<-|[]]. reflexivity.
Qed.

Lemma short_list_singleton {A : Type} (l : list A) (a : A) :
  (List.length l <= 1)%nat -> In a l -> l = [a].
Proof.
  destruct l as [|x [|y l]]; simpl; intros Hlen Ha; try lia; try contradiction.
  destruct Ha as [<-|[]]. reflexivity.
Qed.

(** Without a version parameter the scope is the current versions. *)
Lemma resolve_no_version db :
  Scope.resolveBenchmarkVersions no_version db = Scope.select_current db.
Proof. reflexivity. Qed.

Lemma entry_same_submissions db db' v :
  submissions db' = submissions db -> entry db' v = entry db v.
Proof.
  intros H. unfold entry, submission_count. rewrite H. reflexivity.
Qed.

Lemma bv_id_hidden_where h id v : bv_id (Admin.hidden_where h id v) = bv_id v.
Proof. unfold Admin.hidden_where. destruct (String.eqb (bv_id v) id); reflexivity. Qed.

Lemma in_listVersions db e :
  In e (listVersions db) <->
  exists v, In v (benchmark_versions db) /\ bv_hidden v = 0 /\ e = entry db v.
Proof.
  unfold listVersions. rewrite in_map_iff. split.
  - intros (v & He & Hin). apply order_In, filter_In in Hin.
    destruct Hin as [Hin Hh]. apply Z.eqb_eq in Hh. exists v. auto.
  - intros (v & Hin & Hh & He). exists v. split; [symmetry; exact He|].
    apply order_In, filter_In. split; [exact Hin|]. apply Z.eqb_eq. exact Hh.
Qed.

Lemma StronglySorted_map {A B : Type} (R : B -> B -> Prop) (f : A -> B) l :
  StronglySorted (fun a b => R (f a) (f b)) l -> StronglySorted R (map f l).
Proof.
  induction 1 as [|a l Hl IH Ha]; simpl; constructor; [exact IH|].
  rewrite Forall_map. exact Ha.
Qed.

(** The store a successful update of a version leaves. *)
Lemma putVersion_versions now email id upd db :
  status (fst (Admin.putVersion now email id upd db)) = 200 ->
  In id (map bv_id (benchmark_versions db)) /\
  submissions (snd (Admin.putVersion now email id upd db)) = submissions db /\
  exists l,
    map bv_id l = map bv_id (benchmark_versions db) /\
    (Admin.upd_current upd = None -> l = benchmark_versions db) /\
    benchmark_versions (snd (Admin.putVersion now email id upd db)) =
      match Admin.upd_hidden upd with
      | Some h => map (Admin.hidden_where (if h then 1 else 0) id) l
      | None => l
      end.
Proof.
  unfold Admin.putVersion.
  destruct (find (fun v => String.eqb (bv_id v) id) (benchmark_versions db))
    as [v|] eqn:Hfind; [|discriminate].
  intros _. split.
  { apply find_some in Hfind. destruct Hfind as [Hin Heq].
    apply String.eqb_eq in Heq. rewrite <- Heq. apply in_map. exact Hin. }
  cbv zeta. cbn [snd].
  destruct (Admin.upd_current upd) as [[|]|].
  - split; [destruct (Admin.upd_hidden upd); reflexivity|].
    exists (map (Admin.current_where id)
                (map (Admin.with_current 0) (benchmark_versions db))).
    split.
    { rewrite !map_map. apply map_ext. intros w. unfold Admin.current_where.
      cbn [bv_id Admin.with_current].
      destruct (String.eqb (bv_id w) id); reflexivity. }
    split; [discriminate|]. destruct (Admin.upd_hidden upd); reflexivity.
  - split; [destruct (Admin.upd_hidden upd); reflexivity|].
    exists (benchmark_versions db). split; [reflexivity|].
    split; [discriminate|]. destruct (Admin.upd_hidden upd); reflexivity.
  - split; [destruct (Admin.upd_hidden upd); reflexivity|].
    exists (benchmark_versions db). split; [reflexivity|].
    split; [reflexivity|]. destruct (Admin.upd_hidden upd); reflexivity.
Qed.

End VersionsFacts.

Section PublicVersions.

Import Js Versions VersionsFacts.

(** X16. [/api/benchmark_versions/latest] answers 404 exactly when no
    version is both current and visible; otherwise it answers 200 with a
    newest current visible version, its count of submissions, and
    [is_current] set. With at most one version current, that version is
    the whole default scope of the queries; but a current version that is
    hidden still is the default scope while [latest] answers 404. *)
Theorem latest_and_default_scope (db : DB) :
  (fst (latest db) = 404 <->
   forall v, In v (benchmark_versions db) ->
             ~ (bv_current v = 1 /\ bv_hidden v = 0)) /\
  (forall e, latest db = (200, Version e) ->
     ve_is_current e = true /\
     ve_submission_count e = submission_count (ve_id e) db /\
     (exists v, In v (benchmark_versions db) /\ bv_id v = ve_id e /\
                bv_created_at v = ve_created_at e /\
                bv_current v = 1 /\ bv_hidden v = 0) /\
     (forall w, In w (benchmark_versions db) ->
                bv_current w = 1 -> bv_hidden w = 0 ->
                bv_created_at w <= ve_created_at e) /\
     In (ve_id e) (Scope.resolveBenchmarkVersions no_version db)) /\
  (Scope.at_most_one_current db ->
   (forall e, latest db = (200, Version e) ->
      Scope.resolveBenchmarkVersions no_version db = [ve_id e]) /\
   (forall v, In v (benchmark_versions db) ->
      bv_current v = 1 -> bv_hidden v <> 0 ->
      fst (latest db) = 404 /\
      Scope.resolveBenchmarkVersions no_version db = [bv_id v])).
Proof.
  assert (Hcand : forall v,
            In v (filter (fun v => (bv_current v =? 1) && (bv_hidden v =? 0))
                         (benchmark_versions db)) <->
            In v (benchmark_versions db) /\ bv_current v = 1 /\ bv_hidden v = 0).
  { intros v. rewrite filter_In, andb_true_iff, !Z.eqb_eq. reflexivity. }
  assert (Hfound : forall e, latest db = (200, Version e) ->
            exists v, In v (benchmark_versions db) /\ bv_current v = 1 /\
                      bv_hidden v = 0 /\
                      e = {| ve_id := bv_id v; ve_created_at := bv_created_at v;
                             ve_is_current := true;
                             ve_submission_count := submission_count (bv_id v) db |} /\
                      forall w, In w (benchmark_versions db) ->
                                bv_current w = 1 -> bv_hidden w = 0 ->
                                bv_created_at w <= bv_created_at v).
  { intros e. unfold latest.
    destruct (order_by_created_at_desc _) as [|v rest] eqn:Ho; [discriminate|].
    intros H. injection H as <-.
    destruct (order_head _ v rest Ho) as [Hin Hmax].
    apply Hcand in Hin. destruct Hin as (Hin & Hc & Hh).
    exists v. repeat split; try assumption.
    intros w Hw Hwc Hwh. apply Hmax. apply Hcand. auto. }
  split; [|split].
  - unfold latest.
    destruct (order_by_created_at_desc _) as [|v rest] eqn:Ho; cbn [fst].
    + split; [|reflexivity]. intros _ v Hin Hv.
      apply order_nil in Ho.
      assert (Hc : In v (filter (fun v => (bv_current v =? 1) && (bv_hidden v =? 0))
                           (benchmark_versions db)))
        by (apply Hcand; tauto).
      rewrite Ho in Hc. exact Hc.
    + split; [discriminate|]. intros Hnone. exfalso.
      destruct (order_head _ v rest Ho) as [Hin _].
      apply Hcand in Hin. apply (Hnone v); tauto.
  - intros e He. destruct (Hfound e He) as (v & Hin & Hc & Hh & -> & Hmax).
    cbn [ve_is_current ve_submission_count ve_id ve_created_at].
    split; [reflexivity|]. split; [reflexivity|].
    split; [exists v; repeat split; assumption|].
    split; [exact Hmax|].
    rewrite resolve_no_version. apply in_select_current. exists v. auto.
  - intros Hone. unfold Scope.at_most_one_current, Scope.current_count in Hone.
    split.
    + intros e He. destruct (Hfound e He) as (v & Hin & Hc & Hh & -> & _).
      cbn [ve_id]. rewrite resolve_no_version.
      apply short_list_singleton; [exact Hone|].
      apply in_select_current. exists v. auto.
    + intros v Hin Hc Hh.
      assert (Hsel : Scope.select_current db = [bv_id v]).
      { apply short_list_singleton; [exact Hone|].
        apply in_select_current. exists v. auto. }
      split; [|rewrite resolve_no_version; exact Hsel].
      unfold latest.
      destruct (order_by_created_at_desc _) as [|w rest] eqn:Ho; [reflexivity|].
      exfalso. destruct (order_head _ w rest Ho) as [Hw _].
      apply Hcand in Hw. destruct Hw as (Hw & Hwc & Hwh).
      unfold Scope.select_current, Scope.current_ids in Hone.
      rewrite length_map in Hone.
      assert (Heq : v = w).
      { apply (short_list_eq _ v w Hone); apply filter_In;
          (split; [assumption|apply Z.eqb_eq; assumption]). }
      subst w. contradiction.
Qed.

(** X17. The public list of benchmark versions holds one entry for each
    version that is not hidden and none for the others, newest first,
    each with the number of submissions that name it. Hiding a version
    through the administration takes it off the list, unhiding puts it
    back, and an update that does not move the current flag leaves the
    entries of all other versions as they were. *)
Theorem public_version_list (db : DB) :
  Permutation (listVersions db)
    (map (entry db) (filter (fun v => bv_hidden v =? 0) (benchmark_versions db))) /\
  StronglySorted (fun a b => ve_created_at b <= ve_created_at a) (listVersions db) /\
  (forall now email id upd,
     status (fst (Admin.putVersion now email id upd db)) = 200 ->
     (Admin.upd_hidden upd = Some true ->
      ~ In id (map ve_id (listVersions (snd (Admin.putVersion now email id upd db))))) /\
     (Admin.upd_hidden upd = Some false ->
      In id (map ve_id (listVersions (snd (Admin.putVersion now email id upd db))))) /\
     (Admin.upd_current upd = None ->
      forall e, ve_id e <> id ->
        (In e (listVersions (snd (Admin.putVersion now email id upd db)))
         <-> In e (listVersions db)))).
Proof.
  split; [apply Permutation_map, order_perm|].
  split.
  { unfold listVersions. apply StronglySorted_map. cbn [entry ve_created_at].
    apply order_sorted. }
  intros now email id upd Hok.
  destruct (putVersion_versions now email id upd db Hok)
    as (Hknown & Hsubs & l & Hids & Hsame & Hvers).
  split; [|split].
  - intros Hhide Hin. rewrite Hhide in Hvers.
    apply in_map_iff in Hin. destruct Hin as (e & He & Hin).
    apply in_listVersions in Hin. destruct Hin as (v & Hv & Hh & ->).
    cbn [entry ve_id] in He. rewrite Hvers in Hv.
    apply in_map_iff in Hv. destruct Hv as (w & <- & _).
    rewrite bv_id_hidden_where in He.
    unfold Admin.hidden_where in Hh. apply String.eqb_eq in He.
    rewrite He in Hh. cbn in Hh. discriminate.
  - intros Hshow. rewrite Hshow in Hvers.
    rewrite <- Hids in Hknown. apply in_map_iff in Hknown.
    destruct Hknown as (w & Hw & Hin).
    apply in_map_iff.
    exists (entry (snd (Admin.putVersion now email id upd db))
                  (Admin.hidden_where 0 id w)).
    split; [cbn [entry ve_id]; rewrite bv_id_hidden_where; exact Hw|].
    apply in_listVersions. exists (Admin.hidden_where 0 id w).
    split; [rewrite Hvers; apply in_map; exact Hin|].
    split; [|reflexivity].
    unfold Admin.hidden_where. apply String.eqb_eq in Hw. rewrite Hw. reflexivity.
  - intros Hcur e Hne. specialize (Hsame Hcur). subst l.
    rewrite !in_listVersions. split.
    + intros (v & Hv & Hh & ->). rewrite (entry_same_submissions _ _ _ Hsubs) in *.
      destruct (Admin.upd_hidden upd) as [h|].
      * rewrite Hvers in Hv. apply in_map_iff in Hv. destruct Hv as (w & <- & Hw).
        cbn [entry ve_id] in Hne. rewrite bv_id_hidden_where in Hne.
        assert (Hsame : Admin.hidden_where (if h then 1 else 0) id w = w).
        { unfold Admin.hidden_where. apply String.eqb_neq in Hne.
          rewrite Hne. reflexivity. }
        rewrite Hsame in *. exists w. auto.
      * rewrite Hvers in Hv. exists v. auto.
    + intros (v & Hv & Hh & ->). cbn [entry ve_id] in Hne.
      exists v. rewrite (entry_same_submissions _ _ _ Hsubs).
      split; [|split; [exact Hh|reflexivity]].
      rewrite Hvers. destruct (Admin.upd_hidden upd) as [h|]; [|exact Hv].
      apply in_map_iff. exists v. split; [|exact Hv].
      unfold Admin.hidden_where. apply String.eqb_neq in Hne.
      rewrite Hne. reflexivity.
Qed.

End PublicVersions.

(* ================================================================== *)
(** * Administrator authentication *)
(* ================================================================== *)

Module AuthFacts.

Import Js AdminAuth.

Lemma length_snoc (s : string) (c : ascii) :
  String.length (s ++ String c EmptyString) = S (String.length s).
Proof. induction s as [|d s IH]; simpl; [reflexivity|]. rewrite IH. reflexivity. Qed.

Lemma append_assoc (a b c : string) : ((a ++ b) ++ c = a ++ (b ++ c))%string.
Proof. induction a as [|d a IH]; simpl; [reflexivity|]. rewrite IH. reflexivity. Qed.

Lemma append_nil_r (a : string) : (a ++ "")%string = a.
Proof. induction a as [|d a IH]; simpl; [reflexivity|]. rewrite IH. reflexivity. Qed.

(** The loop stops as soon as the length is a multiple of four, which
    takes as many rounds as the length is short of one. *)
Lemma pad_rounds (rounds : nat) :
  forall str,
    ((4 - String.length str mod 4) mod 4 <= rounds)%nat ->
    pad rounds str =
    Some (str ++ string_of_list_ascii
                   (repeat "="%char ((4 - String.length str mod 4) mod 4))).
Proof.
  induction rounds as [|rounds IH]; intros str Hle.
  - pose proof (Nat.mod_upper_bound (String.length str) 4 ltac:(lia)) as Hb.
    cbn [pad].
    destruct (String.length str mod 4)%nat as [|[|[|[|n]]]] eqn:E; try lia;
      try (exfalso; revert Hle; clear; cbn; lia).
    cbn. rewrite append_nil_r. reflexivity.
  - pose proof (Nat.mod_upper_bound (String.length str) 4 ltac:(lia)) as Hb.
    cbn [pad].
    assert (Hnext : (String.length (str ++ "=") mod 4
                     = (String.length str mod 4 + 1) mod 4)%nat).
    { rewrite length_snoc, <- Nat.add_1_r.
      rewrite Nat.Div0.add_mod_idemp_l. reflexivity. }
    destruct (String.length str mod 4)%nat as [|[|[|[|n]]]] eqn:E; try lia.
    + cbn. rewrite append_nil_r. reflexivity.
    + cbn [Nat.eqb]. rewrite IH; rewrite Hnext; [|cbn in Hle |- *; lia].
      rewrite append_assoc. reflexivity.
    + cbn [Nat.eqb]. rewrite IH; rewrite Hnext; [|cbn in Hle |- *; lia].
      rewrite append_assoc. reflexivity.
    + cbn [Nat.eqb]. rewrite IH; rewrite Hnext; [|cbn in Hle |- *; lia].
      rewrite append_assoc. reflexivity.
Qed.

Lemma pad_three (str : string) :
  pad 3 str =
  Some (str ++ string_of_list_ascii
                 (repeat "="%char ((4 - String.length str mod 4) mod 4))).
Proof.
  apply pad_rounds.
  pose proof (Nat.mod_upper_bound (4 - String.length str mod 4) 4). lia.
Qed.

Section WithPlatform.

Context {PF : Platform}.

Lemma split_dots_cons (token : string) :
  exists part parts, split_dots token = part :: parts.
Proof.
  destruct token as [|c token]; simpl; [eauto|].
  destruct (Ascii.eqb c "."); [eauto|].
  destruct (split_dots token); eauto.
Qed.

Lemma split_dots_free (part : string) :
  dot_free part = true -> split_dots part = [part].
Proof.
  unfold dot_free. induction part as [|c part IH]; simpl; [reflexivity|].
  intros H. apply andb_true_iff in H. destruct H as [Hc Hrest].
  apply negb_true_iff in Hc. rewrite Hc, (IH Hrest). reflexivity.
Qed.

Lemma split_dots_app (part rest : string) :
  dot_free part = true ->
  split_dots (part ++ "." ++ rest) = part :: split_dots rest.
Proof.
  unfold dot_free. induction part as [|c part IH]; simpl; [reflexivity|].
  intros H. apply andb_true_iff in H. destruct H as [Hc Hrest].
  apply negb_true_iff in Hc. rewrite Hc. simpl in IH. rewrite (IH Hrest).
  reflexivity.
Qed.

(** The parts hold no dot, and joined by dots they give the token
    back. *)
Lemma split_dots_join (token : string) :
  forallb dot_free (split_dots token) = true /\
  join "." (split_dots token) = token.
Proof.
  induction token as [|c token [IHfree IHjoin]]; simpl; [split; reflexivity|].
  destruct (Ascii.eqb c ".") eqn:E.
  - apply Ascii.eqb_eq in E. subst c. cbn [forallb]. rewrite IHfree.
    split; [reflexivity|].
    destruct (split_dots_cons token) as (part & parts & Hs).
    rewrite Hs in *.
    change (join "." (EmptyString :: part :: parts))
      with (String "." (join "." (part :: parts))).
    rewrite IHjoin. reflexivity.
  - destruct (split_dots token) as [|part parts] eqn:Hs.
    + destruct (split_dots_cons token) as (part & parts & Hs'). congruence.
    + cbn [forallb] in *. apply andb_true_iff in IHfree.
      destruct IHfree as [Hpart Hparts]. split.
      * apply andb_true_iff. split; [|exact Hparts].
        unfold dot_free in *. simpl. rewrite E, Hpart. reflexivity.
      * rewrite <- IHjoin. destruct parts; reflexivity.
Qed.

(** A token of exactly three parts. *)
Lemma split_dots_three (token a b c : string) :
  split_dots token = [a; b; c] <->
  token = a ++ "." ++ b ++ "." ++ c /\
  dot_free a = true /\ dot_free b = true /\ dot_free c = true.
Proof.
  split.
  - intros H. destruct (split_dots_join token) as [Hfree Hjoin].
    rewrite H in Hfree, Hjoin. cbn [forallb] in Hfree.
    rewrite !andb_true_iff in Hfree. destruct Hfree as (Ha & Hb & Hc & _).
    split; [symmetry; exact Hjoin|]. auto.
  - intros (-> & Ha & Hb & Hc).
    rewrite (split_dots_app a _ Ha), (split_dots_app b _ Hb), (split_dots_free c Hc).
    reflexivity.
Qed.

(** The checks that follow the one on [exp]. *)
Lemma claims_rest (now : Z) (payload : JWTPayload)
  (teamDomain expectedAud : string) :
  (forall e, jwt_exp payload = Some e -> (e == 0)%Q \/ (inject_Z now <= e)%Q) ->
  (if match jwt_iat payload with
      | Some q => negb (Qeq_bool q 0)
      | None => false
      end && negb (Qle_bool (nullish (jwt_iat payload) 0%Q) (inject_Z (now + 60)))
   then Some TokenIssuedInTheFuture
   else if match jwt_aud payload with
           | Some aud => negb (existsb (String.eqb expectedAud) aud)
           | None => true
           end
   then Some InvalidAudience
   else if match jwt_iss payload with
           | Some iss => negb (String.eqb iss ("https://" ++ teamDomain))
           | None => true
           end
   then Some InvalidIssuer
   else None) = None <->
  (forall e, jwt_exp payload = Some e -> (e == 0)%Q \/ (inject_Z now <= e)%Q) /\
  (forall i, jwt_iat payload = Some i ->
             (i == 0)%Q \/ (i <= inject_Z (now + 60))%Q) /\
  (exists aud, jwt_aud payload = Some aud /\ In expectedAud aud) /\
  jwt_iss payload = Some ("https://" ++ teamDomain).
Proof.
  intros Hexp.
  assert (Haud : forall rest : option Error,
            (if match jwt_aud payload with
                | Some aud => negb (existsb (String.eqb expectedAud) aud)
                | None => true
                end
             then Some InvalidAudience
             else if match jwt_iss payload with
                     | Some iss => negb (String.eqb iss ("https://" ++ teamDomain))
                     | None => true
                     end
             then Some InvalidIssuer else None) = None <->
            (exists aud, jwt_aud payload = Some aud /\ In expectedAud aud) /\
            jwt_iss payload = Some ("https://" ++ teamDomain)).
  { intros _. destruct (jwt_aud payload) as [aud|].
    - destruct (existsb (String.eqb expectedAud) aud) eqn:Ea; cbn [negb].
      + apply existsb_exists in Ea. destruct Ea as (x & Hx & Heq).
        apply String.eqb_eq in Heq. subst x.
        destruct (jwt_iss payload) as [iss|].
        * destruct (String.eqb iss ("https://" ++ teamDomain)) eqn:Ei; cbn [negb].
          -- apply String.eqb_eq in Ei. subst iss.
             split; [intros _; split; [eauto|reflexivity]|reflexivity].
          -- split; [discriminate|]. intros (_ & Hiss). injection Hiss as ->.
             rewrite String.eqb_refl in Ei. discriminate.
        * split; [discriminate|]. intros (_ & Hiss). discriminate.
      + split; [discriminate|]. intros ((aud' & Haud' & Hin) & _).
        injection Haud' as <-.
        assert (Ht : existsb (String.eqb expectedAud) aud = true).
        { apply existsb_exists. exists expectedAud.
          split; [exact Hin|apply String.eqb_refl]. }
        congruence.
    - split; [discriminate|]. intros ((aud' & Haud' & _) & _). discriminate. }
  specialize (Haud None).
  destruct (jwt_iat payload) as [i|]; cbn [nullish].
  - destruct (Qeq_bool i 0) eqn:Ei; cbn [negb andb].
    + apply Qeq_bool_iff in Ei. rewrite Haud.
      split; [intros H; split; [exact Hexp|split; [|exact H]]|tauto].
      intros i' Hi'. injection Hi' as <-. left. exact Ei.
    + destruct (Qle_bool i (inject_Z (now + 60))) eqn:El; cbn [negb].
      * apply Qle_bool_iff in El. rewrite Haud.
        split; [intros H; split; [exact Hexp|split; [|exact H]]|tauto].
        intros i' Hi'. injection Hi' as <-. right. exact El.
      * split; [discriminate|]. intros (_ & Hiat & _).
        destruct (Hiat i eq_refl) as [H0|Hle].
        -- apply Qeq_bool_iff in H0. congruence.
        -- apply Qle_bool_iff in Hle. congruence.
  - rewrite Haud.
    split; [intros H; split; [exact Hexp|split; [|exact H]]|tauto].
    discriminate.
Qed.

(** When the claims pass. *)
Lemma check_claims_none (now : Z) (payload : JWTPayload)
  (teamDomain expectedAud : string) :
  check_claims now payload teamDomain expectedAud = None <->
  (forall e, jwt_exp payload = Some e -> (e == 0)%Q \/ (inject_Z now <= e)%Q) /\
  (forall i, jwt_iat payload = Some i ->
             (i == 0)%Q \/ (i <= inject_Z (now + 60))%Q) /\
  (exists aud, jwt_aud payload = Some aud /\ In expectedAud aud) /\
  jwt_iss payload = Some ("https://" ++ teamDomain).
Proof.
  assert (Hexp : truthy_number (jwt_exp payload)
                 && ltb (nullish (jwt_exp payload) 0%Q) (inject_Z now) = false <->
                 (forall e, jwt_exp payload = Some e ->
                            (e == 0)%Q \/ (inject_Z now <= e)%Q)).
  { unfold truthy_number, ltb. destruct (jwt_exp payload) as [e|]; cbn [nullish].
    - destruct (Qeq_bool e 0) eqn:Ee; cbn [negb andb].
      + apply Qeq_bool_iff in Ee. split; [|reflexivity].
        intros _ e' He'. injection He' as <-. left. exact Ee.
      + destruct (Qle_bool (inject_Z now) e) eqn:El; cbn [negb].
        * apply Qle_bool_iff in El. split; [|reflexivity].
          intros _ e' He'. injection He' as <-. right. exact El.
        * split; [discriminate|]. intros H.
          destruct (H e eq_refl) as [H0|Hle].
          -- apply Qeq_bool_iff in H0. congruence.
          -- apply Qle_bool_iff in Hle. congruence.
    - split; [|reflexivity]. intros _ e He. discriminate. }
  unfold check_claims.
  destruct (truthy_number (jwt_exp payload)
            && ltb (nullish (jwt_exp payload) 0%Q) (inject_Z now)) eqn:E.
  - split; [discriminate|]. intros (H & _). apply Hexp in H. discriminate.
  - apply (claims_rest now payload teamDomain expectedAud).
    apply Hexp. reflexivity.
Qed.

(** When the signature passes. *)
Lemma check_signature_none (jwks : JWKS) (header : JWTHeader)
  (headerB64 payloadB64 signatureB64 : string) :
  check_signature jwks header headerB64 payloadB64 signatureB64 = None <->
  exists key cryptoKey signature,
    find (fun k => same_kid (jwk_kid k) (jwt_kid header)) jwks = Some key /\
    importKey key = Some cryptoKey /\
    base64UrlDecode signatureB64 = Some signature /\
    verify cryptoKey signature (headerB64 ++ "." ++ payloadB64) = Some true.
Proof.
  unfold check_signature.
  destruct (find _ jwks) as [key|];
    [|split; [discriminate|intros (? & ? & ? & H & _); discriminate]].
  destruct (importKey key) as [cryptoKey|] eqn:Hk;
    [|split; [discriminate|]; intros (k & ck & sg & H & Hi & _);
      injection H as <-; congruence].
  destruct (base64UrlDecode signatureB64) as [signature|];
    [|split; [discriminate|]; intros (k & ck & sg & _ & _ & H & _); discriminate].
  destruct (verify cryptoKey signature _) as [[|]|] eqn:Hv; cbn [negb].
  - split; [|reflexivity]. intros _. exists key, cryptoKey, signature. auto.
  - split; [discriminate|]. intros (k & ck & sg & H & Hi & Hs & Hv').
    injection H as <-. injection Hs as <-.
    rewrite Hk in Hi. injection Hi as <-. congruence.
  - split; [discriminate|]. intros (k & ck & sg & H & Hi & Hs & Hv').
    injection H as <-. injection Hs as <-.
    rewrite Hk in Hi. injection Hi as <-. congruence.
Qed.

(** A failure of [getJWKS] leaves the cache alone; a success returns
    what the cache then holds. *)
Lemma getJWKS_cases (now : Z) (fetch : string -> FetchResult)
  (teamDomain : string) (cache : Cache) :
  (exists e, getJWKS now fetch teamDomain cache = (Throws e, cache)) \/
  (exists jwks,
     getJWKS now fetch teamDomain cache = (Returns jwks, cache) /\
     jwksCache cache = Some jwks /\
     now - jwksCacheTime cache < JWKS_CACHE_DURATION) \/
  (exists status jwks,
     fetch (certs_url teamDomain) = Responded true status (Some jwks) /\
     getJWKS now fetch teamDomain cache =
       (Returns jwks, {| jwksCache := Some jwks; jwksCacheTime := now |}) /\
     (jwksCache cache = None \/
      JWKS_CACHE_DURATION <= now - jwksCacheTime cache)).
Proof.
  unfold getJWKS.
  assert (Hre : forall P : Prop, P ->
    (exists e,
       match fetch (certs_url teamDomain) with
       | Rejected => (Throws Raised, cache)
       | Responded ok status body =>
         if negb ok then (Throws (FailedToFetchJWKS status), cache)
         else match body with
              | None => (Throws Raised, cache)
              | Some jwks =>
                (Returns jwks, {| jwksCache := Some jwks; jwksCacheTime := now |})
              end
       end = (Throws e, cache)) \/
    (exists status jwks,
       fetch (certs_url teamDomain) = Responded true status (Some jwks) /\
       match fetch (certs_url teamDomain) with
       | Rejected => (Throws Raised, cache)
       | Responded ok status body =>
         if negb ok then (Throws (FailedToFetchJWKS status), cache)
         else match body with
              | None => (Throws Raised, cache)
              | Some jwks =>
                (Returns jwks, {| jwksCache := Some jwks; jwksCacheTime := now |})
              end
       end = (Returns jwks, {| jwksCache := Some jwks; jwksCacheTime := now |}) /\
       P)).
  { intros P HP. destruct (fetch (certs_url teamDomain)) as [|[|] status [jwks|]];
      cbn [negb]; eauto 8. }
  cbv zeta.
  destruct (jwksCache cache) as [jwks|].
  - destruct (now - jwksCacheTime cache <? JWKS_CACHE_DURATION) eqn:E.
    + apply Z.ltb_lt in E. right. left. eauto.
    + apply Z.ltb_ge in E.
      destruct (Hre (Some jwks = None \/
                     JWKS_CACHE_DURATION <= now - jwksCacheTime cache)
                    (or_intror E)) as [H|H]; [left; exact H|right; right; exact H].
  - destruct (Hre (@None JWKS = None \/
                   JWKS_CACHE_DURATION <= now - jwksCacheTime cache)
                  (or_introl eq_refl)) as [H|H];
      [left; exact H|right; right; exact H].
Qed.

End WithPlatform.

End AuthFacts.

Section AdministratorAccess.

Import Js AdminAuth AuthFacts LogFacts.

Context {PF : Platform} {RT : Runtime}.

(** X18. The padding loop of [base64UrlDecode] ends: for every string it
    stops within three rounds, having appended as many [=] as the length
    was short of a multiple of four, and more rounds change nothing. *)
Theorem base64_padding_terminates (str : string) :
  exists n,
    (n <= 3)%nat /\
    pad 3 str = Some (str ++ string_of_list_ascii (repeat "="%char n)) /\
    (String.length (str ++ string_of_list_ascii (repeat "="%char n)) mod 4 = 0)%nat /\
    (forall rounds, (3 <= rounds)%nat -> pad rounds str = pad 3 str).
Proof.
  exists ((4 - String.length str mod 4) mod 4)%nat.
  pose proof (Nat.mod_upper_bound (4 - String.length str mod 4) 4 ltac:(lia)) as Hb.
  split; [lia|]. split; [apply pad_three|]. split.
  - rewrite HexFacts.string_length_app.
    assert (Hlen : forall k, String.length (string_of_list_ascii (repeat "="%char k)) = k)
      by (induction k as [|k IH]; simpl; [reflexivity|rewrite IH; reflexivity]).
    rewrite Hlen.
    pose proof (Nat.mod_upper_bound (String.length str) 4 ltac:(lia)) as Hs.
    rewrite <- Nat.Div0.add_mod_idemp_l.
    destruct (String.length str mod 4)%nat as [|[|[|[|n]]]]; try lia; reflexivity.
  - intros rounds Hr. rewrite pad_three. apply pad_rounds. lia.
Qed.

(** X19. [verifyAccessJWT] returns a payload exactly when the token has
    three dot-separated parts, header and payload decode, the expiry is
    absent, zero or not yet passed, the issue time is absent, zero or at
    most 60 seconds ahead, the audience list holds the expected audience,
    the issuer is the team's URL, the key set could be obtained, its first
    key with the header's key identifier imports, and the signature over
    the first two parts verifies under it. The payload returned is the
    decoded one, and the cache is the one [getJWKS] left. *)
Theorem verified_token_conditions (now_ms jwks_now_ms : Z)
  (fetch : string -> FetchResult) (token teamDomain expectedAud : string)
  (cache cache' : Cache) (payload : JWTPayload) :
  verifyAccessJWT now_ms jwks_now_ms fetch token teamDomain expectedAud cache =
    (Returns payload, cache') <->
  exists headerB64 payloadB64 signatureB64 headerText header payloadText jwks
         key cryptoKey signature,
    token = headerB64 ++ "." ++ payloadB64 ++ "." ++ signatureB64 /\
    dot_free headerB64 = true /\ dot_free payloadB64 = true /\
    dot_free signatureB64 = true /\
    base64UrlDecode headerB64 = Some headerText /\
    parse_header headerText = Some header /\
    base64UrlDecode payloadB64 = Some payloadText /\
    parse_payload payloadText = Some payload /\
    (forall e, jwt_exp payload = Some e ->
               (e == 0)%Q \/ (inject_Z (now_ms / 1000) <= e)%Q) /\
    (forall i, jwt_iat payload = Some i ->
               (i == 0)%Q \/ (i <= inject_Z (now_ms / 1000 + 60))%Q) /\
    (exists aud, jwt_aud payload = Some aud /\ In expectedAud aud) /\
    jwt_iss payload = Some ("https://" ++ teamDomain) /\
    getJWKS jwks_now_ms fetch teamDomain cache = (Returns jwks, cache') /\
    find (fun k => same_kid (jwk_kid k) (jwt_kid header)) jwks = Some key /\
    importKey key = Some cryptoKey /\
    base64UrlDecode signatureB64 = Some signature /\
    verify cryptoKey signature (headerB64 ++ "." ++ payloadB64) = Some true.
Proof.
  split.
  - unfold verifyAccessJWT.
    destruct (split_dots token) as [|h [|p [|s [|extra parts]]]] eqn:Hsplit;
      try discriminate.
    apply split_dots_three in Hsplit. destruct Hsplit as (Htoken & Hh & Hp & Hs).
    destruct (base64UrlDecode h) as [headerText|] eqn:Hdh; [|discriminate].
    destruct (parse_header headerText) as [header|] eqn:Hph; [|discriminate].
    destruct (base64UrlDecode p) as [payloadText|] eqn:Hdp; [|discriminate].
    destruct (parse_payload payloadText) as [pl|] eqn:Hpp; [|discriminate].
    destruct (check_claims (now_ms / 1000) pl teamDomain expectedAud) eqn:Hclaims;
      [discriminate|].
    destruct (getJWKS jwks_now_ms fetch teamDomain cache) as [[e|jwks] c] eqn:Hj;
      [discriminate|].
    destruct (check_signature jwks header h p s) eqn:Hsig; [discriminate|].
    intros H. injection H as <- <-.
    apply check_claims_none in Hclaims.
    destruct Hclaims as (Hexp & Hiat & Haud & Hiss).
    apply check_signature_none in Hsig.
    destruct Hsig as (key & cryptoKey & signature & Hfind & Hkey & Hds & Hv).
    exists h, p, s, headerText, header, payloadText, jwks, key, cryptoKey, signature.
    split; [exact Htoken|]. split; [exact Hh|]. split; [exact Hp|].
    split; [exact Hs|]. split; [exact Hdh|]. split; [exact Hph|].
    split; [exact Hdp|]. split; [exact Hpp|]. split; [exact Hexp|].
    split; [exact Hiat|]. split; [exact Haud|]. split; [exact Hiss|].
    split; [reflexivity|]. split; [exact Hfind|]. split; [exact Hkey|].
    split; [exact Hds|exact Hv].
  - intros (h & p & s & headerText & header & payloadText & jwks & key & cryptoKey
            & signature & Htoken & Hh & Hp & Hs & Hdh & Hph & Hdp & Hpp & Hexp
            & Hiat & Haud & Hiss & Hj & Hfind & Hkey & Hds & Hv).
    unfold verifyAccessJWT.
    rewrite (proj2 (split_dots_three token h p s) (conj Htoken (conj Hh (conj Hp Hs)))).
    rewrite Hdh, Hph, Hdp, Hpp.
    rewrite (proj2 (check_claims_none (now_ms / 1000) payload teamDomain expectedAud)
               (conj Hexp (conj Hiat (conj Haud Hiss)))).
    rewrite Hj.
    rewrite (proj2 (check_signature_none jwks header h p s)); [reflexivity|].
    exists key, cryptoKey, signature. auto.
Qed.

(** X20. The key set is fetched at most once in ten minutes: while the
    cache is younger than that, [getJWKS] returns it whatever the network
    would answer, for whichever team domain, and leaves it as it is. A
    call that returns leaves the returned key set in the cache, so the
    calls of the next ten minutes return the same. A call that fails
    leaves the cache as it was, and an outdated key set is never
    returned in place of a failed fetch. *)
Theorem key_set_cache (now : Z) (fetch : string -> FetchResult)
  (teamDomain : string) (cache : Cache) :
  (forall jwks,
     jwksCache cache = Some jwks ->
     now - jwksCacheTime cache < JWKS_CACHE_DURATION ->
     getJWKS now fetch teamDomain cache = (Returns jwks, cache)) /\
  (forall jwks cache',
     getJWKS now fetch teamDomain cache = (Returns jwks, cache') ->
     jwksCache cache' = Some jwks /\
     forall later fetch' teamDomain',
       later - jwksCacheTime cache' < JWKS_CACHE_DURATION ->
       getJWKS later fetch' teamDomain' cache' = (Returns jwks, cache')) /\
  (forall e cache',
     getJWKS now fetch teamDomain cache = (Throws e, cache') ->
     cache' = cache /\
     (jwksCache cache = None \/
      JWKS_CACHE_DURATION <= now - jwksCacheTime cache)) /\
  (JWKS_CACHE_DURATION <= now - jwksCacheTime cache ->
   (forall status jwks,
      fetch (certs_url teamDomain) <> Responded true status (Some jwks)) ->
   exists e, getJWKS now fetch teamDomain cache = (Throws e, cache)).
Proof.
  assert (Hfresh : forall t f d c jwks,
            jwksCache c = Some jwks ->
            t - jwksCacheTime c < JWKS_CACHE_DURATION ->
            getJWKS t f d c = (Returns jwks, c)).
  { intros t f d c jwks Hc Ht. unfold getJWKS. cbv zeta. rewrite Hc.
    apply Z.ltb_lt in Ht. rewrite Ht. reflexivity. }
  split; [intros jwks; apply Hfresh|].
  split; [|split].
  - intros jwks cache' Hget.
    destruct (getJWKS_cases now fetch teamDomain cache)
      as [(e & H)|[(j & H & Hc & Ht)|(st & j & _ & H & _)]];
      rewrite H in Hget; try discriminate; injection Hget as <- <-.
    + split; [exact Hc|]. intros later fetch' d' Hl. apply Hfresh; assumption.
    + split; [reflexivity|]. intros later fetch' d' Hl. apply Hfresh; [reflexivity|].
      exact Hl.
  - intros e cache' Hget.
    destruct (getJWKS_cases now fetch teamDomain cache)
      as [(e' & H)|[(j & H & Hc & Ht)|(st & j & _ & H & _)]];
      rewrite H in Hget; try discriminate. injection Hget as <- <-.
    split; [reflexivity|].
    destruct (jwksCache cache) as [jwks|] eqn:Hc; [|left; reflexivity].
    right. destruct (Z_lt_le_dec (now - jwksCacheTime cache) JWKS_CACHE_DURATION)
      as [Hlt|Hge]; [|exact Hge].
    rewrite (Hfresh now fetch teamDomain cache jwks Hc Hlt) in H. discriminate.
  - intros Hold Hfail.
    destruct (getJWKS_cases now fetch teamDomain cache)
      as [H|[(j & _ & _ & Ht)|(st & j & Hf & _)]]; [exact H|lia|].
    exfalso. exact (Hfail st j Hf).
Qed.

(** X21. Behind the middleware a handler of the administration runs only
    if the bypass is switched on, and then as [dev@localhost] without the
    assertion or the network being looked at, or if team domain and
    audience are configured and the assertion verifies, and then under
    the e-mail of the verified payload ([unknown] if it has none). In
    every other case the answer is 500 (configuration missing) or 401 and
    the store is left as it was. So whatever an administrative request
    behind the middleware writes to the log names that e-mail. *)
Theorem administration_requires_verified_token (env : Env)
  (assertion : option string) (now_ms jwks_now_ms : Z)
  (fetch : string -> FetchResult) (cache : Cache)
  (handler : string -> DB -> Response * DB) (db : DB) :
  ((CF_ACCESS_BYPASS env = Some "true" /\
    adminAuthMiddleware env assertion now_ms jwks_now_ms fetch cache =
      (Next {| user_email := Some "dev@localhost"; user_sub := Some "dev" |}, cache) /\
    guarded (fst (adminAuthMiddleware env assertion now_ms jwks_now_ms fetch cache))
            handler db = handler "dev@localhost" db) \/
   (CF_ACCESS_BYPASS env <> Some "true" /\
    exists token teamDomain expectedAud payload,
      assertion = Some token /\ truthy token = true /\
      CF_ACCESS_TEAM_DOMAIN env = Some teamDomain /\ truthy teamDomain = true /\
      CF_ACCESS_AUD env = Some expectedAud /\ truthy expectedAud = true /\
      fst (verifyAccessJWT now_ms jwks_now_ms fetch token teamDomain expectedAud cache)
        = Returns payload /\
      guarded (fst (adminAuthMiddleware env assertion now_ms jwks_now_ms fetch cache))
              handler db = handler (nullish (jwt_email payload) "unknown") db) \/
   (CF_ACCESS_BYPASS env <> Some "true" /\
    exists message code,
      guarded (fst (adminAuthMiddleware env assertion now_ms jwks_now_ms fetch cache))
              handler db = (json (ErrorOnly message) code, db) /\
      (code = 500 /\
       (truthy_opt (CF_ACCESS_TEAM_DOMAIN env) = false \/
        truthy_opt (CF_ACCESS_AUD env) = false) \/
       code = 401 /\
       truthy_opt (CF_ACCESS_TEAM_DOMAIN env) = true /\
       truthy_opt (CF_ACCESS_AUD env) = true))) /\
  (forall now (request : string -> Operation),
     (forall email, admin_email (request email) = Some email) ->
     exists email added,
       raw_post_logs
         (snd (guarded
                 (fst (adminAuthMiddleware env assertion now_ms jwks_now_ms fetch cache))
                 (fun email => step now (request email)) db)) =
         (raw_post_logs db ++ added)%list /\
       Forall (fun r => log_method r = "ADMIN" /\
                        log_headers r = [("admin_email", email)]) added /\
       (added <> [] ->
        CF_ACCESS_BYPASS env = Some "true" /\ email = "dev@localhost" \/
        exists token teamDomain expectedAud payload,
          assertion = Some token /\
          CF_ACCESS_TEAM_DOMAIN env = Some teamDomain /\
          CF_ACCESS_AUD env = Some expectedAud /\
          fst (verifyAccessJWT now_ms jwks_now_ms fetch token teamDomain expectedAud
                 cache) = Returns payload /\
          email = nullish (jwt_email payload) "unknown")).
Proof.
  assert (Hcases : forall h : string -> DB -> Response * DB,
    (CF_ACCESS_BYPASS env = Some "true" /\
     adminAuthMiddleware env assertion now_ms jwks_now_ms fetch cache =
       (Next {| user_email := Some "dev@localhost"; user_sub := Some "dev" |}, cache) /\
     guarded (fst (adminAuthMiddleware env assertion now_ms jwks_now_ms fetch cache))
             h db = h "dev@localhost" db) \/
    (CF_ACCESS_BYPASS env <> Some "true" /\
     exists token teamDomain expectedAud payload,
       assertion = Some token /\ truthy token = true /\
       CF_ACCESS_TEAM_DOMAIN env = Some teamDomain /\ truthy teamDomain = true /\
       CF_ACCESS_AUD env = Some expectedAud /\ truthy expectedAud = true /\
       fst (verifyAccessJWT now_ms jwks_now_ms fetch token teamDomain expectedAud cache)
         = Returns payload /\
       guarded (fst (adminAuthMiddleware env assertion now_ms jwks_now_ms fetch cache))
               h db = h (nullish (jwt_email payload) "unknown") db) \/
    (CF_ACCESS_BYPASS env <> Some "true" /\
     exists message code,
       guarded (fst (adminAuthMiddleware env assertion now_ms jwks_now_ms fetch cache))
               h db = (json (ErrorOnly message) code, db) /\
       (code = 500 /\
        (truthy_opt (CF_ACCESS_TEAM_DOMAIN env) = false \/
         truthy_opt (CF_ACCESS_AUD env) = false) \/
        code = 401 /\
        truthy_opt (CF_ACCESS_TEAM_DOMAIN env) = true /\
        truthy_opt (CF_ACCESS_AUD env) = true))).
  { intros h. unfold adminAuthMiddleware.
    destruct (match CF_ACCESS_BYPASS env with
              | Some flag => String.eqb flag "true"
              | None => false
              end) eqn:Hbypass.
    { left. destruct (CF_ACCESS_BYPASS env) as [flag|]; [|discriminate].
      apply String.eqb_eq in Hbypass. subst flag. repeat split. }
    assert (Hoff : CF_ACCESS_BYPASS env <> Some "true").
    { intros H. rewrite H in Hbypass. discriminate. }
    right.
    destruct (truthy_opt (CF_ACCESS_TEAM_DOMAIN env)) eqn:Hd; cbn [negb orb];
      [|right; split; [exact Hoff|]; eexists; eexists; split; [reflexivity|];
        left; split; [reflexivity|left; reflexivity]].
    destruct (truthy_opt (CF_ACCESS_AUD env)) eqn:Ha; cbn [negb orb];
      [|right; split; [exact Hoff|]; eexists; eexists; split; [reflexivity|];
        left; split; [reflexivity|right; reflexivity]].
    destruct (truthy_opt assertion) eqn:Ht; cbn [negb];
      [|right; split; [exact Hoff|]; eexists; eexists; split; [reflexivity|];
        right; repeat split; reflexivity].
    destruct (CF_ACCESS_TEAM_DOMAIN env) as [teamDomain|]; [|discriminate].
    destruct (CF_ACCESS_AUD env) as [expectedAud|]; [|discriminate].
    destruct assertion as [token|]; [|discriminate].
    cbn [nullish truthy_opt] in *.
    destruct (verifyAccessJWT now_ms jwks_now_ms fetch token teamDomain expectedAud
                cache) as [[e|payload] cache'] eqn:Hverify.
    - right. split; [exact Hoff|]. eexists. eexists. split; [reflexivity|].
      right. repeat split; reflexivity.
    - left. split; [exact Hoff|].
      exists token, teamDomain, expectedAud, payload.
      repeat split; try reflexivity; try assumption.
      rewrite Hverify. reflexivity. }
  split; [apply Hcases|].
  intros now request Hadmin.
  assert (Hrows : forall email,
            exists added,
              raw_post_logs (snd (step now (request email) db)) =
                (raw_post_logs db ++ added)%list /\
              Forall (fun r => log_method r = "ADMIN" /\
                               log_headers r = [("admin_email", email)]) added).
  { intros email.
    destruct (step_logs now (request email) db) as (added & Hlogs & Hall).
    exists added. split; [exact Hlogs|].
    eapply Forall_impl; [|exact Hall]. cbv beta.
    intros r (_ & [(_ & req & Hop)|(Hm & _ & _ & e & He & Hh)]).
    - pose proof (Hadmin email) as Hemail. rewrite Hop in Hemail. discriminate.
    - rewrite Hadmin in He. injection He as <-. split; assumption. }
  destruct (Hcases (fun email => step now (request email)))
    as [(Hon & _ & Hrun)|[(Hoff & token & d & a & payload & Ha & _ & Hd & _ & Haud
                           & _ & Hver & Hrun)
                         |(Hoff & message & code & Hrun & _)]];
    rewrite Hrun.
  - destruct (Hrows "dev@localhost") as (added & Hlogs & Hall).
    exists "dev@localhost", added. split; [exact Hlogs|]. split; [exact Hall|].
    intros _. left. split; [exact Hon|reflexivity].
  - destruct (Hrows (nullish (jwt_email payload) "unknown")) as (added & Hlogs & Hall).
    exists (nullish (jwt_email payload) "unknown"), added.
    split; [exact Hlogs|]. split; [exact Hall|].
    intros _. right. exists token, d, a, payload. auto.
  - exists "unknown", []. cbn [snd]. rewrite app_nil_r.
    split; [reflexivity|]. split; [constructor|]. intros H. contradiction.
Qed.

End AdministratorAccess.
(* ================================================================== *)
(** * The statements of the listing routes *)
(* ================================================================== *)

Module ListingFacts.

Import Js Listing.

Lemma placeholders_app (a b : string) :
  placeholders (a ++ b) = (placeholders a + placeholders b)%nat.
Proof.
  induction a as [|c a IH]; simpl; [reflexivity|].
  destruct (Ascii.eqb c "?"); simpl; rewrite IH; reflexivity.
Qed.

Lemma placeholders_marks (versions : list string) :
  placeholders (marks versions) = List.length versions.
Proof.
  unfold marks. induction versions as [|v versions IH]; [reflexivity|].
  destruct versions as [|w versions]; [reflexivity|].
  change (join ", " (map (fun _ : string => "?") (v :: w :: versions)))
    with ("?" ++ ", " ++ join ", " (map (fun _ : string => "?") (w :: versions))).
  rewrite !placeholders_app, IH. reflexivity.
Qed.

(** The filter holds one placeholder for each version. *)
Lemma placeholders_filter (clausePrefix field : string) (versions : list string) :
  placeholders clausePrefix = O -> placeholders field = O ->
  placeholders (Scope.appendBenchmarkVersionFilter clausePrefix field versions) =
  List.length versions.
Proof.
  intros Hp Hf. unfold Scope.appendBenchmarkVersionFilter.
  destruct (List.length versions =? 0)%nat eqn:E.
  - apply Nat.eqb_eq in E. rewrite E. reflexivity.
  - cbv zeta. fold (marks versions).
    rewrite !placeholders_app, Hp, Hf, placeholders_marks. simpl. lia.
Qed.

Lemma placeholders_clause (clausePrefix field : string) (versions : list string) :
  placeholders clausePrefix = O -> placeholders field = O ->
  placeholders (version_clause clausePrefix field versions) = List.length versions.
Proof.
  intros Hp Hf. unfold version_clause.
  destruct (0 <? List.length versions)%nat eqn:E.
  - apply placeholders_filter; assumption.
  - apply Nat.ltb_ge in E. simpl. lia.
Qed.

Lemma well_bound_push (sql : string) (values : list Binding) (st : Bound) :
  placeholders sql = List.length values ->
  well_bound st -> well_bound (push sql values st).
Proof.
  unfold well_bound, push. cbn [fst snd]. intros Hs Hst.
  rewrite placeholders_app, length_app, Hs, Hst. reflexivity.
Qed.

Lemma well_bound_push_filter (sql : string) (value : option string) (st : Bound) :
  placeholders sql = 1%nat ->
  well_bound st -> well_bound (push_filter sql value st).
Proof.
  intros Hs Hst. destruct value as [v|]; [|exact Hst].
  apply well_bound_push; assumption.
Qed.

Lemma well_bound_push_versions (clausePrefix field : string)
  (versions : list string) (st : Bound) :
  placeholders clausePrefix = O -> placeholders field = O ->
  well_bound st -> well_bound (push_versions clausePrefix field versions st).
Proof.
  intros Hp Hf Hst. unfold push_versions.
  destruct (0 <? List.length versions)%nat; [|exact Hst].
  apply well_bound_push; [|exact Hst].
  rewrite length_map. apply placeholders_filter; assumption.
Qed.

Lemma placeholders_order_clause (sort : string) :
  placeholders (order_clause sort) = O.
Proof.
  unfold order_clause.
  destruct (String.eqb sort "recent"); [reflexivity|].
  destruct (String.eqb sort "oldest"); reflexivity.
Qed.

(** Where the leaderboard statement is cut for the version filter of the
    subquery. *)
Lemma leaderboard_cut :
  index_of "ORDER BY s2.score_percentage DESC" leaderboard_select = Some 722%nat /\
  leaderboard_select =
    substring 0 722 leaderboard_select ++ "ORDER BY s2.score_percentage DESC"
    ++ substring 755 199 leaderboard_select /\
  placeholders (substring 0 722 leaderboard_select) = 1%nat /\
  placeholders (substring 755 199 leaderboard_select) = 1%nat.
Proof. repeat split; vm_compute; reflexivity. Qed.

Lemma digit_plain c d : decimal_digit c = Some d -> is_plain c = true.
Proof.
  unfold decimal_digit, is_plain, is_whitespace.
  destruct ((48 <=? nat_of_ascii c) && (nat_of_ascii c <=? 57))%nat eqn:E;
    [|discriminate].
  intros _. apply andb_true_iff in E. destruct E as [Hlo Hhi].
  apply Nat.leb_le in Hlo. apply Nat.leb_le in Hhi.
  rewrite (proj2 (Nat.ltb_lt _ _)) by lia.
  repeat (rewrite (proj2 (Nat.eqb_neq _ _)) by lia). reflexivity.
Qed.

(** A string that starts with a plain character other than a sign is
    read from its first character. *)
Lemma parseInt_leading (c : ascii) (rest : string) :
  is_plain c = true -> c <> "-"%char -> c <> "+"%char ->
  parseInt (String c rest) = option_map number_of_Z (digits None (String c rest)).
Proof.
  intros Hws Hminus Hplus. unfold parseInt.
  cbn [list_ascii_of_string]. rewrite (JsFacts.drop_whitespace_plain _ _ Hws).
  destruct c as [[|] [|] [|] [|] [|] [|] [|] [|]];
    try (exfalso; apply Hminus; reflexivity);
    try (exfalso; apply Hplus; reflexivity);
    cbn [string_of_list_ascii]; rewrite string_of_list_ascii_of_string;
    reflexivity.
Qed.

(** Reading the digits of a decimal numeral. *)
Lemma digits_of_uint (d : Decimal.uint) :
  forall acc : nat,
    digits (Some (Z.of_nat acc)) (NilEmpty.string_of_uint d) =
    Some (Z.of_nat (Nat.of_uint_acc d acc)).
Proof.
  induction d; intros acc; cbn [NilEmpty.string_of_uint Nat.of_uint_acc];
    [reflexivity
    |read_digit 0|read_digit 1|read_digit 2|read_digit 3|read_digit 4
    |read_digit 5|read_digit 6|read_digit 7|read_digit 8|read_digit 9];
    rewrite Nat.tail_mul_spec, <- IHd; f_equal; f_equal; lia.
Qed.

(** A decimal numeral is read as the Number value of the integer it
    spells. *)
Lemma parseInt_numeral (n : nat) :
  parseInt (string_of_index n) = Some (number_of_Z (Z.of_nat n)).
Proof.
  unfold string_of_index.
  assert (Hnil : Nat.to_uint n <> Decimal.Nil).
  { intros H. pose proof (Unsigned.of_to n) as Hn. rewrite H in Hn.
    cbn in Hn. subst n. discriminate. }
  rewrite <- (Unsigned.of_to n) at 2. unfold Nat.of_uint.
  destruct (Nat.to_uint n) as [|d|d|d|d|d|d|d|d|d|d]; [contradiction|..];
    cbn [NilEmpty.string_of_uint Nat.of_uint_acc];
    (rewrite parseInt_leading; [|reflexivity|discriminate|discriminate]);
    match goal with
    | |- option_map _ ?lhs = Some (number_of_Z ?v) =>
      assert (Hd : lhs = Some v); [|rewrite Hd; reflexivity]
    end;
    [read_first 0|read_first 1|read_first 2|read_first 3|read_first 4
    |read_first 5|read_first 6|read_first 7|read_first 8|read_first 9];
    rewrite Nat.tail_mul_spec, <- digits_of_uint; f_equal; f_equal; lia.
Qed.

Lemma below_overflow (x : Q) :
  (0 <= x)%Q -> (x <= 2 ^ 53)%Q -> Qle_bool (2 ^ 1024) (Qabs x) = false.
Proof.
  intros H0 H53. destruct (Qle_bool (2 ^ 1024) (Qabs x)) eqn:E; [|reflexivity].
  apply Qle_bool_iff in E. rewrite (Qabs_pos x H0) in E.
  assert (H : (2 ^ 53 < 2 ^ 1024)%Q)
    by (apply Qpower_lt_compat_l; [lia|reflexivity]).
  exfalso. lra.
Qed.

(** The integers up to [2^53] are their own Number value. *)
Lemma number_of_small (z : Z) : 0 <= z <= 2 ^ 53 -> number_of_Z z = Finite z.
Proof.
  intros Hz. pose proof (DoubleFacts.double_small_integer z Hz) as Hd.
  unfold number_of_Z. cbv zeta.
  rewrite below_overflow.
  - rewrite (Qfloor_comp _ _ Hd), Qfloor_Z. reflexivity.
  - rewrite Hd. change 0%Q with (inject_Z 0). rewrite <- Zle_Qle. lia.
  - rewrite Hd. rewrite <- (DoubleFacts.pow2_inject 53) by lia.
    rewrite <- Zle_Qle. lia.
Qed.

(** The Number value of an integer is no smaller than a bound up to
    [2^53] that the integer reaches. *)
Lemma number_of_large (z m : Z) :
  0 <= m <= 2 ^ 53 -> m <= z ->
  number_of_Z z = PlusInfinity \/
  exists k, number_of_Z z = Finite k /\ m <= k.
Proof.
  intros Hm Hz. unfold number_of_Z. cbv zeta.
  destruct (Qle_bool (2 ^ 1024) (Qabs (double (inject_Z z)))).
  - left. assert (E : (z <? 0) = false) by (apply Z.ltb_ge; lia).
    rewrite E. reflexivity.
  - right. exists (Qfloor (double (inject_Z z))). split; [reflexivity|].
    rewrite <- (Qfloor_Z m). apply Qfloor_resp_le.
    rewrite <- (DoubleFacts.double_small_integer m Hm).
    apply DoubleFacts.double_monotone.
    + change 0%Q with (inject_Z 0). rewrite <- Zle_Qle. lia.
    + rewrite <- Zle_Qle. exact Hz.
Qed.

End ListingFacts.

Section Statements.

Import Js Listing ListingFacts.

(** X22. Every statement that the listing routes build from the request
    is bound with exactly as many values as it has placeholders, whatever
    filters are present and however many versions are in scope: the page
    and the count of [/api/submissions] and of [/api/me/submissions], the
    count of models of the leaderboard, [/api/models], the five
    statements of [/api/stats] and [/api/providers/:provider/models]. *)
Theorem statements_well_bound (benchmarkVersions : list string) :
  (forall params,
     well_bound (submissions_statement params benchmarkVersions) /\
     well_bound (submissions_count_statement params benchmarkVersions)) /\
  (forall tokenId limit offset,
     well_bound (me_statement tokenId limit offset benchmarkVersions) /\
     well_bound (me_count_statement tokenId benchmarkVersions)) /\
  (forall verified,
     well_bound (total_models_statement verified benchmarkVersions) /\
     well_bound (models_statement verified benchmarkVersions)) /\
  Forall well_bound (stats_statements benchmarkVersions) /\
  (forall provider verified,
     well_bound (provider_models_statement provider verified benchmarkVersions)).
Proof.
  split; [|split; [|split; [|split]]].
  - intros params. split.
    + unfold submissions_statement. cbv zeta.
      apply well_bound_push; [reflexivity|].
      apply well_bound_push; [apply placeholders_order_clause|].
      apply well_bound_push_versions; [reflexivity|reflexivity|].
      assert (H : well_bound
                    (push_filter " AND s.provider = ?" (filter_value (p_provider params))
                       (push_filter " AND s.model = ?" (filter_value (p_model params))
                          (submissions_select, [])))).
      { apply well_bound_push_filter; [reflexivity|].
        apply well_bound_push_filter; [reflexivity|]. vm_compute. reflexivity. }
      destruct (is_true (p_verified params)); [|exact H].
      apply well_bound_push; [reflexivity|exact H].
    + unfold submissions_count_statement. cbv zeta.
      apply well_bound_push_versions; [reflexivity|reflexivity|].
      assert (H : well_bound
                    (push_filter " AND s.provider = ?" (filter_value (p_provider params))
                       (push_filter " AND s.model = ?" (filter_value (p_model params))
                          (submissions_count_select, [])))).
      { apply well_bound_push_filter; [reflexivity|].
        apply well_bound_push_filter; [reflexivity|]. vm_compute. reflexivity. }
      destruct (is_true (p_verified params)); [|exact H].
      apply well_bound_push; [reflexivity|exact H].
  - intros tokenId limit offset. unfold well_bound, me_statement, me_count_statement.
    cbn [fst snd].
    rewrite !placeholders_app, !length_app, !length_map.
    rewrite (placeholders_clause "AND" "benchmark_version" benchmarkVersions
               eq_refl eq_refl).
    split; [|reflexivity].
    change (placeholders me_select_head) with 1%nat.
    change (placeholders me_select_tail) with 2%nat.
    cbn [List.length]. lia.
  - intros verified. split.
    + unfold total_models_statement.
      destruct verified; apply well_bound_push_versions;
        reflexivity.
    + unfold well_bound, models_statement. cbv zeta. cbn [fst snd].
      rewrite length_map, placeholders_app.
      change (placeholders models_group) with O.
      destruct (0 <? List.length benchmarkVersions)%nat eqn:E.
      * rewrite placeholders_app.
        destruct verified.
        -- rewrite placeholders_app.
           rewrite (placeholders_filter "AND" "s.benchmark_version"
                      benchmarkVersions eq_refl eq_refl).
           change (placeholders models_select) with O.
           change (placeholders " WHERE t.claimed_at IS NOT NULL") with O. lia.
        -- rewrite (placeholders_filter "WHERE" "s.benchmark_version"
                      benchmarkVersions eq_refl eq_refl).
           change (placeholders models_select) with O. lia.
      * apply Nat.ltb_ge in E.
        destruct verified; rewrite ?placeholders_app;
          change (placeholders models_select) with O;
          change (placeholders " WHERE t.claimed_at IS NOT NULL") with O; lia.
  - unfold stats_statements.
    repeat (apply Forall_cons; [|]); [| | | | |apply Forall_nil];
      unfold well_bound; cbn [fst snd];
      rewrite !placeholders_app, length_map, placeholders_clause by reflexivity;
      try reflexivity.
    change (placeholders stats_top_head) with O.
    change (placeholders stats_top_tail) with O. lia.
  - intros provider verified. unfold provider_models_statement. cbv zeta.
    apply well_bound_push; [reflexivity|].
    apply well_bound_push_versions; [reflexivity|reflexivity|].
    destruct verified.
    + apply well_bound_push; [reflexivity|]. vm_compute. reflexivity.
    + vm_compute. reflexivity.
Qed.

(** X23. The statement of [/api/leaderboard] is bound with as many
    values as it has placeholders, and in their order: the text the
    replacement looks for is there, so with versions in scope the
    statement reads - the start of the select with the flag of the
    subquery, the version filter of the subquery, the rest of the select
    with the flag of the outer query, the outer version filter, the
    provider filter if any, the grouping with the limit - and the values
    are the flag, the versions, the flag, the versions, the provider if
    any, and the limit. *)
Theorem leaderboard_statement_well_bound (verified : bool)
  (providerFilter : option string) (benchmarkVersions : list string)
  (limit : JsInt) :
  well_bound (leaderboard_statement verified providerFilter benchmarkVersions limit) /\
  snd (leaderboard_statement verified providerFilter benchmarkVersions limit) =
    ([Num (Some (if verified then 1 else 0))] ++ map Text benchmarkVersions
     ++ [Num (Some (if verified then 1 else 0))] ++ map Text benchmarkVersions
     ++ match providerFilter with Some p => [Text p] | None => [] end
     ++ [Num limit])%list /\
  exists head rest,
    leaderboard_select = head ++ "ORDER BY s2.score_percentage DESC" ++ rest /\
    placeholders head = 1%nat /\ placeholders rest = 1%nat /\
    (benchmarkVersions <> [] ->
     fst (leaderboard_statement verified providerFilter benchmarkVersions limit) =
       head ++ ("AND s2.benchmark_version IN (" ++ marks benchmarkVersions
                ++ ") ORDER BY s2.score_percentage DESC")
       ++ rest
       ++ (" AND s.benchmark_version IN (" ++ marks benchmarkVersions ++ ")")
       ++ match providerFilter with Some _ => " AND s.provider = ?" | None => "" end
       ++ leaderboard_group).
Proof.
  destruct leaderboard_cut as (Hindex & Hcut & Hhead & Hrest).
  assert (Hreplace : forall replacement,
            replace_first "ORDER BY s2.score_percentage DESC" replacement
              leaderboard_select =
            substring 0 722 leaderboard_select ++ replacement
            ++ substring 755 199 leaderboard_select).
  { intros replacement. unfold replace_first. rewrite Hindex. reflexivity. }
  assert (Hfilter : benchmarkVersions <> [] ->
            Scope.appendBenchmarkVersionFilter "AND" "s.benchmark_version"
              benchmarkVersions =
            " AND s.benchmark_version IN (" ++ marks benchmarkVersions ++ ")").
  { intros Hne. unfold Scope.appendBenchmarkVersionFilter.
    destruct benchmarkVersions; [contradiction|reflexivity]. }
  split; [|split].
  - unfold well_bound, leaderboard_statement, push. cbv zeta.
    destruct (0 <? List.length benchmarkVersions)%nat eqn:E.
    + cbn [fst snd]. rewrite Hreplace.
      destruct providerFilter; cbn [fst snd];
        rewrite !placeholders_app, !length_app, !length_map, Hhead, Hrest,
                placeholders_marks,
                (placeholders_filter "AND" "s.benchmark_version"
                   benchmarkVersions eq_refl eq_refl);
        change (placeholders leaderboard_group) with 1%nat;
        change (placeholders ") ORDER BY s2.score_percentage DESC") with O;
        change (placeholders "AND s2.benchmark_version IN (") with O;
        cbn [List.length placeholders]; cbn; lia.
    + apply Nat.ltb_ge in E.
      destruct benchmarkVersions; [|simpl in E; lia].
      destruct providerFilter; vm_compute; reflexivity.
  - unfold leaderboard_statement, push. cbv zeta. cbn [fst snd].
    destruct (0 <? List.length benchmarkVersions)%nat eqn:E;
      destruct providerFilter; cbn [fst snd];
      rewrite ?app_nil_r, <- ?app_assoc; try reflexivity.
    + apply Nat.ltb_ge in E. destruct benchmarkVersions; [reflexivity|simpl in E; lia].
    + apply Nat.ltb_ge in E. destruct benchmarkVersions; [reflexivity|simpl in E; lia].
  - exists (substring 0 722 leaderboard_select), (substring 755 199 leaderboard_select).
    split; [exact Hcut|]. split; [exact Hhead|]. split; [exact Hrest|].
    intros Hne. unfold leaderboard_statement, push. cbv zeta. cbn [fst snd].
    assert (E : (0 <? List.length benchmarkVersions)%nat = true)
      by (destruct benchmarkVersions; [contradiction|reflexivity]).
    rewrite E. cbn [fst snd]. rewrite Hreplace, (Hfilter Hne).
    destruct providerFilter; cbn [fst snd];
      rewrite ?AuthFacts.append_assoc, ?AuthFacts.append_nil_r; reflexivity.
Qed.

(** X24. The page window of the listing routes. A missing [limit] is
    the default; a [limit] is [NaN] or an integer between 1 and the
    maximum of the route, never an infinity; a parameter that starts
    (after blanks and a sign) with digits is clamped to the window, and
    an [offset] is raised to 0 at least. A parameter without a leading
    number is not replaced by the default: it is [NaN], and [NaN] is
    what is bound to the statement. A decimal numeral is read as the
    binary64 number nearest to its value: exactly up to [2^53], and a
    numeral that reaches the maximum gives the maximum however long it
    is. *)
Theorem page_window (default : string) (most : Z) (param : option string) :
  (page_limit default most None = page_limit default most (Some default)) /\
  (1 <= most ->
   page_limit default most param = None \/
   exists n : Z, page_limit default most param = Some n /\ 1 <= n <= most) /\
  (forall text (k : Z), param = Some text -> parseInt text = Some k ->
     page_limit default most param = Some (Z.min (Z.max 1 k) most) /\
     page_offset param = Some (Z.max 0 k)) /\
  (forall text, param = Some text -> parseInt text = None ->
     page_limit default most param = None /\ page_offset param = None) /\
  (forall params benchmarkVersions text,
     p_limit params = Some text -> parseInt text = None ->
     In (Num None) (snd (submissions_statement params benchmarkVersions))) /\
  (page_offset param <> Some MinusInfinity /\
   forall n : Z, page_offset param = Some n -> 0 <= n) /\
  (forall n : nat, Z.of_nat n <= 2 ^ 53 ->
     parseInt (string_of_index n) = Some (Z.of_nat n)) /\
  (forall n : nat, 1 <= most <= 2 ^ 53 -> most <= Z.of_nat n ->
     page_limit default most (Some (string_of_index n)) = Some most) /\
  page_limit "20" 100 None = Some 20 /\ page_limit "50" 200 None = Some 50 /\
  page_offset None = Some 0.
Proof.
  split; [reflexivity|].
  split; [|split; [|split; [|split; [|split; [|split; [|split]]]]]].
  - intros Hmost. unfold page_limit.
    destruct (parseInt (nullish param default)) as [[k| |]|]; cbn.
    + right. exists (Z.min (Z.max 1 k) most). split; [reflexivity|lia].
    + right. exists most. split; [reflexivity|lia].
    + right. exists (Z.min 1 most). split; [reflexivity|lia].
    + left. reflexivity.
  - intros text k -> Hk. unfold page_limit, page_offset.
    cbn [nullish]. rewrite Hk. split; reflexivity.
  - intros text -> Hk. unfold page_limit, page_offset.
    cbn [nullish]. rewrite Hk. split; reflexivity.
  - intros params benchmarkVersions text Hlimit Hk.
    unfold submissions_statement. cbv zeta. unfold push at 1. cbn [snd].
    apply in_or_app. right. left. f_equal.
    unfold page_limit. rewrite Hlimit. cbn [nullish]. rewrite Hk. reflexivity.
  - unfold page_offset.
    destruct (parseInt (nullish param "0")) as [[k| |]|]; cbn;
      (split; [discriminate|]); intros n H; try discriminate H.
    + injection H as <-. lia.
    + injection H as <-. lia.
  - intros n Hn. rewrite parseInt_numeral, number_of_small; [reflexivity|lia].
  - intros n Hmost Hn. unfold page_limit. cbn [nullish].
    rewrite parseInt_numeral.
    destruct (number_of_large (Z.of_nat n) most ltac:(lia) Hn)
      as [->|(k & -> & Hk)]; cbn; [reflexivity|].
    f_equal. f_equal. lia.
  - repeat split.
Qed.

End Statements.
(* ================================================================== *)
(** * The administration on sample data *)
(* ================================================================== *)

(** The sample token is confirmed and unconfirmed again: it ends
    unclaimed, and its claim code is gone. *)
Lemma token_claim_cycle_witness :
  tok_claim_code Sample.token_row = Some "0708090a0b0c" /\
  exists t2,
    find (fun u => String.eqb (tok_id u) "tok-1")
         (tokens (snd (Admin.unconfirmToken 3000 "ops@pinchbench.com" "tok-1"
                         (snd (Admin.confirmToken 2000 "ops@pinchbench.com" "tok-1"
                                 Sample.db_one))))) = Some t2 /\
    tok_claimed_at t2 = None /\ tok_claim_code t2 = None.
Proof.
  split; [reflexivity|].
  destruct (token_claim_cycle 2000 3000 "ops@pinchbench.com" "ops@pinchbench.com"
              "tok-1" Sample.db_one Sample.token_row eq_refl eq_refl)
    as (t1 & t2 & _ & _ & _ & _ & _ & _ & _ & _ & Hfind & Hclaimed & Hcode & _).
  exists t2. split; [exact Hfind|]. split; [exact Hclaimed|exact Hcode].
Defined.

(** The sample token verifies at second 1500 against the sample keys,
    fetched into an empty cache. *)
Lemma verified_token_conditions_witness :
  AdminAuth.verifyAccessJWT (PF := AuthFixtures.platform) 1500000 1500001
    AuthFixtures.fetch_keys "key1.root.secr" "team.cloudflareaccess.com"
    "pinchbench-admin" AdminAuth.initial_cache =
  (AdminAuth.Returns AuthFixtures.root_payload,
   {| AdminAuth.jwksCache := Some AuthFixtures.keys;
      AdminAuth.jwksCacheTime := 1500001 |}).
Proof.
  apply (proj2 (verified_token_conditions (PF := AuthFixtures.platform)
                  1500000 1500001 AuthFixtures.fetch_keys "key1.root.secr"
                  "team.cloudflareaccess.com" "pinchbench-admin"
                  AdminAuth.initial_cache _ AuthFixtures.root_payload)).
  exists "key1", "root", "secr", "key1",
         {| AdminAuth.jwt_alg := Some "RS256"; AdminAuth.jwt_kid := Some "key1" |},
         "root", AuthFixtures.keys,
         {| AdminAuth.jwk_kid := Some "key1"; AdminAuth.jwk_material := "secr" |},
         "secr", "secr".
  repeat split; try reflexivity.
  - intros e He. injection He as <-. right. vm_compute. discriminate.
  - intros i Hi. injection Hi as <-. right. vm_compute. discriminate.
  - exists ["pinchbench-admin"]. split; [reflexivity|left; reflexivity].
Defined.

Section AdministrationScenarios.

Import Js.

(** The hidden current version: [latest] answers 404, the default scope
    is still v3, and the public list shows v2 only. *)
Example hidden_current_version :
  fst (Versions.latest AuthFixtures.db_hidden_current) = 404 /\
  Scope.resolveBenchmarkVersions Versions.no_version AuthFixtures.db_hidden_current
    = ["v3"] /\
  map Versions.ve_id (Versions.listVersions AuthFixtures.db_hidden_current) = ["v2"].
Proof. repeat split. Qed.

Section ListingSamples.

Import Listing.

(** What [parseInt] makes of some limits. *)
Example parseInt_samples :
  Listing.parseInt "  42abc" = Some 42 /\ Listing.parseInt "-7" = Some (-7) /\
  Listing.parseInt "abc" = None /\ Listing.parseInt "" = None /\
  Listing.page_limit "20" 100 (Some "500") = Some 100 /\
  Listing.page_limit "20" 100 (Some "0") = Some 1 /\
  Listing.page_limit "20" 100 (Some "ten") = None /\
  Listing.page_offset (Some "-3") = Some 0.
Proof. repeat split; vm_compute; reflexivity. Qed.

(** Beyond [2^53] a numeral is read as the nearest binary64 number, and
    from 309 digits on as an infinity; the limit is the maximum all the
    same, and the offset is what was read. *)
Example parseInt_long_numerals :
  Listing.parseInt "9007199254740993" = Some 9007199254740992 /\
  Listing.parseInt "99999999999999999999" = Some 100000000000000000000 /\
  Listing.page_limit "20" 100 (Some "99999999999999999999") = Some 100 /\
  Listing.page_offset (Some "99999999999999999999") = Some 100000000000000000000 /\
  Listing.parseInt (String "1" (string_of_list_ascii (repeat "0"%char 309)))
    = Some Listing.PlusInfinity /\
  Listing.page_limit "20" 100
    (Some (String "1" (string_of_list_ascii (repeat "0"%char 309)))) = Some 100 /\
  Listing.page_offset
    (Some (String "-" (String "1" (string_of_list_ascii (repeat "0"%char 309)))))
    = Some 0.
Proof. repeat split; vm_compute; reflexivity. Qed.

(** The values bound to the leaderboard statement for two versions and a
    provider. *)
Example leaderboard_bindings :
  snd (Listing.leaderboard_statement true (Some "openai") ["v1"; "v2"] (Some 50)) =
  [Listing.Num (Some 1); Listing.Text "v1"; Listing.Text "v2";
   Listing.Num (Some 1); Listing.Text "v1"; Listing.Text "v2";
   Listing.Text "openai"; Listing.Num (Some 50)] /\
  Listing.placeholders
    (fst (Listing.leaderboard_statement true (Some "openai") ["v1"; "v2"] (Some 50)))
  = 8%nat.
Proof. split; vm_compute; reflexivity. Qed.

End ListingSamples.

(** Without the bypass and without an assertion the administration
    answers 401 and leaves the store alone. *)
Example admin_without_assertion :
  AdminAuth.guarded
    (fst (AdminAuth.adminAuthMiddleware (PF := AuthFixtures.platform)
            {| AdminAuth.CF_ACCESS_BYPASS := None;
               AdminAuth.CF_ACCESS_TEAM_DOMAIN := Some "team.cloudflareaccess.com";
               AdminAuth.CF_ACCESS_AUD := Some "pinchbench-admin" |}
            None 1500000 1500001 AuthFixtures.fetch_keys AdminAuth.initial_cache))
    (fun email => Admin.deleteSubmission 1500 email Sample.id_a) Sample.db_one =
  (json (ErrorOnly "Unauthorized - No access token provided") 401, Sample.db_one).
Proof. reflexivity. Qed.

End AdministrationScenarios.

(* ================================================================== *)
(** * The leaderboard *)
(* ================================================================== *)

Module LeaderboardFacts.

Import Js Leaderboard.

Lemma gtb_false_le (a b : Q) : gtb a b = false -> (a <= b)%Q.
Proof.
  unfold gtb. intros H. apply negb_false_iff in H. apply Qle_bool_iff. exact H.
Qed.

Lemma gtb_true_lt (a b : Q) : gtb a b = true -> (b < a)%Q.
Proof.
  unfold gtb. intros H. apply negb_true_iff in H. apply Qnot_le_lt.
  intros Hle. apply Qle_bool_iff in Hle. congruence.
Qed.

(** The greatest value of a column is one of its values. *)
Lemma maximum_spec (l : list Q) (m : Q) :
  maximum l = Some m -> In m l /\ forall x, In x l -> (x <= m)%Q.
Proof.
  revert m. induction l as [|x l IH]; simpl; intros m H; [discriminate|].
  destruct (maximum l) as [m'|] eqn:Hm.
  - destruct (IH m' eq_refl) as [Hin Hmax].
    destruct (gtb x m') eqn:E; injection H as <-.
    + apply gtb_true_lt in E. split; [left; reflexivity|].
      intros y [<-|Hy]; [apply Qle_refl|].
      apply Qle_trans with m'; [apply Hmax; exact Hy|apply Qlt_le_weak; exact E].
    + apply gtb_false_le in E. split; [right; exact Hin|].
      intros y [<-|Hy]; [exact E|apply Hmax; exact Hy].
  - injection H as <-. destruct l as [|y l]; [|simpl in Hm;
      destruct (maximum l); [destruct (gtb y q)|]; discriminate].
    split; [left; reflexivity|]. intros y [<-|[]]. apply Qle_refl.
Qed.

Lemma maximum_some (l : list Q) : l <> [] -> exists m, maximum l = Some m.
Proof.
  destruct l as [|x l]; [contradiction|]. intros _. simpl.
  destruct (maximum l) as [m|]; [destruct (gtb x m)|]; eauto.
Qed.

(** A row that comes before another scores no less. *)
Lemma ranks_before_score (a b : SubmissionRow) :
  ranks_before a b = true -> (sub_score_percentage b <= sub_score_percentage a)%Q.
Proof.
  unfold ranks_before. intros H. apply orb_true_iff in H. destruct H as [H|H].
  - apply Qlt_le_weak, gtb_true_lt. exact H.
  - apply andb_true_iff in H. destruct H as [H _]. apply Qeq_bool_iff in H.
    rewrite H. apply Qle_refl.
Qed.

Lemma ranks_before_false (a b : SubmissionRow) :
  ranks_before a b = false -> (sub_score_percentage a <= sub_score_percentage b)%Q.
Proof.
  unfold ranks_before. intros H. apply orb_false_iff in H.
  apply gtb_false_le. exact (proj1 H).
Qed.

(** The first row in the order of the subquery is one of the rows and
    scores no less than any. *)
Lemma first_in_order_spec (rows : list SubmissionRow) (best : SubmissionRow) :
  first_in_order rows = Some best ->
  In best rows /\
  forall s, In s rows -> (sub_score_percentage s <= sub_score_percentage best)%Q.
Proof.
  revert best. induction rows as [|s rows IH]; simpl; intros best H; [discriminate|].
  destruct (first_in_order rows) as [b|] eqn:Hb.
  - destruct (IH b eq_refl) as [Hin Hmax].
    destruct (ranks_before b s) eqn:E; injection H as <-.
    + apply ranks_before_score in E. split; [right; exact Hin|].
      intros y [<-|Hy]; [exact E|apply Hmax; exact Hy].
    + apply ranks_before_false in E. split; [left; reflexivity|].
      intros y [<-|Hy]; [apply Qle_refl|].
      apply Qle_trans with (sub_score_percentage b); [apply Hmax; exact Hy|exact E].
  - injection H as <-. destruct rows as [|y rows]; [|simpl in Hb;
      destruct (first_in_order rows); [destruct (ranks_before s0 y)|]; discriminate].
    split; [left; reflexivity|]. intros y [<-|[]]. apply Qle_refl.
Qed.

Lemma first_in_order_some (rows : list SubmissionRow) :
  rows <> [] -> exists best, first_in_order rows = Some best.
Proof.
  destruct rows as [|s rows]; [contradiction|]. intros _. simpl.
  destruct (first_in_order rows) as [b|]; [destruct (ranks_before b s)|]; eauto.
Qed.

Lemma place_perm e l : Permutation (place e l) (e :: l).
Proof.
  induction l as [|w l IH]; simpl; [reflexivity|].
  destruct (placed_before w e); [|reflexivity].
  rewrite IH. apply perm_swap.
Qed.

Lemma placed_perm l : Permutation (fold_right place [] l) l.
Proof.
  induction l as [|e l IH]; simpl; [reflexivity|].
  rewrite place_perm. constructor. exact IH.
Qed.

Lemma placed_before_true a b : placed_before a b = true -> in_order a b.
Proof.
  unfold placed_before, in_order. intros H. apply orb_true_iff in H.
  destruct H as [H|H].
  - apply gtb_true_lt in H. split; [apply Qlt_le_weak; exact H|].
    intros Heq. rewrite Heq in H. exfalso. exact (Qlt_irrefl _ H).
  - apply andb_true_iff in H. destruct H as [Heq Hc].
    apply Qeq_bool_iff in Heq. apply Z.ltb_lt in Hc.
    split; [rewrite Heq; apply Qle_refl|]. intros _. lia.
Qed.

Lemma placed_before_false a b : placed_before a b = false -> in_order b a.
Proof.
  unfold placed_before, in_order. intros H. apply orb_false_iff in H.
  destruct H as [Hg H]. apply gtb_false_le in Hg. split; [exact Hg|].
  intros Heq. apply andb_false_iff in H. destruct H as [H|H].
  - exfalso. assert (Ht : Qeq_bool (le_best_score_percentage a)
                                   (le_best_score_percentage b) = true)
      by (apply Qeq_bool_iff; symmetry; exact Heq).
    congruence.
  - apply Z.ltb_ge in H. exact H.
Qed.

Lemma in_order_trans a b c : in_order a b -> in_order b c -> in_order a c.
Proof.
  unfold in_order. intros [Hab Hab'] [Hbc Hbc']. split.
  - apply Qle_trans with (le_best_score_percentage b); assumption.
  - intros Heq.
    assert (Hb : (le_best_score_percentage a == le_best_score_percentage b)%Q).
    { apply Qle_antisym; [|exact Hab]. rewrite Heq. exact Hbc. }
    assert (Hc : (le_best_score_percentage b == le_best_score_percentage c)%Q)
      by (rewrite <- Hb; exact Heq).
    specialize (Hab' Hb). specialize (Hbc' Hc). lia.
Qed.

Lemma place_sorted e l :
  StronglySorted in_order l -> StronglySorted in_order (place e l).
Proof.
  induction l as [|w l IH]; simpl; intros Hs.
  - constructor; constructor.
  - inversion Hs as [|? ? Hl Hw]; subst.
    destruct (placed_before w e) eqn:E.
    + apply placed_before_true in E. constructor; [apply IH; exact Hl|].
      apply Forall_forall. intros x Hx.
      apply (Permutation_in _ (place_perm e l)) in Hx.
      destruct Hx as [<-|Hx]; [exact E|].
      rewrite Forall_forall in Hw. apply Hw. exact Hx.
    + apply placed_before_false in E. constructor; [exact Hs|].
      constructor; [exact E|].
      eapply Forall_impl; [|exact Hw]. cbv beta. intros x Hx.
      apply in_order_trans with w; assumption.
Qed.

Lemma placed_sorted l : StronglySorted in_order (fold_right place [] l).
Proof.
  induction l as [|e l IH]; simpl; [constructor|]. apply place_sorted. exact IH.
Qed.

(** What [LIMIT] keeps is a start of the table. *)
Lemma limit_rows_prefix {A : Type} (limit : Z) (l : list A) :
  exists rest, l = (limit_rows limit l ++ rest)%list.
Proof.
  unfold limit_rows. destruct (limit <? 0).
  - exists []. rewrite app_nil_r. reflexivity.
  - exists (skipn (Z.to_nat limit) l). symmetry. apply firstn_skipn.
Qed.

Lemma limit_rows_length {A : Type} (limit : Z) (l : list A) :
  0 <= limit -> Z.of_nat (List.length (limit_rows limit l)) <= limit.
Proof.
  intros H. unfold limit_rows.
  assert (E : (limit <? 0) = false) by (apply Z.ltb_ge; exact H). rewrite E.
  rewrite length_firstn. lia.
Qed.

Lemma StronglySorted_app_l {A : Type} (R : A -> A -> Prop) (l l' : list A) :
  StronglySorted R (l ++ l') -> StronglySorted R l.
Proof.
  induction l as [|a l IH]; simpl; intros H; [constructor|].
  inversion H as [|? ? Hl Ha]; subst. constructor; [apply IH; exact Hl|].
  apply Forall_app in Ha. exact (proj1 Ha).
Qed.

Lemma filter_map_fst {A B : Type} (p : A -> bool) (q : A * B -> bool)
  (l : list (A * B)) :
  filter p (map fst (filter q l)) =
  map fst (filter (fun st => p (fst st) && q st) l).
Proof.
  induction l as [|st l IH]; simpl; [reflexivity|].
  destruct (q st) eqn:Hq; simpl.
  - destruct (p (fst st)); simpl; rewrite IH; reflexivity.
  - rewrite andb_false_r. exact IH.
Qed.

(** The rows of a model in the outer query are rows of the subquery. *)
Lemma group_in_inner verifiedFlag providerFilter benchmarkVersions db model s :
  In s (filter (fun s => String.eqb (sub_model s) model)
          (outer_rows verifiedFlag providerFilter benchmarkVersions db)) ->
  In s (inner_rows verifiedFlag benchmarkVersions model db).
Proof.
  unfold outer_rows, inner_rows. rewrite filter_map_fst.
  rewrite !in_map_iff. intros (st & Hs & Hin). exists st. split; [exact Hs|].
  apply filter_In in Hin. destruct Hin as [Hin Hp]. apply filter_In.
  split; [exact Hin|].
  rewrite !andb_true_iff in Hp. rewrite !andb_true_iff. tauto.
Qed.

(** Without a provider filter they are the same rows. *)
Lemma group_is_inner verifiedFlag benchmarkVersions db model :
  filter (fun s => String.eqb (sub_model s) model)
    (outer_rows verifiedFlag None benchmarkVersions db) =
  inner_rows verifiedFlag benchmarkVersions model db.
Proof.
  unfold outer_rows, inner_rows. rewrite filter_map_fst. f_equal.
  apply filter_ext. intros st. cbn [passes_provider].
  rewrite andb_true_r, andb_assoc. reflexivity.
Qed.

Lemma inner_rows_stored verifiedFlag benchmarkVersions db model s :
  In s (inner_rows verifiedFlag benchmarkVersions model db) ->
  In s (submissions db) /\ sub_model s = model /\
  passes_versions benchmarkVersions s = true.
Proof.
  unfold inner_rows. rewrite in_map_iff. intros ([s' t] & Hs & Hin).
  cbn [fst] in Hs. subst s'. apply filter_In in Hin. destruct Hin as [Hin Hp].
  cbn [fst snd] in Hp. rewrite !andb_true_iff in Hp.
  destruct Hp as [[Hm _] Hv]. apply String.eqb_eq in Hm.
  split; [|split; assumption].
  unfold Submissions.join_tokens in Hin. apply in_flat_map in Hin.
  destruct Hin as (s' & Hs' & Hpair). apply in_map_iff in Hpair.
  destruct Hpair as (u & Heq & _). injection Heq as -> _. exact Hs'.
Qed.

(** The rows of the outer query are among those whose models are
    counted. *)
Lemma outer_rows_counted (verified : bool) providerFilter benchmarkVersions db s :
  In s (outer_rows (if verified then 1 else 0) providerFilter benchmarkVersions db) ->
  In s (filter (passes_versions benchmarkVersions)
          (if verified
           then map fst
                  (filter (fun st => match tok_claimed_at (snd st) with
                                     | Some _ => true
                                     | None => false
                                     end)
                          (Submissions.join_tokens db))
           else submissions db)).
Proof.
  unfold outer_rows. rewrite in_map_iff. intros ([s' t] & Hs & Hin).
  cbn [fst] in Hs. subst s'. apply filter_In in Hin. destruct Hin as [Hin Hp].
  cbn [fst snd] in Hp. rewrite !andb_true_iff in Hp.
  destruct Hp as [[Hver Hv] _]. apply filter_In. split; [|exact Hv].
  destruct verified.
  - apply in_map_iff. exists (s, t). split; [reflexivity|].
    apply filter_In. split; [exact Hin|]. cbn [snd].
    unfold passes_verified in Hver. cbn in Hver. exact Hver.
  - unfold Submissions.join_tokens in Hin. apply in_flat_map in Hin.
    destruct Hin as (s' & Hs' & Hpair). apply in_map_iff in Hpair.
    destruct Hpair as (u & Heq & _). injection Heq as -> _. exact Hs'.
Qed.

End LeaderboardFacts.

Section LeaderboardEntries.

Import Js Leaderboard LeaderboardFacts.

(** X25. The leaderboard holds at most one entry per model, no more
    entries than the limit and no more than [total_models], ordered by
    best score and then by count. Each entry stands for the submissions
    of its model that pass the filters: it counts them, and its best
    score is the score of one of them and no less than the score of any.
    Its best submission is a stored submission of the model within the
    version scope that scores at least the entry's best score - exactly
    the best score when no provider filter is given, whereas with a
    provider filter it is chosen among all providers. *)
Theorem leaderboard_entries (verified : bool) (providerFilter : option string)
  (benchmarkVersions : list string) (limit : Z) (db : DB) :
  NoDup (map le_model
           (leaderboard verified providerFilter benchmarkVersions limit db)) /\
  (0 <= limit ->
   Z.of_nat (List.length
               (leaderboard verified providerFilter benchmarkVersions limit db))
   <= limit) /\
  Z.of_nat (List.length
              (leaderboard verified providerFilter benchmarkVersions limit db))
  <= total_models verified benchmarkVersions db /\
  StronglySorted in_order
    (leaderboard verified providerFilter benchmarkVersions limit db) /\
  forall e,
    In e (leaderboard verified providerFilter benchmarkVersions limit db) ->
    1 <= le_submission_count e /\
    le_submission_count e =
      Z.of_nat (List.length
        (filter (fun s => String.eqb (sub_model s) (le_model e))
           (outer_rows (if verified then 1 else 0) providerFilter
              benchmarkVersions db))) /\
    (exists s,
       In s (outer_rows (if verified then 1 else 0) providerFilter
               benchmarkVersions db) /\
       sub_model s = le_model e /\
       sub_score_percentage s = le_best_score_percentage e) /\
    (forall s,
       In s (outer_rows (if verified then 1 else 0) providerFilter
               benchmarkVersions db) ->
       sub_model s = le_model e ->
       (sub_score_percentage s <= le_best_score_percentage e)%Q) /\
    exists best,
      le_best_submission_id e = Some (sub_id best) /\
      In best (submissions db) /\ sub_model best = le_model e /\
      passes_versions benchmarkVersions best = true /\
      (le_best_score_percentage e <= sub_score_percentage best)%Q /\
      (providerFilter = None ->
       (sub_score_percentage best == le_best_score_percentage e)%Q).
Proof.
  unfold leaderboard. cbv zeta.
  set (flag := if verified then 1 else 0).
  set (rows := outer_rows flag providerFilter benchmarkVersions db).
  set (entries := map (entry_of flag benchmarkVersions db rows) (models_of rows)).
  destruct (limit_rows_prefix limit (fold_right place [] entries)) as (rest & Hprefix).
  assert (Hperm : Permutation (limit_rows limit (fold_right place [] entries) ++ rest)
                              entries)
    by (rewrite <- Hprefix; apply placed_perm).
  assert (Hmodels : map le_model entries = models_of rows).
  { unfold entries. rewrite map_map. cbn [entry_of le_model]. apply map_id. }
  assert (Hnodup : NoDup (map le_model
                            (limit_rows limit (fold_right place [] entries) ++ rest))).
  { apply (Permutation_NoDup (l := map le_model entries)).
    - apply Permutation_map. symmetry. exact Hperm.
    - rewrite Hmodels. apply NoDup_nodup. }
  assert (Hlen : (List.length (limit_rows limit (fold_right place [] entries))
                  <= List.length (models_of rows))%nat).
  { rewrite <- Hmodels, length_map, <- (Permutation_length Hperm), length_app. lia. }
  split; [|split; [|split; [|split]]].
  - rewrite map_app in Hnodup. apply NoDup_app_remove_r in Hnodup. exact Hnodup.
  - apply limit_rows_length.
  - unfold total_models. cbv zeta.
    apply Z.le_trans with (Z.of_nat (List.length (models_of rows))); [lia|].
    apply inj_le. apply NoDup_incl_length; [apply NoDup_nodup|].
    intros m Hm. apply nodup_In in Hm. apply nodup_In.
    apply in_map_iff in Hm. destruct Hm as (s & <- & Hs). apply in_map.
    exact (outer_rows_counted verified providerFilter benchmarkVersions db s Hs).
  - apply (StronglySorted_app_l in_order _ rest). rewrite <- Hprefix.
    apply placed_sorted.
  - intros e He.
    assert (Hin : In e entries).
    { apply (Permutation_in _ Hperm). apply in_or_app. left. exact He. }
    unfold entries in Hin. apply in_map_iff in Hin. destruct Hin as (m & <- & Hm).
    apply nodup_In in Hm. apply in_map_iff in Hm. destruct Hm as (s0 & Hs0m & Hs0).
    cbn [entry_of le_model le_submission_count le_best_score_percentage
         le_best_submission_id].
    set (group := filter (fun s => String.eqb (sub_model s) m) rows).
    assert (Hs0g : In s0 group)
      by (apply filter_In; split; [exact Hs0|apply String.eqb_eq; exact Hs0m]).
    assert (Hne : map sub_score_percentage group <> [])
      by (intros Hnil; apply (in_map sub_score_percentage) in Hs0g;
          rewrite Hnil in Hs0g; exact Hs0g).
    destruct (maximum_some _ Hne) as (best_score & Hmax).
    rewrite Hmax. cbn [nullish].
    destruct (maximum_spec _ _ Hmax) as [Hattained Hbound].
    split.
    { destruct group; [contradiction|]. cbn [List.length]. lia. }
    split; [reflexivity|]. split.
    { apply in_map_iff in Hattained. destruct Hattained as (s & Hscore & Hs).
      apply filter_In in Hs. destruct Hs as [Hs Hsm]. apply String.eqb_eq in Hsm.
      exists s. auto. }
    split.
    { intros s Hs Hsm. apply Hbound. apply in_map. apply filter_In.
      split; [exact Hs|apply String.eqb_eq; exact Hsm]. }
    assert (Hinner : In s0 (inner_rows flag benchmarkVersions m db))
      by (apply (group_in_inner flag providerFilter); exact Hs0g).
    assert (Hne' : inner_rows flag benchmarkVersions m db <> [])
      by (intros Hnil; rewrite Hnil in Hinner; exact Hinner).
    destruct (first_in_order_some _ Hne') as (best & Hbest).
    rewrite Hbest. cbn [option_map].
    destruct (first_in_order_spec _ _ Hbest) as [Hbin Hbmax].
    destruct (inner_rows_stored flag benchmarkVersions db m best Hbin)
      as (Hstored & Hbm & Hbv).
    exists best. split; [reflexivity|]. split; [exact Hstored|].
    split; [exact Hbm|]. split; [exact Hbv|].
    assert (Hle : (best_score <= sub_score_percentage best)%Q).
    { apply in_map_iff in Hattained. destruct Hattained as (s & <- & Hs).
      apply Hbmax. apply (group_in_inner flag providerFilter). exact Hs. }
    split; [exact Hle|].
    intros Hnone. apply Qle_antisym; [|exact Hle].
    apply Hbound. apply in_map. unfold group, rows. rewrite Hnone.
    rewrite group_is_inner. exact Hbin.
Qed.

End LeaderboardEntries.

Section LeaderboardScenarios.

Import Js Leaderboard.

(** With a provider filter the best submission of an entry can belong to
    another provider and score above the entry's best score. *)
Example best_submission_ignores_provider :
  map (fun e => (le_model e, le_best_score_percentage e, le_submission_count e,
                 le_best_submission_id e))
      (leaderboard false (Some "azure") [] 50 LeaderboardFixtures.two_providers) =
    [("gpt-x", 1 # 2, 1, Some Sample.id_b)] /\
  map (fun e => (le_model e, le_best_score_percentage e, le_submission_count e,
                 le_best_submission_id e))
      (leaderboard false None [] 50 LeaderboardFixtures.two_providers) =
    [("gpt-x", 9 # 10, 2, Some Sample.id_b)] /\
  total_models false [] LeaderboardFixtures.two_providers = 1.
Proof. repeat split. Qed.

End LeaderboardScenarios.

(* ================================================================== *)
(** * Integrity of the stored submissions *)
(* ================================================================== *)

Module IntegrityFacts.

Import Js Results Integrity ValidationFacts ResultsFacts RateLimitFacts SecretFacts
       RegisterFacts.

Section WithRuntime.

Context {RT : Runtime}.












End WithRuntime.

End IntegrityFacts.

Section StoredSubmissions.

Import Js Integrity IntegrityFacts.

Context {RT : Runtime}.


End StoredSubmissions.

